(** * NixOps Azure backend ([nixops/backends/azure_vm.py])

    A shallow embedding of the disk/slot reconciliation core of the Azure
    virtual-machine backend, and the properties of it that the
    specification states.

    Conventions of the embedding.
    - Python [str] values are [string]; Python [int] values are [Z].
    - A Python [dict] is an association list without repeated keys, in
      the order in which [iteritems] enumerates it.  Assigning to a key
      that is present keeps its position, assigning to a new key appends
      it and [pop] deletes the binding.
    - The persisted attributes of the machine state ([attr_property] with
      the [json] type) are read by value: every read of
      [self.block_device_mapping] yields a fresh copy of what was last
      written, which is why the code writes every change back through
      [update_block_device_mapping].
    - Code that talks to the operator, to the random generator or to the
      Azure API runs in a monad over a [World] that holds the state
      record, the remote resources, the operator's answers and the trace
      of everything that was logged or sent.  A Python exception leaves
      the world as it was when it was raised. *)

From Stdlib Require Import String Ascii List ZArith Bool Lia DecimalString.
Import ListNotations.
Local Open Scope string_scope.
Local Open Scope Z_scope.

Set Implicit Arguments.

(** ** Strings and the two regular expressions *)

Module Str.

Definition is_digit (c : ascii) : bool :=
  let n := nat_of_ascii c in (Nat.leb 48 n && Nat.leb n 57)%bool.

Definition digit_value (c : ascii) : Z := Z.of_nat (nat_of_ascii c) - 48.

Definition newline : ascii := ascii_of_nat 10.

(** [strip_prefix p s] is [Some r] when [s = p ++ r]. *)
Fixpoint strip_prefix (p s : string) : option string :=
  match p with
  | EmptyString => Some s
  | String a p' =>
      match s with
      | EmptyString => None
      | String b s' => if Ascii.eqb a b then strip_prefix p' s' else None
      end
  end.

(** The longest prefix whose characters satisfy [f], and the rest. *)
Fixpoint span (f : ascii -> bool) (s : string) : string * string :=
  match s with
  | EmptyString => (EmptyString, EmptyString)
  | String c s' =>
      if f c then let (a, b) := span f s' in (String c a, b)
      else (EmptyString, s)
  end.

Fixpoint all_chars (f : ascii -> bool) (s : string) : bool :=
  match s with
  | EmptyString => true
  | String c s' => (f c && all_chars f s')%bool
  end.

(** Where the regular expression [$] matches: at the end of the string
    or just before a newline that ends the string. *)
Definition at_dollar (s : string) : bool :=
  match s with
  | EmptyString => true
  | String c EmptyString => Ascii.eqb c newline
  | _ => false
  end.

Definition is_empty (s : string) : bool :=
  match s with EmptyString => true | _ => false end.

(** Python's [int] on a string of decimal digits. *)
Fixpoint int_of_digits (acc : Z) (s : string) : Z :=
  match s with
  | EmptyString => acc
  | String c s' => int_of_digits (10 * acc + digit_value c) s'
  end.

Definition int (s : string) : Z := int_of_digits 0 s.

(** [int] as Python has it, failing on what is not a number: a string
    is given a value here only when it is made of decimal digits. *)
Definition int_checked (s : string) : option Z :=
  if (negb (is_empty s) && all_chars is_digit s)%bool
  then Some (int s) else None.

(** Python's [str] on an integer. *)
Definition str (z : Z) : string := NilZero.string_of_int (Z.to_int z).

(** [s[:n]] *)
Fixpoint take (n : nat) (s : string) : string :=
  match n, s with
  | O, _ => EmptyString
  | S n', EmptyString => EmptyString
  | S n', String c s' => String c (take n' s')
  end.

End Str.

(** ** Exceptions *)

Inductive exn : Type :=
  (* AzureDefinition.__init__ *)
| MustSpecifyMediaLink (machine disk_name : string)
| MalformedBlobUrl (machine media_link : string)
| PleaseUseHttps (machine media_link : string)
| ExpectedStorage (machine storage media_link : string)
| DuplicateBlobUrls (machine : string)
| UnsupportedBlockDevice (machine : string)
| NeedsRootDisk (machine : string)
  (* _assert_no_impossible_disk_changes *)
| LunOccupied (disk_name media_link device occupant : string)
| ReattachDifferentLun (disk_name d_id state_device device : string)
| RenameAttached (state_name d_id : string)
  (* create and its steps *)
| PropertyChange (what : string)
| UseAllowRecreate
| RebootRequiredSize
| RebootRequiredAvailabilitySet
| DeletedBehindOurBack
| DiskNotFound (disk_name d_id device : string)
| VmAlreadyExists
| FailedToProvision
| WaitTimedOut
  (* destroy, BLOBs *)
| CannotContinue
| FailedToParseBlobUrl (media_link : string)
| StorageMismatch (storage media_link : string)
| UserAborted
  (* the interpreter's own *)
| AssertionError
| ValueError
| TypeError
| KeyError
| AzureMissingResourceHttpError.

Inductive outcome (A : Type) : Type :=
| Ok (a : A)
| Raise (e : exn).
Arguments Ok {A} a.
Arguments Raise {A} e.

(** ** Slot addressing *)

Definition lun_prefix : string := "/dev/disk/by-lun/".

(** [re.match(r'/dev/disk/by-lun/(\d+)$', device)], giving [group(1)]. *)
Definition match_lun (device : string) : option string :=
  match Str.strip_prefix lun_prefix device with
  | None => None
  | Some rest =>
      let (digits, tail) := Str.span Str.is_digit rest in
      if (negb (Str.is_empty digits) && Str.at_dollar tail)%bool
      then Some digits else None
  end.

Definition device_name_to_lun (device : string) : option Z :=
  match match_lun device with
  | None => None
  | Some g => if Str.int g >? 31 then None else Some (Str.int g)
  end.

(** The same function with the two conversions [int(match.group(1))] as
    calls that can fail. *)
Definition device_name_to_lun_call (device : string) : outcome (option Z) :=
  match match_lun device with
  | None => Ok None
  | Some g =>
      match Str.int_checked g with
      | None => Raise ValueError
      | Some n =>
          if n >? 31 then Ok None
          else match Str.int_checked g with
               | None => Raise ValueError
               | Some m => Ok (Some m)
               end
      end
  end.

Definition lun_to_device_name (lun : Z) : string :=
  lun_prefix ++ Str.str lun.

Definition root_device : string := "/dev/sda".

(** ** Dictionaries *)

Module Dict.
Section Ops.
Variable V : Type.

Definition t := list (string * V).

(** [d.get(k, None)] *)
Fixpoint get (k : string) (d : t) : option V :=
  match d with
  | [] => None
  | (k', v) :: d' => if String.eqb k' k then Some v else get k d'
  end.

(** [d[k] = v] *)
Fixpoint set (k : string) (v : V) (d : t) : t :=
  match d with
  | [] => [(k, v)]
  | (k', v') :: d' =>
      if String.eqb k' k then (k', v) :: d' else (k', v') :: set k v d'
  end.

(** [d.pop(k, None)] *)
Fixpoint pop (k : string) (d : t) : t :=
  match d with
  | [] => []
  | (k', v') :: d' =>
      if String.eqb k' k then pop k d' else (k', v') :: pop k d'
  end.

Definition keys (d : t) : list string := map fst d.
Definition values (d : t) : list V := map snd d.

(** [k in d] *)
Definition mem (k : string) (d : t) : bool :=
  match get k d with Some _ => true | None => false end.

(** [next((k for k, v in d.iteritems() if p(v)), None)] *)
Fixpoint first_key (p : V -> bool) (d : t) : option string :=
  match d with
  | [] => None
  | (k, v) :: d' => if p v then Some k else first_key p d'
  end.
End Ops.
End Dict.

(** ** Disk records *)

Module Disk.
Record t : Type := mk {
  name : string;
  device : string;
  media_link : string;
  size : option Z;
  is_ephemeral : bool;
  host_caching : string;
  encrypt : bool;
  passphrase : string;
  (** the key [needs_attach] may be missing from the record *)
  needs_attach : option bool
}.

(** [disk.get('needs_attach', False)] *)
Definition get_needs_attach (d : t) : bool :=
  match needs_attach d with Some b => b | None => false end.

Definition set_needs_attach (b : bool) (d : t) : t :=
  mk (name d) (device d) (media_link d) (size d) (is_ephemeral d)
     (host_caching d) (encrypt d) (passphrase d) (Some b).

Definition set_host_caching (c : string) (d : t) : t :=
  mk (name d) (device d) (media_link d) (size d) (is_ephemeral d)
     c (encrypt d) (passphrase d) (needs_attach d).

Definition set_size (s : option Z) (d : t) : t :=
  mk (name d) (device d) (media_link d) s (is_ephemeral d)
     (host_caching d) (encrypt d) (passphrase d) (needs_attach d).

Definition set_name (n : string) (d : t) : t :=
  mk n (device d) (media_link d) (size d) (is_ephemeral d)
     (host_caching d) (encrypt d) (passphrase d) (needs_attach d).

Definition set_device (v : string) (d : t) : t :=
  mk (name d) v (media_link d) (size d) (is_ephemeral d)
     (host_caching d) (encrypt d) (passphrase d) (needs_attach d).

Definition set_encrypt (b : bool) (d : t) : t :=
  mk (name d) (device d) (media_link d) (size d) (is_ephemeral d)
     (host_caching d) b (passphrase d) (needs_attach d).

Definition set_passphrase (p : string) (d : t) : t :=
  mk (name d) (device d) (media_link d) (size d) (is_ephemeral d)
     (host_caching d) (encrypt d) p (needs_attach d).

Definition set_is_ephemeral (b : bool) (d : t) : t :=
  mk (name d) (device d) (media_link d) (size d) b
     (host_caching d) (encrypt d) (passphrase d) (needs_attach d).
End Disk.

Definition disk_map := Dict.t Disk.t.

Definition defn_find_root_disk (block_device_mapping : disk_map) : option string :=
  Dict.first_key (fun d => String.eqb (Disk.device d) root_device)
                 block_device_mapping.

(** In the deployed state the root disk has to be attached: an old root
    disk that is no longer attached may still be in the map. *)
Definition find_root_disk (block_device_mapping : disk_map) : option string :=
  Dict.first_key
    (fun d => (String.eqb (Disk.device d) root_device
               && negb (Disk.get_needs_attach d))%bool)
    block_device_mapping.

(** ** BLOB addresses *)

Record Blob : Type := mkBlob {
  blob_storage : string;
  blob_container : string;
  blob_name : string
}.

Definition not_dot_slash (c : ascii) : bool :=
  negb (Ascii.eqb c "."%char || Ascii.eqb c "/"%char).
Definition not_slash (c : ascii) : bool := negb (Ascii.eqb c "/"%char).
Definition not_newline (c : ascii) : bool := negb (Ascii.eqb c Str.newline).

(** [https?://] *)
Definition strip_scheme (s : string) : option string :=
  match Str.strip_prefix "https://" s with
  | Some r => Some r
  | None => Str.strip_prefix "http://" s
  end.

(** [re.match(r'https?://([^\./]+)\.[^/]+/([^/]+)/(.+)$', blob)].  Each
    class is followed by a character outside the class, so the greedy
    match is the only one. *)
Definition parse_blob_url (blob : string) : option Blob :=
  match strip_scheme blob with
  | None => None
  | Some r0 =>
      let (storage, r1) := Str.span not_dot_slash r0 in
      match r1 with
      | String "."%char r2 =>
          let (host, r3) := Str.span not_slash r2 in
          match r3 with
          | String "/"%char r4 =>
              let (container, r5) := Str.span not_slash r4 in
              match r5 with
              | String "/"%char r6 =>
                  let (nm, r7) := Str.span not_newline r6 in
                  if (negb (Str.is_empty storage) && negb (Str.is_empty host)
                      && negb (Str.is_empty container) && negb (Str.is_empty nm)
                      && Str.at_dollar r7)%bool
                  then Some (mkBlob storage container nm)
                  else None
              | _ => None
              end
          | _ => None
          end
      | _ => None
      end
  end.

(** A loop whose body may raise. *)
Fixpoint for_each (A : Type) (l : list A) (body : A -> outcome unit)
  : outcome unit :=
  match l with
  | [] => Ok tt
  | x :: l' =>
      match body x with
      | Ok _ => for_each l' body
      | Raise e => Raise e
      end
  end.

Fixpoint map_e (A B : Type) (f : A -> outcome B) (l : list A)
  : outcome (list B) :=
  match l with
  | [] => Ok []
  | x :: l' =>
      match f x with
      | Raise e => Raise e
      | Ok y =>
          match map_e f l' with
          | Raise e => Raise e
          | Ok ys => Ok (y :: ys)
          end
      end
  end.

(** Python's truth value of a string that may be [None]. *)
Definition truthy (o : option string) : bool :=
  match o with
  | Some s => negb (Str.is_empty s)
  | None => false
  end.

Definition is_none (A : Type) (o : option A) : bool :=
  match o with Some _ => false | None => true end.

Definition opt_string_eqb (a b : option string) : bool :=
  match a, b with
  | Some x, Some y => String.eqb x y
  | None, None => true
  | _, _ => false
  end.

Definition opt_Z_eqb (a b : option Z) : bool :=
  match a, b with
  | Some x, Some y => Z.eqb x y
  | None, None => true
  | _, _ => false
  end.

Definition opt_bool_eqb (a b : option bool) : bool :=
  match a, b with
  | Some x, Some y => Bool.eqb x y
  | None, None => true
  | _, _ => false
  end.

(** ** The machine definition *)

(** What [AzureDefinition.__init__] reads from the XML of the
    deployment: the option values are taken as already extracted. *)
Module Xml.
Record BlockDevice : Type := mkBlockDevice {
  attr_name : string;            (* xml.get("name"): the device *)
  name : string;
  mediaLink : option string;
  size : option Z;
  isEphemeral : bool;
  hostCaching : string;
  encrypt : bool;
  passphrase : string
}.

Record Machine : Type := mkMachine {
  machineName : string;
  machine_size : string;
  location : string;
  storage : string;
  virtualNetwork : string;
  resourceGroup : string;
  rootDiskImageUrl : string;
  baseEphemeralDiskUrl : option string;
  obtainIP : bool;
  availabilitySet : string;
  blockDeviceMapping : list BlockDevice
}.

(** The block devices are the children [attr] of one attribute set
    ([findall("attr[@name='blockDeviceMapping']/attrs/attr")]), and the
    device of each is its attribute name ([xml.get("name")]): the names
    of one attribute set are distinct. *)
Definition distinct_names (x : Machine) : Prop :=
  NoDup (map attr_name (blockDeviceMapping x)).
End Xml.

Module Defn.
Record t : Type := mk {
  machine_name : string;
  size : string;
  location : string;
  storage : string;
  virtual_network : string;
  resource_group : string;
  root_disk_image_url : string;
  base_ephemeral_disk_url : option string;
  obtain_ip : bool;
  availability_set : string;
  block_device_mapping : disk_map
}.
End Defn.

Definition parse_block_device (machine_name storage : string)
    (base_ephemeral_disk_url : option string) (xml : Xml.BlockDevice)
  : outcome Disk.t :=
  let disk_name := Xml.name xml in
  let media_link :=
    if (negb (truthy (Xml.mediaLink xml)) && truthy base_ephemeral_disk_url)%bool
    then match base_ephemeral_disk_url with
         | Some base => Some (base ++ machine_name ++ "-" ++ disk_name ++ ".vhd")
         | None => Xml.mediaLink xml
         end
    else Xml.mediaLink xml in
  match media_link with
  | None => Raise (MustSpecifyMediaLink machine_name disk_name)
  | Some media_link =>
      if Str.is_empty media_link
      then Raise (MustSpecifyMediaLink machine_name disk_name)
      else
        match parse_blob_url media_link with
        | None => Raise (MalformedBlobUrl machine_name media_link)
        | Some blob =>
            if String.eqb (Str.take 5 media_link) "http:"
            then Raise (PleaseUseHttps machine_name media_link)
            else if negb (String.eqb storage (blob_storage blob))
            then Raise (ExpectedStorage machine_name storage media_link)
            else Ok (Disk.mk disk_name (Xml.attr_name xml) media_link
                             (Xml.size xml) (Xml.isEphemeral xml)
                             (Xml.hostCaching xml) (Xml.encrypt xml)
                             (Xml.passphrase xml) None)
        end
  end.

(** [{ _d['media_link']: _d for _d in devices }] *)
Definition dict_of_devices (devices : list Disk.t) : disk_map :=
  fold_left (fun m d => Dict.set (Disk.media_link d) d m) devices [].

(** [len(media_links) != len(set(media_links))] *)
Definition has_duplicates (media_links : list string) : bool :=
  negb (Nat.eqb (length media_links)
                (length (nodup string_dec media_links))).

Definition check_device (machine_name : string) (entry : string * Disk.t)
  : outcome unit :=
  let disk := snd entry in
  if (negb (String.eqb (Disk.device disk) root_device)
      && is_none (device_name_to_lun (Disk.device disk)))%bool
  then Raise (UnsupportedBlockDevice machine_name)
  else Ok tt.

Definition AzureDefinition_init (x : Xml.Machine) : outcome Defn.t :=
  let machine_name := Xml.machineName x in
  match map_e (parse_block_device machine_name (Xml.storage x)
                 (Xml.baseEphemeralDiskUrl x))
              (Xml.blockDeviceMapping x) with
  | Raise e => Raise e
  | Ok devices =>
      let block_device_mapping := dict_of_devices devices in
      let media_links := map Disk.media_link devices in
      if has_duplicates media_links
      then Raise (DuplicateBlobUrls machine_name)
      else
        match for_each block_device_mapping (check_device machine_name) with
        | Raise e => Raise e
        | Ok _ =>
            if is_none (defn_find_root_disk block_device_mapping)
            then Raise (NeedsRootDisk machine_name)
            else Ok (Defn.mk machine_name (Xml.machine_size x) (Xml.location x)
                             (Xml.storage x) (Xml.virtualNetwork x)
                             (Xml.resourceGroup x) (Xml.rootDiskImageUrl x)
                             (Xml.baseEphemeralDiskUrl x) (Xml.obtainIP x)
                             (Xml.availabilitySet x) block_device_mapping)
        end
  end.

(** ** The Azure resources *)

Module Azure.
Inductive ProvisioningStateTypes : Type :=
| creating | updating | succeeded | failed | deleting.

Inductive DiskCreateOptionTypes : Type := attach | empty | from_image.

Inductive ComputeOperationStatus : Type :=
| in_progress | op_succeeded | op_failed.

Record DataDisk : Type := mkDataDisk {
  dd_name : string;
  dd_uri : string;               (* virtual_hard_disk.uri *)
  dd_caching : string;
  dd_create_option : DiskCreateOptionTypes;
  dd_lun : Z;
  dd_disk_size_gb : option Z
}.

Record OSDisk : Type := mkOSDisk {
  os_caching : string;
  os_create_option : DiskCreateOptionTypes;
  os_name : string;
  os_uri : string;               (* virtual_hard_disk.uri *)
  os_source_image : option string
}.

Record OSProfile : Type := mkOSProfile {
  admin_username : string;
  admin_password : string;
  computer_name : option string;
  custom_data : string
}.

Record VirtualMachine : Type := mkVirtualMachine {
  vm_location : option string;
  vm_name : option string;
  os_profile : option OSProfile;
  virtual_machine_size : string;         (* hardware_profile *)
  network_interfaces : list string;      (* network_profile *)
  os_disk : OSDisk;                      (* storage_profile *)
  data_disks : list DataDisk;            (* storage_profile *)
  provisioning_state : ProvisioningStateTypes
}.

Definition set_data_disks (l : list DataDisk) (vm : VirtualMachine)
  : VirtualMachine :=
  mkVirtualMachine (vm_location vm) (vm_name vm) (os_profile vm)
    (virtual_machine_size vm) (network_interfaces vm) (os_disk vm) l
    (provisioning_state vm).

Definition set_virtual_machine_size (s : string) (vm : VirtualMachine)
  : VirtualMachine :=
  mkVirtualMachine (vm_location vm) (vm_name vm) (os_profile vm)
    s (network_interfaces vm) (os_disk vm) (data_disks vm)
    (provisioning_state vm).

Definition set_dd_caching (c : string) (d : DataDisk) : DataDisk :=
  mkDataDisk (dd_name d) (dd_uri d) c (dd_create_option d) (dd_lun d)
    (dd_disk_size_gb d).

(** What the subscription holds, as far as this machine is concerned. *)
Record Remote : Type := mkRemote {
  vm : option VirtualMachine;
  blobs : list (string * string);        (* (container, name) *)
  public_ips : list string;
  ip_address : option string;
  nics : list string;
  operation_status : ComputeOperationStatus
}.

Definition set_vm (v : option VirtualMachine) (r : Remote) : Remote :=
  mkRemote v (blobs r) (public_ips r) (ip_address r) (nics r)
    (operation_status r).
Definition set_blobs (b : list (string * string)) (r : Remote) : Remote :=
  mkRemote (vm r) b (public_ips r) (ip_address r) (nics r)
    (operation_status r).
Definition set_public_ips (l : list string) (r : Remote) : Remote :=
  mkRemote (vm r) (blobs r) l (ip_address r) (nics r)
    (operation_status r).
Definition set_nics (l : list string) (r : Remote) : Remote :=
  mkRemote (vm r) (blobs r) (public_ips r) (ip_address r) l
    (operation_status r).

Inductive call : Type :=
| virtual_machines_get
| virtual_machines_create_or_update (v : VirtualMachine)
| virtual_machines_begin_creating_or_updating (v : VirtualMachine)
| virtual_machines_delete
| get_long_running_operation_status
| public_ip_addresses_get (name : option string)
| public_ip_addresses_create_or_update (name : option string)
| public_ip_addresses_delete (name : option string)
| network_interfaces_get (name : option string)
| network_interfaces_create_or_update (name : option string)
| network_interfaces_delete (name : option string)
| subnets_get
| get_blob_properties (container name : string)
| delete_blob (container name : string).

(** The calls that change a remote resource. *)
Definition mutating (c : call) : bool :=
  match c with
  | virtual_machines_create_or_update _
  | virtual_machines_begin_creating_or_updating _
  | virtual_machines_delete
  | public_ip_addresses_create_or_update _
  | public_ip_addresses_delete _
  | network_interfaces_create_or_update _
  | network_interfaces_delete _
  | delete_blob _ _ => true
  | _ => false
  end.
End Azure.

(** ** The state record *)

Inductive lifecycle : Type :=
| UNKNOWN | MISSING | STARTING | UP | STOPPING | STOPPED | UNREACHABLE | RESCUE.

Definition lifecycle_eqb (a b : lifecycle) : bool :=
  match a, b with
  | UNKNOWN, UNKNOWN | MISSING, MISSING | STARTING, STARTING | UP, UP
  | STOPPING, STOPPING | STOPPED, STOPPED | UNREACHABLE, UNREACHABLE
  | RESCUE, RESCUE => true
  | _, _ => false
  end.

Module State.
Record t : Type := mk {
  machine_name : option string;
  public_ipv4 : option string;
  size : option string;
  location : option string;
  public_client_key : option string;
  private_client_key : option string;
  public_host_key : option string;
  private_host_key : option string;
  storage : option string;
  virtual_network : option string;
  resource_group : option string;
  obtain_ip : option bool;
  availability_set : option string;
  block_device_mapping : disk_map;
  generated_encryption_keys : Dict.t string;
  public_ip : option string;
  network_interface : option string;
  (* MachineState *)
  vm_id : option string;
  state : lifecycle;
  ssh_pinged : bool
}.

Definition set_machine_name v s :=
  mk v (public_ipv4 s) (size s) (location s) (public_client_key s)
    (private_client_key s) (public_host_key s) (private_host_key s)
    (storage s) (virtual_network s) (resource_group s) (obtain_ip s)
    (availability_set s) (block_device_mapping s)
    (generated_encryption_keys s) (public_ip s) (network_interface s)
    (vm_id s) (state s) (ssh_pinged s).
Definition set_public_ipv4 v s :=
  mk (machine_name s) v (size s) (location s) (public_client_key s)
    (private_client_key s) (public_host_key s) (private_host_key s)
    (storage s) (virtual_network s) (resource_group s) (obtain_ip s)
    (availability_set s) (block_device_mapping s)
    (generated_encryption_keys s) (public_ip s) (network_interface s)
    (vm_id s) (state s) (ssh_pinged s).
Definition set_size v s :=
  mk (machine_name s) (public_ipv4 s) v (location s) (public_client_key s)
    (private_client_key s) (public_host_key s) (private_host_key s)
    (storage s) (virtual_network s) (resource_group s) (obtain_ip s)
    (availability_set s) (block_device_mapping s)
    (generated_encryption_keys s) (public_ip s) (network_interface s)
    (vm_id s) (state s) (ssh_pinged s).
Definition set_location v s :=
  mk (machine_name s) (public_ipv4 s) (size s) v (public_client_key s)
    (private_client_key s) (public_host_key s) (private_host_key s)
    (storage s) (virtual_network s) (resource_group s) (obtain_ip s)
    (availability_set s) (block_device_mapping s)
    (generated_encryption_keys s) (public_ip s) (network_interface s)
    (vm_id s) (state s) (ssh_pinged s).
Definition set_client_keys pub priv s :=
  mk (machine_name s) (public_ipv4 s) (size s) (location s) pub
    priv (public_host_key s) (private_host_key s)
    (storage s) (virtual_network s) (resource_group s) (obtain_ip s)
    (availability_set s) (block_device_mapping s)
    (generated_encryption_keys s) (public_ip s) (network_interface s)
    (vm_id s) (state s) (ssh_pinged s).
Definition set_host_keys pub priv s :=
  mk (machine_name s) (public_ipv4 s) (size s) (location s)
    (public_client_key s) (private_client_key s) pub priv
    (storage s) (virtual_network s) (resource_group s) (obtain_ip s)
    (availability_set s) (block_device_mapping s)
    (generated_encryption_keys s) (public_ip s) (network_interface s)
    (vm_id s) (state s) (ssh_pinged s).
Definition set_storage v s :=
  mk (machine_name s) (public_ipv4 s) (size s) (location s)
    (public_client_key s) (private_client_key s) (public_host_key s)
    (private_host_key s) v (virtual_network s) (resource_group s)
    (obtain_ip s) (availability_set s) (block_device_mapping s)
    (generated_encryption_keys s) (public_ip s) (network_interface s)
    (vm_id s) (state s) (ssh_pinged s).
Definition set_virtual_network v s :=
  mk (machine_name s) (public_ipv4 s) (size s) (location s)
    (public_client_key s) (private_client_key s) (public_host_key s)
    (private_host_key s) (storage s) v (resource_group s)
    (obtain_ip s) (availability_set s) (block_device_mapping s)
    (generated_encryption_keys s) (public_ip s) (network_interface s)
    (vm_id s) (state s) (ssh_pinged s).
Definition set_resource_group v s :=
  mk (machine_name s) (public_ipv4 s) (size s) (location s)
    (public_client_key s) (private_client_key s) (public_host_key s)
    (private_host_key s) (storage s) (virtual_network s) v
    (obtain_ip s) (availability_set s) (block_device_mapping s)
    (generated_encryption_keys s) (public_ip s) (network_interface s)
    (vm_id s) (state s) (ssh_pinged s).
Definition set_obtain_ip v s :=
  mk (machine_name s) (public_ipv4 s) (size s) (location s)
    (public_client_key s) (private_client_key s) (public_host_key s)
    (private_host_key s) (storage s) (virtual_network s) (resource_group s)
    v (availability_set s) (block_device_mapping s)
    (generated_encryption_keys s) (public_ip s) (network_interface s)
    (vm_id s) (state s) (ssh_pinged s).
Definition set_availability_set v s :=
  mk (machine_name s) (public_ipv4 s) (size s) (location s)
    (public_client_key s) (private_client_key s) (public_host_key s)
    (private_host_key s) (storage s) (virtual_network s) (resource_group s)
    (obtain_ip s) v (block_device_mapping s)
    (generated_encryption_keys s) (public_ip s) (network_interface s)
    (vm_id s) (state s) (ssh_pinged s).
Definition set_block_device_mapping v s :=
  mk (machine_name s) (public_ipv4 s) (size s) (location s)
    (public_client_key s) (private_client_key s) (public_host_key s)
    (private_host_key s) (storage s) (virtual_network s) (resource_group s)
    (obtain_ip s) (availability_set s) v
    (generated_encryption_keys s) (public_ip s) (network_interface s)
    (vm_id s) (state s) (ssh_pinged s).
Definition set_generated_encryption_keys v s :=
  mk (machine_name s) (public_ipv4 s) (size s) (location s)
    (public_client_key s) (private_client_key s) (public_host_key s)
    (private_host_key s) (storage s) (virtual_network s) (resource_group s)
    (obtain_ip s) (availability_set s) (block_device_mapping s)
    v (public_ip s) (network_interface s)
    (vm_id s) (state s) (ssh_pinged s).
Definition set_public_ip v s :=
  mk (machine_name s) (public_ipv4 s) (size s) (location s)
    (public_client_key s) (private_client_key s) (public_host_key s)
    (private_host_key s) (storage s) (virtual_network s) (resource_group s)
    (obtain_ip s) (availability_set s) (block_device_mapping s)
    (generated_encryption_keys s) v (network_interface s)
    (vm_id s) (state s) (ssh_pinged s).
Definition set_network_interface v s :=
  mk (machine_name s) (public_ipv4 s) (size s) (location s)
    (public_client_key s) (private_client_key s) (public_host_key s)
    (private_host_key s) (storage s) (virtual_network s) (resource_group s)
    (obtain_ip s) (availability_set s) (block_device_mapping s)
    (generated_encryption_keys s) (public_ip s) v
    (vm_id s) (state s) (ssh_pinged s).
Definition set_vm_id v s :=
  mk (machine_name s) (public_ipv4 s) (size s) (location s)
    (public_client_key s) (private_client_key s) (public_host_key s)
    (private_host_key s) (storage s) (virtual_network s) (resource_group s)
    (obtain_ip s) (availability_set s) (block_device_mapping s)
    (generated_encryption_keys s) (public_ip s) (network_interface s)
    v (state s) (ssh_pinged s).
Definition set_state v s :=
  mk (machine_name s) (public_ipv4 s) (size s) (location s)
    (public_client_key s) (private_client_key s) (public_host_key s)
    (private_host_key s) (storage s) (virtual_network s) (resource_group s)
    (obtain_ip s) (availability_set s) (block_device_mapping s)
    (generated_encryption_keys s) (public_ip s) (network_interface s)
    (vm_id s) v (ssh_pinged s).
Definition set_ssh_pinged v s :=
  mk (machine_name s) (public_ipv4 s) (size s) (location s)
    (public_client_key s) (private_client_key s) (public_host_key s)
    (private_host_key s) (storage s) (virtual_network s) (resource_group s)
    (obtain_ip s) (availability_set s) (block_device_mapping s)
    (generated_encryption_keys s) (public_ip s) (network_interface s)
    (vm_id s) (state s) v.
End State.

(** ** The legality checker *)

Definition bind_e (A B : Type) (c : outcome A) (k : A -> outcome B)
  : outcome B :=
  match c with
  | Ok a => k a
  | Raise e => Raise e
  end.

(** The body of the loop of [_assert_no_impossible_disk_changes], for one
    disk of the definition against the recorded map. *)
Definition check_disk_change (state_mapping : disk_map)
    (entry : string * Disk.t) : outcome unit :=
  let (d_id, disk) := entry in
  let same_lun_id :=
    Dict.first_key (fun _d => String.eqb (Disk.device _d) (Disk.device disk))
                   state_mapping in
  let disk_lun := device_name_to_lun (Disk.device disk) in
  bind_e
    match same_lun_id with
    | Some occupant =>
        if (negb (is_none disk_lun) && negb (String.eqb occupant d_id))%bool
        then match Dict.get occupant state_mapping with
             | None => Raise KeyError
             | Some occupying =>
                 if negb (Disk.get_needs_attach occupying)
                 then Raise (LunOccupied (Disk.name disk) (Disk.media_link disk)
                                         (Disk.device disk) occupant)
                 else Ok tt
             end
        else Ok tt
    | None => Ok tt
    end
    (fun _ =>
       match Dict.get d_id state_mapping with
       | None => Ok tt
       | Some state_disk =>
           let _lun := device_name_to_lun (Disk.device state_disk) in
           if (negb (is_none _lun)
               && negb (Disk.get_needs_attach state_disk))%bool
           then
             if negb (String.eqb (Disk.device state_disk) (Disk.device disk))
             then Raise (ReattachDifferentLun (Disk.name disk) d_id
                           (Disk.device state_disk) (Disk.device disk))
             else if negb (String.eqb (Disk.name state_disk) (Disk.name disk))
             then Raise (RenameAttached (Disk.name state_disk) d_id)
             else Ok tt
           else Ok tt
       end).

Definition _assert_no_impossible_disk_changes (self : State.t) (defn : Defn.t)
  : outcome unit :=
  if is_none (State.vm_id self) then Ok tt
  else for_each (Defn.block_device_mapping defn)
                (check_disk_change (State.block_device_mapping self)).

(** The three errors of the legality checker. *)
Definition illegal_transition (e : exn) : bool :=
  match e with
  | LunOccupied _ _ _ _ | ReattachDifferentLun _ _ _ _ | RenameAttached _ _ =>
      true
  | _ => false
  end.

(** ** The world the backend runs in *)

Inductive question : Type :=
| AskDestroyBlob (disk_name : option string) (media_link : string)
| AskDeleteEncryptionKey (disk_id : string)
| AskDestroyMachine
| AskDeleteEncryptionKeys (disk_ids : list string).

Inductive warning : Type :=
| Changed (resource_name property : string) (can_fix : bool)
| FailedState
| NotSupposedToBeAttached (disk_name d_id : string)
| WrongLun (disk_name media_link : string) (actual expected : Z)
| UnexpectedlyDetached (disk_name d_id : string)
| BlobUnexpectedlyDeleted (disk_name d_id : string)
| UnexpectedDisk (disk_name uri : string)
| NotSupposedToExist
| DestroyedBehindOurBack
| RootDiskModification
| DeleteWithoutBlobUrl
| SeemsDestroyedAlready
| SeemsReleasedAlready
| WipeNotSupported.

Inductive event : Type :=
| Log (message : string)
| Warn (w : warning)
| Asked (q : question) (answer : bool)
| Api (c : Azure.call)
| KnownHostsAdd (host : string) (key : option string)
| KnownHostsRemove (host : string) (key : option string).

(** The trace has the latest event first. *)
Record World : Type := mkWorld {
  st : State.t;
  remote : Azure.Remote;
  operator : question -> bool;
  random : nat -> string;
  draws : nat;
  trace : list event
}.

Definition set_st (s : State.t) (w : World) : World :=
  mkWorld s (remote w) (operator w) (random w) (draws w) (trace w).
Definition set_remote (r : Azure.Remote) (w : World) : World :=
  mkWorld (st w) r (operator w) (random w) (draws w) (trace w).

Definition is_mutating (e : event) : bool :=
  match e with
  | Api c => Azure.mutating c
  | _ => false
  end.

Definition is_warning (e : event) : bool :=
  match e with
  | Warn _ => true
  | _ => false
  end.

(** The mutating remote calls of a trace. *)
Definition mutations (w : World) : list event := filter is_mutating (trace w).
Definition warnings (w : World) : list event := filter is_warning (trace w).

Definition M (A : Type) : Type := World -> outcome A * World.

Definition ret (A : Type) (a : A) : M A := fun w => (Ok a, w).

Definition bind (A B : Type) (c : M A) (k : A -> M B) : M B :=
  fun w =>
    match c w with
    | (Ok a, w') => k a w'
    | (Raise e, w') => (Raise e, w')
    end.

Definition raise (A : Type) (e : exn) : M A := fun w => (Raise e, w).
Arguments raise {A} e.

Declare Scope m_scope.
Delimit Scope m_scope with m.
Notation "x <- c ;; k" := (bind c (fun x => k))
  (at level 61, c at next level, right associativity) : m_scope.
Notation "c ;; k" := (bind c (fun _ => k))
  (at level 61, right associativity) : m_scope.
Local Open Scope m_scope.

Definition lift (A : Type) (o : outcome A) : M A := fun w => (o, w).
Definition read (A : Type) (f : State.t -> A) : M A :=
  fun w => (Ok (f (st w)), w).
Definition write (f : State.t -> State.t) : M unit :=
  fun w => (Ok tt, set_st (f (st w)) w).
Definition emit (e : event) : M unit :=
  fun w => (Ok tt, mkWorld (st w) (remote w) (operator w) (random w)
                           (draws w) (e :: trace w)).
Definition when (b : bool) (c : M unit) : M unit :=
  if b then c else ret tt.

(** [try: c  except azure.common.AzureMissingResourceHttpError: h] *)
Definition except_missing (A : Type) (c : M A) (h : M A) : M A :=
  fun w =>
    match c w with
    | (Raise AzureMissingResourceHttpError, w') => h w'
    | r => r
    end.

Fixpoint for_m (A : Type) (l : list A) (body : A -> M unit) : M unit :=
  match l with
  | [] => ret tt
  | x :: l' => body x ;; for_m l' body
  end.

(** A loop that threads a local variable. *)
Fixpoint fold_m (A S : Type) (l : list A) (s : S) (body : A -> S -> M S)
  : M S :=
  match l with
  | [] => ret s
  | x :: l' => s' <- body x s ;; fold_m l' s' body
  end.

Definition warn (w : warning) : M unit := emit (Warn w).
Definition log (message : string) : M unit := emit (Log message).

Definition confirm (q : question) : M bool :=
  fun w => let a := operator w q in
           (Ok a, mkWorld (st w) (remote w) (operator w) (random w)
                          (draws w) (Asked q a :: trace w)).

(** [generate_random_string]: the next draw of the generator. *)
Definition generate_random_string : M string :=
  fun w => (Ok (random w (draws w)),
            mkWorld (st w) (remote w) (operator w) (random w)
                    (S (draws w)) (trace w)).

(** [create_key_pair]: a private and a public key. *)
Definition create_key_pair : M (string * string) :=
  private <- generate_random_string ;;
  public <- generate_random_string ;;
  ret (private, public).

(** ** The Azure API, as this backend uses it

    The clients ([cmc], [nrpc], [bs]) are collaborators outside the
    source.  Each call is recorded in the trace; a create-or-update stores
    what it is given, a delete removes it, and a get of something that
    does not exist raises [AzureMissingResourceHttpError]. *)

Definition api (c : Azure.call) : M unit := emit (Api c).
Definition the_remote : M Azure.Remote := fun w => (Ok (remote w), w).
Definition change_remote (f : Azure.Remote -> Azure.Remote) : M unit :=
  fun w => (Ok tt, set_remote (f (remote w)) w).

Definition mem_string (s : string) (l : list string) : bool :=
  existsb (String.eqb s) l.
Definition remove_string (s : string) (l : list string) : list string :=
  filter (fun x => negb (String.eqb s x)) l.
Definition pair_eqb (a b : string * string) : bool :=
  (String.eqb (fst a) (fst b) && String.eqb (snd a) (snd b))%bool.

Definition exists_named (name : option string) (l : list string) : bool :=
  match name with
  | Some n => mem_string n l
  | None => false
  end.

Definition virtual_machines_get : M Azure.VirtualMachine :=
  api Azure.virtual_machines_get ;;
  r <- the_remote ;;
  match Azure.vm r with
  | Some v => ret v
  | None => raise AzureMissingResourceHttpError
  end.

Definition virtual_machines_create_or_update (v : Azure.VirtualMachine)
  : M unit :=
  api (Azure.virtual_machines_create_or_update v) ;;
  change_remote (Azure.set_vm (Some v)).

Definition virtual_machines_begin_creating_or_updating
    (v : Azure.VirtualMachine) : M unit :=
  api (Azure.virtual_machines_begin_creating_or_updating v) ;;
  change_remote (Azure.set_vm (Some v)).

Definition virtual_machines_delete : M unit :=
  api Azure.virtual_machines_delete ;;
  change_remote (Azure.set_vm None).

Definition get_long_running_operation_status
  : M Azure.ComputeOperationStatus :=
  api Azure.get_long_running_operation_status ;;
  r <- the_remote ;;
  ret (Azure.operation_status r).

(** [public_ip_addresses.get(...).public_ip_address] *)
Definition public_ip_addresses_get (name : option string)
  : M (string * option string) :=
  api (Azure.public_ip_addresses_get name) ;;
  r <- the_remote ;;
  match name with
  | Some n =>
      if mem_string n (Azure.public_ips r)
      then ret (n, Azure.ip_address r)
      else raise AzureMissingResourceHttpError
  | None => raise AzureMissingResourceHttpError
  end.

Definition public_ip_addresses_create_or_update (name : option string)
  : M unit :=
  api (Azure.public_ip_addresses_create_or_update name) ;;
  match name with
  | Some n =>
      change_remote (fun r =>
        if mem_string n (Azure.public_ips r) then r
        else Azure.set_public_ips (n :: Azure.public_ips r) r)
  | None => ret tt
  end.

Definition public_ip_addresses_delete (name : option string) : M unit :=
  api (Azure.public_ip_addresses_delete name) ;;
  match name with
  | Some n =>
      change_remote (fun r =>
        Azure.set_public_ips (remove_string n (Azure.public_ips r)) r)
  | None => ret tt
  end.

(** [network_interfaces.get(...).network_interface.id] *)
Definition network_interfaces_get (name : option string) : M string :=
  api (Azure.network_interfaces_get name) ;;
  r <- the_remote ;;
  match name with
  | Some n =>
      if mem_string n (Azure.nics r) then ret n
      else raise AzureMissingResourceHttpError
  | None => raise AzureMissingResourceHttpError
  end.

Definition network_interfaces_create_or_update (name : option string)
  : M unit :=
  api (Azure.network_interfaces_create_or_update name) ;;
  match name with
  | Some n =>
      change_remote (fun r =>
        if mem_string n (Azure.nics r) then r
        else Azure.set_nics (n :: Azure.nics r) r)
  | None => ret tt
  end.

Definition network_interfaces_delete (name : option string) : M unit :=
  api (Azure.network_interfaces_delete name) ;;
  match name with
  | Some n =>
      change_remote (fun r => Azure.set_nics (remove_string n (Azure.nics r)) r)
  | None => ret tt
  end.

Definition subnets_get : M unit := api Azure.subnets_get.

Definition get_blob_properties (container name : string) : M unit :=
  api (Azure.get_blob_properties container name) ;;
  r <- the_remote ;;
  if existsb (pair_eqb (container, name)) (Azure.blobs r) then ret tt
  else raise AzureMissingResourceHttpError.

Definition delete_blob (container name : string) : M unit :=
  api (Azure.delete_blob container name) ;;
  r <- the_remote ;;
  if existsb (pair_eqb (container, name)) (Azure.blobs r)
  then change_remote (fun r =>
         Azure.set_blobs
           (filter (fun b => negb (pair_eqb (container, name) b))
                   (Azure.blobs r)) r)
  else raise AzureMissingResourceHttpError.

(** ** The machine state: helpers *)

Definition full_name : M string :=
  n <- read State.machine_name ;;
  ret ("Azure machine '" ++ match n with Some s => s | None => "None" end
       ++ "'").

(** [delete_vhd = None]: ask the operator. *)
Definition _delete_volume (media_link : option string)
    (disk_name : option string) (delete_vhd : option bool) : M unit :=
  match media_link with
  | None => warn DeleteWithoutBlobUrl
  | Some media_link =>
      except_missing
        (go <- match delete_vhd with
               | Some true => ret true
               | Some false => ret false
               | None => confirm (AskDestroyBlob disk_name media_link)
               end ;;
         if go : bool then
           log "destroying Azure disk BLOB" ;;
           match parse_blob_url media_link with
           | None => raise (FailedToParseBlobUrl media_link)
           | Some blob =>
               storage <- read State.storage ;;
               if negb (opt_string_eqb (Some (blob_storage blob)) storage)
               then raise (StorageMismatch
                             match storage with Some s => s | None => "None" end
                             media_link)
               else delete_blob (blob_container blob) (blob_name blob)
           end
         else log "keeping the Azure disk BLOB")
        (warn SeemsDestroyedAlready)
  end.

(** The subscript [blob["storage"]] comes before the test [blob is None],
    so a link that does not parse is a [TypeError]. *)
Definition blob_exists (media_link : string) : M bool :=
  except_missing
    match parse_blob_url media_link with
    | None => raise TypeError
    | Some blob =>
        storage <- read State.storage ;;
        if negb (opt_string_eqb (Some (blob_storage blob)) storage)
        then raise (StorageMismatch
                      match storage with Some s => s | None => "None" end
                      media_link)
        else get_blob_properties (blob_container blob) (blob_name blob) ;;
             ret true
    end
    (ret false).

Definition update_block_device_mapping (k : string) (v : option Disk.t)
  : M unit :=
  write (fun s =>
    let x := State.block_device_mapping s in
    State.set_block_device_mapping
      match v with
      | None => Dict.pop k x
      | Some d => Dict.set k d x
      end s).

Definition update_generated_encryption_keys (k : string) (v : option string)
  : M unit :=
  write (fun s =>
    let x := State.generated_encryption_keys s in
    State.set_generated_encryption_keys
      match v with
      | None => Dict.pop k x
      | Some key => Dict.set k key x
      end s).

Definition _delete_encryption_key (disk_id : string) : M unit :=
  keys <- read State.generated_encryption_keys ;;
  match Dict.get disk_id keys with
  | None => ret tt
  | Some _ =>
      yes <- confirm (AskDeleteEncryptionKey disk_id) ;;
      when yes (update_generated_encryption_keys disk_id None)
  end.

Definition mark_needs_attach (entry : string * Disk.t) : M unit :=
  let (d_id, disk) := entry in
  update_block_device_mapping d_id (Some (Disk.set_needs_attach true disk)).

Definition _node_deleted : M unit :=
  write (State.set_vm_id None) ;;
  write (State.set_state STOPPED) ;;
  mapping <- read State.block_device_mapping ;;
  for_m mapping mark_needs_attach ;;
  ssh_host_port <- read State.public_ipv4 ;;
  public_host_key <- read State.public_host_key ;;
  when (truthy ssh_host_port && truthy public_host_key)
       (emit (KnownHostsRemove
                match ssh_host_port with Some h => h | None => "" end
                public_host_key)) ;;
  write (State.set_public_ipv4 None).

Definition get_resource : M (option Azure.VirtualMachine) :=
  except_missing (v <- virtual_machines_get ;; ret (Some v)) (ret None).

(** [is_settled] always answers [True], so the settled resource is the
    resource. *)
Definition get_settled_resource : M (option Azure.VirtualMachine) :=
  get_resource.

Definition get_vm_assert_exists : M Azure.VirtualMachine :=
  vm <- get_settled_resource ;;
  match vm with
  | None => raise DeletedBehindOurBack
  | Some v => ret v
  end.

Definition destroy_resource : M unit := virtual_machines_delete.

Definition fetch_public_ip : M (option string) :=
  name <- read State.public_ip ;;
  r <- public_ip_addresses_get name ;;
  ret (snd r).

Definition update_ssh_known_hosts : M unit :=
  ssh_host_port <- read State.public_ipv4 ;;
  key <- read State.public_host_key ;;
  match ssh_host_port with
  | Some h => when (negb (Str.is_empty h)) (emit (KnownHostsAdd h key))
  | None => ret tt
  end.

(** ** The drift detector: the check pass of [create] *)

(** Modelled from the spec: [warn_if_changed] of the resource base class,
    which is not among the sources.  A mismatch between the recorded and
    the live value is reported as a warning, fixable or not, and the live
    value is handed back to the caller to record. *)
Definition warn_if_changed (A : Type) (eqb : A -> A -> bool)
    (expected_state actual_state : A) (name resource_name : string)
    (can_fix : bool) : M A :=
  when (negb (eqb expected_state actual_state))
       (warn (Changed resource_name name can_fix)) ;;
  ret actual_state.

(** Modelled from the spec: [handle_changed_property] of the resource
    base class, which is not among the sources: warn about the change
    and record the live value. *)
Definition handle_changed_property (get : State.t -> option string)
    (set : option string -> State.t -> State.t) (name : string)
    (actual_state : option string) : M unit :=
  expected <- read get ;;
  rn <- full_name ;;
  warn_if_changed opt_string_eqb expected actual_state name rn true ;;
  write (set actual_state).

(** Modelled from the spec: [warn_not_supposed_to_exist] and
    [confirm_destroy] of the resource base class, which are not among the
    sources: a resource that exists without being recorded is destroyed
    after the operator agrees, and the run stops if the operator does
    not. *)
Definition confirm_destroy : M unit :=
  yes <- confirm AskDestroyMachine ;;
  if yes : bool then log "destroying..." ;; destroy_resource
  else raise UserAborted.

Definition find_vm_disk (uri : string) (l : list Azure.DataDisk)
  : option Azure.DataDisk :=
  find (fun d => String.eqb (Azure.dd_uri d) uri) l.

(** [data_disks.remove(vm_disk)] for the disk that [find_vm_disk] found:
    the first one with this address. *)
Fixpoint remove_vm_disk (uri : string) (l : list Azure.DataDisk)
  : list Azure.DataDisk :=
  match l with
  | [] => []
  | d :: l' =>
      if String.eqb (Azure.dd_uri d) uri then l' else d :: remove_vm_disk uri l'
  end.

Definition check_root_disk (vm : Azure.VirtualMachine) : M unit :=
  fn <- full_name ;;
  let os_disk_res_name := "OS disk of " ++ fn in
  mapping <- read State.block_device_mapping ;;
  match find_root_disk mapping with
  | None => raise AssertionError
  | Some _root_disk_id =>
      match Dict.get _root_disk_id mapping with
      | None => raise KeyError
      | Some root_disk =>
          let os := Azure.os_disk vm in
          warn_if_changed String.eqb (Disk.host_caching root_disk)
            (Azure.os_caching os) "host_caching" os_disk_res_name false ;;
          warn_if_changed String.eqb (Disk.name root_disk)
            (Azure.os_name os) "name" os_disk_res_name false ;;
          warn_if_changed String.eqb (Disk.media_link root_disk)
            (Azure.os_uri os) "media_link" os_disk_res_name false ;;
          update_block_device_mapping _root_disk_id (Some root_disk)
      end
  end.

(** The body of the loop over the recorded data disks.  [vm] is the
    local copy of the resource, which loses the disks that are detached. *)
Definition check_data_disk (entry : string * Disk.t)
    (vm : Azure.VirtualMachine) : M Azure.VirtualMachine :=
  let (d_id, disk) := entry in
  match device_name_to_lun (Disk.device disk) with
  | None => ret vm
  | Some disk_lun =>
      match find_vm_disk (Disk.media_link disk) (Azure.data_disks vm) with
      | Some vm_disk =>
          let disk_res_name :=
            "data disk " ++ Disk.name disk ++ "(" ++ d_id ++ ")" in
          caching <- warn_if_changed String.eqb (Disk.host_caching disk)
                       (Azure.dd_caching vm_disk) "host_caching"
                       disk_res_name true ;;
          let disk := Disk.set_host_caching caching disk in
          size <- warn_if_changed opt_Z_eqb (Disk.size disk)
                    (Azure.dd_disk_size_gb vm_disk) "size"
                    disk_res_name true ;;
          let disk := Disk.set_size size disk in
          warn_if_changed String.eqb (Disk.name disk) (Azure.dd_name vm_disk)
            "name" disk_res_name false ;;
          disk <- (if Disk.get_needs_attach disk
                   then warn (NotSupposedToBeAttached (Disk.name disk) d_id) ;;
                        ret (Disk.set_needs_attach false disk)
                   else ret disk) ;;
          r <- (if negb (Azure.dd_lun vm_disk =? disk_lun)
                then
                  warn (WrongLun (Disk.name disk) (Disk.media_link disk)
                                 (Azure.dd_lun vm_disk) disk_lun) ;;
                  log "detaching disk" ;;
                  let vm' :=
                    Azure.set_data_disks
                      (remove_vm_disk (Disk.media_link disk)
                                      (Azure.data_disks vm)) vm in
                  virtual_machines_create_or_update vm' ;;
                  ret (Disk.set_needs_attach true disk, vm')
                else ret (disk, vm)) ;;
          update_block_device_mapping d_id (Some (fst r)) ;;
          ret (snd r)
      | None =>
          disk <- (if negb (Disk.get_needs_attach disk)
                   then warn (UnexpectedlyDetached (Disk.name disk) d_id) ;;
                        ret (Disk.set_needs_attach true disk)
                   else ret disk) ;;
          there <- blob_exists (Disk.media_link disk) ;;
          disk <- (if negb there
                   then warn (BlobUnexpectedlyDeleted (Disk.name disk) d_id) ;;
                        ret None
                   else ret (Some disk)) ;;
          update_block_device_mapping d_id disk ;;
          ret vm
      end
  end.

Definition is_unexpected (mapping : disk_map) (vm_disk : Azure.DataDisk)
  : bool :=
  is_none (Dict.first_key
             (fun _disk => String.eqb (Azure.dd_uri vm_disk)
                                      (Disk.media_link _disk))
             mapping).

(** [for vm_disk in data_disks: ... data_disks.remove(vm_disk)].  The
    loop removes from the list it walks: once the disk at the current
    position is removed the following disk takes its position and the
    iterator steps over it.  The result is the list that is left and
    [found_unexpected_disks]. *)
Fixpoint detach_unexpected (todo : list Azure.DataDisk)
  : M (list Azure.DataDisk * bool) :=
  match todo with
  | [] => ret ([], false)
  | vm_disk :: rest =>
      mapping <- read State.block_device_mapping ;;
      if is_unexpected mapping vm_disk
      then
        warn (UnexpectedDisk (Azure.dd_name vm_disk) (Azure.dd_uri vm_disk)) ;;
        match rest with
        | [] => ret ([], true)
        | stepped_over :: rest' =>
            r <- detach_unexpected rest' ;;
            ret (stepped_over :: fst r, true)
        end
      else
        r <- detach_unexpected rest ;;
        ret (vm_disk :: fst r, snd r)
  end.

Definition is_failed (p : Azure.ProvisioningStateTypes) : bool :=
  match p with Azure.failed => true | _ => false end.

(** The branch [if check:] of [create]. *)
Definition check_pass (allow_recreate : bool) : M unit :=
  vm <- get_settled_resource ;;
  vm_id <- read State.vm_id ;;
  match vm with
  | Some vm =>
      if truthy vm_id
      then
        when (is_failed (Azure.provisioning_state vm)) (warn FailedState) ;;
        handle_changed_property State.size State.set_size "size"
          (Some (Azure.virtual_machine_size vm)) ;;
        ip <- fetch_public_ip ;;
        handle_changed_property State.public_ipv4 State.set_public_ipv4
          "public ipv4" ip ;;
        update_ssh_known_hosts ;;
        check_root_disk vm ;;
        mapping <- read State.block_device_mapping ;;
        vm <- fold_m mapping vm check_data_disk ;;
        r <- detach_unexpected (Azure.data_disks vm) ;;
        when (snd r)
             (log "detaching unexpected disk(s)..." ;;
              virtual_machines_create_or_update
                (Azure.set_data_disks (fst r) vm))
      else
        warn NotSupposedToExist ;;
        confirm_destroy
  | None =>
      when (truthy vm_id)
           (warn DestroyedBehindOurBack ;;
            (if negb allow_recreate then raise UseAllowRecreate else ret tt) ;;
            _node_deleted)
  end.

(** ** The convergence sequencer: [create] *)

(** Modelled from the spec: the immutable-field guard [no_change] of the
    resource base class, which is not among the sources: a field that
    identifies the deployed machine may not differ from the definition. *)
Definition no_change (condition : bool) (property_name : string) : M unit :=
  state <- read State.state ;;
  if (lifecycle_eqb state UP && condition)%bool
  then raise (PropertyChange property_name)
  else ret tt.

Definition no_property_change (get : State.t -> option string)
    (wanted : string) (name : string) : M unit :=
  recorded <- read get ;;
  no_change (negb (opt_string_eqb recorded (Some wanted))) name.

(** [defn_properties = [ 'size', 'obtain_ip', 'availability_set' ]] *)
Definition properties_changed (defn : Defn.t) : M bool :=
  size <- read State.size ;;
  obtain_ip <- read State.obtain_ip ;;
  availability_set <- read State.availability_set ;;
  ret (negb (opt_string_eqb size (Some (Defn.size defn)))
       || negb (opt_bool_eqb obtain_ip (Some (Defn.obtain_ip defn)))
       || negb (opt_string_eqb availability_set
                               (Some (Defn.availability_set defn))))%bool.

Definition copy_properties (defn : Defn.t) : M unit :=
  write (State.set_size (Some (Defn.size defn))) ;;
  write (State.set_obtain_ip (Some (Defn.obtain_ip defn))) ;;
  write (State.set_availability_set (Some (Defn.availability_set defn))).

Fixpoint set_caching_of (uri caching : string) (l : list Azure.DataDisk)
  : list Azure.DataDisk :=
  match l with
  | [] => []
  | d :: l' =>
      if String.eqb (Azure.dd_uri d) uri
      then Azure.set_dd_caching caching d :: l'
      else d :: set_caching_of uri caching l'
  end.

(** The body of the loop of [_change_existing_disk_parameters]. *)
Definition change_disk_parameters (entry : string * Disk.t) : M unit :=
  let (d_id, disk) := entry in
  mapping <- read State.block_device_mapping ;;
  match Dict.get d_id mapping with
  | None => ret tt
  | Some state_disk =>
      match device_name_to_lun (Disk.device disk) with
      | None => ret tt
      | Some lun =>
          vm_id <- read State.vm_id ;;
          state_disk <-
            (if (truthy vm_id && negb (Disk.get_needs_attach state_disk))%bool
             then
               if negb (String.eqb (Disk.host_caching disk)
                                   (Disk.host_caching state_disk))
               then
                 log "changing parameters of the attached disk" ;;
                 vm <- get_vm_assert_exists ;;
                 match find_vm_disk (Disk.media_link disk)
                                    (Azure.data_disks vm) with
                 | None => raise (DiskNotFound (Disk.name disk) d_id
                                               (Disk.device disk))
                 | Some vm_disk =>
                     virtual_machines_create_or_update
                       (Azure.set_data_disks
                          (set_caching_of (Disk.media_link disk)
                             (Disk.host_caching disk) (Azure.data_disks vm))
                          vm) ;;
                     ret (Disk.set_host_caching (Disk.host_caching disk)
                                                state_disk)
                 end
               else ret state_disk
             else
               ret (Disk.set_device (Disk.device disk)
                      (Disk.set_name (Disk.name disk)
                         (Disk.set_host_caching (Disk.host_caching disk)
                                                state_disk)))) ;;
          update_block_device_mapping d_id
            (Some (Disk.set_is_ephemeral (Disk.is_ephemeral disk)
                     (Disk.set_passphrase (Disk.passphrase disk)
                        (Disk.set_encrypt (Disk.encrypt disk) state_disk))))
      end
  end.

Definition _change_existing_disk_parameters (defn : Defn.t) : M unit :=
  for_m (Defn.block_device_mapping defn) change_disk_parameters.

Definition create_option_for (there : bool) : Azure.DiskCreateOptionTypes :=
  if there then Azure.attach else Azure.empty.

(** The body of the loop of [_create_missing_attach_detached]. *)
Definition attach_disk (entry : string * Disk.t) : M unit :=
  let (d_id, disk) := entry in
  match device_name_to_lun (Disk.device disk) with
  | None => ret tt
  | Some lun =>
      mapping <- read State.block_device_mapping ;;
      let attached :=
        match Dict.get d_id mapping with
        | Some _disk => negb (Disk.get_needs_attach _disk)
        | None => false
        end in
      if attached then ret tt
      else
        log "attaching data disk" ;;
        vm <- get_vm_assert_exists ;;
        there <- blob_exists (Disk.media_link disk) ;;
        virtual_machines_create_or_update
          (Azure.set_data_disks
             (Azure.data_disks vm ++
              [Azure.mkDataDisk (Disk.name disk) (Disk.media_link disk)
                 (Disk.host_caching disk) (create_option_for there) lun
                 (Disk.size disk)]) vm) ;;
        update_block_device_mapping d_id (Some disk)
  end.

Definition _create_missing_attach_detached (defn : Defn.t) : M unit :=
  for_m (Defn.block_device_mapping defn) attach_disk.

(** The body of the loop of [_generate_default_encryption_keys]. *)
Definition generate_key (entry : string * Disk.t) : M unit :=
  let (d_id, disk) := entry in
  keys <- read State.generated_encryption_keys ;;
  if (Disk.encrypt disk
      && (String.eqb (Disk.passphrase disk) ""
          && is_none (Dict.get d_id keys)))%bool
  then
    log "generating an encryption key for disk" ;;
    key <- generate_random_string ;;
    update_generated_encryption_keys d_id (Some key)
  else ret tt.

Definition _generate_default_encryption_keys : M unit :=
  mapping <- read State.block_device_mapping ;;
  for_m mapping generate_key.

(** The data disks of the creation request. *)
Fixpoint new_data_disks (mapping : disk_map) : M (list Azure.DataDisk) :=
  match mapping with
  | [] => ret []
  | (disk_id, disk) :: mapping' =>
      match device_name_to_lun (Disk.device disk) with
      | None => new_data_disks mapping'
      | Some lun =>
          there <- blob_exists (Disk.media_link disk) ;;
          rest <- new_data_disks mapping' ;;
          ret (Azure.mkDataDisk (Disk.name disk) (Disk.media_link disk)
                 (Disk.host_caching disk) (create_option_for there) lun
                 (Disk.size disk) :: rest)
      end
  end.

Definition opt_text (o : option string) : string :=
  match o with Some s => s | None => "None" end.

(** [check_wait(check_req, initial=1, max_tries=500, exception=True)]:
    nothing changes in the subscription while the backend waits, so the
    request is either complete at the first poll or never. *)
Definition wait_for_request : M unit :=
  ip <- fetch_public_ip ;;
  match ip with
  | Some _ => ret tt
  | None =>
      status <- get_long_running_operation_status ;;
      match status with
      | Azure.in_progress => raise WaitTimedOut
      | _ => ret tt
      end
  end.

Definition _create_vm (defn : Defn.t) : M unit :=
  public_ip <- read State.public_ip ;;
  machine_name <- read State.machine_name ;;
  when (is_none public_ip && Defn.obtain_ip defn)
       (log "getting an IP address" ;;
        public_ip_addresses_create_or_update machine_name ;;
        write (State.set_public_ip machine_name) ;;
        write (State.set_obtain_ip (Some (Defn.obtain_ip defn)))) ;;
  network_interface <- read State.network_interface ;;
  when (is_none network_interface)
       (log "creating a network interface" ;;
        public_ip <- read State.public_ip ;;
        public_ip_id <- public_ip_addresses_get public_ip ;;
        subnets_get ;;
        network_interfaces_create_or_update machine_name ;;
        write (State.set_network_interface machine_name)) ;;
  vm_id <- read State.vm_id ;;
  if truthy vm_id then ret tt
  else
    existing <- get_settled_resource ;;
    match existing with
    | Some _ => raise VmAlreadyExists
    | None =>
        match defn_find_root_disk (Defn.block_device_mapping defn) with
        | None => raise AssertionError
        | Some root_disk_id =>
            match Dict.get root_disk_id (Defn.block_device_mapping defn) with
            | None => raise KeyError
            | Some root_disk_spec =>
                log "creating..." ;;
                network_interface <- read State.network_interface ;;
                nic_id <- network_interfaces_get network_interface ;;
                private_host_key <- read State.private_host_key ;;
                public_host_key <- read State.public_host_key ;;
                public_client_key <- read State.public_client_key ;;
                let custom_data :=
                  "ssh_host_ecdsa_key=" ++ opt_text private_host_key
                  ++ " ssh_host_ecdsa_key_pub=" ++ opt_text public_host_key
                  ++ " ssh_root_auth_key=" ++ opt_text public_client_key in
                data_disks <- new_data_disks (Defn.block_device_mapping defn) ;;
                root_disk_exists <-
                  blob_exists (Disk.media_link root_disk_spec) ;;
                location <- read State.location ;;
                os_profile <-
                  (if root_disk_exists : bool then ret None
                   else
                     password <- generate_random_string ;;
                     ret (Some (Azure.mkOSProfile "randomuser"
                                  ("aA9+" ++ password) machine_name
                                  custom_data))) ;;
                virtual_machines_begin_creating_or_updating
                  (Azure.mkVirtualMachine location machine_name os_profile
                     (Defn.size defn) [nic_id]
                     (Azure.mkOSDisk (Disk.host_caching root_disk_spec)
                        (if root_disk_exists then Azure.attach
                         else Azure.from_image)
                        (Disk.name root_disk_spec)
                        (Disk.media_link root_disk_spec)
                        (if root_disk_exists then None
                         else Some (Defn.root_disk_image_url defn)))
                     data_disks Azure.creating) ;;
                wait_for_request ;;
                req_status <- get_long_running_operation_status ;;
                match req_status with
                | Azure.op_failed => raise FailedToProvision
                | _ =>
                    write (State.set_vm_id machine_name) ;;
                    write (State.set_state STARTING) ;;
                    write (State.set_ssh_pinged false) ;;
                    copy_properties defn ;;
                    ip <- fetch_public_ip ;;
                    write (State.set_public_ipv4 ip) ;;
                    log "got IP" ;;
                    update_ssh_known_hosts ;;
                    for_m (Defn.block_device_mapping defn)
                          (fun entry => update_block_device_mapping
                                          (fst entry) (Some (snd entry)))
                end
            end
        end
    end.

(** Changing the root disk of a deployed machine. *)
Definition replace_root_disk (defn : Defn.t) (allow_recreate : bool)
  : M unit :=
  vm_id <- read State.vm_id ;;
  if negb (truthy vm_id) then ret tt
  else
    mapping <- read State.block_device_mapping ;;
    match defn_find_root_disk (Defn.block_device_mapping defn) with
    | None => raise AssertionError
    | Some def_root_disk_id =>
        match Dict.get def_root_disk_id (Defn.block_device_mapping defn),
              find_root_disk mapping with
        | None, _ => raise KeyError
        | Some _, None => raise AssertionError
        | Some def_root_disk, Some state_root_disk_id =>
            match Dict.get state_root_disk_id mapping with
            | None => raise KeyError
            | Some state_root_disk =>
                if (negb (String.eqb def_root_disk_id state_root_disk_id)
                    || negb (String.eqb (Disk.host_caching def_root_disk)
                                        (Disk.host_caching state_root_disk))
                    || negb (String.eqb (Disk.name def_root_disk)
                                        (Disk.name state_root_disk)))%bool
                then
                  warn RootDiskModification ;;
                  if allow_recreate : bool
                  then
                    log "destroying the virtual machine, but preserving the disk contents..." ;;
                    destroy_resource ;;
                    _node_deleted
                  else raise UseAllowRecreate
                else ret tt
            end
        end
    end.

(** [create] up to the legality checker: the guard on the fields that
    identify the machine, the keys, the check pass and the guard on the
    changes that need a reboot.  [set_common_state] and
    [copy_mgmt_credentials] write fields of the base classes that the
    record here does not have. *)
Definition create_prologue (defn : Defn.t) (check allow_reboot allow_recreate : bool)
  : M unit :=
  no_property_change State.machine_name (Defn.machine_name defn)
    "instance name" ;;
  no_property_change State.resource_group (Defn.resource_group defn)
    "resource group" ;;
  no_property_change State.virtual_network (Defn.virtual_network defn)
    "virtual network" ;;
  no_property_change State.storage (Defn.storage defn) "storage" ;;
  no_property_change State.location (Defn.location defn) "location" ;;
  write (State.set_machine_name (Some (Defn.machine_name defn))) ;;
  write (State.set_storage (Some (Defn.storage defn))) ;;
  write (State.set_resource_group (Some (Defn.resource_group defn))) ;;
  write (State.set_virtual_network (Some (Defn.virtual_network defn))) ;;
  write (State.set_location (Some (Defn.location defn))) ;;
  public_client_key <- read State.public_client_key ;;
  when (negb (truthy public_client_key))
       (keys <- create_key_pair ;;
        write (State.set_client_keys (Some (snd keys)) (Some (fst keys)))) ;;
  public_host_key <- read State.public_host_key ;;
  when (negb (truthy public_host_key))
       (keys <- create_key_pair ;;
        write (State.set_host_keys (Some (snd keys)) (Some (fst keys)))) ;;
  when check (check_pass allow_recreate) ;;
  vm_id <- read State.vm_id ;;
  when (truthy vm_id && negb allow_reboot)
       (size <- read State.size ;;
        availability_set <- read State.availability_set ;;
        if negb (opt_string_eqb (Some (Defn.size defn)) size)
        then raise RebootRequiredSize
        else if negb (opt_string_eqb (Some (Defn.availability_set defn))
                                     availability_set)
        then raise RebootRequiredAvailabilitySet
        else ret tt).

(** The legality checker reads the record and does nothing else. *)
Definition assert_no_impossible_disk_changes (defn : Defn.t) : M unit :=
  fun w => (_assert_no_impossible_disk_changes (st w) defn, w).

(** [create] after the legality checker. *)
Definition create_sequence (defn : Defn.t) (allow_recreate : bool) : M unit :=
  replace_root_disk defn allow_recreate ;;
  _change_existing_disk_parameters defn ;;
  _create_vm defn ;;
  _create_missing_attach_detached defn ;;
  _generate_default_encryption_keys ;;
  changed <- properties_changed defn ;;
  when changed
       (log "updating properties" ;;
        vm <- get_vm_assert_exists ;;
        virtual_machines_create_or_update
          (Azure.set_virtual_machine_size (Defn.size defn) vm) ;;
        copy_properties defn).

Definition create (defn : Defn.t) (check allow_reboot allow_recreate : bool)
  : M unit :=
  create_prologue defn check allow_reboot allow_recreate ;;
  assert_no_impossible_disk_changes defn ;;
  create_sequence defn allow_recreate.

(** ** [destroy] *)

(** The body of the loop that destroys the volumes of the machine. *)
Definition destroy_volume (entry : string * Disk.t) : M unit :=
  let (d_id, disk) := entry in
  when (Disk.is_ephemeral disk)
       (_delete_volume (Some (Disk.media_link disk)) (Some (Disk.name disk))
                       None) ;;
  update_block_device_mapping d_id None ;;
  _delete_encryption_key d_id.

Definition is_nil (A : Type) (l : list A) : bool :=
  match l with [] => true | _ => false end.

(** What [destroy] takes down once the machine is gone. *)
Definition destroy_teardown : M unit :=
  _node_deleted ;;
  mapping <- read State.block_device_mapping ;;
  for_m mapping destroy_volume ;;
  network_interface <- read State.network_interface ;;
  when (truthy network_interface)
       (log "destroying the network interface..." ;;
        except_missing
          (network_interfaces_get network_interface ;;
           network_interfaces_delete network_interface)
          (warn SeemsDestroyedAlready) ;;
        write (State.set_network_interface None)) ;;
  public_ip <- read State.public_ip ;;
  when (truthy public_ip)
       (log "releasing the ip address..." ;;
        except_missing
          (public_ip_addresses_get public_ip ;;
           public_ip_addresses_delete public_ip)
          (warn SeemsReleasedAlready) ;;
        write (State.set_public_ip None) ;;
        write (State.set_obtain_ip None)).

(** The last question of [destroy], about the generated keys that are
    still recorded. *)
Definition confirm_losing_keys : M unit :=
  keys <- read State.generated_encryption_keys ;;
  if negb (is_nil keys)
  then
    yes <- confirm (AskDeleteEncryptionKeys (Dict.keys keys)) ;;
    if yes : bool then ret tt else raise CannotContinue
  else ret tt.

(** [destroy] after the question about the machine itself. *)
Definition destroy_rest : M bool :=
  destroy_teardown ;;
  confirm_losing_keys ;;
  ret true.

(** [log] in [log.warn("wipe is not supported")] is a name that only the
    starred imports can provide; it is taken to write a warning. *)
Definition destroy (wipe : bool) : M bool :=
  when wipe (warn WipeNotSupported) ;;
  vm_id <- read State.vm_id ;;
  if truthy vm_id
  then
    vm <- get_resource ;;
    match vm with
    | Some _ =>
        yes <- confirm AskDestroyMachine ;;
        if yes : bool
        then
          log "destroying the Azure machine..." ;;
          destroy_resource ;;
          destroy_rest
        else ret false
    | None =>
        warn SeemsDestroyedAlready ;;
        destroy_rest
    end
  else destroy_rest.

(** ** Sample deployments *)

Module Sample.
Definition root_link : string :=
  "https://acct.blob.core.windows.net/vhds/root.vhd".
Definition other_root_link : string :=
  "https://acct.blob.core.windows.net/vhds/root2.vhd".
Definition data_link : string :=
  "https://acct.blob.core.windows.net/vhds/data.vhd".
Definition more_link : string :=
  "https://acct.blob.core.windows.net/vhds/more.vhd".

Definition xml_disk (device name link : string) : Xml.BlockDevice :=
  Xml.mkBlockDevice device name (Some link) None false "None" false "".

Definition xml_machine (disks : list Xml.BlockDevice) : Xml.Machine :=
  Xml.mkMachine "m" "Standard_A0" "West US" "acct" "net" "group"
    "https://acct.blob.core.windows.net/images/nixos.vhd" None true "set"
    disks.

(** One root disk and one data disk. *)
Definition xml_plain : Xml.Machine :=
  xml_machine [xml_disk "/dev/sda" "root" root_link;
               xml_disk "/dev/disk/by-lun/0" "data" data_link].

Definition disk (device name link : string) (needs_attach : option bool)
  : Disk.t :=
  Disk.mk name device link None false "None" false "" needs_attach.

Definition machine (mapping : disk_map) : Defn.t :=
  Defn.mk "m" "Standard_A0" "West US" "acct" "net" "group"
    "https://acct.blob.core.windows.net/images/nixos.vhd" None true "set"
    mapping.
End Sample.

Definition is_root (entry : string * Disk.t) : bool :=
  String.eqb (Disk.device (snd entry)) root_device.

(** The device of a disk of a definition: the root path, or a path that
    [device_name_to_lun] gives a slot in 0..31. *)
Definition supported_device (device : string) : Prop :=
  device = root_device \/
  exists n, device_name_to_lun device = Some n /\ 0 <= n <= 31.

Module SampleWorld.
Definition state (mapping : disk_map) (keys : Dict.t string)
    (vm_id : option string) : State.t :=
  State.mk (Some "m") (Some "10.0.0.4") (Some "Standard_A0")
    (Some "West US") (Some "client-public") (Some "client-private")
    (Some "host-public") (Some "host-private") (Some "acct") (Some "net")
    (Some "group") (Some true) (Some "set") mapping keys (Some "m")
    (Some "m") vm_id UP false.

Definition data_disk (name uri : string) (lun : Z) : Azure.DataDisk :=
  Azure.mkDataDisk name uri "None" Azure.attach lun None.

Definition machine (os_name : string) (data_disks : list Azure.DataDisk)
  : Azure.VirtualMachine :=
  Azure.mkVirtualMachine (Some "West US") (Some "m") None "Standard_A0"
    ["m"] (Azure.mkOSDisk "None" Azure.attach os_name Sample.root_link None)
    data_disks Azure.succeeded.

Definition subscription (vm : option Azure.VirtualMachine) : Azure.Remote :=
  Azure.mkRemote vm
    [("vhds", "root.vhd"); ("vhds", "data.vhd"); ("vhds", "more.vhd")]
    ["m"] (Some "10.0.0.4") ["m"] Azure.op_succeeded.

Definition world (s : State.t) (vm : option Azure.VirtualMachine)
    (operator : question -> bool) : World :=
  mkWorld s (subscription vm) operator (fun n => "secret") 0 [].

Definition yes (q : question) : bool := true.
Definition no (q : question) : bool := false.
End SampleWorld.

(** Whether [_generate_default_encryption_keys] generates a key for a
    disk, given the keys that are recorded. *)
Definition wants_key (keys : Dict.t string) (entry : string * Disk.t) : bool :=
  (Disk.encrypt (snd entry)
   && (String.eqb (Disk.passphrase (snd entry)) ""
       && is_none (Dict.get (fst entry) keys)))%bool.

(** One turn of the loop of [_generate_default_encryption_keys]: the
    world afterwards. *)
Definition after_generate_key (entry : string * Disk.t) (w : World) : World :=
  if wants_key (State.generated_encryption_keys (st w)) entry
  then mkWorld
         (State.set_generated_encryption_keys
            (Dict.set (fst entry) (random w (draws w))
                      (State.generated_encryption_keys (st w))) (st w))
         (remote w) (operator w) (random w) (S (draws w))
         (Log "generating an encryption key for disk" :: trace w)
  else w.

(** What [_node_deleted] does to a disk record. *)
Definition mark (entry : string * Disk.t) : string * Disk.t :=
  (fst entry, Disk.set_needs_attach true (snd entry)).

(** The operator answers no to the question whether the machine is to
    be destroyed, which [destroy] asks when a machine is recorded and
    exists. *)
Definition machine_destruction_declined (w : World) : Prop :=
  truthy (State.vm_id (st w)) = true /\
  Azure.vm (remote w) <> None /\
  operator w AskDestroyMachine = false.

Module SampleDestroy.
(** An operator who agrees to everything but to losing the keys. *)
Definition keeps_keys (q : question) : bool :=
  match q with
  | AskDeleteEncryptionKey _ | AskDeleteEncryptionKeys _ => false
  | _ => true
  end.

Definition mapping : disk_map :=
  [(Sample.root_link, Sample.disk "/dev/sda" "root" Sample.root_link None);
   (Sample.data_link,
    Disk.mk "data" "/dev/disk/by-lun/0" Sample.data_link None false "None"
            true "" None)].

Definition deployed (operator : question -> bool) : World :=
  SampleWorld.world
    (SampleWorld.state mapping [(Sample.data_link, "stored")] (Some "m"))
    (Some (SampleWorld.machine "root"
             [SampleWorld.data_disk "data" Sample.data_link 0]))
    operator.
End SampleDestroy.

(** Nothing was sent that changes a remote resource, and the recorded
    disks and machine are as before. *)
Definition untouched (w w1 : World) : Prop :=
  remote w1 = remote w /\
  mutations w1 = mutations w /\
  State.block_device_mapping (st w1) = State.block_device_mapping (st w) /\
  State.vm_id (st w1) = State.vm_id (st w).

Definition leaves_untouched (A : Type) (c : M A) : Prop :=
  forall w r w1, c w = (r, w1) -> untouched w w1.

Module SampleCreate.
Definition root : string * Disk.t :=
  (Sample.root_link, Sample.disk "/dev/sda" "root" Sample.root_link None).
Definition data (device : string) : string * Disk.t :=
  (Sample.data_link, Sample.disk device "data" Sample.data_link None).
Definition more (device : string) : string * Disk.t :=
  (Sample.more_link, Sample.disk device "more" Sample.more_link None).

(** The record has the data disk at slot 0 and the other one at slot 1. *)
Definition recorded : State.t :=
  SampleWorld.state
    [root; data "/dev/disk/by-lun/0"; more "/dev/disk/by-lun/1"] []
    (Some "m").

(** The machine as recorded. *)
Definition in_order : World :=
  SampleWorld.world recorded
    (Some (SampleWorld.machine "root"
             [SampleWorld.data_disk "data" Sample.data_link 0;
              SampleWorld.data_disk "more" Sample.more_link 1]))
    SampleWorld.yes.

(** The machine with the data disk at slot 5 instead of slot 0. *)
Definition drifted : World :=
  SampleWorld.world recorded
    (Some (SampleWorld.machine "root"
             [SampleWorld.data_disk "data" Sample.data_link 5;
              SampleWorld.data_disk "more" Sample.more_link 1]))
    SampleWorld.yes.

(** A definition that moves the attached disk from slot 1 to slot 2. *)
Definition moved : Defn.t :=
  Sample.machine
    [root; data "/dev/disk/by-lun/0"; more "/dev/disk/by-lun/2"].
End SampleCreate.

Module SampleSlot.
(** The data disk is recorded as attached at slot 1, and the machine has
    it there. *)
Definition occupied : World :=
  SampleWorld.world
    (SampleWorld.state
       [SampleCreate.root; SampleCreate.data "/dev/disk/by-lun/1"] []
       (Some "m"))
    (Some (SampleWorld.machine "root"
             [SampleWorld.data_disk "data" Sample.data_link 1]))
    SampleWorld.yes.

(** The description of a machine with another disk at slot 1, written
    with a leading zero. *)
Definition xml_leading_zero : Xml.Machine :=
  Sample.xml_machine
    [Sample.xml_disk "/dev/sda" "root" Sample.root_link;
     Sample.xml_disk "/dev/disk/by-lun/01" "more" Sample.more_link].

Definition leading_zero : Defn.t :=
  Sample.machine [SampleCreate.root; SampleCreate.more "/dev/disk/by-lun/01"].
End SampleSlot.

(** A disk of the definition whose caching mode
    [_change_existing_disk_parameters] changes through the API: it is
    recorded as an attached data disk, with another caching mode. *)
Definition caching_changes (self : State.t) (entry : string * Disk.t) : bool :=
  match Dict.get (fst entry) (State.block_device_mapping self) with
  | Some state_disk =>
      (negb (is_none (device_name_to_lun (Disk.device (snd entry))))
       && truthy (State.vm_id self)
       && negb (Disk.get_needs_attach state_disk)
       && negb (String.eqb (Disk.host_caching (snd entry))
                           (Disk.host_caching state_disk)))%bool
  | None => false
  end.

(** The machine [sent] is the machine [old] with another caching mode
    for one data disk, the first one at the address [uri], and with
    nothing else changed. *)
Definition one_disk_recached (uri caching : string)
    (old sent : Azure.VirtualMachine) : Prop :=
  exists before vm_disk after,
    Azure.data_disks old = (before ++ vm_disk :: after)%list /\
    (forall d, In d before -> Azure.dd_uri d <> uri) /\
    Azure.dd_uri vm_disk = uri /\
    sent
    = Azure.mkVirtualMachine (Azure.vm_location old) (Azure.vm_name old)
        (Azure.os_profile old) (Azure.virtual_machine_size old)
        (Azure.network_interfaces old) (Azure.os_disk old)
        (before
         ++ Azure.mkDataDisk (Azure.dd_name vm_disk) (Azure.dd_uri vm_disk)
              caching (Azure.dd_create_option vm_disk) (Azure.dd_lun vm_disk)
              (Azure.dd_disk_size_gb vm_disk)
         :: after)%list
        (Azure.provisioning_state old).

(** The events [calls], the earliest first, are one update of the
    machine for each of the disks [changes], in their order: each sends
    the machine as the call before has left it, with the caching mode of
    that one disk changed to the mode of the definition.  [vm] is the
    machine before the calls and [vm'] the machine after them. *)
Fixpoint single_disk_updates (vm : option Azure.VirtualMachine)
    (changes : disk_map) (calls : list event)
    (vm' : option Azure.VirtualMachine) : Prop :=
  match changes, calls with
  | [], [] => vm' = vm
  | (_, disk) :: changes',
    Api (Azure.virtual_machines_create_or_update sent) :: calls' =>
      (exists old,
          vm = Some old /\
          one_disk_recached (Disk.media_link disk) (Disk.host_caching disk)
                            old sent) /\
      single_disk_updates (Some sent) changes' calls' vm'
  | _, _ => False
  end.

(** No two records of a map are at the same device. *)
Definition distinct_devices (mapping : disk_map) : Prop :=
  forall k1 d1 k2 d2,
    In (k1, d1) mapping -> In (k2, d2) mapping ->
    Disk.device d1 = Disk.device d2 -> k1 = k2.

Definition is_update (e : event) : bool :=
  match e with
  | Api (Azure.virtual_machines_create_or_update _) => true
  | _ => false
  end.

(** The world with one more event in its trace. *)
Definition add_event (e : event) (w : World) : World :=
  mkWorld (st w) (remote w) (operator w) (random w) (draws w) (e :: trace w).

Module SampleCaching.
Definition cached (caching : string) : string * Disk.t :=
  (Sample.data_link,
   Disk.mk "data" "/dev/disk/by-lun/0" Sample.data_link None false caching
           false "" None).

(** The definition asks for another caching mode of the data disk. *)
Definition recached : Defn.t :=
  Sample.machine [SampleCreate.root; cached "ReadOnly";
                  SampleCreate.more "/dev/disk/by-lun/1"].

(** The definition renames the root disk. *)
Definition root_renamed : Defn.t :=
  Sample.machine
    [(Sample.root_link,
      Sample.disk "/dev/sda" "renamed" Sample.root_link None);
     SampleCreate.data "/dev/disk/by-lun/0";
     SampleCreate.more "/dev/disk/by-lun/1"].

(** The definition has a new root disk and the old one as a data disk. *)
Definition root_as_data : Defn.t :=
  Sample.machine
    [(Sample.other_root_link,
      Sample.disk "/dev/sda" "root2" Sample.other_root_link None);
     (Sample.root_link,
      Sample.disk "/dev/disk/by-lun/3" "root" Sample.root_link None);
     SampleCreate.data "/dev/disk/by-lun/0";
     SampleCreate.more "/dev/disk/by-lun/1"].
End SampleCaching.

(** What [blob_exists] answers, given the storage account of the record
    and the BLOBs of the subscription. *)
Definition blob_status (storage : option string)
    (blobs : list (string * string)) (media_link : string) : outcome bool :=
  match parse_blob_url media_link with
  | None => Raise TypeError
  | Some blob =>
      if negb (opt_string_eqb (Some (blob_storage blob)) storage)
      then Raise (StorageMismatch
                    match storage with Some s => s | None => "None" end
                    media_link)
      else Ok (existsb (pair_eqb (blob_container blob, blob_name blob)) blobs)
  end.

Definition add_events (l : list event) (w : World) : World :=
  mkWorld (st w) (remote w) (operator w) (random w) (draws w)
          (l ++ trace w)%list.

(** A disk record that agrees with the data disks of the machine: the
    disk is attached at its slot with the recorded caching mode and
    size, or it is not attached, marked [needs_attach], and its BLOB
    exists. *)
Definition settled (storage : option string) (blobs : list (string * string))
    (data_disks : list Azure.DataDisk) (d : Disk.t) : Prop :=
  match device_name_to_lun (Disk.device d) with
  | None => True
  | Some lun =>
      match find_vm_disk (Disk.media_link d) data_disks with
      | Some vm_disk =>
          Disk.host_caching d = Azure.dd_caching vm_disk /\
          Disk.size d = Azure.dd_disk_size_gb vm_disk /\
          Disk.get_needs_attach d = false /\
          Azure.dd_lun vm_disk = lun
      | None =>
          Disk.get_needs_attach d = true /\
          blob_status storage blobs (Disk.media_link d) = Ok true
      end
  end.

(** The events of a check pass that finds nothing to correct: no call
    that changes a remote resource, and no warning but those about what
    cannot be fixed automatically. *)
Definition uneventful (e : event) : bool :=
  match e with
  | Warn (Changed _ _ false) | Warn FailedState => true
  | Warn _ => false
  | Api c => negb (Azure.mutating c)
  | _ => true
  end.

(** From [w] to [w'] nothing happened but uneventful events. *)
Definition quietly (w w' : World) : Prop :=
  st w' = st w /\ remote w' = remote w /\
  exists events,
    trace w' = (events ++ trace w)%list /\
    Forall (fun e => uneventful e = true) events.

(** The BLOB address of an entry of a disk map. *)
Definition link_of (entry : string * Disk.t) : string :=
  Disk.media_link (snd entry).

Module SampleDrift.
(** The machine as recorded, but its root disk has another name. *)
Definition root_renamed : World :=
  SampleWorld.world SampleCreate.recorded
    (Some (SampleWorld.machine "other"
             [SampleWorld.data_disk "data" Sample.data_link 0;
              SampleWorld.data_disk "more" Sample.more_link 1]))
    SampleWorld.yes.
End SampleDrift.

(** The slot of the device path of a slot is that slot. *)
Definition round_trips (n : Z) : bool :=
  match device_name_to_lun (lun_to_device_name n) with
  | Some m => m =? n
  | None => false
  end.

(** ** What a computation keeps *)

(** Whatever the outcome of [c], what [view] shows of the world is the
    same before and after. *)
Definition keeps (B : Type) (view : World -> B) (A : Type) (c : M A) : Prop :=
  forall w r w', c w = (r, w') -> view w' = view w.

(** [is_deployed]: the truth value of
    [vm_id or block_device_mapping or public_ip or network_interface]. *)
Definition is_deployed (self : State.t) : bool :=
  (truthy (State.vm_id self)
   || negb (is_nil (State.block_device_mapping self))
   || truthy (State.public_ip self)
   || truthy (State.network_interface self))%bool.

(** The address of a BLOB, from its parts. *)
Definition blob_url (secure : bool) (storage host container name : string)
  : string :=
  ((if secure then "https://" else "http://")
   ++ storage ++ "." ++ host ++ "/" ++ container ++ "/" ++ name)%string.

(** Whether [_delete_volume] may destroy the BLOB: [delete_vhd] says so,
    or it is [None] and the operator agrees. *)
Definition approved (delete_vhd : option bool) (q : question) (w : World)
  : bool :=
  match delete_vhd with
  | Some b => b
  | None => operator w q
  end.

(** The BLOBs of the subscription without the one that a link names. *)
Definition without_blob (b : Blob) (r : Azure.Remote) : Azure.Remote :=
  Azure.set_blobs
    (filter (fun x => negb (pair_eqb (blob_container b, blob_name b) x))
            (Azure.blobs r)) r.

Definition is_api (e : event) : bool :=
  match e with
  | Api _ => true
  | _ => false
  end.

(** The calls to the Azure API of a trace. *)
Definition calls (w : World) : list event := filter is_api (trace w).

(** No two records of a map are at the same slot. *)
Definition distinct_slots (mapping : disk_map) : Prop :=
  forall k1 d1 k2 d2,
    In (k1, d1) mapping -> In (k2, d2) mapping ->
    Disk.device d1 = Disk.device d2 ->
    device_name_to_lun (Disk.device d1) <> None -> k1 = k2.

(** Whether an event is anything but a request to delete a BLOB, or is
    the request to delete the BLOB of an ephemeral disk of the map [m]. *)
Definition deletes_ephemeral (m : disk_map) (e : event) : bool :=
  match e with
  | Api (Azure.delete_blob container name) =>
      existsb
        (fun entry : string * Disk.t =>
           (Disk.is_ephemeral (snd entry)
            && match parse_blob_url (Disk.media_link (snd entry)) with
               | Some b => pair_eqb (blob_container b, blob_name b)
                                    (container, name)
               | None => false
               end)%bool) m
  | _ => true
  end.

(** The requests of a trace to delete a BLOB that is not the BLOB of an
    ephemeral disk of [m]. *)
Definition other_deletions (m : disk_map) (w : World) : list event :=
  filter (fun e => negb (deletes_ephemeral m e)) (trace w).

(** Whether a disk is recorded as attached: it has a record that is not
    marked [needs_attach]. *)
Definition is_attached (k : string) (self : State.t) : bool :=
  match Dict.get k (State.block_device_mapping self) with
  | Some _disk => negb (Disk.get_needs_attach _disk)
  | None => false
  end.

(** The data disks of the machine, if there is one. *)
Definition attached_disks (r : Azure.Remote) : list Azure.DataDisk :=
  match Azure.vm r with
  | Some v => Azure.data_disks v
  | None => []
  end.

(** A disk of a definition is at a slot. *)
Definition at_slot (disk : Disk.t) : bool :=
  negb (is_none (device_name_to_lun (Disk.device disk))).

(** The data disk of a machine that a disk of a definition becomes. *)
Definition as_data_disk (disk : Disk.t) (vm_disk : Azure.DataDisk) : Prop :=
  Azure.dd_name vm_disk = Disk.name disk /\
  Azure.dd_uri vm_disk = Disk.media_link disk /\
  Azure.dd_caching vm_disk = Disk.host_caching disk /\
  Some (Azure.dd_lun vm_disk) = device_name_to_lun (Disk.device disk) /\
  Azure.dd_disk_size_gb vm_disk = Disk.size disk.

Module SampleAttach.
(** The definition has the root disk and a data disk at slot 0. *)
Definition wanted : Defn.t :=
  Sample.machine [SampleCreate.root; SampleCreate.data "/dev/disk/by-lun/0"].

(** The data disk is recorded as waiting to be attached, and the machine
    has no data disk. *)
Definition detached : World :=
  SampleWorld.world
    (SampleWorld.state
       [SampleCreate.root;
        (Sample.data_link,
         Sample.disk "/dev/disk/by-lun/0" "data" Sample.data_link (Some true))]
       [] (Some "m"))
    (Some (SampleWorld.machine "root" []))
    SampleWorld.yes.
End SampleAttach.

Module SampleVm.
(** A machine is in the subscription, and none is recorded. *)
Definition unrecorded : World :=
  SampleWorld.world
    (SampleWorld.state [] [] None)
    (Some (SampleWorld.machine "root" []))
    SampleWorld.yes.

(** Nothing is recorded but who the machine is, and the subscription has
    the BLOB of the data disk and no machine. *)
Definition fresh : World :=
  mkWorld
    (State.mk (Some "m") None None (Some "West US") (Some "client-public")
       (Some "client-private") (Some "host-public") (Some "host-private")
       (Some "acct") (Some "net") (Some "group") None None [] [] None None
       None MISSING false)
    (Azure.mkRemote None [("vhds", "data.vhd")] [] (Some "10.0.0.4") []
       Azure.op_succeeded)
    SampleWorld.yes (fun n => "secret") 0 [].
End SampleVm.

(** The disks of a disk map that are at a slot. *)
Definition slot_disks (mapping : disk_map) : disk_map :=
  filter (fun entry => at_slot (snd entry)) mapping.

(** The disk map with the disks of another one assigned to it, in
    order. *)
Definition record_disks (disks mapping : disk_map) : disk_map :=
  fold_left (fun m entry => Dict.set (fst entry) (snd entry) m) disks mapping.

(** Whether [create] takes the root disk of the definition to differ
    from the root disk that is recorded: another disk, another caching
    mode or another name. *)
Definition root_disk_differs (def_root_disk_id : string)
    (def_root_disk : Disk.t) (state_root_disk_id : string)
    (state_root_disk : Disk.t) : bool :=
  (negb (String.eqb def_root_disk_id state_root_disk_id)
   || negb (String.eqb (Disk.host_caching def_root_disk)
                       (Disk.host_caching state_root_disk))
   || negb (String.eqb (Disk.name def_root_disk)
                       (Disk.name state_root_disk)))%bool.

Module SampleReboot.
(** The machine as recorded, with another size. *)
Definition resized : Defn.t :=
  Defn.mk "m" "Standard_A1" "West US" "acct" "net" "group"
    "https://acct.blob.core.windows.net/images/nixos.vhd" None true "set"
    (State.block_device_mapping SampleCreate.recorded).
End SampleReboot.

(** What [_change_existing_disk_parameters] leaves alone in a disk
    record: the key it is filed under, its BLOB address, its size and its
    mark [needs_attach]. *)
Definition fixed_part (entry : string * Disk.t)
  : string * string * option Z * option bool :=
  (fst entry, Disk.media_link (snd entry), Disk.size (snd entry),
   Disk.needs_attach (snd entry)).

(** ** After the activation of a configuration: [after_activation] *)

Section AfterActivation.
(** [run_command(command, check=False)] of the machine base class, which
    is not among the sources: it runs a command on the machine. *)
Variable run_command : string -> M unit.

(** The body of the loop of [after_activation], which detaches and
    forgets the disks that are no longer in the definition. *)
Definition forget_disk (defn : Defn.t) (entry : string * Disk.t) : M unit :=
  let (d_id, disk) := entry in
  let lun := device_name_to_lun (Disk.device disk) in
  if Dict.mem d_id (Defn.block_device_mapping defn) then ret tt
  else
    disk <-
      (if (negb (Disk.get_needs_attach disk) && negb (is_none lun))%bool
       then
         (if Disk.encrypt disk
          then
            let dm := "/dev/mapper/" ++ Disk.name disk in
            log "unmounting device" ;;
            run_command ("umount -l " ++ dm) ;;
            run_command ("cryptsetup luksClose " ++ dm)
          else
            log "unmounting device" ;;
            run_command ("umount -l " ++ Disk.device disk)) ;;
         log "detaching Azure disk" ;;
         vm <- get_vm_assert_exists ;;
         virtual_machines_create_or_update
           (Azure.set_data_disks
              (filter (fun _disk =>
                         negb (String.eqb (Azure.dd_uri _disk)
                                          (Disk.media_link disk)))
                      (Azure.data_disks vm)) vm) ;;
         let disk := Disk.set_needs_attach true disk in
         update_block_device_mapping d_id (Some disk) ;;
         ret disk
       else ret disk) ;;
    when (Disk.is_ephemeral disk)
         (_delete_volume (Some (Disk.media_link disk)) (Some (Disk.name disk))
                         None) ;;
    run_command ("sg_scan " ++ Disk.device disk) ;;
    update_block_device_mapping d_id None ;;
    _delete_encryption_key d_id.

Definition after_activation (defn : Defn.t) : M unit :=
  mapping <- read State.block_device_mapping ;;
  for_m mapping (forget_disk defn).
End AfterActivation.

(** The disks of the record that a definition still has. *)
Definition still_defined (defn : Defn.t) (mapping : disk_map) : disk_map :=
  filter (fun entry => Dict.mem (fst entry) (Defn.block_device_mapping defn))
         mapping.

Module SampleActivation.
(** The definition has the root disk only. *)
Definition without_data : Defn.t := Sample.machine [SampleCreate.root].

(** A command that is run is written to the log. *)
Definition run_command (command : string) : M unit := log command.
End SampleActivation.

(** ** What the machine is given: [get_physical_spec] and [get_keys] *)

(** The disks that both functions pick: encrypted, without a passphrase
    of their own, and with a generated key. *)
Definition has_generated_key (keys : Dict.t string) (entry : string * Disk.t)
  : bool :=
  (Disk.encrypt (snd entry)
   && String.eqb (Disk.passphrase (snd entry)) ""
   && negb (is_none (Dict.get (fst entry) keys)))%bool.

Record PhysicalSpec : Type := mkPhysicalSpec {
  require : list string;
  (** per device, the passphrase, which the code wraps in
      [pkgs.lib.mkOverride 10] *)
  blockDeviceMapping : Dict.t string
}.

(** One disk of the dictionary comprehension: the subscript
    [generated_encryption_keys[d_id]] raises if the key is missing. *)
Definition add_passphrase (keys : Dict.t string)
    (acc : outcome (Dict.t string)) (entry : string * Disk.t)
  : outcome (Dict.t string) :=
  bind_e acc (fun block_device_mapping =>
    if has_generated_key keys entry
    then match Dict.get (fst entry) keys with
         | None => Raise KeyError
         | Some key =>
             Ok (Dict.set (Disk.device (snd entry)) key block_device_mapping)
         end
    else Ok block_device_mapping).

Definition get_physical_spec (self : State.t) : outcome PhysicalSpec :=
  bind_e (fold_left (add_passphrase (State.generated_encryption_keys self))
                    (State.block_device_mapping self) (Ok []))
         (fun block_device_mapping =>
            Ok (mkPhysicalSpec
                  ["<nixpkgs/nixos/modules/virtualisation/azure-common.nix>"]
                  block_device_mapping)).

Record KeyFile : Type := mkKeyFile {
  text : string;
  group : string;
  permissions : string;
  user : string
}.

Definition add_luks_key (generated : Dict.t string)
    (acc : outcome (Dict.t KeyFile)) (entry : string * Disk.t)
  : outcome (Dict.t KeyFile) :=
  bind_e acc (fun keys =>
    if has_generated_key generated entry
    then match Dict.get (fst entry) generated with
         | None => Raise KeyError
         | Some key =>
             Ok (Dict.set ("luks-" ++ Disk.name (snd entry))
                          (mkKeyFile key "root" "0600" "root") keys)
         end
    else Ok keys).

(** [machine_keys] is what [MachineState.get_keys], which is not among
    the sources, returns. *)
Definition get_keys (machine_keys : Dict.t KeyFile) (self : State.t)
  : outcome (Dict.t KeyFile) :=
  fold_left (add_luks_key (State.generated_encryption_keys self))
            (State.block_device_mapping self) (Ok machine_keys).

(** What one turn of the loop of [after_activation] does to the recorded
    disks. *)
Definition forget_step (defn : Defn.t) (m : disk_map)
    (entry : string * Disk.t) : disk_map :=
  if Dict.mem (fst entry) (Defn.block_device_mapping defn) then m
  else Dict.pop (fst entry) m.

Definition has_key (V : Type) (k : string) (l : Dict.t V) : bool :=
  existsb (fun entry => String.eqb (fst entry) k) l.

(** The disks that [after_activation] detaches from the machine: those
    that the definition no longer has and that are recorded as attached
    at a slot. *)
Definition to_detach (defn : Defn.t) (entry : string * Disk.t) : bool :=
  (negb (Dict.mem (fst entry) (Defn.block_device_mapping defn))
   && (negb (Disk.get_needs_attach (snd entry)) && at_slot (snd entry)))%bool.

(** A data disk of the machine is not the disk of any of the records
    that are detached. *)
Definition stays_attached (defn : Defn.t) (mapping : disk_map)
    (vm_disk : Azure.DataDisk) : bool :=
  negb (existsb
          (fun entry =>
             (to_detach defn entry
              && String.eqb (Azure.dd_uri vm_disk)
                            (Disk.media_link (snd entry)))%bool)
          mapping).

(** A key file as [get_keys] makes them for the generated keys. *)
Definition luks_key_file (key_file : KeyFile) : Prop :=
  group key_file = "root" /\ permissions key_file = "0600" /\
  user key_file = "root".

(** ** Backups: [get_backups]

    The attribute [backups] of the machine, a dictionary from the id of a
    backup to the snapshots of the backup (per BLOB address, the id of
    the snapshot), is not part of the record [State.t]; it is given to
    the function, as is the name of the machine in the deployment. *)

Inductive backup_note : Type :=
| NotAvailableInBackup (name d_id : string)
| BackupFailedToParse (media_link : string)
| BackupStorageMismatch (storage : option string) (media_link : string)
| SnapshotDisappeared (name d_id snapshot_id : string)
| NoLongerDeployed (name media_link snapshot_id : string).

Record BackupReport : Type := mkBackupReport {
  status : string;
  info : list backup_note
}.

(** ["{0}?snapshot={1}".format(blob["name"], snapshot_id)] *)
Definition snapshot_name (name snapshot_id : string) : string :=
  name ++ "?snapshot=" ++ snapshot_id.

(** The body of the loop over the recorded disks, for one backup.  The
    local variables are [backup_status], [info] and [processed]. *)
Definition report_disk (name : string) (snapshots : Dict.t string)
    (entry : string * Disk.t) (acc : string * list backup_note * list string)
  : M (string * list backup_note * list string) :=
  let (d_id, disk) := entry in
  let '(backup_status, info, processed) := acc in
  let media_link := Disk.media_link disk in
  match Dict.get media_link snapshots with
  | None =>
      ret ("incomplete", (info ++ [NotAvailableInBackup name d_id])%list,
           processed)
  | Some snapshot_id =>
      let processed := (processed ++ [media_link])%list in
      match parse_blob_url media_link with
      | None =>
          ret ("unavailable", (info ++ [BackupFailedToParse media_link])%list,
               processed)
      | Some blob =>
          storage <- read State.storage ;;
          if negb (opt_string_eqb (Some (blob_storage blob)) storage)
          then ret ("unavailable",
                    (info ++ [BackupStorageMismatch storage media_link])%list,
                    processed)
          else
            except_missing
              (get_blob_properties (blob_container blob)
                 (snapshot_name (blob_name blob) snapshot_id) ;;
               ret (backup_status, info, processed))
              (ret ("unavailable",
                    (info ++ [SnapshotDisappeared name d_id snapshot_id])%list,
                    processed))
      end
  end.

(** The report on one backup.  The snapshots of disks that are not
    recorded are listed from a Python set, in an order that the language
    leaves open; here it is the order of the backup. *)
Definition report_backup (name : string) (snapshots : Dict.t string)
  : M BackupReport :=
  mapping <- read State.block_device_mapping ;;
  r <- fold_m mapping ("complete", [], []) (report_disk name snapshots) ;;
  let '(backup_status, info, processed) := r in
  ret (mkBackupReport backup_status
         (info ++ map (fun entry => NoLongerDeployed name (fst entry)
                                                     (snd entry))
                      (filter (fun entry =>
                                 negb (mem_string (fst entry) processed))
                              snapshots))%list).

Definition get_backups (name : string) (backups : Dict.t (Dict.t string))
  : M (Dict.t BackupReport) :=
  fold_m backups []
    (fun entry acc =>
       report <- report_backup name (snd entry) ;;
       ret (Dict.set (fst entry) report acc)).

(** A recorded disk has a snapshot in a backup that can be restored: the
    backup has a snapshot of its BLOB, the address of the BLOB is in the
    storage account of the record, and the snapshot exists. *)
Definition backed_up (storage : option string) (blobs : list (string * string))
    (snapshots : Dict.t string) (disk : Disk.t) : bool :=
  match Dict.get (Disk.media_link disk) snapshots with
  | None => false
  | Some snapshot_id =>
      match parse_blob_url (Disk.media_link disk) with
      | None => false
      | Some blob =>
          (opt_string_eqb (Some (blob_storage blob)) storage
           && existsb (pair_eqb (blob_container blob,
                                 snapshot_name (blob_name blob) snapshot_id))
                      blobs)%bool
      end
  end.

Module SampleBackup.
(** A backup with a snapshot of the root disk only. *)
Definition backups : Dict.t (Dict.t string) :=
  [("b1", [(Sample.root_link, "2015-01-01")])].
End SampleBackup.

(** What the report on a backup says when the record and the
    subscription are those of [w]: the backup is complete exactly if
    every recorded disk is backed up in it. *)
Definition reports_on (w : World) (snapshots : Dict.t string)
    (report : BackupReport) : Prop :=
  status report = "complete" <->
  forall d_id disk,
    In (d_id, disk) (State.block_device_mapping (st w)) ->
    backed_up (State.storage (st w)) (Azure.blobs (remote w)) snapshots disk
    = true.

(** ** The state of the machine: [_check] *)

Inductive check_message : Type :=
| VmInFailedState
| DifferentRootDisk (d_id : string)
| DiskIsDetached (disk_name d_id : string)
| DiskIsDestroyed (disk_name d_id : string).

(** The fields of the result of a check that [_check] writes. *)
Record CheckResult : Type := mkCheckResult {
  res_exists : option bool;
  is_up : option bool;
  disks_ok : option bool;
  messages : list check_message
}.

Definition set_exists (b : bool) (res : CheckResult) : CheckResult :=
  mkCheckResult (Some b) (is_up res) (disks_ok res) (messages res).
Definition set_is_up (b : bool) (res : CheckResult) : CheckResult :=
  mkCheckResult (res_exists res) (Some b) (disks_ok res) (messages res).
Definition set_disks_ok (b : bool) (res : CheckResult) : CheckResult :=
  mkCheckResult (res_exists res) (is_up res) (Some b) (messages res).
Definition add_message (m : check_message) (res : CheckResult) : CheckResult :=
  mkCheckResult (res_exists res) (is_up res) (disks_ok res)
                (messages res ++ [m])%list.

(** [all(disk['media_link'] != d.virtual_hard_disk.uri for d in data_disks)] *)
Definition not_among (disk : Disk.t) (data_disks : list Azure.DataDisk)
  : bool :=
  forallb (fun d => negb (String.eqb (Disk.media_link disk) (Azure.dd_uri d)))
          data_disks.

(** The second test of the loop over the recorded disks. *)
Definition check_attached (vm : Azure.VirtualMachine) (d_id : string)
    (disk : Disk.t) (res : CheckResult) : M CheckResult :=
  if not_among disk (Azure.data_disks vm)
  then
    let res := add_message (DiskIsDetached (Disk.name disk) d_id)
                           (set_disks_ok false res) in
    there <- blob_exists (Disk.media_link disk) ;;
    if negb there
    then ret (add_message (DiskIsDestroyed (Disk.name disk) d_id) res)
    else ret res
  else ret res.

(** The body of the loop over the recorded disks: a disk that is not at a
    slot is taken to be the root disk, and passed over if it is the OS
    disk of the machine. *)
Definition check_disk (vm : Azure.VirtualMachine) (entry : string * Disk.t)
    (res : CheckResult) : M CheckResult :=
  let (d_id, disk) := entry in
  match device_name_to_lun (Disk.device disk) with
  | None =>
      if negb (String.eqb (Azure.os_uri (Azure.os_disk vm))
                          (Disk.media_link disk))
      then check_attached vm d_id disk
             (add_message (DifferentRootDisk d_id) (set_disks_ok false res))
      else ret res
  | Some _ => check_attached vm d_id disk res
  end.

Definition is_succeeded (p : Azure.ProvisioningStateTypes) : bool :=
  match p with Azure.succeeded => true | _ => false end.

Section Check.
(** [MachineState._check], which is not among the sources. *)
Variable MachineState_check : CheckResult -> M CheckResult.

(** The credentials [subscription_id], [authority_url], [user] and
    [password] are attributes of the resource base class; they are given
    to the function.  The result that Python changes in place is
    returned. *)
Definition _check (subscription_id authority_url user password : option string)
    (res : CheckResult) : M CheckResult :=
  if (is_none subscription_id || is_none authority_url || is_none user
      || is_none password)%bool
  then
    write (State.set_state MISSING) ;;
    ret (set_is_up false (set_exists false res))
  else
    vm <- get_resource ;;
    match vm with
    | None =>
        write (State.set_state MISSING) ;;
        ret (set_is_up false (set_exists false res))
    | Some vm =>
        let res := set_exists true res in
        let res := set_is_up (is_succeeded (Azure.provisioning_state vm)) res in
        let res := if is_failed (Azure.provisioning_state vm)
                   then add_message VmInFailedState res else res in
        if negb (is_succeeded (Azure.provisioning_state vm))
        then write (State.set_state STOPPED) ;; ret res
        else
          mapping <- read State.block_device_mapping ;;
          res <- fold_m mapping (set_disks_ok true res) (check_disk vm) ;;
          ip <- fetch_public_ip ;;
          handle_changed_property State.public_ipv4 State.set_public_ipv4
            "public ipv4" ip ;;
          update_ssh_known_hosts ;;
          MachineState_check res
    end.
End Check.

(** A recorded disk is where the record has it: at a slot and among the
    data disks of the machine, or not at a slot and the OS disk of the
    machine. *)
Definition in_place (vm : Azure.VirtualMachine) (disk : Disk.t) : bool :=
  match device_name_to_lun (Disk.device disk) with
  | None => String.eqb (Azure.os_uri (Azure.os_disk vm)) (Disk.media_link disk)
  | Some _ => negb (not_among disk (Azure.data_disks vm))
  end.

(** The machine cannot be examined: the credentials are not all there,
    or the subscription has no machine. *)
Definition out_of_reach (subscription_id authority_url user password
    : option string) (w : World) : bool :=
  (is_none subscription_id || is_none authority_url || is_none user
   || is_none password || is_none (Azure.vm (remote w)))%bool.

Module SampleCheck.
Definition blank : CheckResult := mkCheckResult None None None [].

(** A base class check that changes nothing. *)
Definition base_check (res : CheckResult) : M CheckResult := ret res.
End SampleCheck.

(** The exceptions that leave [_create_vm] when the definition is one that
    [AzureDefinition.__init__] has accepted: those of the subscription and
    of the request, none of the program's own checks. *)
Definition creation_failure (e : exn) : bool :=
  match e with
  | AzureMissingResourceHttpError | VmAlreadyExists | WaitTimedOut
  | FailedToProvision => true
  | _ => false
  end.

(** * Properties *)

(** ** Tactics *)

(** Running a computation of [M] on a world, one decision at a time. *)
Ltac mrun :=
  cbv beta iota zeta delta
    [bind read write ret raise emit api the_remote change_remote confirm
     log warn when except_missing lift];
  cbn [st remote operator random draws trace fst snd set_st set_remote].

Ltac mrun_in H :=
  cbv beta iota zeta delta
    [bind read write ret raise emit api the_remote change_remote confirm
     log warn when except_missing lift] in H;
  cbn [st remote operator random draws trace fst snd set_st set_remote] in H.

(** A list of distinct strings has no repetition. *)
Ltac nodup_strings :=
  repeat (constructor; [simpl; intuition discriminate|]); constructor.

(** The cases of membership in a list that is given. *)
Ltac in_cases :=
  repeat match goal with
         | H : In _ _ |- _ => simpl in H
         | H : _ \/ _ |- _ => destruct H
         | H : _ = (_, _) |- _ => vm_compute in H; inversion H; clear H; subst
         | H : False |- _ => destruct H
         end.

(** ** Strings *)

Lemma append_empty_r (s : string) : s ++ "" = s.
Proof. induction s as [|c s IH]; simpl; [reflexivity|now rewrite IH]. Qed.

Lemma strip_prefix_app (p r : string) : Str.strip_prefix p (p ++ r) = Some r.
Proof.
  induction p as [|a p IH]; simpl; [reflexivity|].
  now rewrite Ascii.eqb_refl.
Qed.

Lemma strip_prefix_some (p s r : string) :
  Str.strip_prefix p s = Some r -> s = p ++ r.
Proof.
  revert s; induction p as [|a p IH]; simpl; intros s H.
  - now inversion H.
  - destruct s as [|b s]; [discriminate|].
    destruct (Ascii.eqb a b) eqn:E; [|discriminate].
    apply Ascii.eqb_eq in E; subst b. f_equal. now apply IH.
Qed.

Lemma span_all (f : ascii -> bool) (s : string) :
  Str.all_chars f (fst (Str.span f s)) = true.
Proof.
  induction s as [|c s IH]; simpl; [reflexivity|].
  destruct (f c) eqn:E; [|reflexivity].
  destruct (Str.span f s) as [a b]; simpl in *. now rewrite E.
Qed.

Lemma span_app (f : ascii -> bool) (s : string) :
  s = fst (Str.span f s) ++ snd (Str.span f s).
Proof.
  induction s as [|c s IH]; simpl; [reflexivity|].
  destruct (f c); [|reflexivity].
  destruct (Str.span f s) as [a b]; simpl in *. now f_equal.
Qed.

Lemma span_all_chars (f : ascii -> bool) (s t : string) :
  Str.all_chars f s = true ->
  Str.span f (s ++ t) = (s ++ fst (Str.span f t), snd (Str.span f t)).
Proof.
  induction s as [|c s IH]; simpl; intros H.
  - now destruct (Str.span f t).
  - apply andb_prop in H as [Hc Hs]. rewrite Hc, (IH Hs). reflexivity.
Qed.

Lemma digit_value_range (c : ascii) :
  Str.is_digit c = true -> 0 <= Str.digit_value c <= 9.
Proof.
  unfold Str.is_digit, Str.digit_value. intros H.
  apply andb_prop in H as [H1 H2].
  apply Nat.leb_le in H1. apply Nat.leb_le in H2. lia.
Qed.

Lemma int_of_digits_nonneg (s : string) : forall acc,
  Str.all_chars Str.is_digit s = true -> 0 <= acc ->
  0 <= Str.int_of_digits acc s.
Proof.
  induction s as [|c s IH]; cbn [Str.int_of_digits Str.all_chars];
    intros acc H Hacc; [assumption|].
  apply andb_prop in H as [Hc Hs]. apply IH; [assumption|].
  pose proof (digit_value_range c Hc). lia.
Qed.

(** ** Slot addressing *)

(** What [match_lun] accepts: the prefix, digits, and then the end of the
    string or one newline that ends it. *)
Lemma match_lun_some (device g : string) :
  match_lun device = Some g ->
  Str.all_chars Str.is_digit g = true /\ g <> "" /\
  (device = lun_prefix ++ g \/
   device = lun_prefix ++ g ++ String Str.newline "").
Proof.
  unfold match_lun.
  destruct (Str.strip_prefix lun_prefix device) as [rest|] eqn:P;
    [|discriminate].
  apply strip_prefix_some in P.
  pose proof (span_all Str.is_digit rest) as Hall.
  pose proof (span_app Str.is_digit rest) as Happ.
  destruct (Str.span Str.is_digit rest) as [digits tail]; simpl in *.
  destruct (negb (Str.is_empty digits) && Str.at_dollar tail)%bool eqn:E;
    [|discriminate].
  intros H; inversion H; subst g; clear H.
  apply andb_prop in E as [E1 E2].
  split; [assumption|]. split.
  - intros ->. discriminate.
  - destruct tail as [|c [|c' tail]]; simpl in E2; try discriminate.
    + left. rewrite P, Happ. now rewrite append_empty_r.
    + right. apply Ascii.eqb_eq in E2. subst c. now rewrite P, Happ.
Qed.

Lemma match_lun_digits (g : string) :
  Str.all_chars Str.is_digit g = true -> g <> "" ->
  match_lun (lun_prefix ++ g) = Some g.
Proof.
  intros Hd Hne. unfold match_lun. rewrite strip_prefix_app.
  rewrite <- (append_empty_r g) at 1.
  rewrite (span_all_chars _ _ "" Hd). simpl. rewrite append_empty_r.
  destruct g; [congruence|reflexivity].
Qed.

Lemma device_name_to_lun_digits (g : string) :
  Str.all_chars Str.is_digit g = true -> g <> "" ->
  device_name_to_lun (lun_prefix ++ g)
  = if Str.int g >? 31 then None else Some (Str.int g).
Proof.
  intros Hd Hne. unfold device_name_to_lun.
  now rewrite (match_lun_digits Hd Hne).
Qed.

Lemma device_name_to_lun_range (device : string) (n : Z) :
  device_name_to_lun device = Some n -> 0 <= n <= 31.
Proof.
  unfold device_name_to_lun.
  destruct (match_lun device) as [g|] eqn:E; [|discriminate].
  apply match_lun_some in E as (Hd & _ & _).
  destruct (Str.int g >? 31) eqn:C; [discriminate|].
  intros H; inversion H; subst n; clear H.
  split.
  - apply int_of_digits_nonneg; [assumption|lia].
  - rewrite Z.gtb_ltb in C. apply Z.ltb_ge in C. exact C.
Qed.

Lemma device_name_to_lun_root : device_name_to_lun root_device = None.
Proof. reflexivity. Qed.

Lemma round_trips_upto_31 :
  forallb round_trips (map Z.of_nat (seq 0 32)) = true.
Proof. vm_compute. reflexivity. Qed.

(** A slot in 0..31 is the slot of its own device path. *)
Lemma slot_round_trip (n : Z) :
  0 <= n <= 31 -> device_name_to_lun (lun_to_device_name n) = Some n.
Proof.
  intros Hn.
  pose proof round_trips_upto_31 as H.
  rewrite forallb_forall in H.
  specialize (H n).
  assert (In n (map Z.of_nat (seq 0 32))) as Hin.
  { rewrite <- (Z2Nat.id n) by lia. apply in_map. apply in_seq. lia. }
  specialize (H Hin). unfold round_trips in H.
  destruct (device_name_to_lun (lun_to_device_name n)) as [m|];
    [|discriminate].
  apply Z.eqb_eq in H. now subst.
Qed.

(** The path of a slot in 0..31 is the path of its own slot. *)
Lemma device_round_trip (n : Z) :
  0 <= n <= 31 ->
  option_map lun_to_device_name (device_name_to_lun (lun_to_device_name n))
  = Some (lun_to_device_name n).
Proof. intros Hn. now rewrite (slot_round_trip Hn). Qed.

(** A number above 31 is not a slot. *)
Lemma device_name_to_lun_above_31 (g : string) :
  Str.all_chars Str.is_digit g = true -> g <> "" -> 31 < Str.int g ->
  device_name_to_lun (lun_prefix ++ g) = None.
Proof.
  intros Hd Hne Hgt. rewrite (device_name_to_lun_digits Hd Hne).
  apply Z.gtb_lt in Hgt. now rewrite Hgt.
Qed.

(** A device that is given a slot is the prefix and digits, possibly with
    a newline after them. *)
Lemma device_name_to_lun_some (device : string) (n : Z) :
  device_name_to_lun device = Some n ->
  exists g, Str.all_chars Str.is_digit g = true /\ g <> "" /\
            Str.int g = n /\
            (device = lun_prefix ++ g \/
             device = lun_prefix ++ g ++ String Str.newline "").
Proof.
  unfold device_name_to_lun.
  destruct (match_lun device) as [g|] eqn:E; [|discriminate].
  apply match_lun_some in E as (Hd & Hne & Hs).
  destruct (Str.int g >? 31); [discriminate|].
  intros H; inversion H. exists g. auto.
Qed.

(** C10: on every string [device_name_to_lun] returns, without raising,
    either nothing or a slot between 0 and 31. *)
Theorem device_name_to_lun_total (device : string) :
  device_name_to_lun_call device = Ok (device_name_to_lun device) /\
  (device_name_to_lun device = None \/
   exists n, device_name_to_lun device = Some n /\ 0 <= n <= 31).
Proof.
  split.
  - unfold device_name_to_lun_call, device_name_to_lun.
    destruct (match_lun device) as [g|] eqn:E; [|reflexivity].
    apply match_lun_some in E as (Hd & Hne & _).
    assert (Str.is_empty g = false) as Hemp
      by (destruct g; [congruence|reflexivity]).
    unfold Str.int_checked. rewrite Hd, Hemp. cbn [negb andb].
    destruct (Str.int g >? 31); reflexivity.
  - destruct (device_name_to_lun device) as [n|] eqn:E; [right|now left].
    exists n. split; [reflexivity|]. eapply device_name_to_lun_range; eauto.
Qed.

(** C8: a device path with a newline after the number is given a slot,
    although it is not of the form [/dev/disk/by-lun/<N>]. *)
Theorem device_name_to_lun_trailing_newline :
  device_name_to_lun ("/dev/disk/by-lun/5" ++ String Str.newline "") = Some 5
  /\ "/dev/disk/by-lun/5" ++ String Str.newline "" <> lun_to_device_name 5.
Proof. split; [reflexivity|discriminate]. Qed.

(** ** Dictionaries and loops *)

Lemma for_each_ok (A : Type) (body : A -> outcome unit) (l : list A) :
  for_each l body = Ok tt -> forall x, In x l -> body x = Ok tt.
Proof.
  induction l as [|a l IH]; simpl; intros H x Hin; [contradiction|].
  destruct (body a) as [[]|e] eqn:E; [|discriminate].
  destruct Hin as [<-|Hin]; [assumption|]. now apply IH.
Qed.

Lemma for_each_raises (A : Type) (body : A -> outcome unit) (l : list A)
    (x : A) (e : exn) :
  In x l -> body x = Raise e -> exists e', for_each l body = Raise e'.
Proof.
  induction l as [|a l IH]; simpl; intros Hin Hx; [contradiction|].
  destruct (body a) as [u|e'] eqn:E; [|now exists e'].
  destruct Hin as [->|Hin]; [congruence|]. now apply IH.
Qed.

Lemma for_each_all_ok (A : Type) (body : A -> outcome unit) (l : list A) :
  (forall x, In x l -> body x = Ok tt) -> for_each l body = Ok tt.
Proof.
  induction l as [|a l IH]; simpl; intros H; [reflexivity|].
  rewrite (H a) by now left. apply IH. intros x Hx. apply H. now right.
Qed.

Lemma first_key_some (V : Type) (p : V -> bool) (d : Dict.t V) (k : string) :
  Dict.first_key p d = Some k -> exists v, In (k, v) d /\ p v = true.
Proof.
  induction d as [|[k' v'] d IH]; simpl; [discriminate|].
  destruct (p v') eqn:E.
  - intros H; inversion H; subst. exists v'. auto.
  - intros H. destruct (IH H) as (v & Hin & Hp). exists v. auto.
Qed.

Lemma first_key_none (V : Type) (p : V -> bool) (d : Dict.t V) :
  Dict.first_key p d = None -> forall k v, In (k, v) d -> p v = false.
Proof.
  induction d as [|[k' v'] d IH]; simpl; intros H k v Hin; [contradiction|].
  destruct (p v') eqn:E; [discriminate|].
  destruct Hin as [Heq|Hin]; [now inversion Heq; subst|]. eauto.
Qed.

Lemma get_in (V : Type) (d : Dict.t V) (k : string) (v : V) :
  Dict.get k d = Some v -> In (k, v) d.
Proof.
  induction d as [|[k' v'] d IH]; simpl; [discriminate|].
  destruct (String.eqb k' k) eqn:E.
  - apply String.eqb_eq in E. intros H; inversion H; subst. now left.
  - intros H. right. now apply IH.
Qed.

Lemma in_get (V : Type) (d : Dict.t V) (k : string) (v : V) :
  NoDup (Dict.keys d) -> In (k, v) d -> Dict.get k d = Some v.
Proof.
  induction d as [|[k' v'] d IH]; simpl; intros Hnd Hin; [contradiction|].
  inversion Hnd as [|? ? Hnotin Hnd']; subst.
  destruct Hin as [Heq|Hin].
  - inversion Heq; subst. now rewrite String.eqb_refl.
  - destruct (String.eqb k' k) eqn:E.
    + apply String.eqb_eq in E. subst k'. exfalso. apply Hnotin.
      change k with (fst (k, v)). now apply in_map.
    + now apply IH.
Qed.

Lemma get_none_notin (V : Type) (d : Dict.t V) (k : string) :
  Dict.get k d = None <-> ~ In k (Dict.keys d).
Proof.
  induction d as [|[k' v'] d IH]; simpl; [tauto|].
  destruct (String.eqb k' k) eqn:E.
  - apply String.eqb_eq in E. split; [discriminate|]. intros H. exfalso. auto.
  - apply String.eqb_neq in E. rewrite IH. tauto.
Qed.

Lemma set_fresh (V : Type) (d : Dict.t V) (k : string) (v : V) :
  ~ In k (Dict.keys d) -> Dict.set k v d = (d ++ [(k, v)])%list.
Proof.
  induction d as [|[k' v'] d IH]; simpl; intros H; [reflexivity|].
  destruct (String.eqb k' k) eqn:E.
  - apply String.eqb_eq in E. tauto.
  - f_equal. apply IH. tauto.
Qed.

(** ** Parsing the definition *)

Lemma nodup_length_le (l : list string) :
  (length (nodup string_dec l) <= length l)%nat.
Proof.
  induction l as [|a l IH]; simpl; [lia|].
  destruct (in_dec string_dec a l); simpl; lia.
Qed.

Lemma has_duplicates_false (l : list string) :
  has_duplicates l = false -> NoDup l.
Proof.
  unfold has_duplicates. intros H.
  apply negb_false_iff in H. apply Nat.eqb_eq in H.
  induction l as [|a l IH]; [constructor|].
  simpl in H. destruct (in_dec string_dec a l) as [Hin|Hnin].
  - pose proof (nodup_length_le l). lia.
  - simpl in H. constructor; [assumption|]. apply IH. lia.
Qed.

Lemma dict_of_devices_from (devices : list Disk.t) : forall acc : disk_map,
  NoDup (Dict.keys acc ++ map Disk.media_link devices) ->
  fold_left (fun m d => Dict.set (Disk.media_link d) d m) devices acc
  = (acc ++ map (fun d => (Disk.media_link d, d)) devices)%list.
Proof.
  induction devices as [|d devices IH]; simpl; intros acc Hnd.
  - now rewrite app_nil_r.
  - pose proof (NoDup_remove_2 _ _ _ Hnd) as Hfresh.
    rewrite set_fresh by (intros Hin; apply Hfresh; apply in_or_app; now left).
    rewrite IH.
    + now rewrite <- app_assoc.
    + unfold Dict.keys. rewrite map_app. simpl. rewrite <- app_assoc. simpl.
      exact Hnd.
Qed.

Lemma dict_of_devices_nodup (devices : list Disk.t) :
  NoDup (map Disk.media_link devices) ->
  dict_of_devices devices = map (fun d => (Disk.media_link d, d)) devices.
Proof.
  intros Hnd. unfold dict_of_devices.
  now rewrite dict_of_devices_from.
Qed.

(** The devices of the disks that are parsed are the attribute names. *)
Lemma parse_block_device_device (machine_name storage : string)
    (base : option string) (xml : Xml.BlockDevice) (d : Disk.t) :
  parse_block_device machine_name storage base xml = Ok d ->
  Disk.device d = Xml.attr_name xml.
Proof.
  unfold parse_block_device.
  match goal with
  | |- match ?m with _ => _ end = _ -> _ => destruct m as [media_link|]
  end; [|discriminate].
  destruct (Str.is_empty media_link); [discriminate|].
  destruct (parse_blob_url media_link); [|discriminate].
  destruct (String.eqb (Str.take 5 media_link) "http:"); [discriminate|].
  destruct (negb (String.eqb storage (blob_storage b))); [discriminate|].
  intros H; inversion H; reflexivity.
Qed.

Lemma map_e_devices (machine_name storage : string) (base : option string)
    (xmls : list Xml.BlockDevice) : forall devices,
  map_e (parse_block_device machine_name storage base) xmls = Ok devices ->
  map Disk.device devices = map Xml.attr_name xmls.
Proof.
  induction xmls as [|xml xmls IH]; simpl; intros devices H.
  - inversion H; reflexivity.
  - destruct (parse_block_device machine_name storage base xml) as [d|e] eqn:P;
      [|discriminate].
    destruct (map_e _ xmls) as [ds|e]; [|discriminate].
    inversion H; subst. simpl.
    rewrite (@parse_block_device_device _ _ _ _ _ P). f_equal. now apply IH.
Qed.

(** Among disks with distinct devices, at most one is at a given device. *)
Lemma one_at_device (device : string) (devices : list Disk.t) :
  NoDup (map Disk.device devices) ->
  (length (filter (fun d => String.eqb (Disk.device d) device) devices)
   <= 1)%nat.
Proof.
  induction devices as [|d devices IH]; simpl; intros Hnd; [lia|].
  inversion Hnd as [|? ? Hfresh Hnd']; subst.
  destruct (String.eqb (Disk.device d) device) eqn:E; [|now apply IH].
  apply String.eqb_eq in E. simpl.
  assert (filter (fun d => String.eqb (Disk.device d) device) devices = [])
    as ->; [|simpl; lia].
  destruct (filter _ devices) as [|d' rest] eqn:F; [reflexivity|].
  exfalso. apply Hfresh.
  assert (In d' (filter (fun d => String.eqb (Disk.device d) device) devices))
    as Hin by (rewrite F; now left).
  apply filter_In in Hin as (Hin & Hd). apply String.eqb_eq in Hd.
  rewrite E, <- Hd. now apply in_map.
Qed.

Lemma filter_is_root (devices : list Disk.t) :
  length (filter is_root (map (fun d => (Disk.media_link d, d)) devices))
  = length (filter (fun d => String.eqb (Disk.device d) root_device) devices).
Proof.
  induction devices as [|d devices IH]; simpl; [reflexivity|].
  unfold is_root at 1. simpl.
  destruct (String.eqb (Disk.device d) root_device); simpl; now rewrite IH.
Qed.

(** C9: a definition that parses has no two disks with the same BLOB
    address, only devices that are the root path or have a slot in
    0..31, and exactly one root disk: a description with no root disk is
    refused, and one with two would have two attributes of the same name
    in one attribute set. *)
Theorem AzureDefinition_init_ok (x : Xml.Machine) (defn : Defn.t) :
  Xml.distinct_names x ->
  AzureDefinition_init x = Ok defn ->
  exists devices,
    map_e (parse_block_device (Xml.machineName x) (Xml.storage x)
             (Xml.baseEphemeralDiskUrl x)) (Xml.blockDeviceMapping x)
    = Ok devices /\
    Defn.block_device_mapping defn
    = map (fun d => (Disk.media_link d, d)) devices /\
    NoDup (map Disk.media_link devices) /\
    (forall d, In d devices -> supported_device (Disk.device d)) /\
    (exists d, In d devices /\ Disk.device d = root_device) /\
    length (filter is_root (Defn.block_device_mapping defn)) = 1%nat.
Proof.
  unfold Xml.distinct_names, AzureDefinition_init. intros Hnames.
  destruct (map_e _ (Xml.blockDeviceMapping x)) as [devices|e] eqn:P;
    [|discriminate].
  destruct (has_duplicates (map Disk.media_link devices)) eqn:D;
    [discriminate|].
  apply has_duplicates_false in D.
  rewrite (dict_of_devices_nodup _ D).
  destruct (for_each _ (check_device (Xml.machineName x))) as [[]|e] eqn:F;
    [|discriminate].
  destruct (is_none (defn_find_root_disk _)) eqn:R; [discriminate|].
  intros H; inversion H; subst defn; clear H. simpl.
  assert (exists d, In d devices /\ Disk.device d = root_device) as Hroot.
  { unfold defn_find_root_disk in R.
    destruct (Dict.first_key _ _) as [k|] eqn:K; [|discriminate].
    apply first_key_some in K as (d & Hin & Hd).
    apply in_map_iff in Hin as (d' & Heq & Hin). inversion Heq; subst.
    exists d. split; [assumption|]. now apply String.eqb_eq. }
  exists devices.
  split; [reflexivity|]. split; [reflexivity|]. split; [assumption|].
  split; [|split; [exact Hroot|]].
  - intros d Hd.
    assert (In (Disk.media_link d, d)
               (map (fun d => (Disk.media_link d, d)) devices)) as Hin
      by (apply in_map_iff; eauto).
    pose proof (for_each_ok _ _ F _ Hin) as C.
    unfold check_device in C. simpl in C.
    destruct (String.eqb (Disk.device d) root_device) eqn:E.
    + left. now apply String.eqb_eq.
    + right. simpl in C.
      destruct (device_name_to_lun (Disk.device d)) as [n|] eqn:L;
        [|discriminate].
      exists n. split; [reflexivity|]. eapply device_name_to_lun_range; eauto.
  - rewrite filter_is_root.
    assert (NoDup (map Disk.device devices)) as Hdev
      by (rewrite (@map_e_devices _ _ _ _ _ P); exact Hnames).
    pose proof (@one_at_device root_device _ Hdev) as Hle.
    destruct Hroot as (d & Hin & Hd).
    assert (In d (filter (fun d => String.eqb (Disk.device d) root_device)
                         devices)) as Hf
      by (apply filter_In; split; [assumption|now apply String.eqb_eq]).
    destruct (filter _ devices) as [|a [|b rest]]; simpl in *;
      [contradiction|reflexivity|lia].
Qed.

Lemma AzureDefinition_init_ok_witness :
  exists devices,
    map_e (parse_block_device "m" "acct" None)
          (Xml.blockDeviceMapping Sample.xml_plain) = Ok devices /\
    [(Sample.root_link, Sample.disk "/dev/sda" "root" Sample.root_link None);
     (Sample.data_link,
      Sample.disk "/dev/disk/by-lun/0" "data" Sample.data_link None)]
    = map (fun d => (Disk.media_link d, d)) devices /\
    NoDup (map Disk.media_link devices) /\
    (forall d, In d devices -> supported_device (Disk.device d)) /\
    (exists d, In d devices /\ Disk.device d = root_device) /\
    length
      (filter is_root
         [(Sample.root_link,
           Sample.disk "/dev/sda" "root" Sample.root_link None);
          (Sample.data_link,
           Sample.disk "/dev/disk/by-lun/0" "data" Sample.data_link None)])
    = 1%nat.
Proof.
  apply (@AzureDefinition_init_ok Sample.xml_plain
           (Sample.machine
              [(Sample.root_link,
                Sample.disk "/dev/sda" "root" Sample.root_link None);
               (Sample.data_link,
                Sample.disk "/dev/disk/by-lun/0" "data" Sample.data_link
                            None)])).
  - unfold Xml.distinct_names. simpl. nodup_strings.
  - vm_compute. reflexivity.
Defined.

(** ** The legality checker *)

Lemma first_key_get (V : Type) (p : V -> bool) (d : Dict.t V) (k : string) :
  Dict.first_key p d = Some k -> exists v, Dict.get k d = Some v.
Proof.
  induction d as [|[k' v'] d IH]; simpl; [discriminate|].
  destruct (String.eqb k' k) eqn:E; [eauto|].
  destruct (p v').
  - intros H; inversion H; subst. now rewrite String.eqb_refl in E.
  - exact IH.
Qed.

Lemma for_each_raise_inv (A : Type) (body : A -> outcome unit) (l : list A)
    (e : exn) :
  for_each l body = Raise e -> exists x, In x l /\ body x = Raise e.
Proof.
  induction l as [|a l IH]; simpl; [discriminate|].
  destruct (body a) as [u|e'] eqn:E.
  - intros H. destruct (IH H) as (x & Hin & Hx). eauto.
  - intros H; inversion H; subst. eauto.
Qed.

(** The checker raises nothing but its three errors. *)
Lemma check_disk_change_illegal (mapping : disk_map)
    (entry : string * Disk.t) (e : exn) :
  check_disk_change mapping entry = Raise e -> illegal_transition e = true.
Proof.
  destruct entry as [d_id disk]. unfold check_disk_change, bind_e.
  destruct (Dict.first_key _ mapping) as [occupant|] eqn:K.
  - destruct (first_key_get _ _ K) as (occupying & G). rewrite G.
    repeat match goal with
           | |- context [if ?b then _ else _] => destruct b
           | |- context [Dict.get d_id mapping] =>
               destruct (Dict.get d_id mapping)
           end;
      intros H; inversion H; reflexivity.
  - repeat match goal with
           | |- context [if ?b then _ else _] => destruct b
           | |- context [Dict.get d_id mapping] =>
               destruct (Dict.get d_id mapping)
           end;
      intros H; inversion H; reflexivity.
Qed.

Lemma _assert_no_impossible_disk_changes_illegal (self : State.t)
    (defn : Defn.t) (e : exn) :
  _assert_no_impossible_disk_changes self defn = Raise e ->
  illegal_transition e = true.
Proof.
  unfold _assert_no_impossible_disk_changes.
  destruct (is_none (State.vm_id self)); [discriminate|].
  intros H. apply for_each_raise_inv in H as (x & _ & Hx).
  eapply check_disk_change_illegal; eauto.
Qed.

(** Once one disk of the definition is refused, the checker raises. *)
Lemma checker_rejects (w : World) (defn : Defn.t) (entry : string * Disk.t)
    (e : exn) :
  State.vm_id (st w) <> None ->
  In entry (Defn.block_device_mapping defn) ->
  check_disk_change (State.block_device_mapping (st w)) entry = Raise e ->
  exists e', assert_no_impossible_disk_changes defn w = (Raise e', w) /\
             illegal_transition e' = true.
Proof.
  intros Hvm Hin He.
  unfold assert_no_impossible_disk_changes.
  destruct (for_each_raises _ _ _ Hin He) as (e' & He').
  assert (_assert_no_impossible_disk_changes (st w) defn = Raise e') as R.
  { unfold _assert_no_impossible_disk_changes.
    destruct (State.vm_id (st w)); [exact He'|congruence]. }
  exists e'. rewrite R. split; [reflexivity|].
  eapply _assert_no_impossible_disk_changes_illegal; eauto.
Qed.

(** The collisions that the checker finds: with a virtual machine
    recorded, a definition that puts a disk at the device path of another
    recorded disk that is not marked [needs_attach] is refused with one
    of the errors of the checker, the world being left as it was; the
    refusal of that disk names it, the device and the occupant.  The
    device path is here the path [lun_to_device_name] writes for the
    slot. *)
Theorem slot_collision_rejected (w : World) (defn : Defn.t)
    (d_id : string) (disk : Disk.t) (n : Z)
    (occupant : string) (occupying : Disk.t) :
  State.vm_id (st w) <> None ->
  In (d_id, disk) (Defn.block_device_mapping defn) ->
  0 <= n <= 31 ->
  Disk.device disk = lun_to_device_name n ->
  Dict.first_key
    (fun _d => String.eqb (Disk.device _d) (lun_to_device_name n))
    (State.block_device_mapping (st w)) = Some occupant ->
  Dict.get occupant (State.block_device_mapping (st w)) = Some occupying ->
  occupant <> d_id ->
  Disk.get_needs_attach occupying = false ->
  check_disk_change (State.block_device_mapping (st w)) (d_id, disk)
  = Raise (LunOccupied (Disk.name disk) (Disk.media_link disk)
                       (lun_to_device_name n) occupant) /\
  exists e, assert_no_impossible_disk_changes defn w = (Raise e, w) /\
            illegal_transition e = true.
Proof.
  intros Hvm Hin Hn Hdev Hkey Hget Hneq Hfree.
  assert (check_disk_change (State.block_device_mapping (st w)) (d_id, disk)
          = Raise (LunOccupied (Disk.name disk) (Disk.media_link disk)
                               (lun_to_device_name n) occupant)) as Hc.
  { unfold check_disk_change, bind_e. rewrite Hdev, Hkey.
    rewrite (slot_round_trip Hn). simpl is_none.
    apply String.eqb_neq in Hneq. rewrite Hneq, Hget, Hfree. reflexivity. }
  split; [exact Hc|]. eapply checker_rejects; eauto.
Qed.

Lemma slot_collision_rejected_witness :
  let w := SampleWorld.world
             (SampleWorld.state
                [(Sample.root_link,
                  Sample.disk "/dev/sda" "root" Sample.root_link None);
                 (Sample.data_link,
                  Sample.disk "/dev/disk/by-lun/0" "data" Sample.data_link
                              None)] [] (Some "m"))
             (Some (SampleWorld.machine "root"
                      [SampleWorld.data_disk "data" Sample.data_link 0]))
             SampleWorld.yes in
  let defn := Sample.machine
                [(Sample.root_link,
                  Sample.disk "/dev/sda" "root" Sample.root_link None);
                 (Sample.more_link,
                  Sample.disk "/dev/disk/by-lun/0" "more" Sample.more_link
                              None)] in
  check_disk_change (State.block_device_mapping (st w))
    (Sample.more_link,
     Sample.disk "/dev/disk/by-lun/0" "more" Sample.more_link None)
  = Raise (LunOccupied "more" Sample.more_link (lun_to_device_name 0)
                       Sample.data_link) /\
  exists e, assert_no_impossible_disk_changes defn w = (Raise e, w) /\
            illegal_transition e = true.
Proof.
  intros w defn.
  apply (@slot_collision_rejected w defn Sample.more_link
           (Sample.disk "/dev/disk/by-lun/0" "more" Sample.more_link None) 0
           Sample.data_link
           (Sample.disk "/dev/disk/by-lun/0" "data" Sample.data_link None)).
  - discriminate.
  - simpl. right. left. reflexivity.
  - lia.
  - reflexivity.
  - reflexivity.
  - reflexivity.
  - discriminate.
  - reflexivity.
Defined.

(** C1: the checker does not refuse every collision at a slot.  It
    looks for the occupant of the slot by the device path as it is
    written, so a disk at [/dev/disk/by-lun/01] is not found to collide
    with another disk that is attached at [/dev/disk/by-lun/1], although
    both paths are slot 1: the definition parses, the checker accepts it
    for the machine that is recorded, and [create] goes on to send a
    machine with both disks at slot 1. *)
Theorem slot_collision_leading_zero :
  let w := SampleSlot.occupied in
  let defn := SampleSlot.leading_zero in
  AzureDefinition_init SampleSlot.xml_leading_zero = Ok defn /\
  State.vm_id (st w) <> None /\
  Dict.get Sample.data_link (State.block_device_mapping (st w))
  = Some (Sample.disk "/dev/disk/by-lun/1" "data" Sample.data_link None) /\
  Dict.get Sample.more_link (Defn.block_device_mapping defn)
  = Some (Sample.disk "/dev/disk/by-lun/01" "more" Sample.more_link None) /\
  device_name_to_lun "/dev/disk/by-lun/1" = Some 1 /\
  device_name_to_lun "/dev/disk/by-lun/01" = Some 1 /\
  assert_no_impossible_disk_changes defn w = (Ok tt, w) /\
  exists w' vm,
    create defn false false false w = (Ok tt, w') /\
    Azure.vm (remote w') = Some vm /\
    map (fun d => (Azure.dd_uri d, Azure.dd_lun d)) (Azure.data_disks vm)
    = [(Sample.data_link, 1); (Sample.more_link, 1)].
Proof.
  intros w defn.
  split; [vm_compute; reflexivity|]. split; [discriminate|].
  split; [reflexivity|]. split; [reflexivity|].
  split; [reflexivity|]. split; [reflexivity|].
  split; [vm_compute; reflexivity|].
  eexists. eexists. split; [vm_compute; reflexivity|].
  split; reflexivity.
Qed.

(** ** Key generation *)

Lemma get_set_same (V : Type) (d : Dict.t V) (k : string) (v : V) :
  Dict.get k (Dict.set k v d) = Some v.
Proof.
  induction d as [|[k' v'] d IH]; simpl.
  - now rewrite String.eqb_refl.
  - destruct (String.eqb k' k) eqn:E; simpl; now rewrite E.
Qed.

Lemma get_set_other (V : Type) (d : Dict.t V) (k k' : string) (v : V) :
  k <> k' -> Dict.get k (Dict.set k' v d) = Dict.get k d.
Proof.
  intros Hne. induction d as [|[k0 v0] d IH]; simpl.
  - destruct (String.eqb k' k) eqn:E; [|reflexivity].
    apply String.eqb_eq in E. congruence.
  - destruct (String.eqb k0 k') eqn:E; simpl.
    + apply String.eqb_eq in E. subst k0.
      destruct (String.eqb k' k) eqn:E'; [|reflexivity].
      apply String.eqb_eq in E'. congruence.
    + destruct (String.eqb k0 k); [reflexivity|exact IH].
Qed.

Lemma generate_key_run (entry : string * Disk.t) (w : World) :
  generate_key entry w = (Ok tt, after_generate_key entry w).
Proof.
  destruct entry as [d_id disk].
  unfold generate_key, after_generate_key, wants_key, bind, read. simpl.
  destruct (Disk.encrypt disk && _)%bool; reflexivity.
Qed.

Lemma for_m_generate_key (l : disk_map) : forall w,
  for_m l generate_key w
  = (Ok tt, fold_left (fun w e => after_generate_key e w) l w).
Proof.
  induction l as [|e l IH]; intros w; simpl; [reflexivity|].
  unfold bind. rewrite generate_key_run. apply IH.
Qed.

Lemma after_generate_key_mapping (entry : string * Disk.t) (w : World) :
  State.block_device_mapping (st (after_generate_key entry w))
  = State.block_device_mapping (st w).
Proof. unfold after_generate_key. now destruct (wants_key _ entry). Qed.

Lemma after_generate_key_keeps (entry : string * Disk.t) (w : World)
    (k key : string) :
  Dict.get k (State.generated_encryption_keys (st w)) = Some key ->
  Dict.get k (State.generated_encryption_keys (st (after_generate_key entry w)))
  = Some key.
Proof.
  intros H. unfold after_generate_key.
  destruct (wants_key _ entry) eqn:W; [|assumption].
  simpl. rewrite get_set_other; [assumption|].
  intros Heq. subst k. unfold wants_key in W.
  apply andb_prop in W as [_ W]. apply andb_prop in W as [_ W].
  rewrite H in W. discriminate.
Qed.

Lemma after_generate_key_stores (entry : string * Disk.t) (w : World) :
  Disk.encrypt (snd entry) = true -> Disk.passphrase (snd entry) = "" ->
  exists key,
    Dict.get (fst entry)
      (State.generated_encryption_keys (st (after_generate_key entry w)))
    = Some key.
Proof.
  intros He Hp. unfold after_generate_key.
  destruct (wants_key _ entry) eqn:W.
  - simpl. rewrite get_set_same. eauto.
  - unfold wants_key in W. rewrite He, Hp in W. simpl in W.
    destruct (Dict.get (fst entry) _) as [key|]; [eauto|discriminate].
Qed.

Lemma generate_keys_keeps (l : disk_map) (k key : string) : forall w,
  Dict.get k (State.generated_encryption_keys (st w)) = Some key ->
  Dict.get k (State.generated_encryption_keys
                (st (fold_left (fun w e => after_generate_key e w) l w)))
  = Some key.
Proof.
  induction l as [|e l IH]; intros w H; simpl; [assumption|].
  apply IH. now apply after_generate_key_keeps.
Qed.

Lemma generate_keys_mapping (l : disk_map) : forall w,
  State.block_device_mapping
    (st (fold_left (fun w e => after_generate_key e w) l w))
  = State.block_device_mapping (st w).
Proof.
  induction l as [|e l IH]; intros w; simpl; [reflexivity|].
  rewrite IH. apply after_generate_key_mapping.
Qed.

Lemma generate_keys_stores (l : disk_map) (entry : string * Disk.t) :
  forall w,
  In entry l ->
  Disk.encrypt (snd entry) = true -> Disk.passphrase (snd entry) = "" ->
  exists key,
    Dict.get (fst entry)
      (State.generated_encryption_keys
         (st (fold_left (fun w e => after_generate_key e w) l w)))
    = Some key.
Proof.
  induction l as [|e l IH]; intros w Hin He Hp; simpl; [contradiction|].
  destruct Hin as [->|Hin].
  - destruct (after_generate_key_stores entry w He Hp) as (key & Hk).
    exists key. now apply generate_keys_keeps.
  - now apply IH.
Qed.

Lemma generate_keys_nothing_to_do (l : disk_map) (w : World) :
  (forall e, In e l ->
             wants_key (State.generated_encryption_keys (st w)) e = false) ->
  fold_left (fun w e => after_generate_key e w) l w = w.
Proof.
  induction l as [|e l IH]; intros H; simpl; [reflexivity|].
  assert (after_generate_key e w = w) as ->.
  { unfold after_generate_key. rewrite H; [reflexivity|now left]. }
  apply IH. intros e' He'. apply H. now right.
Qed.

(** C7: the generation of keys never raises, leaves every key that is
    recorded as it is, records a key for every disk that is to be
    encrypted without a passphrase, and run again it changes nothing, not
    even by drawing from the random generator. *)
Theorem generate_keys_once (w : World) :
  exists w1,
    _generate_default_encryption_keys w = (Ok tt, w1) /\
    (forall d_id key,
        Dict.get d_id (State.generated_encryption_keys (st w)) = Some key ->
        Dict.get d_id (State.generated_encryption_keys (st w1)) = Some key) /\
    (forall d_id disk,
        In (d_id, disk) (State.block_device_mapping (st w)) ->
        Disk.encrypt disk = true -> Disk.passphrase disk = "" ->
        exists key,
          Dict.get d_id (State.generated_encryption_keys (st w1)) = Some key) /\
    _generate_default_encryption_keys w1 = (Ok tt, w1).
Proof.
  unfold _generate_default_encryption_keys, bind, read.
  rewrite for_m_generate_key.
  set (w1 := fold_left _ (State.block_device_mapping (st w)) w).
  exists w1. split; [reflexivity|]. split; [|split].
  - intros d_id key H. now apply generate_keys_keeps.
  - intros d_id disk Hin He Hp.
    apply (generate_keys_stores _ (d_id, disk) w Hin He Hp).
  - rewrite for_m_generate_key. f_equal.
    apply generate_keys_nothing_to_do.
    intros [d_id disk] Hin. unfold wants_key. simpl.
    destruct (Disk.encrypt disk) eqn:He; [|reflexivity].
    destruct (String.eqb (Disk.passphrase disk) "") eqn:Hp; [|reflexivity].
    apply String.eqb_eq in Hp.
    unfold w1 in Hin. rewrite generate_keys_mapping in Hin.
    destruct (generate_keys_stores _ (d_id, disk) w Hin He Hp) as (key & Hk).
    simpl in Hk. fold w1 in Hk. rewrite Hk. reflexivity.
Qed.

Lemma generate_keys_once_witness :
  let w := SampleWorld.world
             (SampleWorld.state
                [(Sample.data_link,
                  Disk.mk "data" "/dev/disk/by-lun/0" Sample.data_link None
                          false "None" true "" None)]
                [(Sample.data_link, "stored")] (Some "m"))
             None SampleWorld.yes in
  exists w1,
    _generate_default_encryption_keys w = (Ok tt, w1) /\
    (forall d_id key,
        Dict.get d_id (State.generated_encryption_keys (st w)) = Some key ->
        Dict.get d_id (State.generated_encryption_keys (st w1)) = Some key) /\
    (forall d_id disk,
        In (d_id, disk) (State.block_device_mapping (st w)) ->
        Disk.encrypt disk = true -> Disk.passphrase disk = "" ->
        exists key,
          Dict.get d_id (State.generated_encryption_keys (st w1)) = Some key) /\
    _generate_default_encryption_keys w1 = (Ok tt, w1).
Proof. intros w. apply (generate_keys_once w). Defined.

(** ** The machine is gone: [_node_deleted] *)

Local Open Scope list_scope.

Lemma set_middle (V : Type) (pre suf : Dict.t V) (k : string) (v v' : V) :
  ~ In k (Dict.keys pre) ->
  Dict.set k v' (pre ++ (k, v) :: suf) = (pre ++ (k, v') :: suf)%list.
Proof.
  induction pre as [|[k0 v0] pre IH]; simpl; intros H.
  - now rewrite String.eqb_refl.
  - destruct (String.eqb k0 k) eqn:E.
    + apply String.eqb_eq in E. tauto.
    + f_equal. apply IH. tauto.
Qed.

Lemma mark_all (suf : disk_map) : forall (pre : disk_map) (w : World),
  State.block_device_mapping (st w) = (pre ++ suf)%list ->
  NoDup (Dict.keys (pre ++ suf)) ->
  for_m suf mark_needs_attach w
  = (Ok tt,
     set_st (State.set_block_device_mapping (pre ++ map mark suf) (st w)) w).
Proof.
  induction suf as [|[k d] suf IH]; intros pre w Hm Hnd; simpl.
  - rewrite app_nil_r in *. unfold ret.
    destruct w as [s r o rnd dr t]; destruct s; simpl in *; now subst.
  - unfold bind. unfold mark_needs_attach at 1.
    unfold update_block_device_mapping, write.
    assert (~ In k (Dict.keys pre)) as Hfresh.
    { unfold Dict.keys in Hnd. rewrite map_app in Hnd. simpl in Hnd.
      apply NoDup_remove_2 in Hnd. intros Hin. apply Hnd.
      apply in_or_app. now left. }
    rewrite Hm. rewrite set_middle by exact Hfresh.
    rewrite (IH (pre ++ [(k, Disk.set_needs_attach true d)])%list).
    + simpl. rewrite <- app_assoc. reflexivity.
    + simpl. now rewrite <- app_assoc.
    + rewrite <- app_assoc. simpl.
      unfold Dict.keys in *. rewrite map_app in *. exact Hnd.
Qed.

Lemma node_deleted_run (w : World) :
  NoDup (Dict.keys (State.block_device_mapping (st w))) ->
  exists w',
    _node_deleted w = (Ok tt, w') /\
    State.vm_id (st w') = None /\
    State.public_ipv4 (st w') = None /\
    State.state (st w') = STOPPED /\
    State.block_device_mapping (st w')
    = map mark (State.block_device_mapping (st w)) /\
    State.generated_encryption_keys (st w')
    = State.generated_encryption_keys (st w) /\
    State.public_ip (st w') = State.public_ip (st w) /\
    State.network_interface (st w') = State.network_interface (st w) /\
    remote w' = remote w /\
    mutations w' = mutations w.
Proof.
  intros Hnd. unfold _node_deleted.
  unfold bind at 1. unfold write at 1. cbn [fst snd].
  unfold bind at 1. unfold write at 1.
  unfold bind at 1. unfold read at 1.
  unfold bind at 1.
  rewrite (mark_all _ []) by (simpl; first [reflexivity|assumption]).
  simpl app.
  unfold bind, read, write, when, emit, ret, mutations. simpl.
  destruct (truthy (State.public_ipv4 (st w)) &&
            truthy (State.public_host_key (st w)))%bool; simpl;
    eexists; repeat split.
Qed.

(** C5: when the check pass finds no virtual machine although one is
    recorded, and re-creation is allowed, it ends with every disk record
    marked [needs_attach], no machine recorded and no public address
    recorded. *)
Theorem deleted_behind_our_back (w : World) :
  Azure.vm (remote w) = None ->
  truthy (State.vm_id (st w)) = true ->
  NoDup (Dict.keys (State.block_device_mapping (st w))) ->
  exists w',
    check_pass true w = (Ok tt, w') /\
    State.vm_id (st w') = None /\
    State.public_ipv4 (st w') = None /\
    State.block_device_mapping (st w')
    = map mark (State.block_device_mapping (st w)) /\
    (forall d_id disk,
        In (d_id, disk) (State.block_device_mapping (st w')) ->
        Disk.needs_attach disk = Some true).
Proof.
  intros Hvm Hid Hnd.
  unfold check_pass, get_settled_resource, get_resource, except_missing.
  unfold bind at 1. unfold bind at 1. unfold virtual_machines_get.
  unfold bind at 1. unfold api, emit at 1. unfold bind at 1.
  unfold the_remote at 1. cbn [remote]. rewrite Hvm.
  unfold raise at 1. unfold ret at 1.
  unfold bind at 1. unfold read at 1. cbn [st]. rewrite Hid.
  unfold when. unfold bind at 1. unfold warn, emit at 1.
  unfold bind at 1. cbn [negb]. unfold ret at 1.
  match goal with
  | |- context [_node_deleted ?w0] =>
      destruct (@node_deleted_run w0 Hnd)
        as (w' & Hrun & H1 & H2 & _ & H4 & _)
  end.
  exists w'. rewrite Hrun. repeat split; try assumption.
  intros d_id disk Hin. cbn [st] in H4. rewrite H4 in Hin.
  apply in_map_iff in Hin as ([k d] & Heq & _).
  unfold mark in Heq. inversion Heq. reflexivity.
Qed.

Lemma deleted_behind_our_back_witness :
  let w := SampleWorld.world
             (SampleWorld.state SampleDestroy.mapping [] (Some "m"))
             None SampleWorld.yes in
  exists w',
    check_pass true w = (Ok tt, w') /\
    State.vm_id (st w') = None /\
    State.public_ipv4 (st w') = None /\
    State.block_device_mapping (st w')
    = map mark (State.block_device_mapping (st w)) /\
    (forall d_id disk,
        In (d_id, disk) (State.block_device_mapping (st w')) ->
        Disk.needs_attach disk = Some true).
Proof.
  intros w. apply (@deleted_behind_our_back w).
  - reflexivity.
  - reflexivity.
  - simpl. nodup_strings.
Defined.

(** ** [destroy] *)

Lemma bind_ok (A B : Type) (c : M A) (k : A -> M B) (w w' : World) (b : B) :
  bind c k w = (Ok b, w') ->
  exists a w1, c w = (Ok a, w1) /\ k a w1 = (Ok b, w').
Proof.
  unfold bind. destruct (c w) as [[a|e] w1]; [eauto|discriminate].
Qed.

Lemma bind_raise (A B : Type) (c : M A) (k : A -> M B) (w w' : World)
    (e : exn) :
  bind c k w = (Raise e, w') ->
  c w = (Raise e, w') \/
  exists a w1, c w = (Ok a, w1) /\ k a w1 = (Raise e, w').
Proof.
  unfold bind. destruct (c w) as [[a|e'] w1]; [eauto|].
  intros H. left. inversion H. reflexivity.
Qed.

Lemma confirm_losing_keys_ok (w w' : World) :
  confirm_losing_keys w = (Ok tt, w') ->
  State.generated_encryption_keys (st w')
  = State.generated_encryption_keys (st w) /\
  (State.generated_encryption_keys (st w') = [] \/
   operator w' (AskDeleteEncryptionKeys
                  (Dict.keys (State.generated_encryption_keys (st w'))))
   = true).
Proof.
  unfold confirm_losing_keys, bind, read, confirm, ret, raise.
  destruct (State.generated_encryption_keys (st w)) as [|k ks] eqn:K; simpl.
  - intros H; inversion H; subst. rewrite K. auto.
  - destruct (operator w _) eqn:O; [|discriminate].
    intros H; inversion H; subst; simpl. rewrite K. auto.
Qed.

Lemma confirm_losing_keys_declined (w : World) :
  State.generated_encryption_keys (st w) <> [] ->
  operator w (AskDeleteEncryptionKeys
                (Dict.keys (State.generated_encryption_keys (st w))))
  = false ->
  exists w', confirm_losing_keys w = (Raise CannotContinue, w').
Proof.
  unfold confirm_losing_keys, bind, read, confirm, ret, raise.
  destruct (State.generated_encryption_keys (st w)) as [|k ks] eqn:K;
    [congruence|]. simpl. intros _ O. rewrite O. eauto.
Qed.

Lemma destroy_rest_ok (w w' : World) (b : bool) :
  destroy_rest w = (Ok b, w') ->
  b = true /\
  (State.generated_encryption_keys (st w') = [] \/
   operator w' (AskDeleteEncryptionKeys
                  (Dict.keys (State.generated_encryption_keys (st w'))))
   = true).
Proof.
  unfold destroy_rest. intros H.
  apply bind_ok in H as ([] & w1 & _ & H).
  apply bind_ok in H as ([] & w2 & Hc & H).
  unfold ret in H. inversion H; subst.
  split; [reflexivity|]. now apply confirm_losing_keys_ok in Hc.
Qed.

Lemma destroy_cases (wipe : bool) (w : World) :
  let w0 := if wipe
            then mkWorld (st w) (remote w) (operator w) (random w) (draws w)
                         (Warn WipeNotSupported :: trace w)
            else w in
  let asked := mkWorld (st w) (remote w) (operator w) (random w) (draws w)
                 (Asked AskDestroyMachine (operator w AskDestroyMachine)
                  :: Api Azure.virtual_machines_get :: trace w0) in
  (machine_destruction_declined w /\ destroy wipe w = (Ok false, asked)) \/
  (~ machine_destruction_declined w /\
   exists w1, destroy wipe w = destroy_rest w1).
Proof.
  intros w0 asked. subst w0 asked. unfold machine_destruction_declined.
  unfold destroy, get_resource, virtual_machines_get, destroy_resource,
    virtual_machines_delete.
  destruct wipe; mrun;
    (destruct (truthy (State.vm_id (st w))) eqn:T;
     [|right; split; [intros (H & _); discriminate|eexists; reflexivity]]);
    mrun;
    (destruct (Azure.vm (remote w)) as [v|] eqn:V;
     [|right; split; [intros (_ & H & _); congruence|eexists; reflexivity]]);
    mrun;
    (destruct (operator w AskDestroyMachine) eqn:O;
     [right; split; [intros (_ & _ & H); congruence|eexists; reflexivity]
     |left; split; [repeat split; congruence|reflexivity]]).
Qed.

(** C6, as amended: [destroy] answers [False] exactly when the operator
    declines the destruction of the machine, and then nothing was changed,
    remotely or in the record; it answers [True] only if the operator did
    not decline the question about the generated keys that are left,
    because declining that question raises "cannot continue". *)
Theorem destroy_not_completed (wipe : bool) (w : World) :
  (forall w', destroy wipe w = (Ok false, w') ->
              machine_destruction_declined w /\
              st w' = st w /\ remote w' = remote w /\
              mutations w' = mutations w) /\
  (machine_destruction_declined w ->
   exists w', destroy wipe w = (Ok false, w')) /\
  (forall w', destroy wipe w = (Ok true, w') ->
              State.generated_encryption_keys (st w') = [] \/
              operator w' (AskDeleteEncryptionKeys
                             (Dict.keys
                                (State.generated_encryption_keys (st w'))))
              = true) /\
  (forall w0,
      State.generated_encryption_keys (st w0) <> [] ->
      operator w0 (AskDeleteEncryptionKeys
                     (Dict.keys (State.generated_encryption_keys (st w0))))
      = false ->
      exists w', confirm_losing_keys w0 = (Raise CannotContinue, w')).
Proof.
  destruct (destroy_cases wipe w) as [(Hd & Hrun)|(Hn & w1 & Hrun)];
    rewrite Hrun; repeat split.
  - exact (proj1 Hd).
  - exact (proj1 (proj2 Hd)).
  - exact (proj2 (proj2 Hd)).
  - now inversion H.
  - now inversion H.
  - inversion H. unfold mutations. simpl. now destruct wipe.
  - eauto.
  - intros w' H. discriminate.
  - intros w0. apply confirm_losing_keys_declined.
  - apply destroy_rest_ok in H as [? _]. discriminate.
  - apply destroy_rest_ok in H as [? _]. discriminate.
  - apply destroy_rest_ok in H as [? _]. discriminate.
  - apply destroy_rest_ok in H as [? _]. discriminate.
  - apply destroy_rest_ok in H as [? _]. discriminate.
  - apply destroy_rest_ok in H as [? _]. discriminate.
  - tauto.
  - intros w' H. now apply destroy_rest_ok in H as [_ ?].
  - intros w0. apply confirm_losing_keys_declined.
Qed.

Lemma destroy_not_completed_witness :
  exists w',
    destroy false (SampleDestroy.deployed SampleWorld.no) = (Ok false, w') /\
    st w' = st (SampleDestroy.deployed SampleWorld.no) /\
    mutations w' = [].
Proof.
  destruct (destroy_not_completed false (SampleDestroy.deployed SampleWorld.no))
    as (H1 & H2 & _).
  destruct H2 as [w' Hw'].
  - split; [reflexivity|split; [discriminate|reflexivity]].
  - exists w'. split; [exact Hw'|].
    destruct (H1 w' Hw') as (_ & Hst & _ & Hm). split; [exact Hst|exact Hm].
Defined.

(** C6, as stated, fails: the operator agrees to the destruction of the
    machine and declines to lose the generated keys; [destroy] raises,
    after the machine was deleted. *)
Lemma destroy_declined_keys_raises :
  exists w',
    destroy false (SampleDestroy.deployed SampleDestroy.keeps_keys)
    = (Raise CannotContinue, w') /\
    In (Asked (AskDeleteEncryptionKeys [Sample.data_link]) false) (trace w') /\
    In (Api Azure.virtual_machines_delete) (mutations w').
Proof.
  eexists. split; [vm_compute; reflexivity|]. split.
  - simpl. left. reflexivity.
  - vm_compute. tauto.
Qed.

(** ** [create] and the legality checker *)

Lemma untouched_refl (w : World) : untouched w w.
Proof. repeat split. Qed.

Lemma untouched_trans (w w1 w2 : World) :
  untouched w w1 -> untouched w1 w2 -> untouched w w2.
Proof.
  intros (A1 & A2 & A3 & A4) (B1 & B2 & B3 & B4).
  repeat split; congruence.
Qed.

Lemma quiet_ret (A : Type) (a : A) : leaves_untouched (ret a).
Proof. intros w r w1 H. inversion H. apply untouched_refl. Qed.

Lemma quiet_raise (A : Type) (e : exn) : leaves_untouched (@raise A e).
Proof. intros w r w1 H. inversion H. apply untouched_refl. Qed.

Lemma quiet_read (A : Type) (f : State.t -> A) : leaves_untouched (read f).
Proof. intros w r w1 H. inversion H. apply untouched_refl. Qed.

Lemma quiet_bind (A B : Type) (c : M A) (k : A -> M B) :
  leaves_untouched c -> (forall a, leaves_untouched (k a)) ->
  leaves_untouched (bind c k).
Proof.
  intros Hc Hk w r w1. unfold bind.
  destruct (c w) as [[a|e] w0] eqn:E.
  - intros H. eapply untouched_trans; [eapply Hc; eauto|eapply Hk; eauto].
  - intros H. inversion H; subst. eapply Hc; eauto.
Qed.

Lemma quiet_when (b : bool) (c : M unit) :
  leaves_untouched c -> leaves_untouched (when b c).
Proof. intros H. destruct b; [exact H|apply quiet_ret]. Qed.

Lemma quiet_write (f : State.t -> State.t) :
  (forall s, State.block_device_mapping (f s) = State.block_device_mapping s) ->
  (forall s, State.vm_id (f s) = State.vm_id s) ->
  leaves_untouched (write f).
Proof.
  intros H1 H2 w r w1 H. inversion H; subst.
  repeat split; simpl; auto.
Qed.

Lemma quiet_generate_random_string : leaves_untouched generate_random_string.
Proof. intros w r w1 H. inversion H; subst. repeat split. Qed.

Lemma quiet_no_property_change (get : State.t -> option string)
    (wanted name : string) :
  leaves_untouched (no_property_change get wanted name).
Proof.
  unfold no_property_change, no_change.
  apply quiet_bind; [apply quiet_read|]. intros recorded.
  apply quiet_bind; [apply quiet_read|]. intros state.
  destruct (_ && _)%bool; [apply quiet_raise|apply quiet_ret].
Qed.

Lemma quiet_create_key_pair : leaves_untouched create_key_pair.
Proof.
  unfold create_key_pair.
  repeat (apply quiet_bind; [apply quiet_generate_random_string|intros ?]).
  apply quiet_ret.
Qed.

(** Without the check pass, [create] does nothing up to the legality
    checker but record who the machine is. *)
Lemma quiet_create_prologue (defn : Defn.t) (allow_reboot allow_recreate : bool) :
  leaves_untouched (create_prologue defn false allow_reboot allow_recreate).
Proof.
  unfold create_prologue.
  repeat (apply quiet_bind; [apply quiet_no_property_change|intros _]).
  repeat (apply quiet_bind; [apply quiet_write; reflexivity|intros _]).
  apply quiet_bind; [apply quiet_read|intros ?].
  apply quiet_bind.
  { apply quiet_when. apply quiet_bind; [apply quiet_create_key_pair|].
    intros ?. apply quiet_write; reflexivity. }
  intros _.
  apply quiet_bind; [apply quiet_read|intros ?].
  apply quiet_bind.
  { apply quiet_when. apply quiet_bind; [apply quiet_create_key_pair|].
    intros ?. apply quiet_write; reflexivity. }
  intros _.
  apply quiet_bind; [apply quiet_ret|intros _].
  apply quiet_bind; [apply quiet_read|intros ?].
  apply quiet_when.
  apply quiet_bind; [apply quiet_read|intros ?].
  apply quiet_bind; [apply quiet_read|intros ?].
  repeat match goal with
         | |- leaves_untouched (if ?b then _ else _) => destruct b
         end;
    first [apply quiet_raise|apply quiet_ret].
Qed.

(** C3, as amended: when the legality checker rejects the definition,
    [create] stops there with the error of the checker, in the world as
    it was when the checker was reached, so that no step of the sequence
    has run; when no check pass was requested, no call that changes a
    remote resource has been made by then and the recorded disks are as
    they were. *)
Theorem illegal_transition_aborts (defn : Defn.t)
    (check allow_reboot allow_recreate : bool) (w w1 : World) (e : exn) :
  create_prologue defn check allow_reboot allow_recreate w = (Ok tt, w1) ->
  _assert_no_impossible_disk_changes (st w1) defn = Raise e ->
  create defn check allow_reboot allow_recreate w = (Raise e, w1) /\
  illegal_transition e = true /\
  (check = false -> untouched w w1).
Proof.
  intros Hp Hc. split; [|split].
  - unfold create. unfold bind at 1. rewrite Hp.
    unfold bind. unfold assert_no_impossible_disk_changes. now rewrite Hc.
  - eapply _assert_no_impossible_disk_changes_illegal; eauto.
  - intros ->. eapply quiet_create_prologue; eauto.
Qed.

Lemma illegal_transition_aborts_witness :
  exists e w1,
    create SampleCreate.moved false true true SampleCreate.in_order
    = (Raise e, w1) /\
    illegal_transition e = true /\
    untouched SampleCreate.in_order w1.
Proof.
  pose (w1 := snd (create_prologue SampleCreate.moved false true true
                     SampleCreate.in_order)).
  assert (create_prologue SampleCreate.moved false true true
            SampleCreate.in_order = (Ok tt, w1)) as Hp
    by (vm_compute; reflexivity).
  assert (_assert_no_impossible_disk_changes (st w1) SampleCreate.moved
          = Raise (ReattachDifferentLun "more" Sample.more_link
                     "/dev/disk/by-lun/1" "/dev/disk/by-lun/2")) as Hc
    by (vm_compute; reflexivity).
  destruct (illegal_transition_aborts _ _ _ _ _ Hp Hc) as (H1 & H2 & H3).
  eexists. exists w1. split; [exact H1|]. split; [exact H2|].
  apply H3. reflexivity.
Defined.

(** C3, as stated, fails: with the check pass requested, the drift
    detector detaches the disk it finds at a wrong slot before the
    legality checker rejects the definition. *)
Lemma illegal_transition_after_detach :
  exists e w1,
    create SampleCreate.moved true true true SampleCreate.drifted
    = (Raise e, w1) /\
    illegal_transition e = true /\
    mutations w1
    = [Api (Azure.virtual_machines_create_or_update
              (SampleWorld.machine "root"
                 [SampleWorld.data_disk "more" Sample.more_link 1]))] /\
    mutations SampleCreate.drifted = [] /\
    Dict.get Sample.data_link (State.block_device_mapping (st w1))
    = Some (Sample.disk "/dev/disk/by-lun/0" "data" Sample.data_link
                        (Some true)).
Proof.
  eexists. eexists. split; [vm_compute; reflexivity|].
  repeat split.
Qed.

(** ** Attached disks *)

Lemma attached_change_rejected (w : World) (defn : Defn.t) (d_id : string)
    (disk state_disk : Disk.t) :
  State.vm_id (st w) <> None ->
  In (d_id, disk) (Defn.block_device_mapping defn) ->
  Dict.get d_id (State.block_device_mapping (st w)) = Some state_disk ->
  device_name_to_lun (Disk.device state_disk) <> None ->
  Disk.get_needs_attach state_disk = false ->
  Disk.device disk <> Disk.device state_disk \/
  Disk.name disk <> Disk.name state_disk ->
  exists e, assert_no_impossible_disk_changes defn w = (Raise e, w) /\
            illegal_transition e = true.
Proof.
  intros Hvm Hin Hget Hlun Hatt Hdiff.
  assert (exists e,
             check_disk_change (State.block_device_mapping (st w)) (d_id, disk)
             = Raise e) as (e & He).
  { unfold check_disk_change, bind_e.
    match goal with
    | |- exists e, match ?c with Ok _ => _ | Raise _ => _ end = _ =>
        destruct c as [u|e]; [|eauto]
    end.
    rewrite Hget, Hatt.
    destruct (device_name_to_lun (Disk.device state_disk)); [|congruence].
    simpl.
    destruct (String.eqb (Disk.device state_disk) (Disk.device disk)) eqn:D;
      simpl; [|eauto].
    destruct (String.eqb (Disk.name state_disk) (Disk.name disk)) eqn:N;
      simpl; [|eauto].
    apply String.eqb_eq in D. apply String.eqb_eq in N.
    destruct Hdiff; congruence. }
  eapply checker_rejects; eauto.
Qed.

Lemma caching_change_accepted (w : World) (defn : Defn.t) :
  (forall d_id disk,
      In (d_id, disk) (Defn.block_device_mapping defn) ->
      exists state_disk,
        Dict.get d_id (State.block_device_mapping (st w)) = Some state_disk /\
        Disk.device disk = Disk.device state_disk /\
        Disk.name disk = Disk.name state_disk) ->
  distinct_devices (State.block_device_mapping (st w)) ->
  assert_no_impossible_disk_changes defn w = (Ok tt, w).
Proof.
  intros Hsame Hdist.
  unfold assert_no_impossible_disk_changes. f_equal.
  unfold _assert_no_impossible_disk_changes.
  destruct (is_none (State.vm_id (st w))); [reflexivity|].
  apply for_each_all_ok. intros [d_id disk] Hin.
  destruct (Hsame _ _ Hin) as (state_disk & Hget & Hdev & Hname).
  unfold check_disk_change, bind_e.
  assert (match
             Dict.first_key
               (fun _d => String.eqb (Disk.device _d) (Disk.device disk))
               (State.block_device_mapping (st w))
           with
           | Some occupant =>
               if (negb (is_none (device_name_to_lun (Disk.device disk)))
                   && negb (String.eqb occupant d_id))%bool
               then
                 match Dict.get occupant (State.block_device_mapping (st w))
                 with
                 | Some occupying =>
                     if negb (Disk.get_needs_attach occupying)
                     then Raise (LunOccupied (Disk.name disk)
                                   (Disk.media_link disk) (Disk.device disk)
                                   occupant)
                     else Ok tt
                 | None => Raise KeyError
                 end
               else Ok tt
           | None => Ok tt
           end = Ok tt) as ->.
  { destruct (Dict.first_key _ _) as [occupant|] eqn:K; [|reflexivity].
    apply first_key_some in K as (occupying & Hocc & Hd).
    apply String.eqb_eq in Hd.
    assert (occupant = d_id) as ->.
    { eapply Hdist; [exact Hocc|apply get_in; exact Hget|congruence]. }
    rewrite String.eqb_refl, andb_false_r. reflexivity. }
  rewrite Hget, Hdev, Hname, !String.eqb_refl. simpl.
  now destruct (_ && _)%bool.
Qed.

(** ** Running the helpers *)

Lemma get_settled_resource_run (w : World) :
  get_settled_resource w
  = (Ok (Azure.vm (remote w)), add_event (Api Azure.virtual_machines_get) w).
Proof.
  unfold get_settled_resource, get_resource, virtual_machines_get. mrun.
  destruct (Azure.vm (remote w)); reflexivity.
Qed.

Lemma get_vm_assert_exists_run (w : World) :
  get_vm_assert_exists w
  = (match Azure.vm (remote w) with
     | Some v => Ok v
     | None => Raise DeletedBehindOurBack
     end, add_event (Api Azure.virtual_machines_get) w).
Proof.
  unfold get_vm_assert_exists. unfold bind.
  rewrite get_settled_resource_run.
  destruct (Azure.vm (remote w)); reflexivity.
Qed.

Lemma virtual_machines_create_or_update_run (v : Azure.VirtualMachine)
    (w : World) :
  virtual_machines_create_or_update v w
  = (Ok tt,
     set_remote (Azure.set_vm (Some v) (remote w))
       (add_event (Api (Azure.virtual_machines_create_or_update v)) w)).
Proof. reflexivity. Qed.

Lemma update_block_device_mapping_run (k : string) (v : option Disk.t)
    (w : World) :
  update_block_device_mapping k v w
  = (Ok tt,
     set_st (State.set_block_device_mapping
               match v with
               | None => Dict.pop k (State.block_device_mapping (st w))
               | Some d => Dict.set k d (State.block_device_mapping (st w))
               end (st w)) w).
Proof. reflexivity. Qed.

Lemma get_pop_other (V : Type) (d : Dict.t V) (k k' : string) :
  k <> k' -> Dict.get k (Dict.pop k' d) = Dict.get k d.
Proof.
  intros Hne. induction d as [|[k0 v0] d IH]; simpl; [reflexivity|].
  destruct (String.eqb k0 k') eqn:E; simpl.
  - apply String.eqb_eq in E. subst k0.
    destruct (String.eqb k' k) eqn:E'; [|exact IH].
    apply String.eqb_eq in E'. congruence.
  - destruct (String.eqb k0 k); [reflexivity|exact IH].
Qed.

(** One turn of the loop of [_change_existing_disk_parameters]. *)
Lemma change_disk_parameters_ok (entry : string * Disk.t) (w w' : World) :
  change_disk_parameters entry w = (Ok tt, w') ->
  State.vm_id (st w') = State.vm_id (st w) /\
  (forall k, k <> fst entry ->
             Dict.get k (State.block_device_mapping (st w'))
             = Dict.get k (State.block_device_mapping (st w))) /\
  (exists updates,
      mutations w' = updates ++ mutations w /\
      Forall (fun e => is_update e = true) updates /\
      length updates
      = if caching_changes (st w) entry then 1%nat else 0%nat) /\
  (caching_changes (st w) entry = true ->
   exists state_disk,
     Dict.get (fst entry) (State.block_device_mapping (st w'))
     = Some state_disk /\
     Disk.host_caching state_disk = Disk.host_caching (snd entry)).
Proof.
  destruct entry as [d_id disk]. unfold caching_changes. cbn [fst snd].
  unfold change_disk_parameters. unfold bind at 1. unfold read at 1.
  destruct (Dict.get d_id (State.block_device_mapping (st w)))
    as [state_disk|] eqn:G.
  2:{ intros H; inversion H; subst. repeat split.
      - exists []. repeat split. constructor.
      - discriminate. }
  destruct (device_name_to_lun (Disk.device disk)) as [lun|] eqn:L.
  2:{ intros H; inversion H; subst. repeat split.
      - exists []. repeat split. constructor.
      - discriminate. }
  unfold bind at 1. unfold read at 1. cbn [is_none negb andb].
  destruct (truthy (State.vm_id (st w))) eqn:T;
    destruct (Disk.get_needs_attach state_disk) eqn:N; cbn [negb andb];
    try (unfold bind at 1; unfold ret at 1;
         rewrite update_block_device_mapping_run;
         intros H; inversion H; subst; cbn [st set_st State.vm_id
           State.set_block_device_mapping State.block_device_mapping];
         repeat split;
         [intros k Hk; now apply get_set_other
         |exists []; repeat split; constructor
         |discriminate]).
  destruct (String.eqb (Disk.host_caching disk) (Disk.host_caching state_disk))
    eqn:C; cbn [negb].
  - unfold bind at 1; unfold ret at 1;
         rewrite update_block_device_mapping_run;
         intros H; inversion H; subst; cbn [st set_st State.vm_id
           State.set_block_device_mapping State.block_device_mapping];
         repeat split;
         [intros k Hk; now apply get_set_other
         |exists []; repeat split; constructor
         |discriminate].
  - unfold bind at 1. unfold bind at 1. unfold log, emit at 1.
    unfold bind at 1. rewrite get_vm_assert_exists_run.
    cbn [remote].
    destruct (Azure.vm (remote w)) as [vm|] eqn:V; [|discriminate].
    destruct (find_vm_disk (Disk.media_link disk) (Azure.data_disks vm));
      [|discriminate].
    unfold bind at 1. rewrite virtual_machines_create_or_update_run.
    unfold ret at 1. rewrite update_block_device_mapping_run.
    intros H; inversion H; subst; clear H.
    cbn [st set_st set_remote add_event State.vm_id
           State.set_block_device_mapping State.block_device_mapping].
    repeat split.
    + intros k Hk. now apply get_set_other.
    + eexists [_]. unfold mutations. cbn [trace set_st set_remote add_event filter is_mutating Azure.mutating].
      repeat split. repeat constructor.
    + intros _. rewrite get_set_same. eexists. split; [reflexivity|].
      reflexivity.
Qed.

Lemma caching_changes_same (s s1 : State.t) (entry : string * Disk.t) :
  State.vm_id s1 = State.vm_id s ->
  Dict.get (fst entry) (State.block_device_mapping s1)
  = Dict.get (fst entry) (State.block_device_mapping s) ->
  caching_changes s1 entry = caching_changes s entry.
Proof. intros H1 H2. unfold caching_changes. now rewrite H1, H2. Qed.

Lemma change_existing_ok (l : disk_map) : forall w w',
  NoDup (Dict.keys l) ->
  for_m l change_disk_parameters w = (Ok tt, w') ->
  State.vm_id (st w') = State.vm_id (st w) /\
  (forall k, ~ In k (Dict.keys l) ->
             Dict.get k (State.block_device_mapping (st w'))
             = Dict.get k (State.block_device_mapping (st w))) /\
  (exists updates,
      mutations w' = updates ++ mutations w /\
      Forall (fun e => is_update e = true) updates /\
      length updates = length (filter (caching_changes (st w)) l)) /\
  (forall entry,
      In entry l -> caching_changes (st w) entry = true ->
      exists state_disk,
        Dict.get (fst entry) (State.block_device_mapping (st w'))
        = Some state_disk /\
        Disk.host_caching state_disk = Disk.host_caching (snd entry)).
Proof.
  induction l as [|e l IH]; intros w w' Hnd H.
  - simpl in H. inversion H; subst. repeat split.
    + exists []. repeat split. constructor.
    + intros entry [].
  - simpl in H. apply bind_ok in H as ([] & w1 & Hb & H).
    simpl in Hnd. inversion Hnd as [|? ? Hfresh Hnd']; subst.
    apply change_disk_parameters_ok in Hb as (B1 & B2 & (u1 & B3 & B4 & B5) & B6).
    destruct (IH _ _ Hnd' H) as (I1 & I2 & (u2 & I3 & I4 & I5) & I6).
    assert (forall x, In x l ->
                      caching_changes (st w1) x = caching_changes (st w) x)
      as Hsame.
    { intros x Hx. apply caching_changes_same; [assumption|].
      apply B2. intros Heq. apply Hfresh. rewrite <- Heq.
      now apply in_map. }
    split; [congruence|]. split; [|split].
    + intros k Hk. simpl in Hk. rewrite I2 by tauto. apply B2.
      intros ->. tauto.
    + exists (u2 ++ u1). split; [|split].
      * rewrite I3, B3. now rewrite app_assoc.
      * apply Forall_app. now split.
      * rewrite length_app, I5, B5. rewrite (filter_ext_in _ _ _ Hsame).
        simpl. destruct (caching_changes (st w) e); simpl; lia.
    + intros entry [->|Hin] Hc.
      * destruct (B6 Hc) as (sd & Hsd & Hcache). exists sd.
        split; [|assumption]. now rewrite I2.
      * apply I6; [assumption|]. now rewrite Hsame.
Qed.

(** The data disks after [set_caching_of]: the first disk at the address
    has the new caching mode, and the others are as they were. *)
Lemma set_caching_of_found (uri caching : string)
    (l : list Azure.DataDisk) (found : Azure.DataDisk) :
  find_vm_disk uri l = Some found ->
  exists before vm_disk after,
    l = before ++ vm_disk :: after /\
    (forall d, In d before -> Azure.dd_uri d <> uri) /\
    Azure.dd_uri vm_disk = uri /\
    set_caching_of uri caching l
    = before
      ++ Azure.mkDataDisk (Azure.dd_name vm_disk) (Azure.dd_uri vm_disk)
           caching (Azure.dd_create_option vm_disk) (Azure.dd_lun vm_disk)
           (Azure.dd_disk_size_gb vm_disk)
      :: after.
Proof.
  unfold find_vm_disk. induction l as [|d l IH]; simpl; [discriminate|].
  destruct (String.eqb (Azure.dd_uri d) uri) eqn:E.
  - intros _. exists [], d, l. apply String.eqb_eq in E.
    split; [reflexivity|]. split; [intros x []|]. split; [exact E|].
    reflexivity.
  - intros H. destruct (IH H) as (before & vm_disk & after & -> & Hb & Hu & Hs).
    exists (d :: before), vm_disk, after.
    split; [reflexivity|]. split; [|split; [exact Hu|]].
    + intros x [<-|Hx]; [now apply String.eqb_neq|now apply Hb].
    + simpl. now rewrite Hs.
Qed.

Lemma set_vm_set_vm (a b : option Azure.VirtualMachine) (r : Azure.Remote) :
  Azure.set_vm a (Azure.set_vm b r) = Azure.set_vm a r.
Proof. reflexivity. Qed.

Lemma set_vm_same (r : Azure.Remote) : Azure.set_vm (Azure.vm r) r = r.
Proof. now destruct r. Qed.

(** One turn of the loop of [_change_existing_disk_parameters]: what is
    sent to the subscription. *)
Lemma change_disk_parameters_call (entry : string * Disk.t) (w w' : World) :
  change_disk_parameters entry w = (Ok tt, w') ->
  remote w' = Azure.set_vm (Azure.vm (remote w')) (remote w) /\
  if caching_changes (st w) entry
  then exists old sent,
         Azure.vm (remote w) = Some old /\
         one_disk_recached (Disk.media_link (snd entry))
                           (Disk.host_caching (snd entry)) old sent /\
         Azure.vm (remote w') = Some sent /\
         mutations w'
         = Api (Azure.virtual_machines_create_or_update sent) :: mutations w
  else Azure.vm (remote w') = Azure.vm (remote w) /\
       mutations w' = mutations w.
Proof.
  destruct entry as [d_id disk]. unfold caching_changes. cbn [fst snd].
  unfold change_disk_parameters. unfold bind at 1. unfold read at 1.
  destruct (Dict.get d_id (State.block_device_mapping (st w)))
    as [state_disk|] eqn:G.
  2:{ intros H; inversion H; subst. now rewrite set_vm_same. }
  destruct (device_name_to_lun (Disk.device disk)) as [lun|] eqn:L.
  2:{ intros H; inversion H; subst. now rewrite set_vm_same. }
  unfold bind at 1. unfold read at 1. cbn [is_none negb andb].
  destruct (truthy (State.vm_id (st w))) eqn:T;
    destruct (Disk.get_needs_attach state_disk) eqn:N; cbn [negb andb];
    try (unfold bind at 1; unfold ret at 1;
         rewrite update_block_device_mapping_run;
         intros H; inversion H; subst; cbn [remote set_st];
         now rewrite set_vm_same).
  destruct (String.eqb (Disk.host_caching disk) (Disk.host_caching state_disk))
    eqn:C; cbn [negb].
  - unfold bind at 1; unfold ret at 1;
      rewrite update_block_device_mapping_run;
      intros H; inversion H; subst; cbn [remote set_st];
      now rewrite set_vm_same.
  - unfold bind at 1. unfold bind at 1. unfold log, emit at 1.
    unfold bind at 1. rewrite get_vm_assert_exists_run.
    cbn [remote].
    destruct (Azure.vm (remote w)) as [vm|] eqn:V; [|discriminate].
    destruct (find_vm_disk (Disk.media_link disk) (Azure.data_disks vm))
      as [found|] eqn:F; [|discriminate].
    unfold bind at 1. rewrite virtual_machines_create_or_update_run.
    unfold ret at 1. rewrite update_block_device_mapping_run.
    intros H; inversion H; subst; clear H.
    cbn [st set_st set_remote add_event remote Azure.vm Azure.set_vm].
    split; [reflexivity|].
    destruct (@set_caching_of_found _ (Disk.host_caching disk) _ _ F)
      as (before & vm_disk & after & Hl & Hb & Hu & Hs).
    eexists. eexists. split; [reflexivity|]. split; [|split; [reflexivity|]].
    + exists before, vm_disk, after.
      split; [exact Hl|]. split; [exact Hb|]. split; [exact Hu|].
      unfold Azure.set_data_disks. now rewrite Hs.
    + unfold mutations.
      cbn [trace set_st set_remote add_event filter is_mutating
           Azure.mutating]. reflexivity.
Qed.

Lemma change_existing_calls (l : disk_map) : forall w w',
  NoDup (Dict.keys l) ->
  for_m l change_disk_parameters w = (Ok tt, w') ->
  remote w' = Azure.set_vm (Azure.vm (remote w')) (remote w) /\
  exists calls,
    mutations w' = rev calls ++ mutations w /\
    single_disk_updates (Azure.vm (remote w))
      (filter (caching_changes (st w)) l) calls (Azure.vm (remote w')).
Proof.
  induction l as [|e l IH]; intros w w' Hnd H.
  - simpl in H. inversion H; subst. split; [now rewrite set_vm_same|].
    exists []. split; reflexivity.
  - simpl in H. apply bind_ok in H as ([] & w1 & Hb & H).
    simpl in Hnd. inversion Hnd as [|? ? Hfresh Hnd']; subst.
    pose proof (@change_disk_parameters_ok _ _ _ Hb) as (B1 & B2 & _).
    apply change_disk_parameters_call in Hb as (R1 & C1).
    destruct (IH _ _ Hnd' H) as (R2 & calls & M2 & U2).
    assert (forall x, In x l ->
                      caching_changes (st w1) x = caching_changes (st w) x)
      as Hsame.
    { intros x Hx. apply caching_changes_same; [assumption|].
      apply B2. intros Heq. apply Hfresh. rewrite <- Heq.
      now apply in_map. }
    rewrite (filter_ext_in _ _ _ Hsame) in U2.
    split; [rewrite R2, R1; apply set_vm_set_vm|].
    cbn [filter]. destruct (caching_changes (st w) e).
    + destruct C1 as (old & sent & V & Hone & V1 & M1).
      exists (Api (Azure.virtual_machines_create_or_update sent) :: calls).
      split.
      * rewrite M2, M1. cbn [rev]. now rewrite <- app_assoc.
      * destruct e as [d_id disk]. cbn [single_disk_updates].
        split; [exists old; now split|]. now rewrite <- V1.
    + destruct C1 as (V1 & M1). exists calls.
      split; [now rewrite M2, M1|]. now rewrite <- V1.
Qed.

(** C2, as amended: for a data disk that is attached (a machine is
    recorded, the device of the record has a slot, the record is not
    marked [needs_attach]) the legality checker raises when the
    definition changes the device or the name; it accepts a definition
    that keeps the devices and the names of the recorded disks; and
    [_change_existing_disk_parameters] then sends one update of the
    machine for every attached data disk whose caching mode changes, and
    records the new mode.  Each of these updates sends the machine as it
    was before the call with the caching mode of that one data disk
    changed and nothing else; there is no other mutating call, and the
    machine is afterwards as the last update has sent it. *)
Theorem attached_disk_changes (w : World) (defn : Defn.t) :
  State.vm_id (st w) <> None ->
  (forall d_id disk state_disk,
      In (d_id, disk) (Defn.block_device_mapping defn) ->
      Dict.get d_id (State.block_device_mapping (st w)) = Some state_disk ->
      device_name_to_lun (Disk.device state_disk) <> None ->
      Disk.get_needs_attach state_disk = false ->
      Disk.device disk <> Disk.device state_disk \/
      Disk.name disk <> Disk.name state_disk ->
      exists e, assert_no_impossible_disk_changes defn w = (Raise e, w) /\
                illegal_transition e = true) /\
  ((forall d_id disk,
       In (d_id, disk) (Defn.block_device_mapping defn) ->
       exists state_disk,
         Dict.get d_id (State.block_device_mapping (st w)) = Some state_disk /\
         Disk.device disk = Disk.device state_disk /\
         Disk.name disk = Disk.name state_disk) ->
   distinct_devices (State.block_device_mapping (st w)) ->
   assert_no_impossible_disk_changes defn w = (Ok tt, w)) /\
  (forall w',
      NoDup (Dict.keys (Defn.block_device_mapping defn)) ->
      _change_existing_disk_parameters defn w = (Ok tt, w') ->
      (exists updates,
          mutations w' = updates ++ mutations w /\
          Forall (fun e => is_update e = true) updates /\
          length updates
          = length (filter (caching_changes (st w))
                           (Defn.block_device_mapping defn))) /\
      (forall entry,
          In entry (Defn.block_device_mapping defn) ->
          caching_changes (st w) entry = true ->
          exists state_disk,
            Dict.get (fst entry) (State.block_device_mapping (st w'))
            = Some state_disk /\
            Disk.host_caching state_disk = Disk.host_caching (snd entry)) /\
      remote w' = Azure.set_vm (Azure.vm (remote w')) (remote w) /\
      (exists calls,
          mutations w' = rev calls ++ mutations w /\
          single_disk_updates (Azure.vm (remote w))
            (filter (caching_changes (st w)) (Defn.block_device_mapping defn))
            calls (Azure.vm (remote w')))).
Proof.
  intros Hvm. split; [|split].
  - intros d_id disk state_disk. now apply attached_change_rejected.
  - apply caching_change_accepted.
  - intros w' Hnd H. unfold _change_existing_disk_parameters in H.
    destruct (change_existing_ok _ _ Hnd H) as (_ & _ & H3 & H4).
    destruct (change_existing_calls _ _ Hnd H) as (H5 & H6).
    split; [exact H3|]. split; [exact H4|]. split; [exact H5|exact H6].
Qed.

Lemma attached_disk_changes_witness :
  (exists e,
      assert_no_impossible_disk_changes SampleCreate.moved
        SampleCreate.in_order = (Raise e, SampleCreate.in_order) /\
      illegal_transition e = true) /\
  assert_no_impossible_disk_changes SampleCaching.recached
    SampleCreate.in_order = (Ok tt, SampleCreate.in_order) /\
  (exists w' updates,
      _change_existing_disk_parameters SampleCaching.recached
        SampleCreate.in_order = (Ok tt, w') /\
      mutations w' = updates ++ mutations SampleCreate.in_order /\
      length updates = 1%nat) /\
  (exists w' sent,
      _change_existing_disk_parameters SampleCaching.recached
        SampleCreate.in_order = (Ok tt, w') /\
      mutations w'
      = Api (Azure.virtual_machines_create_or_update sent)
        :: mutations SampleCreate.in_order /\
      one_disk_recached Sample.data_link "ReadOnly"
        (SampleWorld.machine "root"
           [SampleWorld.data_disk "data" Sample.data_link 0;
            SampleWorld.data_disk "more" Sample.more_link 1])
        sent /\
      Azure.vm (remote w') = Some sent).
Proof.
  assert (State.vm_id (st SampleCreate.in_order) <> None) as Hvm
    by discriminate.
  pose (w' := snd (_change_existing_disk_parameters SampleCaching.recached
                     SampleCreate.in_order)).
  assert (_change_existing_disk_parameters SampleCaching.recached
            SampleCreate.in_order = (Ok tt, w')) as Hrun
    by (vm_compute; reflexivity).
  assert (NoDup (Dict.keys (Defn.block_device_mapping SampleCaching.recached)))
    as Hnd by (simpl; nodup_strings).
  split; [|split; [|split]].
  - destruct (@attached_disk_changes _ SampleCreate.moved Hvm) as (Ha & _).
    apply (Ha Sample.more_link
              (snd (SampleCreate.more "/dev/disk/by-lun/2"))
              (snd (SampleCreate.more "/dev/disk/by-lun/1"))).
    + simpl. tauto.
    + reflexivity.
    + discriminate.
    + reflexivity.
    + left. discriminate.
  - destruct (@attached_disk_changes _ SampleCaching.recached Hvm)
      as (_ & Hb & _).
    apply Hb.
    + intros d_id disk Hin. in_cases; eexists; (split; [vm_compute; reflexivity|split; reflexivity]).
    + intros k1 d1 k2 d2 H1 H2 Hd. in_cases; try reflexivity; discriminate.
  - destruct (@attached_disk_changes _ SampleCaching.recached Hvm)
      as (_ & _ & Hc).
    destruct (Hc w' Hnd Hrun) as ((updates & Hu & _ & Hlen) & _).
    exists w', updates. split; [exact Hrun|]. split; [exact Hu|exact Hlen].
  - destruct (@attached_disk_changes _ SampleCaching.recached Hvm)
      as (_ & _ & Hc).
    destruct (Hc w' Hnd Hrun) as (_ & _ & _ & calls & Hm & U).
    assert (filter (caching_changes (st SampleCreate.in_order))
                   (Defn.block_device_mapping SampleCaching.recached)
            = [SampleCaching.cached "ReadOnly"]) as Hf
      by (vm_compute; reflexivity).
    rewrite Hf in U. clear Hf.
    destruct calls as [|call calls]; [contradiction|].
    cbn [single_disk_updates SampleCaching.cached] in U.
    destruct call as [| | |c| |]; try contradiction.
    destruct c; try contradiction.
    destruct U as ((old & Hold & Hone) & U).
    destruct calls as [|call' calls]; [|contradiction].
    cbn [single_disk_updates] in U.
    exists w', v. split; [exact Hrun|]. split; [exact Hm|].
    split; [|exact U].
    inversion Hold; subst old. exact Hone.
Defined.

(** C2, as stated, fails for the root disk: the checker accepts a
    definition that renames the attached root disk, and one that turns
    it into a data disk. *)
Lemma attached_root_disk_changes_accepted :
  let w := SampleCreate.in_order in
  State.vm_id (st w) <> None /\
  Dict.get Sample.root_link (State.block_device_mapping (st w))
  = Some (Sample.disk "/dev/sda" "root" Sample.root_link None) /\
  Dict.get Sample.root_link
    (Defn.block_device_mapping SampleCaching.root_renamed)
  = Some (Sample.disk "/dev/sda" "renamed" Sample.root_link None) /\
  assert_no_impossible_disk_changes SampleCaching.root_renamed w = (Ok tt, w) /\
  Dict.get Sample.root_link
    (Defn.block_device_mapping SampleCaching.root_as_data)
  = Some (Sample.disk "/dev/disk/by-lun/3" "root" Sample.root_link None) /\
  assert_no_impossible_disk_changes SampleCaching.root_as_data w = (Ok tt, w).
Proof.
  intros w. split; [discriminate|]. repeat split.
Qed.

(** ** The drift detector *)

Lemma quietly_refl (w : World) : quietly w w.
Proof. repeat split. exists []. split; [reflexivity|constructor]. Qed.

Lemma quietly_trans (w w1 w2 : World) :
  quietly w w1 -> quietly w1 w2 -> quietly w w2.
Proof.
  intros (A1 & A2 & e1 & A3 & A4) (B1 & B2 & e2 & B3 & B4).
  split; [congruence|]. split; [congruence|].
  exists (e2 ++ e1). split.
  - rewrite B3, A3. now rewrite app_assoc.
  - apply Forall_app. now split.
Qed.

Lemma quietly_event (e : event) (w : World) :
  uneventful e = true -> quietly w (add_event e w).
Proof.
  intros H. repeat split. exists [e]. split; [reflexivity|].
  now constructor.
Qed.

Lemma set_same (V : Type) (d : Dict.t V) (k : string) (v : V) :
  Dict.get k d = Some v -> Dict.set k v d = d.
Proof.
  induction d as [|[k' v'] d IH]; simpl; [discriminate|].
  destruct (String.eqb k' k) eqn:E.
  - intros H; inversion H; subst. reflexivity.
  - intros H. f_equal. now apply IH.
Qed.

Lemma state_same_mapping (s : State.t) :
  State.set_block_device_mapping (State.block_device_mapping s) s = s.
Proof. now destruct s. Qed.

Lemma disk_same_caching (d : Disk.t) :
  Disk.set_host_caching (Disk.host_caching d) d = d.
Proof. now destruct d. Qed.

Lemma disk_same_size (d : Disk.t) : Disk.set_size (Disk.size d) d = d.
Proof. now destruct d. Qed.

Lemma warn_if_changed_run (A : Type) (eqb : A -> A -> bool)
    (expected actual : A) (name resource_name : string) (can_fix : bool)
    (w : World) :
  warn_if_changed eqb expected actual name resource_name can_fix w
  = (Ok actual,
     if eqb expected actual then w
     else add_event (Warn (Changed resource_name name can_fix)) w).
Proof.
  unfold warn_if_changed. mrun. now destruct (eqb expected actual).
Qed.

Lemma blob_exists_run (media_link : string) (w : World) :
  exists w',
    blob_exists media_link w
    = (blob_status (State.storage (st w)) (Azure.blobs (remote w)) media_link,
       w') /\
    quietly w w'.
Proof.
  unfold blob_exists, blob_status, get_blob_properties.
  destruct (parse_blob_url media_link) as [blob|].
  2:{ exists w. split; [reflexivity|apply quietly_refl]. }
  mrun.
  destruct (negb (opt_string_eqb (Some (blob_storage blob))
                                 (State.storage (st w)))).
  { exists w. split; [reflexivity|apply quietly_refl]. }
  mrun.
  destruct (existsb _ (Azure.blobs (remote w)));
    (eexists; split; [reflexivity|]);
    now apply (quietly_event (Api (Azure.get_blob_properties _ _))).
Qed.

Lemma opt_Z_eqb_refl (a : option Z) : opt_Z_eqb a a = true.
Proof. destruct a; simpl; [apply Z.eqb_refl|reflexivity]. Qed.

(** A record that is settled is left as it is. *)
Lemma check_settled_disk (k : string) (d : Disk.t)
    (vm : Azure.VirtualMachine) (w : World) :
  settled (State.storage (st w)) (Azure.blobs (remote w))
          (Azure.data_disks vm) d ->
  Dict.get k (State.block_device_mapping (st w)) = Some d ->
  exists w', check_data_disk (k, d) vm w = (Ok vm, w') /\ quietly w w'.
Proof.
  intros Hs Hget. unfold settled in Hs. unfold check_data_disk.
  destruct (device_name_to_lun (Disk.device d)) as [lun|].
  2:{ exists w. split; [reflexivity|apply quietly_refl]. }
  destruct (find_vm_disk (Disk.media_link d) (Azure.data_disks vm))
    as [vm_disk|].
  - destruct Hs as (Hc & Hz & Hn & Hl).
    unfold bind at 1. rewrite warn_if_changed_run.
    rewrite Hc, String.eqb_refl. rewrite <- Hc, disk_same_caching.
    unfold bind at 1. rewrite warn_if_changed_run.
    rewrite Hz, opt_Z_eqb_refl. rewrite <- Hz, disk_same_size.
    unfold bind at 1. rewrite warn_if_changed_run.
    rewrite Hn, Hl, Z.eqb_refl. cbn [negb].
    unfold bind at 1. unfold ret at 1.
    unfold bind at 1. unfold ret at 1.
    unfold bind at 1. rewrite update_block_device_mapping_run. cbn [fst snd].
    destruct (String.eqb (Disk.name d) (Azure.dd_name vm_disk)).
    + rewrite (@set_same _ _ _ _ Hget), state_same_mapping.
      eexists. split; [reflexivity|]. repeat split.
      exists []. split; [reflexivity|constructor].
    + cbn [st add_event]. rewrite (@set_same _ _ _ _ Hget), state_same_mapping.
      eexists. split; [reflexivity|]. repeat split.
      eexists [_]. split; [reflexivity|]. now constructor.
  - destruct Hs as (Hn & Hb).
    rewrite Hn. cbn [negb]. unfold bind at 1. unfold ret at 1.
    unfold bind at 1.
    destruct (blob_exists_run (Disk.media_link d) w) as (w1 & Hrun & Hq).
    rewrite Hrun, Hb. cbn [negb]. unfold bind at 1. unfold ret at 1.
    unfold bind at 1. rewrite update_block_device_mapping_run.
    destruct Hq as (Q1 & Q2 & evs & Q3 & Q4).
    rewrite Q1, (@set_same _ _ _ _ Hget), state_same_mapping.
    eexists. split; [reflexivity|].
    split; [reflexivity|]. split; [exact Q2|]. exists evs. now split.
Qed.

Lemma check_settled_disks (l : disk_map) : forall vm w,
  (forall k d, In (k, d) l ->
     settled (State.storage (st w)) (Azure.blobs (remote w))
             (Azure.data_disks vm) d /\
     Dict.get k (State.block_device_mapping (st w)) = Some d) ->
  exists w', fold_m l vm check_data_disk w = (Ok vm, w') /\ quietly w w'.
Proof.
  induction l as [|[k d] l IH]; intros vm w H.
  - exists w. split; [reflexivity|apply quietly_refl].
  - destruct (H k d (or_introl eq_refl)) as (Hs & Hg).
    destruct (@check_settled_disk k d vm w Hs Hg) as (w1 & Hrun & Hq).
    destruct (IH vm w1) as (w2 & Hrun2 & Hq2).
    { intros k' d' Hin. destruct Hq as (Q1 & Q2 & _). rewrite Q1, Q2.
      apply H. now right. }
    exists w2. split; [|eapply quietly_trans; eauto].
    cbn [fold_m]. unfold bind. now rewrite Hrun.
Qed.

(** *** Data disks of the machine *)

Lemma find_vm_disk_some (u : string) (l : list Azure.DataDisk)
    (d : Azure.DataDisk) :
  find_vm_disk u l = Some d -> In d l /\ Azure.dd_uri d = u.
Proof.
  unfold find_vm_disk. intros H. apply find_some in H as [H1 H2].
  split; [assumption|]. now apply String.eqb_eq.
Qed.

Lemma find_vm_disk_none (u : string) (l : list Azure.DataDisk) :
  find_vm_disk u l = None <-> ~ In u (map Azure.dd_uri l).
Proof.
  unfold find_vm_disk. induction l as [|d l IH]; simpl; [tauto|].
  destruct (String.eqb (Azure.dd_uri d) u) eqn:E.
  - apply String.eqb_eq in E. split; [discriminate|]. intros H. exfalso. auto.
  - apply String.eqb_neq in E. rewrite IH. tauto.
Qed.

Lemma remove_vm_disk_incl (u : string) (l : list Azure.DataDisk) :
  incl (remove_vm_disk u l) l.
Proof.
  induction l as [|d l IH]; simpl; [apply incl_refl|].
  destruct (String.eqb (Azure.dd_uri d) u).
  - apply incl_tl, incl_refl.
  - apply incl_cons; [now left|]. now apply incl_tl.
Qed.

Lemma remove_vm_disk_uris (u : string) (l : list Azure.DataDisk) :
  NoDup (map Azure.dd_uri l) ->
  NoDup (map Azure.dd_uri (remove_vm_disk u l)) /\
  ~ In u (map Azure.dd_uri (remove_vm_disk u l)).
Proof.
  induction l as [|d l IH]; simpl; intros H; [split; [constructor|tauto]|].
  inversion H as [|? ? Hn Hl]; subst.
  destruct (String.eqb (Azure.dd_uri d) u) eqn:E.
  - apply String.eqb_eq in E. subst u. now split.
  - apply String.eqb_neq in E. destruct (IH Hl) as [I1 I2]. simpl. split.
    + constructor; [|assumption]. intros Hin. apply Hn.
      apply in_map_iff in Hin as (x & Hx & Hin).
      apply in_map_iff. exists x. split; [assumption|].
      now apply (remove_vm_disk_incl u l).
    + tauto.
Qed.

Lemma find_remove_other (u m : string) (l : list Azure.DataDisk) :
  m <> u -> find_vm_disk m (remove_vm_disk u l) = find_vm_disk m l.
Proof.
  intros Hne. unfold find_vm_disk.
  induction l as [|d l IH]; simpl; [reflexivity|].
  destruct (String.eqb (Azure.dd_uri d) u) eqn:E.
  - apply String.eqb_eq in E. subst u.
    destruct (String.eqb (Azure.dd_uri d) m) eqn:E'; [|reflexivity].
    apply String.eqb_eq in E'. congruence.
  - simpl. destruct (String.eqb (Azure.dd_uri d) m); [reflexivity|exact IH].
Qed.

Lemma settled_same_find (storage : option string)
    (blobs : list (string * string)) (l l' : list Azure.DataDisk)
    (d : Disk.t) :
  find_vm_disk (Disk.media_link d) l' = find_vm_disk (Disk.media_link d) l ->
  settled storage blobs l d -> settled storage blobs l' d.
Proof. unfold settled. now intros ->. Qed.

(** *** One record of the first run *)

Lemma warn_if_changed_same (A : Type) (eqb : A -> A -> bool)
    (expected actual : A) (name resource_name : string) (can_fix : bool)
    (w : World) :
  exists w',
    warn_if_changed eqb expected actual name resource_name can_fix w
    = (Ok actual, w') /\ st w' = st w /\ remote w' = remote w.
Proof.
  rewrite warn_if_changed_run.
  destruct (eqb expected actual); eexists; repeat split.
Qed.

Lemma find_after_remove (u : string) (l : list Azure.DataDisk) :
  NoDup (map Azure.dd_uri l) -> find_vm_disk u (remove_vm_disk u l) = None.
Proof.
  intros H. apply find_vm_disk_none. now apply remove_vm_disk_uris.
Qed.

Lemma check_data_disk_step (P suf : disk_map) (k : string) (d : Disk.t)
    (vm vm' : Azure.VirtualMachine) (w w' : World) :
  State.block_device_mapping (st w) = P ++ (k, d) :: suf ->
  ~ In k (Dict.keys P) -> ~ In k (Dict.keys suf) ->
  NoDup (map Azure.dd_uri (Azure.data_disks vm)) ->
  (forall vd, In vd (Azure.data_disks vm) ->
     blob_status (State.storage (st w)) (Azure.blobs (remote w))
                 (Azure.dd_uri vd) = Ok true) ->
  check_data_disk (k, d) vm w = (Ok vm', w') ->
  exists result : disk_map,
    st w' = State.set_block_device_mapping (P ++ result ++ suf) (st w) /\
    (remote w' = remote w /\ vm' = vm \/
     remote w' = Azure.set_vm (Some vm') (remote w) /\
     vm' = Azure.set_data_disks
             (remove_vm_disk (Disk.media_link d) (Azure.data_disks vm)) vm) /\
    (forall e, In e result ->
       fst e = k /\ link_of e = Disk.media_link d /\
       Disk.device (snd e) = Disk.device d /\
       settled (State.storage (st w)) (Azure.blobs (remote w))
               (Azure.data_disks vm') (snd e)) /\
    (length result <= 1)%nat /\
    (result = [] ->
     find_vm_disk (Disk.media_link d) (Azure.data_disks vm) = None) /\
    (device_name_to_lun (Disk.device d) = None -> result = [(k, d)]).
Proof.
  intros Hm HP Hsuf Huris Hblobs. unfold check_data_disk.
  destruct (device_name_to_lun (Disk.device d)) as [lun|] eqn:L.
  2:{ intros H; inversion H; subst. exists [(k, d)]. split; [|split; [|split; [|split; [|split]]]].
      - cbn [app]. rewrite <- Hm. now rewrite state_same_mapping.
      - now left.
      - intros e [<-|[]]. repeat split. unfold settled. cbn [snd]. now rewrite L.
      - simpl. lia.
      - discriminate.
      - reflexivity. }
  destruct (find_vm_disk (Disk.media_link d) (Azure.data_disks vm))
    as [vm_disk|] eqn:F.
  - (* attached *)
    unfold bind at 1.
    match goal with
    | |- context [@warn_if_changed ?A ?e ?a ?b ?c ?n ?f w] =>
        destruct (@warn_if_changed_same A e a b c n f w)
          as (w1 & -> & S1 & R1)
    end.
    unfold bind at 1.
    match goal with
    | |- context [@warn_if_changed ?A ?e ?a ?b ?c ?n ?f w1] =>
        destruct (@warn_if_changed_same A e a b c n f w1)
          as (w2 & -> & S2 & R2)
    end.
    unfold bind at 1.
    match goal with
    | |- context [@warn_if_changed ?A ?e ?a ?b ?c ?n ?f w2] =>
        destruct (@warn_if_changed_same A e a b c n f w2)
          as (w3 & -> & S3 & R3)
    end.
    set (d1 := Disk.set_size (Azure.dd_disk_size_gb vm_disk)
                 (Disk.set_host_caching (Azure.dd_caching vm_disk) d)).
    assert (exists d2 w4,
               (if Disk.get_needs_attach d1
                then warn (NotSupposedToBeAttached (Disk.name d1) k) ;;
                     ret (Disk.set_needs_attach false d1)
                else ret d1) w3 = (Ok d2, w4) /\
               st w4 = st w3 /\ remote w4 = remote w3 /\
               Disk.get_needs_attach d2 = false /\
               Disk.host_caching d2 = Azure.dd_caching vm_disk /\
               Disk.size d2 = Azure.dd_disk_size_gb vm_disk /\
               Disk.media_link d2 = Disk.media_link d /\
               Disk.device d2 = Disk.device d) as (d2 & w4 & Hn & S4 & R4 & D).
    { destruct (Disk.get_needs_attach d1) eqn:N.
      - eexists. eexists. split; [reflexivity|]. repeat split.
      - eexists. eexists. split; [reflexivity|]. repeat split. exact N. }
    unfold bind at 1. rewrite Hn. clear Hn.
    destruct D as (D1 & D2 & D3 & D4 & D5).
    rewrite D4.
    destruct (Azure.dd_lun vm_disk =? lun) eqn:E; cbn [negb].
    + (* at its slot *)
      apply Z.eqb_eq in E.
      unfold bind at 1. unfold ret at 1. cbn [fst snd].
      unfold bind at 1. rewrite update_block_device_mapping_run.
      unfold ret. intros H; inversion H; subst vm' w'; clear H.
      exists [(k, d2)]. cbn [st set_st remote].
      split; [|split; [|split; [|split; [|split]]]].
      * rewrite S4, S3, S2, S1, Hm. rewrite set_middle by assumption.
        reflexivity.
      * left. split; [congruence|reflexivity].
      * intros e [<-|[]]. cbn [fst snd]. unfold link_of. cbn [snd].
        repeat split; try assumption.
        unfold settled. rewrite D5, L, D4, F. repeat split; assumption.
      * simpl. lia.
      * discriminate.
      * discriminate.
    + (* at another slot: detached *)
      unfold bind at 1. unfold bind at 1. unfold warn, emit at 1.
      unfold bind at 1. unfold log, emit at 1.
      unfold bind at 1. rewrite virtual_machines_create_or_update_run.
      unfold ret at 1. cbn [fst snd].
      unfold bind at 1. rewrite update_block_device_mapping_run.
      unfold ret. intros H; inversion H; subst vm' w'; clear H.
      exists [(k, Disk.set_needs_attach true d2)].
      cbn [st set_st remote set_remote add_event].
      split; [|split; [|split; [|split; [|split]]]].
      * rewrite S4, S3, S2, S1, Hm. rewrite set_middle by assumption.
        reflexivity.
      * right. split; [|reflexivity]. now rewrite R4, R3, R2, R1.
      * intros e [<-|[]]. cbn [fst snd]. unfold link_of. cbn [snd].
        cbn [Disk.media_link Disk.device Disk.set_needs_attach].
        repeat split; try assumption.
        unfold settled.
        cbn [Disk.media_link Disk.device Disk.set_needs_attach
             Azure.data_disks Azure.set_data_disks].
        rewrite D5, L, D4. rewrite find_after_remove by assumption.
        split; [reflexivity|].
        apply find_vm_disk_some in F as [Fin Furi]. rewrite <- Furi.
        now apply Hblobs.
      * simpl. lia.
      * discriminate.
      * discriminate.
  - (* not attached *)
    unfold bind at 1.
    assert (exists d1 w1,
               (if negb (Disk.get_needs_attach d)
                then warn (UnexpectedlyDetached (Disk.name d) k) ;;
                     ret (Disk.set_needs_attach true d)
                else ret d) w = (Ok d1, w1) /\
               st w1 = st w /\ remote w1 = remote w /\
               Disk.get_needs_attach d1 = true /\
               Disk.media_link d1 = Disk.media_link d /\
               Disk.device d1 = Disk.device d) as (d1 & w1 & Hn & S1 & R1 & D).
    { destruct (Disk.get_needs_attach d) eqn:N.
      - eexists. eexists. split; [reflexivity|]. repeat split. exact N.
      - eexists. eexists. split; [reflexivity|]. repeat split. }
    rewrite Hn. clear Hn. destruct D as (D1 & D2 & D3).
    unfold bind at 1.
    destruct (blob_exists_run (Disk.media_link d1) w1)
      as (w2 & -> & S2 & R2 & _).
    rewrite S1, R1, D2.
    destruct (blob_status (State.storage (st w)) (Azure.blobs (remote w))
                (Disk.media_link d)) as [[|]|e] eqn:B; [| |discriminate].
    + cbn [negb]. unfold bind at 1. unfold ret at 1.
      unfold bind at 1. rewrite update_block_device_mapping_run.
      unfold ret. intros H; inversion H; subst vm' w'; clear H.
      exists [(k, d1)]. cbn [st set_st remote].
      split; [|split; [|split; [|split; [|split]]]].
      * rewrite S2, S1, Hm. rewrite set_middle by assumption. reflexivity.
      * left. split; [congruence|reflexivity].
      * intros e [<-|[]]. cbn [fst snd]. unfold link_of. cbn [snd].
        repeat split; try assumption.
        unfold settled. rewrite D3, L, D2, F. now split.
      * simpl. lia.
      * discriminate.
      * discriminate.
    + cbn [negb]. unfold bind at 1. unfold bind at 1. unfold warn, emit at 1.
      unfold ret at 1.
      unfold bind at 1. rewrite update_block_device_mapping_run.
      unfold ret. intros H; inversion H; subst vm' w'; clear H.
      exists []. cbn [st set_st remote add_event].
      split; [|split; [|split; [|split; [|split]]]].
      * rewrite S2, S1, Hm. f_equal. cbn [app].
        clear - HP Hsuf. induction P as [|[k0 v0] P IH]; simpl.
        -- rewrite String.eqb_refl.
           induction suf as [|[k1 v1] suf IHs]; simpl; [reflexivity|].
           simpl in Hsuf. destruct (String.eqb k1 k) eqn:E.
           ++ apply String.eqb_eq in E. tauto.
           ++ f_equal. apply IHs. tauto.
        -- simpl in HP. destruct (String.eqb k0 k) eqn:E.
           ++ apply String.eqb_eq in E. tauto.
           ++ f_equal. apply IH. tauto.
      * left. split; [congruence|reflexivity].
      * intros e [].
      * simpl. lia.
      * reflexivity.
      * discriminate.
Qed.

(** *** The loop over the recorded disks, first run *)

Lemma first_key_app (V : Type) (p : V -> bool) (a b : Dict.t V) :
  Dict.first_key p (a ++ b)
  = match Dict.first_key p a with
    | Some k => Some k
    | None => Dict.first_key p b
    end.
Proof.
  induction a as [|[k v] a IH]; simpl; [reflexivity|].
  destruct (p v); [reflexivity|exact IH].
Qed.

Lemma expected_iff (mapping : disk_map) (vd : Azure.DataDisk) :
  is_unexpected mapping vd = false <->
  exists e, In e mapping /\ link_of e = Azure.dd_uri vd.
Proof.
  unfold is_unexpected. split.
  - destruct (Dict.first_key _ mapping) as [k|] eqn:K; [|discriminate].
    intros _. apply first_key_some in K as (v & Hin & Hv).
    apply String.eqb_eq in Hv. exists (k, v). split; [assumption|].
    unfold link_of. simpl. congruence.
  - intros ([k v] & Hin & He).
    destruct (Dict.first_key _ mapping) as [k'|] eqn:K; [reflexivity|].
    pose proof (first_key_none _ _ K _ _ Hin) as Hf. simpl in Hf.
    unfold link_of in He. simpl in He. rewrite He, String.eqb_refl in Hf.
    discriminate.
Qed.

Lemma nodup_replace (f : string * Disk.t -> string) (P suf result : disk_map)
    (x : string * Disk.t) :
  (forall e, In e result -> f e = f x) -> (length result <= 1)%nat ->
  NoDup (map f (P ++ x :: suf)) -> NoDup (map f (P ++ result ++ suf)).
Proof.
  intros Hf Hlen Hnd. destruct result as [|e [|e' result]].
  - simpl. rewrite map_app in *. simpl in Hnd.
    now apply NoDup_remove_1 in Hnd.
  - simpl. rewrite map_app in *. simpl in *.
    rewrite (Hf e) by now left. exact Hnd.
  - simpl in Hlen. lia.
Qed.

Lemma vm_same_data_disks (vm : Azure.VirtualMachine) :
  Azure.set_data_disks (Azure.data_disks vm) vm = vm.
Proof. now destruct vm. Qed.

Lemma root_device_not_lun (device : string) (lun : Z) :
  device_name_to_lun device = Some lun ->
  String.eqb device root_device = false.
Proof.
  intros H. apply String.eqb_neq. intros ->.
  rewrite device_name_to_lun_root in H. discriminate.
Qed.

Lemma find_root_disk_replace (P suf result : disk_map) (k : string)
    (d : Disk.t) :
  (forall e, In e result -> Disk.device (snd e) = Disk.device d) ->
  (length result <= 1)%nat ->
  (device_name_to_lun (Disk.device d) = None -> result = [(k, d)]) ->
  find_root_disk (P ++ result ++ suf) = find_root_disk (P ++ (k, d) :: suf).
Proof.
  intros Hdev Hlen Hroot. unfold find_root_disk.
  rewrite !first_key_app. destruct (Dict.first_key _ P); [reflexivity|].
  destruct (device_name_to_lun (Disk.device d)) as [lun|] eqn:L.
  - apply root_device_not_lun in L. simpl. rewrite L. simpl.
    destruct result as [|[k' d'] [|e' result]]; [reflexivity| |simpl in Hlen; lia].
    pose proof (Hdev (k', d') (or_introl eq_refl)) as Hd. simpl in Hd.
    simpl. rewrite Hd, L. reflexivity.
  - rewrite (Hroot eq_refl). simpl.
    now destruct (_ && _)%bool.
Qed.

Lemma drift_loop (storage : option string) (blobs : list (string * string))
    (suf : disk_map) :
  forall (P : disk_map) (vm vm' : Azure.VirtualMachine) (w w' : World),
  State.storage (st w) = storage -> Azure.blobs (remote w) = blobs ->
  State.block_device_mapping (st w) = P ++ suf ->
  NoDup (Dict.keys (P ++ suf)) ->
  NoDup (map link_of (P ++ suf)) ->
  NoDup (map Azure.dd_uri (Azure.data_disks vm)) ->
  (forall vd, In vd (Azure.data_disks vm) ->
     blob_status storage blobs (Azure.dd_uri vd) = Ok true) ->
  (forall e, In e P ->
     settled storage blobs (Azure.data_disks vm) (snd e)) ->
  fold_m suf vm check_data_disk w = (Ok vm', w') ->
  exists P',
    st w' = State.set_block_device_mapping P' (st w) /\
    (remote w' = remote w /\ vm' = vm \/
     remote w' = Azure.set_vm (Some vm') (remote w)) /\
    vm' = Azure.set_data_disks (Azure.data_disks vm') vm /\
    incl (Azure.data_disks vm') (Azure.data_disks vm) /\
    NoDup (map Azure.dd_uri (Azure.data_disks vm')) /\
    NoDup (Dict.keys P') /\
    (forall e, In e P' ->
       settled storage blobs (Azure.data_disks vm') (snd e)) /\
    find_root_disk P' = find_root_disk (P ++ suf) /\
    (forall vd, In vd (Azure.data_disks vm') ->
       is_unexpected (P ++ suf) vd = false -> is_unexpected P' vd = false).
Proof.
  induction suf as [|[k d] suf IH];
    intros P vm vm' w w' Hst Hbl Hm Hkeys Hlinks Huris Hblobs Hset H.
  - cbn [fold_m] in H. inversion H; subst vm' w'; clear H.
    rewrite app_nil_r in *. exists P.
    split; [now rewrite <- Hm, state_same_mapping|].
    split; [now left|]. split; [now rewrite vm_same_data_disks|].
    split; [apply incl_refl|]. repeat split; auto.
  - cbn [fold_m] in H. apply bind_ok in H as (vm1 & w1 & Hstep & H).
    assert (~ In k (Dict.keys P) /\ ~ In k (Dict.keys suf)) as [HP Hsuf].
    { unfold Dict.keys in *. rewrite map_app in Hkeys. simpl in Hkeys.
      pose proof (NoDup_remove_2 _ _ _ Hkeys) as Hn.
      split; intros Hin; apply Hn; apply in_or_app; [now left|now right]. }
    destruct (@check_data_disk_step P suf k d vm vm1 w w1 Hm HP Hsuf Huris)
      as (result & S1 & R1 & E1 & L1 & N1 & Z1);
      [rewrite Hst, Hbl; exact Hblobs|exact Hstep|].
    rewrite Hst, Hbl in E1.
    assert (Azure.blobs (remote w1) = blobs) as Hbl1.
    { destruct R1 as [[-> _]|[-> _]]; [assumption|]. simpl. assumption. }
    assert (State.storage (st w1) = storage) as Hst1
      by (rewrite S1; exact Hst).
    assert (incl (Azure.data_disks vm1) (Azure.data_disks vm)) as Hincl.
    { destruct R1 as [[_ ->]|[_ ->]]; [apply incl_refl|].
      simpl. apply remove_vm_disk_incl. }
    assert (NoDup (map Azure.dd_uri (Azure.data_disks vm1))) as Huris1.
    { destruct R1 as [[_ ->]|[_ ->]]; [assumption|].
      simpl. now apply remove_vm_disk_uris. }
    assert (vm1 = Azure.set_data_disks (Azure.data_disks vm1) vm) as Hvm1.
    { destruct R1 as [[_ ->]|[_ ->]];
        [now rewrite vm_same_data_disks|reflexivity]. }
    assert (forall e, In e (P ++ result) ->
              settled storage blobs (Azure.data_disks vm1) (snd e)) as Hset1.
    { intros e Hin. apply in_app_or in Hin as [Hin|Hin].
      - destruct R1 as [[_ ->]|[_ ->]]; [now apply Hset|].
        eapply settled_same_find; [|now apply Hset].
        simpl. apply find_remove_other.
        intros Heq. rewrite map_app in Hlinks. simpl in Hlinks.
        apply NoDup_remove_2 in Hlinks. apply Hlinks. apply in_or_app. left.
        apply in_map_iff. exists e. split; [|assumption].
        unfold link_of at 1. simpl. now unfold link_of.
      - now apply E1. }
    destruct (IH (P ++ result) vm1 vm' w1 w' Hst1 Hbl1)
      as (P' & S2 & R2 & V2 & I2 & U2 & K2 & T2 & F2 & X2).
    { rewrite S1. simpl. now rewrite <- app_assoc. }
    { rewrite <- app_assoc.
      apply (nodup_replace fst P suf result (k, d));
        [intros e He; now apply E1|assumption|assumption]. }
    { rewrite <- app_assoc.
      apply (nodup_replace link_of P suf result (k, d));
        [intros e He; now apply E1|assumption|assumption]. }
    { assumption. }
    { intros vd Hvd. apply Hblobs. now apply Hincl. }
    { assumption. }
    { assumption. }
    exists P'. split; [|split; [|split; [|split; [|split; [|split; [|split; [|split]]]]]]].
    + rewrite S2, S1. reflexivity.
    + destruct R2 as [[R2 ->]|R2].
      * destruct R1 as [[R1 ->]|[R1 _]]; [left; split; congruence|].
        right. congruence.
      * right. rewrite R2.
        destruct R1 as [[-> _]|[-> _]]; reflexivity.
    + rewrite V2, Hvm1. reflexivity.
    + eapply incl_tran; eauto.
    + assumption.
    + assumption.
    + assumption.
    + rewrite F2, <- app_assoc. apply find_root_disk_replace; auto.
      intros e He. now apply E1.
    + intros vd Hvd Hexp. apply X2; [assumption|].
      apply expected_iff in Hexp as (e & Hin & He).
      apply expected_iff.
      apply in_app_or in Hin as [Hin|[<-|Hin]].
      * exists e. split; [|assumption]. apply in_or_app. left.
        apply in_or_app. now left.
      * destruct result as [|r result].
        -- exfalso. specialize (N1 eq_refl).
           apply find_vm_disk_none in N1. apply N1.
           unfold link_of in He. simpl in He. rewrite He.
           apply in_map. apply Hincl. now apply I2.
        -- exists r. split.
           ++ apply in_or_app. left. apply in_or_app. right. now left.
           ++ destruct (E1 r (or_introl eq_refl)) as (_ & E & _).
              rewrite E. exact He.
      * exists e. split; [|assumption]. apply in_or_app. now right.
Qed.

(** *** Unexpected disks *)

Lemma detach_unexpected_run (n : nat) : forall (todo : list Azure.DataDisk)
    (w : World),
  (length todo <= n)%nat ->
  exists left found w',
    detach_unexpected todo w = (Ok (left, found), w') /\
    st w' = st w /\ remote w' = remote w /\
    (forall u,
        (exists e, In e (State.block_device_mapping (st w)) /\ link_of e = u) ->
        find_vm_disk u left = find_vm_disk u todo) /\
    (found = false -> left = todo) /\
    ((forall vd, In vd todo ->
        is_unexpected (State.block_device_mapping (st w)) vd = false) ->
     left = todo /\ found = false /\ quietly w w').
Proof.
  induction n as [|n IH]; intros todo w Hlen.
  - destruct todo; [|simpl in Hlen; lia].
    exists [], false, w. split; [reflexivity|].
    split; [reflexivity|]. split; [reflexivity|]. split; [reflexivity|].
    split; [reflexivity|].
    intros _. split; [reflexivity|]. split; [reflexivity|apply quietly_refl].
  - destruct todo as [|vm_disk rest].
    { exists [], false, w. split; [reflexivity|].
      split; [reflexivity|]. split; [reflexivity|]. split; [reflexivity|].
      split; [reflexivity|].
      intros _. split; [reflexivity|].
      split; [reflexivity|apply quietly_refl]. }
    cbn [detach_unexpected]. unfold bind at 1. unfold read at 1.
    destruct (is_unexpected (State.block_device_mapping (st w)) vm_disk)
      eqn:U.
    + assert (forall u,
                 (exists e, In e (State.block_device_mapping (st w)) /\
                            link_of e = u) ->
                 String.eqb (Azure.dd_uri vm_disk) u = false) as Hne.
      { intros u He. apply String.eqb_neq. intros Heq. subst u.
        apply expected_iff in He. congruence. }
      unfold bind at 1. unfold warn, emit at 1.
      destruct rest as [|stepped_over rest'].
      * eexists [], true, _. split; [reflexivity|].
        split; [reflexivity|]. split; [reflexivity|]. split; [|split].
        -- intros u He. unfold find_vm_disk. simpl. now rewrite Hne.
        -- discriminate.
        -- intros Hall. rewrite Hall in U; [discriminate|now left].
      * cbv beta iota. unfold bind at 1.
        match goal with
        | |- context [detach_unexpected rest' ?w0] =>
            destruct (IH rest' w0)
              as (left & found & w' & Hrun & S & R & Hf & _ & _);
              [simpl in Hlen |- *; lia|]
        end.
        rewrite Hrun. unfold ret.
        eexists _, true, w'. split; [reflexivity|].
        split; [exact S|]. split; [exact R|]. split; [|split].
        -- intros u He. unfold find_vm_disk in *. simpl.
           rewrite (Hne u He).
           destruct (String.eqb (Azure.dd_uri stepped_over) u);
             [reflexivity|]. now apply Hf.
        -- discriminate.
        -- intros Hall. rewrite Hall in U; [discriminate|now left].
    + destruct (IH rest w)
        as (left & found & w' & Hrun & S & R & Hf & Hl & Hq);
        [simpl in Hlen; lia|].
      unfold bind at 1. rewrite Hrun. unfold ret. cbn [fst snd].
      exists (vm_disk :: left), found, w'. split; [reflexivity|].
      split; [exact S|]. split; [exact R|]. split; [|split].
      * intros u He. unfold find_vm_disk in *. simpl.
        destruct (String.eqb (Azure.dd_uri vm_disk) u); [reflexivity|].
        now apply Hf.
      * intros Hf'. now rewrite (Hl Hf').
      * intros Hall. destruct Hq as (-> & -> & Hq).
        { intros vd Hvd. apply Hall. now right. }
        split; [reflexivity|]. split; [reflexivity|exact Hq].
Qed.

(** *** The other steps of the check pass *)

Lemma state_same_size (s : State.t) : State.set_size (State.size s) s = s.
Proof. now destruct s. Qed.

Lemma state_same_public_ipv4 (s : State.t) :
  State.set_public_ipv4 (State.public_ipv4 s) s = s.
Proof. now destruct s. Qed.

Lemma opt_string_eqb_refl (a : option string) : opt_string_eqb a a = true.
Proof. destruct a; simpl; [apply String.eqb_refl|reflexivity]. Qed.

Lemma handle_changed_property_run (get : State.t -> option string)
    (set : option string -> State.t -> State.t) (name : string)
    (actual : option string) (w : World) :
  exists w',
    handle_changed_property get set name actual w = (Ok tt, w') /\
    st w' = set actual (st w) /\ remote w' = remote w /\
    (get (st w) = actual -> trace w' = trace w).
Proof.
  unfold handle_changed_property, full_name.
  unfold bind at 1. unfold read at 1.
  unfold bind at 1. unfold bind at 1. unfold read at 1. unfold ret at 1.
  unfold bind at 1. rewrite warn_if_changed_run.
  unfold write.
  destruct (opt_string_eqb (get (st w)) actual) eqn:E.
  - eexists. split; [reflexivity|]. repeat split.
  - eexists. split; [reflexivity|]. repeat split.
    intros <-. now rewrite opt_string_eqb_refl in E.
Qed.

Lemma fetch_public_ip_run (w : World) :
  fetch_public_ip w
  = (match State.public_ip (st w) with
     | Some n =>
         if mem_string n (Azure.public_ips (remote w))
         then Ok (Azure.ip_address (remote w))
         else Raise AzureMissingResourceHttpError
     | None => Raise AzureMissingResourceHttpError
     end,
     add_event (Api (Azure.public_ip_addresses_get (State.public_ip (st w))))
               w).
Proof.
  unfold fetch_public_ip, public_ip_addresses_get. mrun.
  destruct (State.public_ip (st w)) as [n|]; [|reflexivity].
  mrun. destruct (mem_string n (Azure.public_ips (remote w))); reflexivity.
Qed.

Lemma update_ssh_known_hosts_run (w : World) :
  exists w', update_ssh_known_hosts w = (Ok tt, w') /\ quietly w w'.
Proof.
  unfold update_ssh_known_hosts. mrun.
  destruct (State.public_ipv4 (st w)) as [h|].
  - destruct (Str.is_empty h); cbn [negb]; mrun.
    + exists w. split; [reflexivity|apply quietly_refl].
    + eexists. split; [reflexivity|]. now apply quietly_event.
  - mrun. exists w. split; [reflexivity|apply quietly_refl].
Qed.

Lemma warn_cannot_fix (A : Type) (eqb : A -> A -> bool)
    (expected actual : A) (name resource_name : string) (w : World) :
  exists w',
    warn_if_changed eqb expected actual name resource_name false w
    = (Ok actual, w') /\ quietly w w'.
Proof.
  rewrite warn_if_changed_run.
  destruct (eqb expected actual); eexists; (split; [reflexivity|]).
  - apply quietly_refl.
  - now apply quietly_event.
Qed.

Lemma check_root_disk_ok (vm : Azure.VirtualMachine) (w w' : World) :
  check_root_disk vm w = (Ok tt, w') ->
  find_root_disk (State.block_device_mapping (st w)) <> None.
Proof.
  unfold check_root_disk, full_name.
  unfold bind at 1. unfold bind at 1. unfold read at 1. unfold ret at 1.
  unfold bind at 1. unfold read at 1.
  destruct (find_root_disk _); [discriminate|]. intros H. inversion H.
Qed.

Lemma check_root_disk_run (vm : Azure.VirtualMachine) (w : World) :
  find_root_disk (State.block_device_mapping (st w)) <> None ->
  exists w', check_root_disk vm w = (Ok tt, w') /\ quietly w w'.
Proof.
  intros Hroot.
  unfold check_root_disk, full_name.
  unfold bind at 1. unfold bind at 1. unfold read at 1. unfold ret at 1.
  unfold bind at 1. unfold read at 1.
  destruct (find_root_disk _) as [id|] eqn:F; [|congruence].
  unfold find_root_disk in F.
  destruct (first_key_get _ _ F) as (root_disk & G). rewrite G.
  unfold bind at 1.
  match goal with
  | |- context [@warn_if_changed ?A ?e ?a ?b ?c ?n false w] =>
      destruct (@warn_cannot_fix A e a b c n w) as (w1 & -> & Q1)
  end.
  unfold bind at 1.
  match goal with
  | |- context [@warn_if_changed ?A ?e ?a ?b ?c ?n false w1] =>
      destruct (@warn_cannot_fix A e a b c n w1) as (w2 & -> & Q2)
  end.
  unfold bind at 1.
  match goal with
  | |- context [@warn_if_changed ?A ?e ?a ?b ?c ?n false w2] =>
      destruct (@warn_cannot_fix A e a b c n w2) as (w3 & -> & Q3)
  end.
  rewrite update_block_device_mapping_run.
  pose proof (@quietly_trans _ _ _ Q1 (@quietly_trans _ _ _ Q2 Q3))
    as (S & R & evs & T & U).
  rewrite S, (@set_same _ _ _ _ G), state_same_mapping.
  eexists. split; [reflexivity|].
  split; [reflexivity|]. split; [exact R|]. exists evs. now split.
Qed.

Lemma when_warn_run (b : bool) (e : warning) (w : World) :
  exists w',
    when b (warn e) w = (Ok tt, w') /\ st w' = st w /\ remote w' = remote w /\
    (uneventful (Warn e) = true -> quietly w w').
Proof.
  destruct b.
  - eexists. split; [reflexivity|]. split; [reflexivity|].
    split; [reflexivity|]. intros H. now apply quietly_event.
  - exists w. split; [reflexivity|]. split; [reflexivity|].
    split; [reflexivity|]. intros _. apply quietly_refl.
Qed.

Lemma remote_same_vm (r : Azure.Remote) (v : Azure.VirtualMachine) :
  Azure.vm r = Some v -> Azure.set_vm (Some v) r = r.
Proof. destruct r. simpl. now intros ->. Qed.

(** *** What the first run leaves *)

Lemma drift_check_summary (allow_recreate : bool) (w w1 : World)
    (vm : Azure.VirtualMachine) :
  Azure.vm (remote w) = Some vm ->
  truthy (State.vm_id (st w)) = true ->
  NoDup (Dict.keys (State.block_device_mapping (st w))) ->
  NoDup (map link_of (State.block_device_mapping (st w))) ->
  NoDup (map Azure.dd_uri (Azure.data_disks vm)) ->
  (forall vd, In vd (Azure.data_disks vm) ->
     blob_status (State.storage (st w)) (Azure.blobs (remote w))
                 (Azure.dd_uri vd) = Ok true) ->
  check_pass allow_recreate w = (Ok tt, w1) ->
  exists P' vmF ip,
    st w1 = State.set_block_device_mapping P'
              (State.set_public_ipv4 ip
                 (State.set_size (Some (Azure.virtual_machine_size vm))
                                 (st w))) /\
    remote w1 = Azure.set_vm (Some vmF) (remote w) /\
    vmF = Azure.set_data_disks (Azure.data_disks vmF) vm /\
    match State.public_ip (st w) with
    | Some n =>
        if mem_string n (Azure.public_ips (remote w))
        then Ok (Azure.ip_address (remote w))
        else Raise AzureMissingResourceHttpError
    | None => Raise AzureMissingResourceHttpError
    end = Ok ip /\
    NoDup (Dict.keys P') /\
    (forall e, In e P' ->
       settled (State.storage (st w)) (Azure.blobs (remote w))
               (Azure.data_disks vmF) (snd e)) /\
    find_root_disk P' <> None /\
    ((forall vd, In vd (Azure.data_disks vm) ->
        is_unexpected (State.block_device_mapping (st w)) vd = false) ->
     forall vd, In vd (Azure.data_disks vmF) -> is_unexpected P' vd = false).
Proof.
  intros Hvm Hid Hkeys Hlinks Huris Hblobs H.
  unfold check_pass in H. unfold bind at 1 in H.
  rewrite get_settled_resource_run, Hvm in H.
  unfold bind at 1 in H. unfold read at 1 in H. cbn [st add_event] in H.
  rewrite Hid in H.
  (* the failed state *)
  unfold bind at 1 in H.
  match type of H with
  | context [when ?b (warn ?e) ?w0] =>
      destruct (when_warn_run b e w0) as (wc & Hc & Sc & Rc & _)
  end.
  rewrite Hc in H. clear Hc. cbn [st remote add_event] in Sc, Rc.
  (* the size *)
  unfold bind at 1 in H.
  match type of H with
  | context [handle_changed_property ?g ?s ?n ?a wc] =>
      destruct (handle_changed_property_run g s n a wc)
        as (wd & Hd & Sd & Rd & _)
  end.
  rewrite Hd in H. clear Hd.
  (* the address *)
  unfold bind at 1 in H. rewrite fetch_public_ip_run in H.
  rewrite Sd, Rd, Sc, Rc in H.
  cbn [State.public_ip State.set_size] in H.
  match type of H with
  | context [match ?r with Some _ => _ | None => _ end] =>
      match r with
      | State.public_ip (st w) => idtac
      end
  end.
  set (answer := match State.public_ip (st w) with
                 | Some n =>
                     if mem_string n (Azure.public_ips (remote w))
                     then Ok (Azure.ip_address (remote w))
                     else Raise AzureMissingResourceHttpError
                 | None => Raise AzureMissingResourceHttpError
                 end) in *.
  destruct answer as [ip|e] eqn:Hip; [|discriminate].
  unfold bind at 1 in H.
  match type of H with
  | context [handle_changed_property ?g ?s ?n ?a ?w0] =>
      destruct (handle_changed_property_run g s n a w0)
        as (wf & Hf & Sf & Rf & _)
  end.
  rewrite Hf in H. clear Hf. cbn [st remote add_event] in Sf, Rf.
  (* the known hosts *)
  unfold bind at 1 in H.
  destruct (update_ssh_known_hosts_run wf) as (wg & Hg & Sg & Rg & _).
  rewrite Hg in H. clear Hg.
  (* the root disk *)
  unfold bind at 1 in H.
  destruct (check_root_disk vm wg) as [[[]|e] wh] eqn:Hh; [|discriminate].
  pose proof (@check_root_disk_ok _ _ _ Hh) as Hroot.
  destruct (check_root_disk_run vm wg Hroot) as (wh' & Hh' & Sh & Rh & _).
  rewrite Hh in Hh'. inversion Hh'; subst wh'. clear Hh'.
  assert (st wh = State.set_public_ipv4 ip
                    (State.set_size (Some (Azure.virtual_machine_size vm))
                                    (st w))) as Swh
    by (rewrite Sh, Sg, Sf, Sd, Sc; reflexivity).
  assert (remote wh = remote w) as Rwh
    by (rewrite Rh, Rg, Rf, Rd, Rc; reflexivity).
  rewrite Sg, Sf, Sd, Sc in Hroot.
  cbn [State.block_device_mapping State.set_public_ipv4 State.set_size]
    in Hroot.
  (* the recorded disks *)
  unfold bind at 1 in H. unfold read at 1 in H.
  unfold bind at 1 in H.
  destruct (fold_m _ vm check_data_disk wh) as [[vm'|e] wi] eqn:Hloop;
    [|discriminate].
  rewrite Swh in Hloop.
  cbn [State.block_device_mapping State.set_public_ipv4 State.set_size]
    in Hloop.
  destruct (@drift_loop (State.storage (st w)) (Azure.blobs (remote w))
              (State.block_device_mapping (st w)) [] vm vm' wh wi)
    as (P' & S2 & R2 & V2 & I2 & U2 & K2 & T2 & F2 & X2);
    try assumption.
  { now rewrite Swh. }
  { now rewrite Rwh. }
  { now rewrite Swh. }
  { intros e []. }
  cbn [app] in F2, X2.
  (* the unexpected disks *)
  unfold bind at 1 in H.
  destruct (@detach_unexpected_run (length (Azure.data_disks vm'))
              (Azure.data_disks vm') wi (le_n _))
    as (left & found & wj & Hj & Sj & Rj & Fj & Lj & Qj).
  rewrite Hj in H. clear Hj. cbn [fst snd] in H.
  assert (Azure.vm (remote wi) = Some vm') as Hvm'.
  { destruct R2 as [[R2a R2b]|R2a]; rewrite R2a;
      [subst vm'; now rewrite Rwh|reflexivity]. }
  assert (remote wi = Azure.set_vm (Some vm') (remote w)) as Rwi.
  { destruct R2 as [[R2a R2b]|R2a]; rewrite R2a.
    - subst vm'. rewrite Rwh. symmetry. now apply remote_same_vm.
    - now rewrite Rwh. }
  assert (forall e, In e P' ->
            settled (State.storage (st w)) (Azure.blobs (remote w)) left
                    (snd e)) as Hleft.
  { intros e He. eapply settled_same_find; [|now apply T2].
    apply Fj. rewrite S2. cbn [State.block_device_mapping
      State.set_block_device_mapping]. exists e. now split. }
  assert (st w1 = st wi /\
          remote w1
          = Azure.set_vm (Some (Azure.set_data_disks left vm')) (remote w))
    as [Sw1 Rw1].
  { destruct found.
    - unfold when in H. unfold bind at 1 in H. unfold log, emit at 1 in H.
      rewrite virtual_machines_create_or_update_run in H.
      inversion H; subst w1; clear H.
      cbn [st remote set_remote add_event]. split; [exact Sj|].
      rewrite Rj, Rwi. reflexivity.
    - unfold when, ret in H. inversion H; subst w1; clear H.
      split; [exact Sj|].
      rewrite (Lj eq_refl), vm_same_data_disks, Rj. exact Rwi. }
  exists P', (Azure.set_data_disks left vm'), ip.
  split; [now rewrite Sw1, S2, Swh|].
  split; [exact Rw1|].
  split; [rewrite V2 at 1; reflexivity|].
  split; [reflexivity|].
  split; [exact K2|].
  split; [exact Hleft|].
  split; [now rewrite F2|].
  intros Hexp vd Hvd. cbn [Azure.data_disks Azure.set_data_disks] in Hvd.
  assert (forall vd, In vd (Azure.data_disks vm') ->
            is_unexpected P' vd = false) as Hexp'.
  { intros vd' Hvd'. apply X2; [assumption|]. apply Hexp. now apply I2. }
  destruct Qj as (-> & _ & _).
  { rewrite S2. exact Hexp'. }
  now apply Hexp'.
Qed.

(** *** A record that agrees with the machine is a fixed point *)

Lemma handle_changed_property_same (get : State.t -> option string)
    (set : option string -> State.t -> State.t) (name : string)
    (actual : option string) (w : World) :
  get (st w) = actual -> set actual (st w) = st w ->
  exists w',
    handle_changed_property get set name actual w = (Ok tt, w') /\
    quietly w w'.
Proof.
  intros Hg Hs.
  destruct (handle_changed_property_run get set name actual w)
    as (w' & Hrun & S & R & T).
  exists w'. split; [exact Hrun|]. split; [now rewrite S|].
  split; [exact R|]. exists []. split; [now apply T|constructor].
Qed.

Lemma check_pass_fixed_point (allow_recreate : bool) (w : World)
    (vm : Azure.VirtualMachine) (ip : option string) :
  Azure.vm (remote w) = Some vm ->
  truthy (State.vm_id (st w)) = true ->
  State.size (st w) = Some (Azure.virtual_machine_size vm) ->
  match State.public_ip (st w) with
  | Some n =>
      if mem_string n (Azure.public_ips (remote w))
      then Ok (Azure.ip_address (remote w))
      else Raise AzureMissingResourceHttpError
  | None => Raise AzureMissingResourceHttpError
  end = Ok ip ->
  State.public_ipv4 (st w) = ip ->
  NoDup (Dict.keys (State.block_device_mapping (st w))) ->
  (forall e, In e (State.block_device_mapping (st w)) ->
     settled (State.storage (st w)) (Azure.blobs (remote w))
             (Azure.data_disks vm) (snd e)) ->
  find_root_disk (State.block_device_mapping (st w)) <> None ->
  exists w2,
    check_pass allow_recreate w = (Ok tt, w2) /\
    st w2 = st w /\
    ((forall vd, In vd (Azure.data_disks vm) ->
        is_unexpected (State.block_device_mapping (st w)) vd = false) ->
     quietly w w2).
Proof.
  intros Hvm Hid Hsize Hip Hv4 Hkeys Hset Hroot.
  unfold check_pass. unfold bind at 1.
  rewrite get_settled_resource_run, Hvm.
  assert (quietly w (add_event (Api Azure.virtual_machines_get) w)) as Qa
    by now apply quietly_event.
  set (wa := add_event (Api Azure.virtual_machines_get) w) in *.
  unfold bind at 1. unfold read at 1.
  replace (State.vm_id (st wa)) with (State.vm_id (st w)) by reflexivity.
  rewrite Hid.
  unfold bind at 1.
  destruct (when_warn_run (is_failed (Azure.provisioning_state vm))
              FailedState wa) as (wc & -> & _ & _ & Qc).
  specialize (Qc eq_refl).
  pose proof (@quietly_trans _ _ _ Qa Qc) as Q. clear Qa Qc.
  (* the size *)
  unfold bind at 1.
  destruct (@handle_changed_property_same State.size State.set_size "size"
              (Some (Azure.virtual_machine_size vm)) wc)
    as (wd & -> & Qd).
  { destruct Q as (-> & _). exact Hsize. }
  { destruct Q as (-> & _). rewrite <- Hsize. apply state_same_size. }
  pose proof (@quietly_trans _ _ _ Q Qd) as Q'. clear Q Qd.
  (* the address *)
  unfold bind at 1. rewrite fetch_public_ip_run.
  destruct Q' as (Sd & Rd & evd & Td & Ud).
  rewrite Sd, Rd, Hip.
  assert (quietly w (add_event
                       (Api (Azure.public_ip_addresses_get
                               (State.public_ip (st w)))) wd)) as Q.
  { split; [exact Sd|]. split; [exact Rd|].
    exists (Api (Azure.public_ip_addresses_get (State.public_ip (st w)))
            :: evd).
    split; [simpl; now rewrite Td|]. now constructor. }
  match goal with
  | Q : quietly w ?w0 |- _ => set (we := w0) in *
  end.
  unfold bind at 1.
  destruct (@handle_changed_property_same State.public_ipv4
              State.set_public_ipv4 "public ipv4" ip we)
    as (wf & -> & Qf).
  { destruct Q as (-> & _). exact Hv4. }
  { destruct Q as (-> & _). rewrite <- Hv4. apply state_same_public_ipv4. }
  pose proof (@quietly_trans _ _ _ Q Qf) as Q'. clear Q Qf.
  (* the known hosts *)
  unfold bind at 1.
  destruct (update_ssh_known_hosts_run wf) as (wg & -> & Qg).
  pose proof (@quietly_trans _ _ _ Q' Qg) as Q. clear Q' Qg.
  (* the root disk *)
  unfold bind at 1.
  destruct (check_root_disk_run vm wg) as (wh & -> & Qh).
  { destruct Q as (-> & _). exact Hroot. }
  pose proof (@quietly_trans _ _ _ Q Qh) as Q'. clear Q Qh.
  (* the recorded disks *)
  unfold bind at 1. unfold read at 1. unfold bind at 1.
  destruct (@check_settled_disks (State.block_device_mapping (st wh)) vm wh)
    as (wi & -> & Qi).
  { intros k d Hin. destruct Q' as (S & R & _). rewrite S, R in *.
    split; [now apply (Hset (k, d))|now apply in_get]. }
  pose proof (@quietly_trans _ _ _ Q' Qi) as Q. clear Q' Qi.
  (* the unexpected disks *)
  unfold bind at 1.
  destruct (@detach_unexpected_run (length (Azure.data_disks vm))
              (Azure.data_disks vm) wi (le_n _))
    as (left & found & wj & -> & Sj & Rj & _ & _ & Qj).
  cbn [fst snd].
  destruct Q as (S & R & evs & T & U).
  assert (exists w2,
             when found
               (log "detaching unexpected disk(s)..." ;;
                virtual_machines_create_or_update
                  (Azure.set_data_disks left vm)) wj = (Ok tt, w2) /\
             st w2 = st wj /\ (found = false -> w2 = wj))
    as (w2 & -> & S2 & Hw2).
  { destruct found.
    - eexists. split; [reflexivity|]. split; [reflexivity|discriminate].
    - exists wj. split; [reflexivity|]. split; reflexivity. }
  exists w2. split; [reflexivity|]. split; [congruence|].
  intros Hexp. destruct Qj as (_ & Hf & Qj).
  { now rewrite S. }
  rewrite (Hw2 Hf).
  apply (@quietly_trans w wi wj); [|exact Qj].
  split; [exact S|]. split; [exact R|]. exists evs. now split.
Qed.

(** *** The other branches of the check pass *)

Lemma check_pass_nothing (allow_recreate : bool) (w : World) :
  Azure.vm (remote w) = None -> truthy (State.vm_id (st w)) = false ->
  check_pass allow_recreate w
  = (Ok tt, add_event (Api Azure.virtual_machines_get) w).
Proof.
  intros Hvm Hid. unfold check_pass. unfold bind at 1.
  rewrite get_settled_resource_run, Hvm.
  unfold bind at 1. unfold read at 1. cbn [st add_event]. rewrite Hid.
  reflexivity.
Qed.

Lemma check_pass_gone (allow_recreate : bool) (w w1 : World) :
  Azure.vm (remote w) = None \/ truthy (State.vm_id (st w)) = false ->
  NoDup (Dict.keys (State.block_device_mapping (st w))) ->
  check_pass allow_recreate w = (Ok tt, w1) ->
  Azure.vm (remote w1) = None /\ truthy (State.vm_id (st w1)) = false.
Proof.
  intros Hcase Hkeys H. unfold check_pass in H. unfold bind at 1 in H.
  rewrite get_settled_resource_run in H.
  unfold bind at 1 in H. unfold read at 1 in H. cbn [st add_event] in H.
  destruct (Azure.vm (remote w)) as [vm|] eqn:Hvm.
  - destruct Hcase as [Hcase|Hid]; [discriminate|]. rewrite Hid in H.
    unfold confirm_destroy, destroy_resource, virtual_machines_delete in H.
    unfold add_event in H. mrun_in H.
    destruct (operator w AskDestroyMachine) eqn:O; mrun_in H;
      inversion H; subst; clear H.
    split; [reflexivity|exact Hid].
  - destruct (truthy (State.vm_id (st w))) eqn:Hid.
    + unfold when in H. unfold bind at 1 in H. unfold warn, emit at 1 in H.
      unfold bind at 1 in H.
      destruct allow_recreate; cbn [negb] in H; [|discriminate].
      unfold ret at 1 in H.
      match type of H with
      | _node_deleted ?w0 = _ =>
          destruct (@node_deleted_run w0 Hkeys)
            as (w' & Hrun & Hv & _ & _ & _ & _ & _ & _ & Hr & _)
      end.
      rewrite Hrun in H. inversion H; subst w'; clear H.
      rewrite Hv, Hr. split; [exact Hvm|reflexivity].
    + unfold when, ret in H. inversion H; subst w1; clear H.
      split; [exact Hvm|exact Hid].
Qed.

(** C4, as amended: after a check pass that completed, a second check
    pass against the resource as the first one left it completes and
    leaves the state record, the disk map in it, as it is; and when no
    disk was attached to the machine that the record does not have, the
    second pass sends nothing that changes a remote resource and warns
    only about what cannot be fixed automatically. *)
Theorem check_pass_twice (allow_recreate : bool) (w w1 : World) :
  NoDup (Dict.keys (State.block_device_mapping (st w))) ->
  NoDup (map link_of (State.block_device_mapping (st w))) ->
  (forall vm, Azure.vm (remote w) = Some vm ->
     NoDup (map Azure.dd_uri (Azure.data_disks vm)) /\
     forall vd, In vd (Azure.data_disks vm) ->
       blob_status (State.storage (st w)) (Azure.blobs (remote w))
                   (Azure.dd_uri vd) = Ok true) ->
  check_pass allow_recreate w = (Ok tt, w1) ->
  exists w2,
    check_pass allow_recreate w1 = (Ok tt, w2) /\
    st w2 = st w1 /\
    ((forall vm vd, Azure.vm (remote w) = Some vm ->
        In vd (Azure.data_disks vm) ->
        is_unexpected (State.block_device_mapping (st w)) vd = false) ->
     quietly w1 w2).
Proof.
  intros Hkeys Hlinks Hvm H.
  destruct (Azure.vm (remote w)) as [vm|] eqn:V.
  - destruct (truthy (State.vm_id (st w))) eqn:T.
    + destruct (Hvm vm eq_refl) as (Huris & Hblobs).
      destruct (@drift_check_summary allow_recreate w w1 vm V T Hkeys Hlinks
                  Huris Hblobs H)
        as (P' & vmF & ip & S1 & R1 & VF & Hip & K & Hset & Hroot & Hexp).
      destruct (@check_pass_fixed_point allow_recreate w1 vmF ip)
        as (w2 & Hrun & S2 & Q).
      * now rewrite R1.
      * now rewrite S1.
      * rewrite S1, VF. reflexivity.
      * rewrite S1, R1. exact Hip.
      * now rewrite S1.
      * now rewrite S1.
      * rewrite S1, R1. exact Hset.
      * now rewrite S1.
      * exists w2. split; [exact Hrun|]. split; [exact S2|].
        intros Hall. apply Q. rewrite S1. apply Hexp.
        intros vd Hvd. now apply (Hall vm).
    + destruct (@check_pass_gone allow_recreate w w1 (or_intror T) Hkeys H)
        as (V1 & T1).
      exists (add_event (Api Azure.virtual_machines_get) w1).
      split; [now apply check_pass_nothing|]. split; [reflexivity|].
      intros _. now apply quietly_event.
  - destruct (@check_pass_gone allow_recreate w w1 (or_introl V) Hkeys H)
      as (V1 & T1).
    exists (add_event (Api Azure.virtual_machines_get) w1).
    split; [now apply check_pass_nothing|]. split; [reflexivity|].
    intros _. now apply quietly_event.
Qed.

Lemma check_pass_twice_witness :
  exists w1 w2,
    check_pass true SampleCreate.drifted = (Ok tt, w1) /\
    check_pass true w1 = (Ok tt, w2) /\
    st w2 = st w1 /\ quietly w1 w2.
Proof.
  pose (w1 := snd (check_pass true SampleCreate.drifted)).
  assert (check_pass true SampleCreate.drifted = (Ok tt, w1)) as Hrun
    by (vm_compute; reflexivity).
  destruct (@check_pass_twice true SampleCreate.drifted w1)
    as (w2 & Hrun2 & S & Q).
  - simpl. nodup_strings.
  - simpl. nodup_strings.
  - intros vm Hvm. vm_compute in Hvm. inversion Hvm; subst vm; clear Hvm.
    split; [simpl; nodup_strings|].
    intros vd Hvd. simpl in Hvd.
    destruct Hvd as [<-|[<-|[]]]; vm_compute; reflexivity.
  - exact Hrun.
  - exists w1, w2. split; [exact Hrun|]. split; [exact Hrun2|].
    split; [exact S|]. apply Q.
    intros vm vd Hvm Hvd. vm_compute in Hvm. inversion Hvm; subst vm; clear Hvm.
    simpl in Hvd. destruct Hvd as [<-|[<-|[]]]; vm_compute; reflexivity.
Defined.

(** C4, as stated, fails: the name of the root disk differs from the
    recorded one, which cannot be fixed; the second check pass warns
    about it again. *)
Lemma check_pass_warns_again :
  exists w1 w2,
    check_pass true SampleDrift.root_renamed = (Ok tt, w1) /\
    check_pass true w1 = (Ok tt, w2) /\
    warnings w1 = [Warn (Changed "OS disk of Azure machine 'm'" "name" false)] /\
    warnings w2
    = [Warn (Changed "OS disk of Azure machine 'm'" "name" false);
       Warn (Changed "OS disk of Azure machine 'm'" "name" false)].
Proof.
  eexists. eexists. split; [vm_compute; reflexivity|].
  split; [vm_compute; reflexivity|]. split; reflexivity.
Qed.

(** * Further properties *)

(** ** BLOB addresses *)

Lemma is_empty_false (s : string) : s <> ""%string -> Str.is_empty s = false.
Proof. destruct s; [congruence|reflexivity]. Qed.

Lemma is_empty_false_inv (s : string) : Str.is_empty s = false -> s <> ""%string.
Proof. destruct s; [discriminate|discriminate]. Qed.

Lemma span_stops (f : ascii -> bool) (s t : string) (c : ascii) :
  Str.all_chars f s = true -> f c = false ->
  Str.span f (s ++ String c t)%string = (s, String c t).
Proof.
  intros Hs Hc. rewrite (@span_all_chars _ _ _ Hs). simpl. rewrite Hc. simpl.
  now rewrite append_empty_r.
Qed.

Lemma span_to_end (f : ascii -> bool) (s : string) :
  Str.all_chars f s = true -> Str.span f s = (s, ""%string).
Proof.
  intros Hs. rewrite <- (append_empty_r s) at 1.
  rewrite (@span_all_chars _ _ _ Hs). simpl. now rewrite append_empty_r.
Qed.

(** X1: an address put together from a storage account, a host, a
    container and a BLOB name is taken apart into the same storage
    account, container and name. *)
Theorem parse_blob_url_of_parts (secure : bool)
    (storage host container name : string) :
  storage <> ""%string -> Str.all_chars not_dot_slash storage = true ->
  host <> ""%string -> Str.all_chars not_slash host = true ->
  container <> ""%string -> Str.all_chars not_slash container = true ->
  name <> ""%string -> Str.all_chars not_newline name = true ->
  parse_blob_url (blob_url secure storage host container name)
  = Some (mkBlob storage container name).
Proof.
  intros S0 S1 H0 H1 C0 C1 N0 N1.
  unfold parse_blob_url, blob_url.
  assert (strip_scheme
            ((if secure then "https://" else "http://")
             ++ storage ++ "." ++ host ++ "/" ++ container ++ "/" ++ name)%string
          = Some (storage ++ "." ++ host ++ "/" ++ container ++ "/" ++ name)%string)
    as ->.
  { unfold strip_scheme. destruct secure.
    - now rewrite strip_prefix_app.
    - replace (Str.strip_prefix "https://" _) with (@None string)
        by reflexivity.
      now rewrite strip_prefix_app. }
  change ("." ++ host ++ "/" ++ container ++ "/" ++ name)%string
    with (String "."%char (host ++ "/" ++ container ++ "/" ++ name))%string.
  rewrite (@span_stops _ _ _ _ S1) by reflexivity.
  change ("/" ++ container ++ "/" ++ name)%string
    with (String "/"%char (container ++ "/" ++ name))%string.
  rewrite (@span_stops _ _ _ _ H1) by reflexivity.
  change ("/" ++ name)%string with (String "/"%char name).
  rewrite (@span_stops _ _ _ _ C1) by reflexivity.
  rewrite (@span_to_end _ _ N1).
  now rewrite !is_empty_false by assumption.
Qed.

Lemma parse_blob_url_of_parts_witness :
  parse_blob_url "https://acct.blob.core.windows.net/vhds/disks/root.vhd"
  = Some (mkBlob "acct" "vhds" "disks/root.vhd").
Proof.
  apply (@parse_blob_url_of_parts true "acct" "blob.core.windows.net" "vhds"
           "disks/root.vhd");
    first [discriminate|reflexivity].
Defined.

Lemma strip_scheme_some (s r : string) :
  strip_scheme s = Some r ->
  exists secure : bool,
    s = ((if secure then "https://" else "http://") ++ r)%string.
Proof.
  unfold strip_scheme.
  destruct (Str.strip_prefix "https://" s) as [r'|] eqn:E.
  - intros H; inversion H; subst. exists true.
    now apply strip_prefix_some.
  - intros H. exists false. now apply strip_prefix_some.
Qed.

Lemma at_dollar_cases (s : string) :
  Str.at_dollar s = true -> s = ""%string \/ s = String Str.newline "".
Proof.
  destruct s as [|c [|c' s]]; simpl; intros H; try discriminate.
  - now left.
  - right. apply Ascii.eqb_eq in H. now subst.
Qed.

(** X2: an address that [parse_blob_url] accepts is made of a scheme, a
    storage account without dot or slash, a host, a container without
    slash and a name, all of them non-empty, possibly with a newline at
    its end; the parts it returns are the parts of the address. *)
Theorem parse_blob_url_some (blob : string) (b : Blob) :
  parse_blob_url blob = Some b ->
  exists (secure : bool) (host tail : string),
    blob = blob_url secure (blob_storage b) host (blob_container b)
                    (blob_name b ++ tail)%string /\
    (tail = ""%string \/ tail = String Str.newline "") /\
    blob_storage b <> ""%string /\
    Str.all_chars not_dot_slash (blob_storage b) = true /\
    host <> ""%string /\ Str.all_chars not_slash host = true /\
    blob_container b <> ""%string /\
    Str.all_chars not_slash (blob_container b) = true /\
    blob_name b <> ""%string /\
    Str.all_chars not_newline (blob_name b) = true.
Proof.
  unfold parse_blob_url.
  destruct (strip_scheme blob) as [r0|] eqn:S; [|discriminate].
  apply strip_scheme_some in S as (secure & ->).
  pose proof (span_all not_dot_slash r0) as A1.
  pose proof (span_app not_dot_slash r0) as B1.
  destruct (Str.span not_dot_slash r0) as [storage r1]; simpl in A1, B1.
  destruct r1 as [|c1 r2]; [discriminate|].
  destruct (Ascii.eqb c1 "."%char) eqn:E1;
    [apply Ascii.eqb_eq in E1; subst c1
    |destruct c1 as [[] [] [] [] [] [] [] []]; try discriminate].
  pose proof (span_all not_slash r2) as A2.
  pose proof (span_app not_slash r2) as B2.
  destruct (Str.span not_slash r2) as [host r3]; simpl in A2, B2.
  destruct r3 as [|c3 r4]; [discriminate|].
  destruct (Ascii.eqb c3 "/"%char) eqn:E3;
    [apply Ascii.eqb_eq in E3; subst c3
    |destruct c3 as [[] [] [] [] [] [] [] []]; try discriminate].
  pose proof (span_all not_slash r4) as A4.
  pose proof (span_app not_slash r4) as B4.
  destruct (Str.span not_slash r4) as [container r5]; simpl in A4, B4.
  destruct r5 as [|c5 r6]; [discriminate|].
  destruct (Ascii.eqb c5 "/"%char) eqn:E5;
    [apply Ascii.eqb_eq in E5; subst c5
    |destruct c5 as [[] [] [] [] [] [] [] []]; try discriminate].
  pose proof (span_all not_newline r6) as A6.
  pose proof (span_app not_newline r6) as B6.
  destruct (Str.span not_newline r6) as [nm r7]; simpl in A6, B6.
  destruct (negb (Str.is_empty storage) && negb (Str.is_empty host)
            && negb (Str.is_empty container) && negb (Str.is_empty nm)
            && Str.at_dollar r7)%bool eqn:C; [|discriminate].
  intros H; inversion H; subst b; clear H. simpl.
  repeat (apply andb_prop in C as [C ?]).
  repeat match goal with
         | H : negb _ = true |- _ => apply negb_true_iff in H
         end.
  exists secure, host, r7. unfold blob_url.
  split; [now rewrite B1, B2, B4, B6 at 1|].
  split; [now apply at_dollar_cases|].
  repeat split; try assumption; now apply is_empty_false_inv.
Qed.

Lemma parse_blob_url_some_witness :
  exists (secure : bool) (host tail : string),
    "http://acct.blob.core.windows.net/vhds/root.vhd"%string
    = blob_url secure "acct" host "vhds" ("root.vhd" ++ tail)%string /\
    (tail = ""%string \/ tail = String Str.newline "") /\
    "acct"%string <> ""%string /\
    Str.all_chars not_dot_slash "acct" = true /\
    host <> ""%string /\ Str.all_chars not_slash host = true /\
    "vhds"%string <> ""%string /\
    Str.all_chars not_slash "vhds" = true /\
    "root.vhd"%string <> ""%string /\
    Str.all_chars not_newline "root.vhd" = true.
Proof.
  apply (@parse_blob_url_some "http://acct.blob.core.windows.net/vhds/root.vhd"
           (mkBlob "acct" "vhds" "root.vhd")).
  reflexivity.
Defined.

(** ** The disks of a definition *)

Lemma parse_blob_url_scheme (blob : string) (b : Blob) :
  parse_blob_url blob = Some b ->
  exists (secure : bool) (r : string),
    blob = ((if secure then "https://" else "http://") ++ r)%string.
Proof.
  unfold parse_blob_url.
  destruct (strip_scheme blob) as [r0|] eqn:S; [|discriminate].
  apply strip_scheme_some in S as (secure & ->). intros _. eauto.
Qed.

Lemma map_e_ok (A B : Type) (f : A -> outcome B) (l : list A) :
  forall ys, map_e f l = Ok ys ->
  forall y, In y ys -> exists x, In x l /\ f x = Ok y.
Proof.
  induction l as [|a l IH]; simpl; intros ys H y Hy.
  - inversion H; subst. contradiction.
  - destruct (f a) as [b|e] eqn:E; [|discriminate].
    destruct (map_e f l) as [ys'|e]; [|discriminate].
    inversion H; subst. destruct Hy as [<-|Hy]; [eauto|].
    destruct (IH _ eq_refl _ Hy) as (x & Hx & Hf). eauto.
Qed.

Lemma parse_block_device_ok (machine_name storage : string)
    (base : option string) (xml : Xml.BlockDevice) (d : Disk.t) :
  parse_block_device machine_name storage base xml = Ok d ->
  (exists b, parse_blob_url (Disk.media_link d) = Some b /\
             blob_storage b = storage) /\
  (exists rest, Disk.media_link d = ("https://" ++ rest)%string) /\
  Disk.needs_attach d = None /\
  Disk.name d = Xml.name xml /\
  Disk.device d = Xml.attr_name xml.
Proof.
  unfold parse_block_device.
  match goal with
  | |- match ?m with _ => _ end = _ -> _ => destruct m as [media_link|]
  end; [|discriminate].
  destruct (Str.is_empty media_link); [discriminate|].
  destruct (parse_blob_url media_link) as [blob|] eqn:P; [|discriminate].
  destruct (String.eqb (Str.take 5 media_link) "http:") eqn:T;
    [discriminate|].
  destruct (negb (String.eqb storage (blob_storage blob))) eqn:S;
    [discriminate|].
  intros H; inversion H; subst d; clear H. simpl.
  apply negb_false_iff in S. apply String.eqb_eq in S.
  split; [eauto|]. split; [|auto].
  apply parse_blob_url_scheme in P as ([] & r & ->);
    [now exists r|vm_compute in T; discriminate T].
Qed.

(** X3: in a definition that parses, every disk is filed under its own
    BLOB address, which is an https address in the storage account of the
    definition, and no disk is marked as waiting to be attached. *)
Theorem AzureDefinition_init_disks (x : Xml.Machine) (defn : Defn.t) :
  AzureDefinition_init x = Ok defn ->
  Defn.storage defn = Xml.storage x /\
  forall d_id disk,
    In (d_id, disk) (Defn.block_device_mapping defn) ->
    d_id = Disk.media_link disk /\
    (exists rest, d_id = ("https://" ++ rest)%string) /\
    (exists b, parse_blob_url d_id = Some b /\
               blob_storage b = Defn.storage defn) /\
    Disk.needs_attach disk = None.
Proof.
  unfold AzureDefinition_init.
  destruct (map_e _ (Xml.blockDeviceMapping x)) as [devices|e] eqn:P;
    [|discriminate].
  destruct (has_duplicates (map Disk.media_link devices)) eqn:D;
    [discriminate|].
  apply has_duplicates_false in D.
  rewrite (dict_of_devices_nodup _ D).
  destruct (for_each _ (check_device (Xml.machineName x))) as [[]|e];
    [|discriminate].
  destruct (is_none (defn_find_root_disk _)); [discriminate|].
  intros H; inversion H; subst defn; clear H. simpl.
  split; [reflexivity|]. intros d_id disk Hin.
  apply in_map_iff in Hin as (d & Heq & Hin). inversion Heq; subst.
  destruct (map_e_ok _ _ P _ Hin) as (xml & _ & Hx).
  apply parse_block_device_ok in Hx as (Hb & Hs & Hn & _).
  auto.
Qed.

Lemma AzureDefinition_init_disks_witness :
  "acct"%string = "acct"%string /\
  forall d_id disk,
    In (d_id, disk)
       [(Sample.root_link, Sample.disk "/dev/sda" "root" Sample.root_link None);
        (Sample.data_link,
         Sample.disk "/dev/disk/by-lun/0" "data" Sample.data_link None)] ->
    d_id = Disk.media_link disk /\
    (exists rest, d_id = ("https://" ++ rest)%string) /\
    (exists b, parse_blob_url d_id = Some b /\ blob_storage b = "acct"%string) /\
    Disk.needs_attach disk = None.
Proof.
  apply (@AzureDefinition_init_disks Sample.xml_plain
           (Sample.machine
              [(Sample.root_link,
                Sample.disk "/dev/sda" "root" Sample.root_link None);
               (Sample.data_link,
                Sample.disk "/dev/disk/by-lun/0" "data" Sample.data_link
                            None)])).
  vm_compute. reflexivity.
Defined.

(** ** The recorded disks and keys *)

Lemma get_pop_same (V : Type) (d : Dict.t V) (k : string) :
  Dict.get k (Dict.pop k d) = None.
Proof.
  induction d as [|[k0 v0] d IH]; simpl; [reflexivity|].
  destruct (String.eqb k0 k) eqn:E; simpl; [exact IH|]. now rewrite E.
Qed.

(** Running a computation to the end, by cases on what it tests. *)
Ltac run_cases :=
  repeat (mrun;
          match goal with
          | |- context [if ?b then _ else _] =>
              lazymatch b with
              | context [if _ then _ else _] => fail
              | context [match _ with _ => _ end] => fail
              | _ => destruct b eqn:?
              end
          | |- context [match ?x with Some _ => _ | None => _ end] =>
              lazymatch x with
              | context [if _ then _ else _] => fail
              | context [match _ with _ => _ end] => fail
              | _ => destruct x eqn:?
              end
          end).

(** X4: [update_block_device_mapping] is an assignment to one key of the
    recorded disk map: afterwards the key holds what was given (nothing,
    if [None] was given, also when the key was not there), every other key
    holds what it held, and nothing else has changed. *)
Theorem update_block_device_mapping_lookup (k : string) (v : option Disk.t)
    (w : World) :
  exists w',
    update_block_device_mapping k v w = (Ok tt, w') /\
    Dict.get k (State.block_device_mapping (st w')) = v /\
    (forall k', k' <> k ->
       Dict.get k' (State.block_device_mapping (st w'))
       = Dict.get k' (State.block_device_mapping (st w))) /\
    State.set_block_device_mapping (State.block_device_mapping (st w)) (st w')
    = st w /\
    remote w' = remote w /\ trace w' = trace w.
Proof.
  eexists. split; [reflexivity|]. simpl.
  destruct v as [d|].
  - split; [apply get_set_same|]. split; [intros; now apply get_set_other|].
    destruct w as [s r o rnd dr t]; destruct s; auto.
  - split; [apply get_pop_same|]. split; [intros; now apply get_pop_other|].
    destruct w as [s r o rnd dr t]; destruct s; auto.
Qed.

(** X5: [_delete_encryption_key] never fails and touches nothing but the
    generated key of the disk it is given: that key is gone if the
    operator agrees and kept if the operator declines, and the operator
    is asked only if there is a key. *)
Theorem delete_encryption_key_spec (disk_id : string) (w : World) :
  let keys := State.generated_encryption_keys (st w) in
  let q := AskDeleteEncryptionKey disk_id in
  exists w',
    _delete_encryption_key disk_id w = (Ok tt, w') /\
    Dict.get disk_id (State.generated_encryption_keys (st w'))
    = (if operator w q then None else Dict.get disk_id keys) /\
    (forall k, k <> disk_id ->
       Dict.get k (State.generated_encryption_keys (st w'))
       = Dict.get k keys) /\
    State.block_device_mapping (st w') = State.block_device_mapping (st w) /\
    remote w' = remote w /\
    trace w' = (if is_none (Dict.get disk_id keys) then trace w
                else Asked q (operator w q) :: trace w).
Proof.
  intros keys q. subst keys q. unfold _delete_encryption_key,
    update_generated_encryption_keys.
  mrun. destruct (Dict.get disk_id _) as [key|] eqn:G; mrun.
  - destruct (operator w (AskDeleteEncryptionKey disk_id)) eqn:O; mrun;
      (eexists; split; [reflexivity|]); simpl.
    + split; [apply get_pop_same|].
      split; [intros; now apply get_pop_other|]. auto.
    + auto.
  - eexists. split; [reflexivity|]. rewrite G.
    destruct (operator w _); auto.
Qed.

(** ** BLOBs *)

(** X6: when the destruction of the BLOB is not approved, by the argument
    [delete_vhd] or else by the operator, [_delete_volume] returns without
    having sent anything to Azure or changed anything. *)
Theorem delete_volume_kept (media_link : string) (disk_name : option string)
    (delete_vhd : option bool) (w : World) :
  approved delete_vhd (AskDestroyBlob disk_name media_link) w = false ->
  exists w',
    _delete_volume (Some media_link) disk_name delete_vhd w = (Ok tt, w') /\
    st w' = st w /\ remote w' = remote w /\ calls w' = calls w.
Proof.
  unfold approved, _delete_volume. intros H.
  destruct delete_vhd as [[]|]; [discriminate| |]; mrun.
  - eexists. repeat split.
  - rewrite H. eexists. repeat split.
Qed.

Lemma delete_volume_kept_witness :
  exists w',
    _delete_volume (Some Sample.data_link) (Some "data"%string) None
      (SampleDestroy.deployed SampleWorld.no) = (Ok tt, w') /\
    st w' = st (SampleDestroy.deployed SampleWorld.no) /\
    remote w' = remote (SampleDestroy.deployed SampleWorld.no) /\
    calls w' = calls (SampleDestroy.deployed SampleWorld.no).
Proof.
  apply (@delete_volume_kept Sample.data_link (Some "data"%string) None
           (SampleDestroy.deployed SampleWorld.no)).
  reflexivity.
Defined.

(** X7: whatever its outcome, [_delete_volume] leaves the record alone and
    does not let the error of a missing resource through; the
    subscription is as before, or else the destruction was approved, the
    link names a BLOB in the storage account of the record, and that BLOB
    is what the subscription has lost. *)
Theorem delete_volume_spec (media_link : option string)
    (disk_name : option string) (delete_vhd : option bool) (w w' : World)
    (r : outcome unit) :
  _delete_volume media_link disk_name delete_vhd w = (r, w') ->
  st w' = st w /\
  r <> Raise AzureMissingResourceHttpError /\
  (remote w' = remote w \/
   exists link b,
     media_link = Some link /\
     approved delete_vhd (AskDestroyBlob disk_name link) w = true /\
     parse_blob_url link = Some b /\
     State.storage (st w) = Some (blob_storage b) /\
     r = Ok tt /\
     remote w' = without_blob b (remote w)).
Proof.
  unfold _delete_volume, delete_blob, approved, without_blob.
  destruct media_link as [link|]; [|mrun].
  2:{ intros H; inversion H; subst. repeat split; auto. discriminate. }
  destruct delete_vhd as [[]|]; run_cases;
    intros H; inversion H; subst; clear H; cbn [st remote];
    (split; [reflexivity|]); (split; [discriminate|]);
    try (left; reflexivity).
  all: right; eexists; eexists; repeat split; eauto.
  all: match goal with
       | H : negb (opt_string_eqb _ _) = false |- _ =>
           apply negb_false_iff in H; simpl in H;
           destruct (State.storage (st w)) as [s|]; [|discriminate];
           apply String.eqb_eq in H; now subst s
       end.
Qed.

Lemma delete_volume_spec_witness :
  st (snd (_delete_volume (Some Sample.data_link) (Some "data"%string) None
             (SampleDestroy.deployed SampleWorld.yes)))
  = st (SampleDestroy.deployed SampleWorld.yes) /\
  fst (_delete_volume (Some Sample.data_link) (Some "data"%string) None
         (SampleDestroy.deployed SampleWorld.yes))
  <> Raise AzureMissingResourceHttpError /\
  (remote (snd (_delete_volume (Some Sample.data_link) (Some "data"%string)
                  None (SampleDestroy.deployed SampleWorld.yes)))
   = remote (SampleDestroy.deployed SampleWorld.yes) \/
   exists link b,
     Some Sample.data_link = Some link /\
     approved None (AskDestroyBlob (Some "data"%string) link)
       (SampleDestroy.deployed SampleWorld.yes) = true /\
     parse_blob_url link = Some b /\
     State.storage (st (SampleDestroy.deployed SampleWorld.yes))
     = Some (blob_storage b) /\
     fst (_delete_volume (Some Sample.data_link) (Some "data"%string) None
            (SampleDestroy.deployed SampleWorld.yes)) = Ok tt /\
     remote (snd (_delete_volume (Some Sample.data_link) (Some "data"%string)
                    None (SampleDestroy.deployed SampleWorld.yes)))
     = without_blob b (remote (SampleDestroy.deployed SampleWorld.yes))).
Proof.
  apply (@delete_volume_spec (Some Sample.data_link) (Some "data"%string)
           None (SampleDestroy.deployed SampleWorld.yes)).
  vm_compute. reflexivity.
Defined.

(** X8: [blob_exists] only looks: whatever its outcome, the record and
    the subscription are as before.  It answers for a BLOB that is
    missing instead of raising, and for a link that is not a BLOB address
    it raises the type error of the subscript on [None], before any call
    and not the error "failed to parse BLOB URL" that the code has for
    it. *)
Theorem blob_exists_spec (media_link : string) (w w' : World)
    (r : outcome bool) :
  blob_exists media_link w = (r, w') ->
  st w' = st w /\ remote w' = remote w /\
  r <> Raise AzureMissingResourceHttpError /\
  r <> Raise (FailedToParseBlobUrl media_link) /\
  (parse_blob_url media_link = None ->
   r = Raise TypeError /\ trace w' = trace w).
Proof.
  unfold blob_exists, get_blob_properties.
  run_cases; intros H; inversion H; subst; clear H; cbn [st remote trace];
    repeat split; try discriminate; try reflexivity.
Qed.

Lemma blob_exists_spec_witness :
  st (snd (blob_exists "root.vhd" (SampleDestroy.deployed SampleWorld.yes)))
  = st (SampleDestroy.deployed SampleWorld.yes) /\
  remote (snd (blob_exists "root.vhd" (SampleDestroy.deployed SampleWorld.yes)))
  = remote (SampleDestroy.deployed SampleWorld.yes) /\
  fst (blob_exists "root.vhd" (SampleDestroy.deployed SampleWorld.yes))
  <> Raise AzureMissingResourceHttpError /\
  fst (blob_exists "root.vhd" (SampleDestroy.deployed SampleWorld.yes))
  <> Raise (FailedToParseBlobUrl "root.vhd") /\
  (parse_blob_url "root.vhd" = None ->
   fst (blob_exists "root.vhd" (SampleDestroy.deployed SampleWorld.yes))
   = Raise TypeError /\
   trace (snd (blob_exists "root.vhd" (SampleDestroy.deployed SampleWorld.yes)))
   = trace (SampleDestroy.deployed SampleWorld.yes)).
Proof.
  apply (@blob_exists_spec "root.vhd" (SampleDestroy.deployed SampleWorld.yes)).
  vm_compute. reflexivity.
Defined.

(** ** The root disk of the record *)

Lemma find_root_disk_marked (m : disk_map) : find_root_disk (map mark m) = None.
Proof.
  unfold find_root_disk. induction m as [|[k d] m IH]; simpl; [reflexivity|].
  now rewrite andb_false_r.
Qed.

Lemma defn_find_root_disk_marked (m : disk_map) :
  defn_find_root_disk (map mark m) = defn_find_root_disk m.
Proof.
  unfold defn_find_root_disk. induction m as [|[k d] m IH]; simpl;
    [reflexivity|].
  now rewrite IH.
Qed.

(** X9: once [_node_deleted] has run, the record has no attached root
    disk any more, although the disks are all still recorded and the root
    disk is found as the root disk of a definition would be. *)
Theorem no_attached_root_after_node_deleted (w : World) :
  NoDup (Dict.keys (State.block_device_mapping (st w))) ->
  exists w',
    _node_deleted w = (Ok tt, w') /\
    find_root_disk (State.block_device_mapping (st w')) = None /\
    defn_find_root_disk (State.block_device_mapping (st w'))
    = defn_find_root_disk (State.block_device_mapping (st w)) /\
    Dict.keys (State.block_device_mapping (st w'))
    = Dict.keys (State.block_device_mapping (st w)).
Proof.
  intros Hnd. destruct (node_deleted_run w Hnd) as (w' & Hrun & _ & _ & _ & Hm & _).
  exists w'. split; [assumption|]. rewrite Hm.
  split; [apply find_root_disk_marked|].
  split; [apply defn_find_root_disk_marked|].
  unfold Dict.keys. rewrite map_map. apply map_ext. now intros [k d].
Qed.

Lemma no_attached_root_after_node_deleted_witness :
  exists w',
    _node_deleted SampleCreate.in_order = (Ok tt, w') /\
    find_root_disk (State.block_device_mapping (st w')) = None /\
    defn_find_root_disk (State.block_device_mapping (st w'))
    = Some Sample.root_link /\
    Dict.keys (State.block_device_mapping (st w'))
    = [Sample.root_link; Sample.data_link; Sample.more_link].
Proof.
  apply (@no_attached_root_after_node_deleted SampleCreate.in_order).
  vm_compute. nodup_strings.
Defined.

(** ** The legality checker accepts what is recorded *)

(** X10: a definition with the disks that are recorded is never rejected
    by the legality checker, provided no two recorded disks are at the
    same slot. *)
Theorem recorded_disks_are_legal (self : State.t) (defn : Defn.t) :
  Defn.block_device_mapping defn = State.block_device_mapping self ->
  NoDup (Dict.keys (State.block_device_mapping self)) ->
  distinct_slots (State.block_device_mapping self) ->
  _assert_no_impossible_disk_changes self defn = Ok tt.
Proof.
  intros Hm Hnd Hd. unfold _assert_no_impossible_disk_changes.
  destruct (is_none (State.vm_id self)); [reflexivity|].
  rewrite Hm. apply for_each_all_ok. intros [d_id disk] Hin.
  unfold check_disk_change.
  rewrite (@in_get _ _ _ _ Hnd Hin).
  rewrite !String.eqb_refl. cbn [negb].
  match goal with
  | |- bind_e ?c _ = _ => assert (c = Ok tt) as ->
  end.
  { destruct (Dict.first_key _ _) as [occupant|] eqn:K; [|reflexivity].
    destruct (device_name_to_lun (Disk.device disk)) as [lun|] eqn:L;
      [|reflexivity].
    apply first_key_some in K as (d0 & Hin0 & Hp).
    apply String.eqb_eq in Hp.
    assert (occupant = d_id) as ->.
    { eapply Hd; eauto. rewrite Hp, L. discriminate. }
    now rewrite String.eqb_refl. }
  simpl. now destruct (_ && _)%bool.
Qed.

Lemma recorded_disks_are_legal_witness :
  _assert_no_impossible_disk_changes SampleCreate.recorded
    (Sample.machine (State.block_device_mapping SampleCreate.recorded))
  = Ok tt.
Proof.
  apply (@recorded_disks_are_legal SampleCreate.recorded
           (Sample.machine (State.block_device_mapping SampleCreate.recorded))).
  - reflexivity.
  - vm_compute. nodup_strings.
  - intros k1 d1 k2 d2 H1 H2 Hdev Hlun.
    simpl in H1, H2.
    destruct H1 as [H1|[H1|[H1|[]]]]; inversion H1; subst; clear H1;
      destruct H2 as [H2|[H2|[H2|[]]]]; inversion H2; subst; clear H2;
      first [reflexivity|discriminate Hdev].
Defined.

(** ** What a computation keeps *)

Section Keeps.
Variable B : Type.
Variable view : World -> B.

Lemma keeps_ret (A : Type) (a : A) : keeps view (ret a).
Proof. intros w r w' H. now inversion H. Qed.

Lemma keeps_raise (A : Type) (e : exn) : keeps view (@raise A e).
Proof. intros w r w' H. now inversion H. Qed.

Lemma keeps_read (A : Type) (f : State.t -> A) : keeps view (read f).
Proof. intros w r w' H. now inversion H. Qed.

Lemma keeps_the_remote : keeps view the_remote.
Proof. intros w r w' H. now inversion H. Qed.

Lemma keeps_bind (A C : Type) (c : M A) (k : A -> M C) :
  keeps view c -> (forall a, keeps view (k a)) -> keeps view (bind c k).
Proof.
  intros Hc Hk w r w'. unfold bind.
  destruct (c w) as [[a|e] w0] eqn:E.
  - intros H. rewrite (Hk _ _ _ _ H). eapply Hc; eauto.
  - intros H. inversion H; subst. eapply Hc; eauto.
Qed.

Lemma keeps_when (b : bool) (c : M unit) :
  keeps view c -> keeps view (when b c).
Proof. intros H. destruct b; [exact H|apply keeps_ret]. Qed.

Lemma keeps_except_missing (A : Type) (c h : M A) :
  keeps view c -> keeps view h -> keeps view (except_missing c h).
Proof.
  intros Hc Hh w r w'. unfold except_missing.
  destruct (c w) as [[a|e] w0] eqn:E.
  - intros H. inversion H; subst. eapply Hc; eauto.
  - destruct e; intros H;
      try (inversion H; subst; eapply Hc; now eauto).
    rewrite (Hh _ _ _ H). eapply Hc; eauto.
Qed.

Lemma keeps_for_m (A : Type) (l : list A) (body : A -> M unit) :
  (forall x, In x l -> keeps view (body x)) -> keeps view (for_m l body).
Proof.
  induction l as [|x l IH]; simpl; intros H; [apply keeps_ret|].
  apply keeps_bind; [apply H; now left|]. intros _. apply IH.
  intros y Hy. apply H. now right.
Qed.

Lemma keeps_emit (e : event) :
  (forall w, view (add_event e w) = view w) -> keeps view (emit e).
Proof. intros Hv w r w' H. inversion H; subst. apply Hv. Qed.

Lemma keeps_confirm (q : question) :
  (forall w a, view (add_event (Asked q a) w) = view w) ->
  keeps view (confirm q).
Proof. intros Hv w r w' H. inversion H; subst. apply Hv. Qed.

Lemma keeps_write (f : State.t -> State.t) :
  (forall w, view (set_st (f (st w)) w) = view w) -> keeps view (write f).
Proof. intros Hv w r w' H. inversion H; subst. apply Hv. Qed.

Lemma keeps_change_remote (f : Azure.Remote -> Azure.Remote) :
  (forall w, view (set_remote (f (remote w)) w) = view w) ->
  keeps view (change_remote f).
Proof. intros Hv w r w' H. inversion H; subst. apply Hv. Qed.
End Keeps.

(** What a computation built from the operations of the backend keeps,
    by its structure. *)
Ltac keeps_step :=
  first
    [ apply keeps_ret | apply keeps_raise | apply keeps_read
    | apply keeps_the_remote
    | apply keeps_bind; [|intros ?]
    | apply keeps_when
    | apply keeps_except_missing
    | apply keeps_for_m; intros ? ?
    | apply keeps_emit; intros ?; reflexivity
    | apply keeps_confirm; intros ? ?; reflexivity
    | apply keeps_write; intros ?; reflexivity
    | apply keeps_change_remote; intros ?; reflexivity
    | apply keeps_change_remote; intros ?; cbn;
      match goal with
      | |- context [if ?b then _ else _] => destruct b
      end; reflexivity
    | match goal with
      | |- keeps _ (if ?b then _ else _) => destruct b eqn:?
      | |- keeps _ (match ?x with Some _ => _ | None => _ end) =>
          destruct x eqn:?
      | |- keeps _ (let (_, _) := ?x in _) => destruct x
      end ].

Ltac keeps_auto := repeat keeps_step.

(** From a run [H : c w = (r, w')], what [view] shows of [w'], once [c]
    is shown to keep it. *)
Ltac keeping view H :=
  match type of H with
  | ?c _ = (_, _) =>
      let K := fresh "K" in
      assert (K : keeps view c); [|apply K in H; cbv beta in H; clear K]
  end.

Lemma keeps_delete_volume (B : Type) (g : State.t -> B)
    (media_link disk_name : option string) (delete_vhd : option bool) :
  keeps (fun w => g (st w)) (_delete_volume media_link disk_name delete_vhd).
Proof.
  unfold _delete_volume, delete_blob, log, warn, api.
  destruct delete_vhd as [[]|]; keeps_auto.
Qed.

Lemma keeps_delete_encryption_key (B : Type) (g : State.t -> B)
    (disk_id : string) :
  (forall s keys, g (State.set_generated_encryption_keys keys s) = g s) ->
  keeps (fun w => g (st w)) (_delete_encryption_key disk_id).
Proof.
  intros Hg. unfold _delete_encryption_key, update_generated_encryption_keys.
  keeps_auto. apply keeps_write. intros w. apply Hg.
Qed.

(** ** After [destroy] *)

Lemma mark_loop (l : disk_map) : forall w,
  exists m,
    for_m l mark_needs_attach w
    = (Ok tt, set_st (State.set_block_device_mapping m (st w)) w).
Proof.
  induction l as [|[k d] l IH]; intros w; cbn [for_m].
  - exists (State.block_device_mapping (st w)). unfold ret.
    rewrite state_same_mapping. now destruct w.
  - unfold bind. unfold mark_needs_attach at 1.
    rewrite update_block_device_mapping_run. cbv beta iota.
    match goal with
    | |- context [for_m l mark_needs_attach ?w0] =>
        destruct (IH w0) as (m & ->)
    end.
    exists m. now destruct w as [s r o rnd dr t]; destruct s.
Qed.

Lemma node_deleted_clears (w : World) :
  exists w',
    _node_deleted w = (Ok tt, w') /\
    State.vm_id (st w') = None /\
    State.public_ipv4 (st w') = None /\
    State.state (st w') = STOPPED /\
    State.public_ip (st w') = State.public_ip (st w) /\
    State.network_interface (st w') = State.network_interface (st w) /\
    State.generated_encryption_keys (st w')
    = State.generated_encryption_keys (st w) /\
    remote w' = remote w /\ calls w' = calls w.
Proof.
  unfold _node_deleted.
  unfold bind at 1. unfold write at 1. cbn [fst snd].
  unfold bind at 1. unfold write at 1.
  unfold bind at 1. unfold read at 1.
  unfold bind at 1.
  match goal with
  | |- context [for_m ?l mark_needs_attach ?w0] =>
      destruct (mark_loop l w0) as (m & ->)
  end.
  unfold bind, read, write, when, emit, ret, calls. simpl.
  destruct (truthy (State.public_ipv4 (st w)) &&
            truthy (State.public_host_key (st w)))%bool; simpl;
    eexists; repeat split.
Qed.

Lemma pop_as_filter (V : Type) (k : string) (m : Dict.t V) :
  Dict.pop k m = filter (fun e => negb (String.eqb (fst e) k)) m.
Proof.
  induction m as [|[k0 v0] m IH]; simpl; [reflexivity|].
  destruct (String.eqb k0 k); simpl; now rewrite IH.
Qed.

Lemma pop_all (V : Type) (l : Dict.t V) : forall m : Dict.t V,
  (forall k, In k (Dict.keys m) -> In k (Dict.keys l)) ->
  fold_left (fun m e => Dict.pop (fst e) m) l m = [].
Proof.
  induction l as [|[k v] l IH]; simpl; intros m H.
  - destruct m as [|[k0 v0] m]; [reflexivity|].
    exfalso. apply (H k0). now left.
  - apply IH. intros k' Hk'. rewrite pop_as_filter in Hk'.
    unfold Dict.keys in Hk'. apply in_map_iff in Hk' as ([k1 v1] & <- & Hin).
    apply filter_In in Hin as (Hin & Hne). simpl in *.
    apply negb_true_iff in Hne. apply String.eqb_neq in Hne.
    destruct (H k1) as [?|?]; [|congruence|assumption].
    unfold Dict.keys. change k1 with (fst (k1, v1)). now apply in_map.
Qed.

(** The fields of the record that say what is deployed, the disks
    apart. *)
Lemma keeps_destroy_volume (B : Type) (g : State.t -> B)
    (entry : string * Disk.t) :
  (forall s keys, g (State.set_generated_encryption_keys keys s) = g s) ->
  (forall s m, g (State.set_block_device_mapping m s) = g s) ->
  keeps (fun w => g (st w)) (destroy_volume entry).
Proof.
  intros Hk Hm. unfold destroy_volume. destruct entry as [d_id disk].
  apply keeps_bind;
    [apply keeps_when; apply (keeps_delete_volume g)|intros _].
  apply keeps_bind; [|intros _; now apply keeps_delete_encryption_key].
  apply keeps_write. intros w. apply Hm.
Qed.

Lemma destroy_volume_pops (entry : string * Disk.t) (w w' : World) :
  destroy_volume entry w = (Ok tt, w') ->
  State.block_device_mapping (st w')
  = Dict.pop (fst entry) (State.block_device_mapping (st w)).
Proof.
  unfold destroy_volume. destruct entry as [d_id disk]. intros H.
  apply bind_ok in H as ([] & w1 & H1 & H).
  apply bind_ok in H as ([] & w2 & H2 & H).
  rewrite (@keeps_delete_encryption_key _ State.block_device_mapping d_id
             (fun _ _ => eq_refl) _ _ _ H).
  inversion H2; subst; simpl. f_equal.
  destruct (Disk.is_ephemeral disk); [|now inversion H1].
  exact (@keeps_delete_volume _ State.block_device_mapping _ _ _ _ _ _ H1).
Qed.

Lemma destroy_volumes_pop (l : disk_map) : forall w w',
  for_m l destroy_volume w = (Ok tt, w') ->
  State.block_device_mapping (st w')
  = fold_left (fun m e => Dict.pop (fst e) m) l
              (State.block_device_mapping (st w)).
Proof.
  induction l as [|entry l IH]; simpl; intros w w' H.
  - now inversion H.
  - apply bind_ok in H as ([] & w1 & H1 & H).
    rewrite (IH _ _ H). now rewrite (@destroy_volume_pops _ _ _ H1).
Qed.

Lemma destroy_teardown_ok (w w' : World) :
  destroy_teardown w = (Ok tt, w') ->
  State.vm_id (st w') = None /\
  State.public_ipv4 (st w') = None /\
  State.state (st w') = STOPPED /\
  State.block_device_mapping (st w') = [] /\
  truthy (State.network_interface (st w')) = false /\
  truthy (State.public_ip (st w')) = false.
Proof.
  unfold destroy_teardown. intros H.
  apply bind_ok in H as ([] & wa & Hnd & H).
  destruct (node_deleted_clears w) as (wa' & Hnd' & A1 & A2 & A3 & _).
  rewrite Hnd in Hnd'. inversion Hnd'; subst wa'; clear Hnd'.
  apply bind_ok in H as (mapping & wa' & Hread & H).
  inversion Hread; subst; clear Hread.
  apply bind_ok in H as ([] & wb & Hloop & H).
  pose proof (@destroy_volumes_pop _ _ _ Hloop) as B1.
  rewrite pop_all in B1 by auto.
  assert (keeps (fun w => (State.vm_id (st w), State.public_ipv4 (st w),
                           State.state (st w)))
                (for_m (State.block_device_mapping (st wa')) destroy_volume))
    as B2.
  { apply keeps_for_m. intros x _.
    apply (@keeps_destroy_volume _
             (fun s => (State.vm_id s, State.public_ipv4 s, State.state s)));
      reflexivity. }
  apply B2 in Hloop. inversion Hloop as [[B3 B4 B5]]. clear B2 Hloop.
  apply bind_ok in H as (nic & wb' & Hread & H).
  inversion Hread; subst; clear Hread.
  apply bind_ok in H as ([] & wc & Hnic & H).
  apply bind_ok in H as (ip & wc' & Hread & H).
  inversion Hread; subst; clear Hread.
  assert (st wc'
          = if truthy (State.network_interface (st wb'))
            then State.set_network_interface None (st wb') else st wb') as C.
  { revert Hnic.
    unfold network_interfaces_get, network_interfaces_delete, log.
    destruct (truthy (State.network_interface (st wb')));
      [|intros Hnic; now inversion Hnic].
    run_cases; intros Hnic; inversion Hnic; subst; reflexivity. }
  assert (st w'
          = if truthy (State.public_ip (st wc'))
            then State.set_obtain_ip None (State.set_public_ip None (st wc'))
            else st wc') as D.
  { revert H.
    unfold public_ip_addresses_get, public_ip_addresses_delete, log.
    destruct (truthy (State.public_ip (st wc')));
      [|intros H; now inversion H].
    run_cases; intros H; inversion H; subst; reflexivity. }
  clear Hnic H.
  assert (State.vm_id (st wc') = None /\
          State.public_ipv4 (st wc') = None /\
          State.state (st wc') = STOPPED /\
          State.block_device_mapping (st wc') = [] /\
          truthy (State.network_interface (st wc')) = false) as (C1 & C2 & C3 & C4 & C5).
  { rewrite C.
    destruct (truthy (State.network_interface (st wb'))) eqn:Tnic; cbn;
      repeat split; congruence. }
  rewrite D.
  destruct (truthy (State.public_ip (st wc'))) eqn:Tip; cbn;
    repeat split; assumption.
Qed.

(** X11: when [destroy] answers [True], nothing is left of the machine in
    the record: no machine, no disk, no network interface and no public
    address, so that [is_deployed] is false, and the machine is recorded
    as stopped, without an address. *)
Theorem destroy_leaves_nothing_deployed (wipe : bool) (w w' : World) :
  destroy wipe w = (Ok true, w') ->
  is_deployed (st w') = false /\
  State.block_device_mapping (st w') = [] /\
  State.vm_id (st w') = None /\
  State.public_ipv4 (st w') = None /\
  State.state (st w') = STOPPED.
Proof.
  intros H.
  destruct (destroy_cases wipe w) as [(_ & D)|(_ & w1 & D)];
    rewrite D in H; [discriminate|].
  unfold destroy_rest in H.
  apply bind_ok in H as ([] & w2 & Ht & H).
  apply bind_ok in H as ([] & w3 & Hc & H).
  inversion H; subst; clear H.
  apply destroy_teardown_ok in Ht as (T1 & T2 & T3 & T4 & T5 & T6).
  assert (st w' = st w2) as ->.
  { revert Hc. unfold confirm_losing_keys.
    run_cases; intros H; inversion H; subst; reflexivity. }
  unfold is_deployed. rewrite T1, T4, T5, T6. auto.
Qed.

Lemma destroy_leaves_nothing_deployed_witness :
  is_deployed (st (snd (destroy false (SampleDestroy.deployed SampleWorld.yes))))
  = false /\
  State.block_device_mapping
    (st (snd (destroy false (SampleDestroy.deployed SampleWorld.yes)))) = [] /\
  State.vm_id
    (st (snd (destroy false (SampleDestroy.deployed SampleWorld.yes)))) = None /\
  State.public_ipv4
    (st (snd (destroy false (SampleDestroy.deployed SampleWorld.yes)))) = None /\
  State.state
    (st (snd (destroy false (SampleDestroy.deployed SampleWorld.yes))))
  = STOPPED.
Proof.
  apply (@destroy_leaves_nothing_deployed false
           (SampleDestroy.deployed SampleWorld.yes)).
  vm_compute. reflexivity.
Defined.

(** ** What [destroy] deletes *)

Lemma pair_eqb_refl (a : string * string) : pair_eqb a a = true.
Proof. unfold pair_eqb. now rewrite !String.eqb_refl. Qed.

Lemma keeps_delete_ephemeral (m : disk_map) (link : string)
    (disk_name : option string) (delete_vhd : option bool) :
  (exists k d, In (k, d) m /\ Disk.is_ephemeral d = true /\
               Disk.media_link d = link) ->
  keeps (other_deletions m) (_delete_volume (Some link) disk_name delete_vhd).
Proof.
  intros (k & d & Hin & He & Hl).
  unfold _delete_volume, delete_blob, log, warn, api.
  destruct delete_vhd as [[]|]; keeps_auto.
  all: apply keeps_emit; intros w; unfold other_deletions; simpl.
  all: replace (existsb _ m) with true; [reflexivity|].
  all: symmetry; apply existsb_exists; exists (k, d);
    (split; [assumption|]); simpl; rewrite He, Hl.
  all: match goal with H : parse_blob_url _ = Some _ |- _ => rewrite H end.
  all: apply pair_eqb_refl.
Qed.

Lemma keeps_deletions_destroy_volume (m : disk_map) (k : string) (d : Disk.t) :
  (exists d0, In (k, d0) m /\ Disk.is_ephemeral d0 = Disk.is_ephemeral d /\
              Disk.media_link d0 = Disk.media_link d) ->
  keeps (other_deletions m) (destroy_volume (k, d)).
Proof.
  intros (d0 & Hin & He & Hl).
  unfold destroy_volume, _delete_encryption_key,
    update_generated_encryption_keys, update_block_device_mapping.
  apply keeps_bind; [|intros _; keeps_auto].
  destruct (Disk.is_ephemeral d) eqn:E; [|apply keeps_ret].
  apply keeps_delete_ephemeral. exists k, d0. auto.
Qed.

Lemma keeps_deletions_node_deleted (m : disk_map) :
  keeps (other_deletions m) _node_deleted.
Proof.
  unfold _node_deleted, mark_needs_attach, update_block_device_mapping.
  keeps_auto.
Qed.

Lemma bind_assoc (A B C : Type) (c : M A) (k : A -> M B) (k' : B -> M C)
    (w : World) :
  bind (bind c k) k' w = bind c (fun a => bind (k a) k') w.
Proof. unfold bind. now destruct (c w) as [[a|e] w1]. Qed.

Lemma bind_run (A B : Type) (c : M A) (k : A -> M B) (w w1 : World) (a : A) :
  c w = (Ok a, w1) -> bind c k w = k a w1.
Proof. unfold bind. now intros ->. Qed.

Lemma destroy_rest_deletions (w w' : World) (r : outcome bool) :
  NoDup (Dict.keys (State.block_device_mapping (st w))) ->
  destroy_rest w = (r, w') ->
  other_deletions (State.block_device_mapping (st w)) w'
  = other_deletions (State.block_device_mapping (st w)) w.
Proof.
  intros Hnd. set (m := State.block_device_mapping (st w)).
  destruct (node_deleted_run w Hnd) as (wa & Hrun & _ & _ & _ & Hm & _).
  pose proof (@keeps_deletions_node_deleted m _ _ _ Hrun) as <-.
  unfold destroy_rest, destroy_teardown.
  rewrite !bind_assoc. rewrite (@bind_run _ _ _ _ _ _ _ Hrun).
  cbv beta. rewrite bind_assoc.
  rewrite (@bind_run _ _ (read _) _ wa wa _ eq_refl).
  cbv beta. rewrite Hm. fold m.
  revert r w'.
  match goal with
  | |- forall r w', ?c wa = (r, w') -> _ =>
      assert (keeps (other_deletions m) c) as K
  end.
  { unfold confirm_losing_keys, network_interfaces_get,
      network_interfaces_delete, public_ip_addresses_get,
      public_ip_addresses_delete, log, warn, api.
    keeps_auto.
    apply in_map_iff in H as ([k d] & <- & Hin). unfold mark. cbn [fst snd].
    apply keeps_deletions_destroy_volume. exists d. auto. }
  intros r w' H. exact (K _ _ _ H).
Qed.

(** X12: the only BLOBs that [destroy] asks Azure to delete are those of
    the recorded disks that are ephemeral: whatever its outcome, no
    request to delete another BLOB is added to the trace. *)
Theorem destroy_deletes_ephemeral_only (wipe : bool) (w w' : World)
    (r : outcome bool) :
  NoDup (Dict.keys (State.block_device_mapping (st w))) ->
  destroy wipe w = (r, w') ->
  other_deletions (State.block_device_mapping (st w)) w'
  = other_deletions (State.block_device_mapping (st w)) w.
Proof.
  intros Hnd. unfold destroy, get_resource, virtual_machines_get,
    destroy_resource, virtual_machines_delete.
  run_cases;
    try (intros H; apply destroy_rest_deletions in H; [|exact Hnd];
         exact H);
    try (intros H; inversion H; subst; reflexivity).
Qed.

Lemma destroy_deletes_ephemeral_only_witness :
  other_deletions
    (State.block_device_mapping (st (SampleDestroy.deployed SampleWorld.yes)))
    (snd (destroy false (SampleDestroy.deployed SampleWorld.yes)))
  = other_deletions
      (State.block_device_mapping
         (st (SampleDestroy.deployed SampleWorld.yes)))
      (SampleDestroy.deployed SampleWorld.yes).
Proof.
  apply (@destroy_deletes_ephemeral_only false
           (SampleDestroy.deployed SampleWorld.yes)
           (snd (destroy false (SampleDestroy.deployed SampleWorld.yes)))
           (fst (destroy false (SampleDestroy.deployed SampleWorld.yes)))).
  - vm_compute. nodup_strings.
  - vm_compute. reflexivity.
Defined.

(** ** Attaching the disks of the definition *)

Lemma attach_disk_skip (k : string) (d : Disk.t) (w : World) :
  at_slot d = false \/ is_attached k (st w) = true ->
  attach_disk (k, d) w = (Ok tt, w).
Proof.
  unfold attach_disk, at_slot, is_attached. intros H.
  destruct (device_name_to_lun (Disk.device d)) as [lun|]; [|reflexivity].
  destruct H as [H|H]; [discriminate|].
  mrun. now rewrite H.
Qed.

Lemma attach_disk_ok (k : string) (d : Disk.t) (w w' : World) :
  at_slot d = true -> is_attached k (st w) = false ->
  attach_disk (k, d) w = (Ok tt, w') ->
  exists vm vm_disk,
    Azure.vm (remote w) = Some vm /\
    as_data_disk d vm_disk /\
    remote w'
    = Azure.set_vm
        (Some (Azure.set_data_disks (Azure.data_disks vm ++ [vm_disk]) vm))
        (remote w) /\
    st w'
    = State.set_block_device_mapping
        (Dict.set k d (State.block_device_mapping (st w))) (st w).
Proof.
  unfold attach_disk, at_slot, is_attached. intros Hs Ha.
  destruct (device_name_to_lun (Disk.device d)) as [lun|] eqn:L;
    [|discriminate].
  intros H.
  apply bind_ok in H as (mapping & w0 & Hr & H).
  inversion Hr; subst; clear Hr. rewrite Ha in H.
  apply bind_ok in H as ([] & w1 & Hlog & H).
  inversion Hlog; subst; clear Hlog.
  apply bind_ok in H as (vm & w2 & Hvm & H).
  rewrite get_vm_assert_exists_run in Hvm. cbn [remote] in Hvm.
  destruct (Azure.vm (remote w0)) as [vm0|] eqn:V; [|discriminate].
  inversion Hvm; subst; clear Hvm.
  apply bind_ok in H as (there & w3 & Hb & H).
  match type of Hb with
  | blob_exists ?l ?w1 = _ =>
      destruct (blob_exists_run l w1) as (w3' & E & Q1 & Q2 & _)
  end.
  rewrite Hb in E. inversion E; subst w3'; clear E.
  apply bind_ok in H as ([] & w4 & Hup & H).
  inversion Hup; subst; clear Hup. inversion H; subst; clear H.
  exists vm, (Azure.mkDataDisk (Disk.name d) (Disk.media_link d)
                (Disk.host_caching d) (create_option_for there) lun
                (Disk.size d)).
  split; [reflexivity|]. split.
  - unfold as_data_disk. cbn. rewrite L. repeat split.
  - cbn. rewrite Q1, Q2. cbn. split; reflexivity.
Qed.

Lemma attach_nothing (l : disk_map) (w : World) :
  (forall k d, In (k, d) l -> at_slot d = true -> is_attached k (st w) = true) ->
  for_m l attach_disk w = (Ok tt, w).
Proof.
  induction l as [|[k d] l IH]; intros H; cbn [for_m]; [reflexivity|].
  unfold bind. rewrite attach_disk_skip.
  - apply IH. intros d_id disk Hin. apply H. now right.
  - destruct (at_slot d) eqn:S; [right|now left].
    apply (H k d); [now left|assumption].
Qed.

(** X13: when every disk of the definition that is at a slot is recorded
    as attached, [_create_missing_attach_detached] does nothing at all. *)
Theorem nothing_to_attach (defn : Defn.t) (w : World) :
  (forall d_id disk,
     In (d_id, disk) (Defn.block_device_mapping defn) ->
     at_slot disk = true -> is_attached d_id (st w) = true) ->
  _create_missing_attach_detached defn w = (Ok tt, w).
Proof.
  intros H. unfold _create_missing_attach_detached.
  now apply attach_nothing.
Qed.

Lemma nothing_to_attach_witness :
  _create_missing_attach_detached
    (Sample.machine (State.block_device_mapping SampleCreate.recorded))
    SampleCreate.in_order
  = (Ok tt, SampleCreate.in_order).
Proof.
  apply (@nothing_to_attach
           (Sample.machine (State.block_device_mapping SampleCreate.recorded))
           SampleCreate.in_order).
  intros d_id disk Hin _. simpl in Hin.
  destruct Hin as [H|[H|[H|[]]]]; inversion H; subst; reflexivity.
Defined.

Lemma is_attached_set_same (k : string) (d : Disk.t) (s : State.t) :
  is_attached k
    (State.set_block_device_mapping
       (Dict.set k d (State.block_device_mapping s)) s)
  = negb (Disk.get_needs_attach d).
Proof. unfold is_attached. cbn. now rewrite get_set_same. Qed.

Lemma is_attached_set_other (k0 k : string) (d : Disk.t) (s : State.t) :
  k0 <> k ->
  is_attached k0
    (State.set_block_device_mapping
       (Dict.set k d (State.block_device_mapping s)) s)
  = is_attached k0 s.
Proof. intros H. unfold is_attached. cbn. now rewrite get_set_other. Qed.

Lemma not_waiting (d : Disk.t) :
  Disk.needs_attach d = None -> Disk.get_needs_attach d = false.
Proof. unfold Disk.get_needs_attach. now intros ->. Qed.

(** One turn of the loop of [_create_missing_attach_detached] that ends
    well. *)
Lemma attach_disk_step (k : string) (d : Disk.t) (w w' : World) :
  Disk.needs_attach d = None ->
  attach_disk (k, d) w = (Ok tt, w') ->
  (forall k0, is_attached k0 (st w) = true -> is_attached k0 (st w') = true) /\
  (forall k0, k0 <> k -> is_attached k0 (st w') = is_attached k0 (st w)) /\
  (forall x, In x (attached_disks (remote w)) ->
             In x (attached_disks (remote w'))) /\
  (at_slot d = true ->
   is_attached k (st w') = true /\
   (is_attached k (st w) = true \/
    exists vm_disk,
      as_data_disk d vm_disk /\ In vm_disk (attached_disks (remote w')))).
Proof.
  intros Hn H.
  destruct (at_slot d) eqn:S.
  2:{ rewrite attach_disk_skip in H by now left.
      inversion H; subst.
      split; [auto|]. split; [auto|]. split; [auto|]. discriminate. }
  destruct (is_attached k (st w)) eqn:A.
  { rewrite attach_disk_skip in H by now right.
    inversion H; subst.
    split; [auto|]. split; [auto|]. split; [auto|]. auto. }
  destruct (@attach_disk_ok _ _ _ _ S A H) as (vm & vm_disk & V & D & R & St).
  rewrite St, R. unfold attached_disks. rewrite V. cbn.
  split; [|split; [|split]].
  - intros k0 H0. destruct (string_dec k0 k) as [->|Hne].
    + congruence.
    + now rewrite is_attached_set_other.
  - intros k0 Hne. now apply is_attached_set_other.
  - intros x Hx. apply in_or_app. now left.
  - intros _. split.
    + rewrite is_attached_set_same. now rewrite not_waiting.
    + right. exists vm_disk. split; [assumption|].
      apply in_or_app. right. now left.
Qed.

Lemma attach_loop (l : disk_map) :
  (forall k d, In (k, d) l -> Disk.needs_attach d = None) ->
  NoDup (Dict.keys l) ->
  forall w w',
    for_m l attach_disk w = (Ok tt, w') ->
    (forall k0, is_attached k0 (st w) = true ->
                is_attached k0 (st w') = true) /\
    (forall k0, ~ In k0 (Dict.keys l) ->
                is_attached k0 (st w') = is_attached k0 (st w)) /\
    (forall x, In x (attached_disks (remote w)) ->
               In x (attached_disks (remote w'))) /\
    (forall k d,
       In (k, d) l -> at_slot d = true ->
       is_attached k (st w') = true /\
       (is_attached k (st w) = true \/
        exists vm_disk,
          as_data_disk d vm_disk /\ In vm_disk (attached_disks (remote w')))).
Proof.
  induction l as [|[k d] l IH]; intros Hn Hnd w w' H; cbn [for_m] in H.
  - inversion H; subst. repeat split; auto; contradiction.
  - apply bind_ok in H as ([] & w1 & H1 & H).
    inversion Hnd as [|? ? Hfresh Hnd']; subst.
    apply attach_disk_step in H1 as (S1 & S2 & S3 & S4);
      [|apply (Hn k d); now left].
    apply IH in H as (L1 & L2 & L3 & L4);
      [|intros k0 d0 Hin; apply (Hn k0 d0); now right|assumption].
    split; [auto|]. split; [|split; [auto|]].
    + intros k0 Hk0. simpl in Hk0.
      rewrite L2 by tauto. apply S2. intros ->. tauto.
    + intros k0 d0 [Heq|Hin] Hs.
      * inversion Heq; subst k0 d0; clear Heq.
        destruct (S4 Hs) as (A & B). split; [auto|].
        destruct B as [B|(vm_disk & B1 & B2)]; [now left|].
        right. exists vm_disk. auto.
      * destruct (L4 _ _ Hin Hs) as (A & B). split; [assumption|].
        destruct B as [B|B]; [|now right]. left.
        rewrite <- S2; [assumption|].
        intros ->. apply Hfresh.
        change k with (fst (k, d0)). now apply in_map.
Qed.

(** X14: when [_create_missing_attach_detached] ends well, every disk of
    the definition that is at a slot is recorded as attached, and it was
    recorded so before or the machine has got a data disk with its name,
    address, caching mode, slot and size; the data disks that the machine
    had are still there, and a second run does nothing. *)
Theorem attach_detached_ok (defn : Defn.t) (w w' : World) :
  (forall d_id disk,
     In (d_id, disk) (Defn.block_device_mapping defn) ->
     Disk.needs_attach disk = None) ->
  NoDup (Dict.keys (Defn.block_device_mapping defn)) ->
  _create_missing_attach_detached defn w = (Ok tt, w') ->
  (forall d_id disk,
     In (d_id, disk) (Defn.block_device_mapping defn) ->
     at_slot disk = true ->
     is_attached d_id (st w') = true /\
     (is_attached d_id (st w) = true \/
      exists vm_disk,
        as_data_disk disk vm_disk /\
        In vm_disk (attached_disks (remote w')))) /\
  (forall vm_disk, In vm_disk (attached_disks (remote w)) ->
                   In vm_disk (attached_disks (remote w'))) /\
  _create_missing_attach_detached defn w' = (Ok tt, w').
Proof.
  unfold _create_missing_attach_detached. intros Hn Hnd H.
  destruct (@attach_loop _ Hn Hnd _ _ H) as (_ & _ & L3 & L4).
  split; [exact L4|]. split; [exact L3|].
  apply attach_nothing. intros k d Hin Hs. now apply (L4 k d).
Qed.

Lemma attach_detached_ok_witness :
  (forall d_id disk,
     In (d_id, disk) (Defn.block_device_mapping SampleAttach.wanted) ->
     at_slot disk = true ->
     is_attached d_id
       (st (snd (_create_missing_attach_detached SampleAttach.wanted
                   SampleAttach.detached))) = true /\
     (is_attached d_id (st SampleAttach.detached) = true \/
      exists vm_disk,
        as_data_disk disk vm_disk /\
        In vm_disk
           (attached_disks
              (remote (snd (_create_missing_attach_detached
                              SampleAttach.wanted SampleAttach.detached)))))) /\
  (forall vm_disk,
     In vm_disk (attached_disks (remote SampleAttach.detached)) ->
     In vm_disk
        (attached_disks
           (remote (snd (_create_missing_attach_detached
                           SampleAttach.wanted SampleAttach.detached))))) /\
  _create_missing_attach_detached SampleAttach.wanted
    (snd (_create_missing_attach_detached SampleAttach.wanted
            SampleAttach.detached))
  = (Ok tt,
     snd (_create_missing_attach_detached SampleAttach.wanted
            SampleAttach.detached)).
Proof.
  apply (@attach_detached_ok SampleAttach.wanted SampleAttach.detached).
  - intros d_id disk Hin. simpl in Hin.
    destruct Hin as [H|[H|[]]]; inversion H; subst; reflexivity.
  - vm_compute. nodup_strings.
  - vm_compute. reflexivity.
Defined.

(** ** Creating the machine *)

Lemma bind_inv (A B : Type) (c : M A) (k : A -> M B) (w w' : World)
    (r : outcome B) :
  bind c k w = (r, w') ->
  (exists e, c w = (Raise e, w') /\ r = Raise e) \/
  (exists a w1, c w = (Ok a, w1) /\ k a w1 = (r, w')).
Proof.
  unfold bind. destruct (c w) as [[a|e] w1]; [eauto|].
  intros H. inversion H; subst. left. eauto.
Qed.

(** X15: when no machine is recorded and the subscription has one,
    [_create_vm] raises, without having asked for a machine to be created
    or recorded one. *)
Theorem create_vm_never_twice (defn : Defn.t) (w w' : World)
    (r : outcome unit) :
  truthy (State.vm_id (st w)) = false ->
  Azure.vm (remote w) <> None ->
  _create_vm defn w = (r, w') ->
  (r = Raise VmAlreadyExists \/ r = Raise AzureMissingResourceHttpError) /\
  Azure.vm (remote w') = Azure.vm (remote w) /\
  State.vm_id (st w') = State.vm_id (st w).
Proof.
  intros Hid Hvm. unfold _create_vm.
  unfold bind at 1. unfold read at 1.
  unfold bind at 1. unfold read at 1.
  intros H.
  apply bind_inv in H as [(e & H & ->)|([] & w1 & H1 & H)].
  { exfalso. revert H. unfold public_ip_addresses_create_or_update, log.
    run_cases; discriminate. }
  assert (Azure.vm (remote w1) = Azure.vm (remote w) /\
          State.vm_id (st w1) = State.vm_id (st w)) as (V1 & I1).
  { assert (keeps (fun w => (Azure.vm (remote w), State.vm_id (st w)))
              (when (is_none (State.public_ip (st w)) && Defn.obtain_ip defn)
                 (log "getting an IP address";;
                  public_ip_addresses_create_or_update
                    (State.machine_name (st w));;
                  write (State.set_public_ip (State.machine_name (st w)));;
                  write (State.set_obtain_ip (Some (Defn.obtain_ip defn))))))
      as K.
    { unfold log. keeps_auto. }
    apply K in H1. now inversion H1. }
  clear H1.
  apply bind_inv in H as [(e & H & ->)|(nic & w2 & H2 & H)];
    [discriminate|].
  inversion H2; subst w2 nic; clear H2.
  assert (keeps (fun w => (Azure.vm (remote w), State.vm_id (st w)))
            (when (is_none (State.network_interface (st w1)))
               (log "creating a network interface";;
                public_ip <- read State.public_ip;;
                public_ip_id <- public_ip_addresses_get public_ip;;
                subnets_get;;
                network_interfaces_create_or_update
                  (State.machine_name (st w));;
                write (State.set_network_interface
                         (State.machine_name (st w))))))
    as K.
  { unfold log, public_ip_addresses_get, subnets_get, api. keeps_auto. }
  apply bind_inv in H as [(e & H & ->)|([] & w2 & H2 & H)].
  { apply K in H as E. inversion E as [[E1 E2]].
    split; [|split; congruence]. right.
    revert H.
    unfold public_ip_addresses_get, network_interfaces_create_or_update,
      subnets_get, log.
    run_cases; intros H; inversion H; reflexivity. }
  apply K in H2. inversion H2 as [[V2 I2]]. clear K H2.
  unfold bind at 1 in H. unfold read at 1 in H.
  rewrite I2, I1, Hid in H.
  unfold bind at 1 in H. rewrite get_settled_resource_run in H.
  rewrite V2, V1 in H.
  destruct (Azure.vm (remote w)) as [v|]; [|congruence].
  inversion H; subst; clear H. cbn.
  split; [now left|]. split; congruence.
Qed.

Lemma create_vm_never_twice_witness :
  (fst (_create_vm SampleAttach.wanted SampleVm.unrecorded)
   = Raise VmAlreadyExists \/
   fst (_create_vm SampleAttach.wanted SampleVm.unrecorded)
   = Raise AzureMissingResourceHttpError) /\
  Azure.vm (remote (snd (_create_vm SampleAttach.wanted SampleVm.unrecorded)))
  = Azure.vm (remote SampleVm.unrecorded) /\
  State.vm_id (st (snd (_create_vm SampleAttach.wanted SampleVm.unrecorded)))
  = State.vm_id (st SampleVm.unrecorded).
Proof.
  apply (@create_vm_never_twice SampleAttach.wanted SampleVm.unrecorded).
  - reflexivity.
  - discriminate.
  - vm_compute. reflexivity.
Defined.

(** The steps of [_create_vm] that only look. *)
Lemma keeps_blob_exists (B : Type) (view : World -> B) (media_link : string) :
  (forall w e, view (add_event e w) = view w) ->
  keeps view (blob_exists media_link).
Proof.
  intros Hv. unfold blob_exists, get_blob_properties, api. keeps_auto.
  apply keeps_emit. intros w. apply Hv.
Qed.

Lemma new_data_disks_ok (l : disk_map) : forall w w' ds,
  new_data_disks l w = (Ok ds, w') ->
  st w' = st w /\ remote w' = remote w /\
  Forall2 (fun entry vm_disk => as_data_disk (snd entry) vm_disk)
          (slot_disks l) ds.
Proof.
  induction l as [|[k d] l IH]; intros w w' ds H; cbn [new_data_disks] in H.
  - inversion H; subst. repeat split. constructor.
  - unfold slot_disks, at_slot in *. cbn [filter snd].
    destruct (device_name_to_lun (Disk.device d)) as [lun|] eqn:L; cbn.
    + apply bind_ok in H as (there & w1 & Hb & H).
      apply bind_ok in H as (rest & w2 & Hr & H).
      inversion H; subst; clear H.
      apply IH in Hr as (S2 & R2 & F).
      pose proof (@keeps_blob_exists _ (fun w => (st w, remote w))
                    (Disk.media_link d) (fun _ _ => eq_refl) _ _ _ Hb) as E.
      inversion E as [[S1 R1]].
      split; [congruence|]. split; [congruence|].
      constructor; [|assumption].
      unfold as_data_disk. cbn. rewrite L. repeat split.
    + now apply IH.
Qed.

Lemma keeps_fetch_public_ip :
  keeps (fun w => (st w, remote w)) fetch_public_ip.
Proof.
  unfold fetch_public_ip, public_ip_addresses_get, api. keeps_auto.
Qed.

Lemma keeps_operation_status :
  keeps (fun w => (st w, remote w)) get_long_running_operation_status.
Proof. unfold get_long_running_operation_status, api. keeps_auto. Qed.

Lemma keeps_wait_for_request :
  keeps (fun w => (st w, remote w)) wait_for_request.
Proof.
  unfold wait_for_request.
  apply keeps_bind; [apply keeps_fetch_public_ip|intros [ip|]];
    [apply keeps_ret|].
  apply keeps_bind; [apply keeps_operation_status|intros []];
    keeps_auto.
Qed.

Lemma keeps_update_ssh_known_hosts :
  keeps (fun w => (st w, remote w)) update_ssh_known_hosts.
Proof. unfold update_ssh_known_hosts. keeps_auto. Qed.

Lemma record_disks_run (l : disk_map) : forall w,
  for_m l (fun entry => update_block_device_mapping (fst entry)
                          (Some (snd entry))) w
  = (Ok tt,
     set_st (State.set_block_device_mapping
               (record_disks l (State.block_device_mapping (st w))) (st w)) w).
Proof.
  induction l as [|[k d] l IH]; intros w; cbn [for_m].
  - unfold ret, record_disks. cbn. rewrite state_same_mapping. now destruct w.
  - unfold bind. rewrite update_block_device_mapping_run. cbv beta iota.
    rewrite IH. unfold record_disks. cbn.
    now destruct w as [s r o rnd dr t]; destruct s.
Qed.

(** What [_create_vm] has done when it ends well for a machine that was
    not recorded. *)
Lemma create_vm_ok (defn : Defn.t) (w w' : World) :
  truthy (State.vm_id (st w)) = false ->
  _create_vm defn w = (Ok tt, w') ->
  exists root_disk_id root_disk_spec data_disks os_profile nic_id
         (root_disk_exists : bool) ip,
    Azure.vm (remote w) = None /\
    defn_find_root_disk (Defn.block_device_mapping defn) = Some root_disk_id /\
    Dict.get root_disk_id (Defn.block_device_mapping defn)
    = Some root_disk_spec /\
    Forall2 (fun entry vm_disk => as_data_disk (snd entry) vm_disk)
            (slot_disks (Defn.block_device_mapping defn)) data_disks /\
    Azure.vm (remote w')
    = Some (Azure.mkVirtualMachine (State.location (st w))
              (State.machine_name (st w)) os_profile (Defn.size defn)
              [nic_id]
              (Azure.mkOSDisk (Disk.host_caching root_disk_spec)
                 (if root_disk_exists then Azure.attach else Azure.from_image)
                 (Disk.name root_disk_spec) (Disk.media_link root_disk_spec)
                 (if root_disk_exists then None
                  else Some (Defn.root_disk_image_url defn)))
              data_disks Azure.creating) /\
    st w'
    = State.set_block_device_mapping
        (record_disks (Defn.block_device_mapping defn)
                      (State.block_device_mapping (st w)))
        (State.set_public_ipv4 ip
           (State.set_availability_set (Some (Defn.availability_set defn))
              (State.set_obtain_ip (Some (Defn.obtain_ip defn))
                 (State.set_size (Some (Defn.size defn))
                    (State.set_ssh_pinged false
                       (State.set_state STARTING
                          (State.set_vm_id (State.machine_name (st w))
                             (State.set_network_interface (Some nic_id)
                                (State.set_public_ip
                                   (if (is_none (State.public_ip (st w))
                                        && Defn.obtain_ip defn)%bool
                                    then State.machine_name (st w)
                                    else State.public_ip (st w))
                                   (st w)))))))))).
Proof.
  intros Hid H. unfold _create_vm in H.
  apply bind_ok in H as (public_ip & w0 & Hr & H).
  inversion Hr; subst; clear Hr.
  apply bind_ok in H as (machine_name & w1 & Hr & H).
  inversion Hr; subst; clear Hr.
  apply bind_ok in H as ([] & w2 & Hip & H).
  assert (st w2
          = (if (is_none (State.public_ip (st w1)) && Defn.obtain_ip defn)%bool
             then State.set_obtain_ip (Some (Defn.obtain_ip defn))
                    (State.set_public_ip (State.machine_name (st w1)) (st w1))
             else st w1) /\
          exists ips, remote w2 = Azure.set_public_ips ips (remote w1))
    as (S2 & ips & R2).
  { revert Hip. unfold public_ip_addresses_create_or_update, log.
    destruct (is_none (State.public_ip (st w1)) && Defn.obtain_ip defn)%bool.
    - run_cases; intros Hip; inversion Hip; subst; (split; [reflexivity|]);
        cbn; first [now eexists
                   |exists (Azure.public_ips (remote w1));
                    now destruct (remote w1)].
    - intros Hip. inversion Hip; subst. split; [reflexivity|].
      exists (Azure.public_ips (remote w2)). now destruct (remote w2). }
  clear Hip.
  apply bind_ok in H as (network_interface & w2' & Hr & H).
  inversion Hr; subst w2' network_interface; clear Hr.
  apply bind_ok in H as ([] & w3 & Hnic & H).
  assert (st w3
          = (if is_none (State.network_interface (st w2))
             then State.set_network_interface (State.machine_name (st w1))
                    (st w2)
             else st w2) /\
          exists nics, remote w3 = Azure.set_nics nics (remote w2))
    as (S3 & nics & R3).
  { revert Hnic.
    unfold public_ip_addresses_get, network_interfaces_create_or_update,
      subnets_get, log.
    destruct (is_none (State.network_interface (st w2))).
    - run_cases; intros Hnic; inversion Hnic; subst; (split; [reflexivity|]);
        cbn; first [now eexists
                   |exists (Azure.nics (remote w2));
                    now destruct (remote w2)].
    - intros Hnic. inversion Hnic; subst. split; [reflexivity|].
      exists (Azure.nics (remote w3)). now destruct (remote w3). }
  clear Hnic.
  apply bind_ok in H as (vm_id & w3' & Hr & H).
  inversion Hr; subst w3' vm_id; clear Hr.
  assert (State.vm_id (st w3) = State.vm_id (st w1)) as I3.
  { rewrite S3.
    destruct (is_none (State.network_interface (st w2))); cbn; rewrite S2;
      destruct (is_none (State.public_ip (st w1)) && Defn.obtain_ip defn)%bool;
      reflexivity. }
  rewrite I3, Hid in H.
  apply bind_ok in H as (existing & w4 & He & H).
  rewrite get_settled_resource_run in He.
  inversion He; subst w4 existing; clear He.
  assert (Azure.vm (remote w3) = Azure.vm (remote w1)) as V3
    by (rewrite R3, R2; reflexivity).
  rewrite V3 in H.
  destruct (Azure.vm (remote w1)) as [v|] eqn:V1; [discriminate|].
  destruct (defn_find_root_disk (Defn.block_device_mapping defn))
    as [root_disk_id|] eqn:Froot; [|discriminate].
  destruct (Dict.get root_disk_id (Defn.block_device_mapping defn))
    as [root_disk_spec|] eqn:Groot; [|discriminate].
  apply bind_ok in H as ([] & w5 & Hl & H).
  inversion Hl; subst w5; clear Hl.
  apply bind_ok in H as (network_interface & w5 & Hr & H).
  inversion Hr; subst w5 network_interface; clear Hr. cbn [st] in H.
  apply bind_ok in H as (nic_id & w6 & Hn & H).
  assert (State.network_interface (st w3) = Some nic_id /\
          st w6 = st w3 /\ remote w6 = remote w3) as (N6 & S6 & R6).
  { revert Hn. unfold network_interfaces_get.
    run_cases; intros Hn; inversion Hn; subst; auto. }
  clear Hn.
  apply bind_ok in H as (private_host_key & w7 & Hr & H).
  inversion Hr; subst w7 private_host_key; clear Hr.
  apply bind_ok in H as (public_host_key & w7 & Hr & H).
  inversion Hr; subst w7 public_host_key; clear Hr.
  apply bind_ok in H as (public_client_key & w7 & Hr & H).
  inversion Hr; subst w7 public_client_key; clear Hr.
  apply bind_ok in H as (data_disks & w7 & Hd & H).
  apply new_data_disks_ok in Hd as (S7 & R7 & Fd).
  apply bind_ok in H as (root_disk_exists & w8 & Hb & H).
  pose proof (@keeps_blob_exists _ (fun w => (st w, remote w)) _
                (fun _ _ => eq_refl) _ _ _ Hb) as E8.
  inversion E8 as [[S8 R8]]. clear E8 Hb.
  apply bind_ok in H as (location & w9 & Hr & H).
  inversion Hr; subst w9 location; clear Hr.
  apply bind_ok in H as (os_profile & w9 & Ho & H).
  assert (st w9 = st w8 /\ remote w9 = remote w8) as (S9 & R9).
  { revert Ho. unfold generate_random_string.
    run_cases; intros Ho; inversion Ho; subst; auto. }
  clear Ho.
  apply bind_ok in H as ([] & w10 & Hc & H).
  inversion Hc; subst w10; clear Hc.
  apply bind_ok in H as ([] & w11 & Hw & H).
  apply keeps_wait_for_request in Hw. inversion Hw as [[S11 R11]]. clear Hw.
  apply bind_ok in H as (req_status & w12 & Hs & H).
  apply keeps_operation_status in Hs. inversion Hs as [[S12 R12]]. clear Hs.
  assert ((write (State.set_vm_id (State.machine_name (st w1)));;
           write (State.set_state STARTING);;
           write (State.set_ssh_pinged false);;
           copy_properties defn;;
           ip <- fetch_public_ip;;
           write (State.set_public_ipv4 ip);;
           log "got IP";;
           update_ssh_known_hosts;;
           for_m (Defn.block_device_mapping defn)
             (fun entry : string * Disk.t =>
              update_block_device_mapping (fst entry) (Some (snd entry))))
            w12 = (Ok tt, w')) as H'
    by (destruct req_status; [exact H|exact H|discriminate H]).
  clear H. rename H' into H.
  apply bind_ok in H as ([] & w13 & Hx & H).
  inversion Hx; subst w13; clear Hx.
  apply bind_ok in H as ([] & w13 & Hx & H).
  inversion Hx; subst w13; clear Hx.
  apply bind_ok in H as ([] & w13 & Hx & H).
  inversion Hx; subst w13; clear Hx.
  apply bind_ok in H as ([] & w13 & Hx & H).
  inversion Hx; subst w13; clear Hx.
  apply bind_ok in H as (ip & w14 & Hf & H).
  apply keeps_fetch_public_ip in Hf. inversion Hf as [[S14 R14]]. clear Hf.
  apply bind_ok in H as ([] & w15 & Hx & H).
  inversion Hx; subst w15; clear Hx.
  apply bind_ok in H as ([] & w15 & Hx & H).
  inversion Hx; subst w15; clear Hx.
  apply bind_ok in H as ([] & w15 & Hk & H).
  apply keeps_update_ssh_known_hosts in Hk. inversion Hk as [[S15 R15]].
  clear Hk.
  rewrite record_disks_run in H. inversion H; subst w'; clear H.
  cbn in S11, R11, S14, R14, S15, R15. cbn [st remote set_st].
  exists root_disk_id, root_disk_spec, data_disks, os_profile, nic_id,
    root_disk_exists, ip.
  split; [reflexivity|]. split; [reflexivity|]. split; [assumption|].
  split; [assumption|].
  rewrite R15, R14, R12, R11, S15, S14, S12, S11, S9, S8, S7, S6.
  clear - S2 S3 N6.
  destruct (is_none (State.network_interface (st w2)));
    destruct (is_none (State.public_ip (st w1)) && Defn.obtain_ip defn)%bool;
    rewrite S3, S2; rewrite S3, S2 in N6; clear S2 S3;
    destruct (st w1); cbn in *; subst; split; reflexivity.
Qed.

Lemma record_disks_other (l : disk_map) (k : string) : forall m,
  ~ In k (Dict.keys l) -> Dict.get k (record_disks l m) = Dict.get k m.
Proof.
  unfold record_disks.
  induction l as [|[k0 d0] l IH]; intros m H; cbn; [reflexivity|].
  cbn in H. rewrite IH by tauto. apply get_set_other. intros ->. tauto.
Qed.

Lemma record_disks_in (l : disk_map) (k : string) (d : Disk.t) : forall m,
  NoDup (Dict.keys l) -> In (k, d) l ->
  Dict.get k (record_disks l m) = Some d.
Proof.
  induction l as [|[k0 d0] l IH]; intros m Hnd Hin; [contradiction|].
  inversion Hnd as [|? ? Hfresh Hnd']; subst.
  destruct Hin as [Heq|Hin].
  - inversion Heq; subst.
    change (record_disks ((k, d) :: l) m)
      with (record_disks l (Dict.set k d m)).
    rewrite record_disks_other by assumption. apply get_set_same.
  - change (record_disks ((k0, d0) :: l) m)
      with (record_disks l (Dict.set k0 d0 m)).
    now apply IH.
Qed.

(** X16: when [_create_vm] ends well for a machine that was not recorded,
    the subscription had no machine and has one now, with the root disk
    of the definition as its OS disk, the disks of the definition that
    are at a slot as its data disks, in order, and the size of the
    definition; the machine is recorded under its name as starting, and
    the record has every disk of the definition as the definition has
    it, and its other disks as before. *)
Theorem create_vm_creates (defn : Defn.t) (w w' : World) :
  truthy (State.vm_id (st w)) = false ->
  NoDup (Dict.keys (Defn.block_device_mapping defn)) ->
  _create_vm defn w = (Ok tt, w') ->
  Azure.vm (remote w) = None /\
  (exists vm root_disk_id root_disk,
     Azure.vm (remote w') = Some vm /\
     defn_find_root_disk (Defn.block_device_mapping defn) = Some root_disk_id /\
     Dict.get root_disk_id (Defn.block_device_mapping defn) = Some root_disk /\
     Azure.os_name (Azure.os_disk vm) = Disk.name root_disk /\
     Azure.os_uri (Azure.os_disk vm) = Disk.media_link root_disk /\
     Azure.os_caching (Azure.os_disk vm) = Disk.host_caching root_disk /\
     Azure.virtual_machine_size vm = Defn.size defn /\
     Azure.vm_name vm = State.machine_name (st w) /\
     Forall2 (fun entry vm_disk => as_data_disk (snd entry) vm_disk)
             (slot_disks (Defn.block_device_mapping defn))
             (Azure.data_disks vm)) /\
  State.vm_id (st w') = State.machine_name (st w) /\
  State.state (st w') = STARTING /\
  State.size (st w') = Some (Defn.size defn) /\
  (forall d_id disk,
     In (d_id, disk) (Defn.block_device_mapping defn) ->
     Dict.get d_id (State.block_device_mapping (st w')) = Some disk) /\
  (forall d_id,
     ~ In d_id (Dict.keys (Defn.block_device_mapping defn)) ->
     Dict.get d_id (State.block_device_mapping (st w'))
     = Dict.get d_id (State.block_device_mapping (st w))).
Proof.
  intros Hid Hnd H.
  destruct (@create_vm_ok _ _ _ Hid H)
    as (root_disk_id & root_disk & data_disks & os_profile & nic_id & there
        & ip & V & Froot & Groot & Fd & V' & S').
  split; [assumption|]. split.
  { eexists. exists root_disk_id, root_disk.
    split; [exact V'|]. cbn. auto 10. }
  rewrite S'. cbn.
  split; [reflexivity|]. split; [reflexivity|]. split; [reflexivity|]. split.
  - intros d_id disk Hin. now apply record_disks_in.
  - intros d_id Hin. now apply record_disks_other.
Qed.

(** X17: a machine that [_create_vm] has created and recorded is not
    created again: a second run does nothing, provided the machine has a
    name. *)
Theorem create_vm_once (defn : Defn.t) (w w' : World) :
  truthy (State.vm_id (st w)) = false ->
  truthy (State.machine_name (st w)) = true ->
  _create_vm defn w = (Ok tt, w') ->
  _create_vm defn w' = (Ok tt, w').
Proof.
  intros Hid Hname H.
  destruct (@create_vm_ok _ _ _ Hid H)
    as (root_disk_id & root_disk & data_disks & os_profile & nic_id & there
        & ip & _ & _ & _ & _ & _ & S').
  unfold _create_vm.
  unfold bind at 1. unfold read at 1.
  unfold bind at 1. unfold read at 1.
  assert ((is_none (State.public_ip (st w')) && Defn.obtain_ip defn)%bool
          = false) as ->.
  { rewrite S'. cbn.
    destruct (is_none (State.public_ip (st w)) && Defn.obtain_ip defn)%bool
      eqn:C; [|exact C].
    destruct (State.machine_name (st w)); [reflexivity|discriminate]. }
  unfold bind at 1. unfold when at 1. unfold ret at 1.
  unfold bind at 1. unfold read at 1.
  assert (is_none (State.network_interface (st w')) = false) as ->
    by (rewrite S'; reflexivity).
  unfold bind at 1. unfold when at 1. unfold ret at 1.
  unfold bind at 1. unfold read at 1.
  assert (truthy (State.vm_id (st w')) = true) as ->
    by (rewrite S'; exact Hname).
  reflexivity.
Qed.

Lemma create_vm_creates_witness :
  Azure.vm (remote SampleVm.fresh) = None /\
  (exists vm root_disk_id root_disk,
     Azure.vm (remote (snd (_create_vm SampleAttach.wanted SampleVm.fresh)))
     = Some vm /\
     defn_find_root_disk (Defn.block_device_mapping SampleAttach.wanted)
     = Some root_disk_id /\
     Dict.get root_disk_id (Defn.block_device_mapping SampleAttach.wanted)
     = Some root_disk /\
     Azure.os_name (Azure.os_disk vm) = Disk.name root_disk /\
     Azure.os_uri (Azure.os_disk vm) = Disk.media_link root_disk /\
     Azure.os_caching (Azure.os_disk vm) = Disk.host_caching root_disk /\
     Azure.virtual_machine_size vm = Defn.size SampleAttach.wanted /\
     Azure.vm_name vm = State.machine_name (st SampleVm.fresh) /\
     Forall2 (fun entry vm_disk => as_data_disk (snd entry) vm_disk)
             (slot_disks (Defn.block_device_mapping SampleAttach.wanted))
             (Azure.data_disks vm)) /\
  State.vm_id (st (snd (_create_vm SampleAttach.wanted SampleVm.fresh)))
  = State.machine_name (st SampleVm.fresh) /\
  State.state (st (snd (_create_vm SampleAttach.wanted SampleVm.fresh)))
  = STARTING /\
  State.size (st (snd (_create_vm SampleAttach.wanted SampleVm.fresh)))
  = Some (Defn.size SampleAttach.wanted) /\
  (forall d_id disk,
     In (d_id, disk) (Defn.block_device_mapping SampleAttach.wanted) ->
     Dict.get d_id
       (State.block_device_mapping
          (st (snd (_create_vm SampleAttach.wanted SampleVm.fresh))))
     = Some disk) /\
  (forall d_id,
     ~ In d_id (Dict.keys (Defn.block_device_mapping SampleAttach.wanted)) ->
     Dict.get d_id
       (State.block_device_mapping
          (st (snd (_create_vm SampleAttach.wanted SampleVm.fresh))))
     = Dict.get d_id (State.block_device_mapping (st SampleVm.fresh))).
Proof.
  apply (@create_vm_creates SampleAttach.wanted SampleVm.fresh).
  - reflexivity.
  - vm_compute. nodup_strings.
  - vm_compute. reflexivity.
Defined.

Lemma create_vm_once_witness :
  _create_vm SampleAttach.wanted
    (snd (_create_vm SampleAttach.wanted SampleVm.fresh))
  = (Ok tt, snd (_create_vm SampleAttach.wanted SampleVm.fresh)).
Proof.
  apply (@create_vm_once SampleAttach.wanted SampleVm.fresh).
  - reflexivity.
  - reflexivity.
  - vm_compute. reflexivity.
Defined.

(** ** Changing the root disk of a deployed machine *)

Lemma replace_root_disk_run (defn : Defn.t) (allow_recreate : bool)
    (w : World) (def_root_disk_id state_root_disk_id : string)
    (def_root_disk state_root_disk : Disk.t) :
  truthy (State.vm_id (st w)) = true ->
  defn_find_root_disk (Defn.block_device_mapping defn)
  = Some def_root_disk_id ->
  Dict.get def_root_disk_id (Defn.block_device_mapping defn)
  = Some def_root_disk ->
  find_root_disk (State.block_device_mapping (st w))
  = Some state_root_disk_id ->
  Dict.get state_root_disk_id (State.block_device_mapping (st w))
  = Some state_root_disk ->
  replace_root_disk defn allow_recreate w
  = (if root_disk_differs def_root_disk_id def_root_disk state_root_disk_id
          state_root_disk
     then
       warn RootDiskModification ;;
       if allow_recreate
       then
         log "destroying the virtual machine, but preserving the disk contents..." ;;
         destroy_resource ;;
         _node_deleted
       else raise UseAllowRecreate
     else ret tt) w.
Proof.
  intros Hid Fd Gd Fs Gs. unfold replace_root_disk, root_disk_differs.
  unfold bind at 1. unfold read at 1. rewrite Hid. cbn [negb].
  unfold bind at 1. unfold read at 1. rewrite Fd, Gd, Fs, Gs.
  reflexivity.
Qed.

(** X18: when a machine is recorded, [create] compares the root disk of
    the definition with the attached root disk of the record.  If they
    are the same disk with the same caching mode and name, nothing
    happens.  If not, then without permission to re-create the machine
    [create] stops, the record and the subscription being as they were,
    and with it the machine is deleted, no machine is recorded any more
    and every recorded disk is marked as waiting to be attached. *)
Theorem root_disk_change (defn : Defn.t) (w : World)
    (def_root_disk_id state_root_disk_id : string)
    (def_root_disk state_root_disk : Disk.t) :
  truthy (State.vm_id (st w)) = true ->
  defn_find_root_disk (Defn.block_device_mapping defn)
  = Some def_root_disk_id ->
  Dict.get def_root_disk_id (Defn.block_device_mapping defn)
  = Some def_root_disk ->
  find_root_disk (State.block_device_mapping (st w))
  = Some state_root_disk_id ->
  Dict.get state_root_disk_id (State.block_device_mapping (st w))
  = Some state_root_disk ->
  NoDup (Dict.keys (State.block_device_mapping (st w))) ->
  if root_disk_differs def_root_disk_id def_root_disk state_root_disk_id
       state_root_disk
  then
    (exists w',
       replace_root_disk defn false w = (Raise UseAllowRecreate, w') /\
       st w' = st w /\ remote w' = remote w) /\
    (exists w',
       replace_root_disk defn true w = (Ok tt, w') /\
       Azure.vm (remote w') = None /\
       State.vm_id (st w') = None /\
       State.block_device_mapping (st w')
       = map mark (State.block_device_mapping (st w)))
  else
    forall allow_recreate,
      replace_root_disk defn allow_recreate w = (Ok tt, w).
Proof.
  intros Hid Fd Gd Fs Gs Hnd.
  destruct (root_disk_differs _ _ _ _) eqn:D.
  - split.
    + rewrite (@replace_root_disk_run _ _ _ _ _ _ _ Hid Fd Gd Fs Gs), D.
      eexists. split; [reflexivity|]. split; reflexivity.
    + rewrite (@replace_root_disk_run _ _ _ _ _ _ _ Hid Fd Gd Fs Gs), D.
      unfold destroy_resource, virtual_machines_delete.
      unfold bind at 1. unfold warn at 1, emit at 1.
      unfold bind at 1. unfold log at 1, emit at 1.
      unfold bind at 1. unfold bind at 1. unfold api at 1, emit at 1.
      unfold change_remote at 1. cbn [st remote operator random draws trace].
      match goal with
      | |- context [_node_deleted ?w0] =>
          destruct (node_deleted_run w0 Hnd)
            as (w' & Hrun & I & _ & _ & Hm & _ & _ & _ & R & _)
      end.
      exists w'. split; [exact Hrun|]. rewrite R. cbn.
      split; [reflexivity|]. split; [exact I|exact Hm].
  - intros allow_recreate.
    now rewrite (@replace_root_disk_run _ _ _ _ _ _ _ Hid Fd Gd Fs Gs), D.
Qed.

Lemma root_disk_change_witness :
  (exists w',
     replace_root_disk SampleCaching.root_renamed false SampleCreate.in_order
     = (Raise UseAllowRecreate, w') /\
     st w' = st SampleCreate.in_order /\
     remote w' = remote SampleCreate.in_order) /\
  (exists w',
     replace_root_disk SampleCaching.root_renamed true SampleCreate.in_order
     = (Ok tt, w') /\
     Azure.vm (remote w') = None /\
     State.vm_id (st w') = None /\
     State.block_device_mapping (st w')
     = map mark (State.block_device_mapping (st SampleCreate.in_order))).
Proof.
  apply (@root_disk_change SampleCaching.root_renamed SampleCreate.in_order
           Sample.root_link Sample.root_link
           (Sample.disk "/dev/sda" "renamed" Sample.root_link None)
           (Sample.disk "/dev/sda" "root" Sample.root_link None));
    try reflexivity.
  vm_compute. nodup_strings.
Defined.

(** ** Changes that need a reboot *)

Lemma opt_string_eqb_eq (a b : option string) :
  opt_string_eqb a b = true -> a = b.
Proof.
  destruct a, b; simpl; try discriminate; [|reflexivity].
  intros H. apply String.eqb_eq in H. now subst.
Qed.

Lemma no_property_change_cases (get : State.t -> option string)
    (wanted name : string) (w w' : World) (r : outcome unit) :
  no_property_change get wanted name w = (r, w') ->
  w' = w /\ (r = Ok tt \/ r = Raise (PropertyChange name)).
Proof.
  unfold no_property_change, no_change.
  run_cases; intros H; inversion H; subst; auto.
Qed.

Lemma reboot_guard (defn : Defn.t) (allow_recreate : bool) (w w' : World)
    (r : outcome unit) :
  truthy (State.vm_id (st w)) = true ->
  State.size (st w) <> Some (Defn.size defn) \/
  State.availability_set (st w) <> Some (Defn.availability_set defn) ->
  create_prologue defn false false allow_recreate w = (r, w') ->
  exists e,
    r = Raise e /\
    (e = RebootRequiredSize \/ e = RebootRequiredAvailabilitySet \/
     exists property, e = PropertyChange property).
Proof.
  intros Hid Hdiff H. unfold create_prologue in H.
  repeat match type of H with
         | bind (no_property_change _ _ _) _ _ = _ =>
             let Hs := fresh "Hs" in
             apply bind_inv in H as [(e & Hs & ->)|([] & ? & Hs & H)];
             [apply no_property_change_cases in Hs as (_ & [Hs|Hs]);
              [discriminate|inversion Hs; subst; eauto 6]
             |apply no_property_change_cases in Hs as (-> & _)]
         end.
  revert H. unfold create_key_pair, generate_random_string.
  run_cases; cbn [State.vm_id State.size State.availability_set
                  State.set_client_keys State.set_host_keys
                  State.set_location State.set_virtual_network
                  State.set_resource_group State.set_storage
                  State.set_machine_name] in *;
    intros H; inversion H; subst; clear H; eauto 6; exfalso.
  all: repeat match goal with
              | E : (truthy _ && negb false)%bool = false |- _ =>
                  rewrite Hid in E; discriminate E
              | E : negb (opt_string_eqb _ _) = false |- _ =>
                  apply negb_false_iff in E; apply opt_string_eqb_eq in E
              end.
  all: destruct Hdiff as [Hd|Hd]; apply Hd; congruence.
Qed.

(** X19: for a machine that is recorded, a definition with another size
    or another availability set is refused when reboots are not allowed:
    without the check pass, [create] raises, the error being that a reboot
    is required unless one of the fields that identify the machine has
    changed as well, and by then nothing was sent that changes a remote
    resource and the recorded disks are as they were. *)
Theorem create_needs_reboot (defn : Defn.t) (allow_recreate : bool)
    (w w' : World) (r : outcome unit) :
  truthy (State.vm_id (st w)) = true ->
  State.size (st w) <> Some (Defn.size defn) \/
  State.availability_set (st w) <> Some (Defn.availability_set defn) ->
  create defn false false allow_recreate w = (r, w') ->
  (exists e,
     r = Raise e /\
     (e = RebootRequiredSize \/ e = RebootRequiredAvailabilitySet \/
      exists property, e = PropertyChange property)) /\
  untouched w w'.
Proof.
  intros Hid Hdiff H. unfold create in H.
  apply bind_inv in H as [(e & H & ->)|([] & w1 & H1 & H)].
  - split; [eapply reboot_guard; eauto|].
    eapply quiet_create_prologue; eauto.
  - exfalso. destruct (@reboot_guard _ _ _ _ _ Hid Hdiff H1) as (e & E & _).
    discriminate E.
Qed.

Lemma create_needs_reboot_witness :
  (exists e,
     fst (create SampleReboot.resized false false false SampleCreate.in_order)
     = Raise e /\
     (e = RebootRequiredSize \/ e = RebootRequiredAvailabilitySet \/
      exists property, e = PropertyChange property)) /\
  untouched SampleCreate.in_order
    (snd (create SampleReboot.resized false false false SampleCreate.in_order)).
Proof.
  apply (@create_needs_reboot SampleReboot.resized false SampleCreate.in_order).
  - reflexivity.
  - left. discriminate.
  - vm_compute. reflexivity.
Defined.

(** ** What changing the parameters of a disk leaves alone *)

Lemma fixed_part_set (m : disk_map) (k : string) (v v' : Disk.t) :
  Dict.get k m = Some v ->
  fixed_part (k, v') = fixed_part (k, v) ->
  map fixed_part (Dict.set k v' m) = map fixed_part m.
Proof.
  induction m as [|[k0 v0] m IH]; simpl; [discriminate|].
  destruct (String.eqb k0 k) eqn:E; intros G F; simpl.
  - apply String.eqb_eq in E. subst k0. inversion G; subst.
    now rewrite F.
  - f_equal. now apply IH.
Qed.

Lemma keeps_fixed_part_step (entry : string * Disk.t) :
  keeps (fun w => (map fixed_part (State.block_device_mapping (st w)),
                   State.vm_id (st w),
                   State.generated_encryption_keys (st w)))
        (change_disk_parameters entry).
Proof.
  intros w r w'. destruct entry as [k d].
  unfold change_disk_parameters, get_vm_assert_exists, get_settled_resource,
    get_resource, virtual_machines_get, virtual_machines_create_or_update,
    update_block_device_mapping, log.
  run_cases; intros H; inversion H; subst; clear H; cbn; try reflexivity;
    match goal with
    | |- (?a, _, _) = (?a', _, _) =>
        replace a with a'; [reflexivity|symmetry]
    end;
    (eapply fixed_part_set; [eassumption|reflexivity]).
Qed.

(** X20: whatever its outcome, [_change_existing_disk_parameters] leaves
    the recorded disks under the keys and in the order they had, each
    with its BLOB address, its size and its mark [needs_attach], and it
    changes neither the recorded machine nor the generated keys. *)
Theorem change_existing_keeps (defn : Defn.t) (w w' : World)
    (r : outcome unit) :
  _change_existing_disk_parameters defn w = (r, w') ->
  map fixed_part (State.block_device_mapping (st w'))
  = map fixed_part (State.block_device_mapping (st w)) /\
  State.vm_id (st w') = State.vm_id (st w) /\
  State.generated_encryption_keys (st w')
  = State.generated_encryption_keys (st w).
Proof.
  intros H.
  assert (keeps (fun w => (map fixed_part (State.block_device_mapping (st w)),
                           State.vm_id (st w),
                           State.generated_encryption_keys (st w)))
                (_change_existing_disk_parameters defn)) as K.
  { unfold _change_existing_disk_parameters. apply keeps_for_m.
    intros x _. apply keeps_fixed_part_step. }
  apply K in H. now inversion H.
Qed.

Lemma change_existing_keeps_witness :
  map fixed_part
    (State.block_device_mapping
       (st (snd (_change_existing_disk_parameters SampleCaching.recached
                   SampleCreate.in_order))))
  = map fixed_part (State.block_device_mapping (st SampleCreate.in_order)) /\
  State.vm_id
    (st (snd (_change_existing_disk_parameters SampleCaching.recached
                SampleCreate.in_order)))
  = State.vm_id (st SampleCreate.in_order) /\
  State.generated_encryption_keys
    (st (snd (_change_existing_disk_parameters SampleCaching.recached
                SampleCreate.in_order)))
  = State.generated_encryption_keys (st SampleCreate.in_order).
Proof.
  apply (@change_existing_keeps SampleCaching.recached SampleCreate.in_order
           _ (fst (_change_existing_disk_parameters SampleCaching.recached
                     SampleCreate.in_order))).
  vm_compute. reflexivity.
Defined.

(** ** After the activation of a configuration *)

Lemma pop_set (V : Type) (k : string) (v : V) (m : Dict.t V) :
  Dict.pop k (Dict.set k v m) = Dict.pop k m.
Proof.
  induction m as [|[k0 v0] m IH]; simpl.
  - now rewrite String.eqb_refl.
  - destruct (String.eqb k0 k) eqn:E; simpl; rewrite E; [reflexivity|].
    now rewrite IH.
Qed.

Lemma filter_filter (A : Type) (f g : A -> bool) (l : list A) :
  filter f (filter g l) = filter (fun x => (g x && f x)%bool) l.
Proof.
  induction l as [|x l IH]; simpl; [reflexivity|].
  destruct (g x); simpl; [destruct (f x)|]; now rewrite IH.
Qed.

Lemma forget_steps (defn : Defn.t) (l : disk_map) : forall m : disk_map,
  fold_left (forget_step defn) l m
  = filter (fun entry =>
              (Dict.mem (fst entry) (Defn.block_device_mapping defn)
               || negb (has_key (fst entry) l))%bool) m.
Proof.
  induction l as [|[k d] l IH]; intros m; cbn [fold_left].
  - induction m as [|e m IHm]; cbn; [reflexivity|].
    rewrite orb_true_r. now f_equal.
  - rewrite IH. unfold forget_step. cbn [fst has_key existsb].
    destruct (Dict.mem k (Defn.block_device_mapping defn)) eqn:M.
    + apply filter_ext. intros [k0 d0]. cbn [fst].
      destruct (String.eqb k k0) eqn:E; [|reflexivity].
      apply String.eqb_eq in E. subst k0. now rewrite M.
    + rewrite pop_as_filter, filter_filter.
      apply filter_ext. intros [k0 d0]. cbn [fst].
      rewrite (String.eqb_sym k k0).
      destruct (String.eqb k0 k) eqn:E; cbn; [|reflexivity].
      apply String.eqb_eq in E. subst k0. now rewrite M.
Qed.

Lemma has_key_in (V : Type) (k : string) (v : V) (l : Dict.t V) :
  In (k, v) l -> has_key k l = true.
Proof.
  intros H. unfold has_key. apply existsb_exists. exists (k, v).
  split; [assumption|]. apply String.eqb_refl.
Qed.

Lemma forget_all (defn : Defn.t) (m : disk_map) :
  fold_left (forget_step defn) m m = still_defined defn m.
Proof.
  rewrite forget_steps. unfold still_defined. apply filter_ext_in.
  intros [k d] Hin. cbn [fst]. rewrite (has_key_in _ _ _ Hin).
  apply orb_false_r.
Qed.

Section AfterActivationProperties.
Variable run_command : string -> M unit.
Hypothesis run_command_keeps :
  forall command,
    keeps (fun w => State.block_device_mapping (st w)) (run_command command).

Lemma forget_disk_step (defn : Defn.t) (entry : string * Disk.t)
    (w w' : World) :
  forget_disk run_command defn entry w = (Ok tt, w') ->
  State.block_device_mapping (st w')
  = forget_step defn (State.block_device_mapping (st w)) entry.
Proof.
  destruct entry as [k d]. unfold forget_disk, forget_step. cbn [fst].
  destruct (Dict.mem k (Defn.block_device_mapping defn));
    [intros H; now inversion H|].
  intros H.
  apply bind_ok in H as (disk & w1 & H1 & H).
  assert (Dict.pop k (State.block_device_mapping (st w1))
          = Dict.pop k (State.block_device_mapping (st w))) as M1.
  { destruct (negb (Disk.get_needs_attach d) &&
              negb (is_none (device_name_to_lun (Disk.device d))))%bool;
      [|now inversion H1].
    apply bind_ok in H1 as ([] & wa & Ha & H1).
    keeping (fun w => State.block_device_mapping (st w)) Ha.
    { unfold log. destruct (Disk.encrypt d); keeps_auto;
        apply run_command_keeps. }
    apply bind_ok in H1 as ([] & wb & Hb & H1).
    inversion Hb; subst wb; clear Hb.
    apply bind_ok in H1 as (vm & wc & Hc & H1).
    keeping (fun w => State.block_device_mapping (st w)) Hc.
    { unfold get_vm_assert_exists, get_settled_resource, get_resource,
        virtual_machines_get, api. keeps_auto. }
    apply bind_ok in H1 as ([] & wd & Hd & H1).
    inversion Hd; subst wd; clear Hd.
    apply bind_ok in H1 as ([] & we & He & H1).
    inversion He; subst we; clear He.
    inversion H1; subst; clear H1. cbn in *.
    rewrite pop_set. congruence. }
  clear H1.
  apply bind_ok in H as ([] & w2 & H2 & H).
  keeping (fun w => State.block_device_mapping (st w)) H2.
  { apply keeps_when.
    apply (@keeps_delete_volume _ State.block_device_mapping). }
  apply bind_ok in H as ([] & w3 & H3 & H).
  apply run_command_keeps in H3.
  apply bind_ok in H as ([] & w4 & H4 & H).
  inversion H4; subst w4; clear H4.
  apply (@keeps_delete_encryption_key _ State.block_device_mapping k
           (fun _ _ => eq_refl)) in H.
  rewrite H. cbn. congruence.
Qed.

Lemma forget_disks (defn : Defn.t) (l : disk_map) : forall w w',
  for_m l (forget_disk run_command defn) w = (Ok tt, w') ->
  State.block_device_mapping (st w')
  = fold_left (forget_step defn) l (State.block_device_mapping (st w)).
Proof.
  induction l as [|entry l IH]; cbn [for_m fold_left]; intros w w' H.
  - now inversion H.
  - apply bind_ok in H as ([] & w1 & H1 & H).
    rewrite (IH _ _ H). now rewrite (@forget_disk_step _ _ _ _ H1).
Qed.

(** X21: when [after_activation] ends well, the disks that are recorded
    are those that were recorded and are in the definition, as they
    were recorded and in the same order: the disks that the definition no
    longer has are forgotten.  What is assumed of the commands that are
    run on the machine is that they leave the recorded disks alone. *)
Theorem after_activation_forgets (defn : Defn.t) (w w' : World) :
  after_activation run_command defn w = (Ok tt, w') ->
  State.block_device_mapping (st w')
  = still_defined defn (State.block_device_mapping (st w)).
Proof.
  unfold after_activation. intros H.
  apply bind_ok in H as (mapping & w0 & Hr & H).
  inversion Hr; subst; clear Hr.
  rewrite (@forget_disks _ _ _ _ H). apply forget_all.
Qed.
End AfterActivationProperties.

Lemma after_activation_forgets_witness :
  State.block_device_mapping
    (st (snd (after_activation SampleActivation.run_command
                SampleActivation.without_data SampleCreate.in_order)))
  = still_defined SampleActivation.without_data
      (State.block_device_mapping (st SampleCreate.in_order)).
Proof.
  apply (@after_activation_forgets SampleActivation.run_command).
  - intros command w r w' H. now inversion H.
  - vm_compute. reflexivity.
Defined.

Lemma keeps_vm_delete_volume (media_link disk_name : option string)
    (delete_vhd : option bool) :
  keeps (fun w => Azure.vm (remote w))
        (_delete_volume media_link disk_name delete_vhd).
Proof.
  unfold _delete_volume, delete_blob, log, warn, api.
  destruct delete_vhd as [[]|]; keeps_auto.
Qed.

Lemma keeps_vm_delete_encryption_key (disk_id : string) :
  keeps (fun w => Azure.vm (remote w)) (_delete_encryption_key disk_id).
Proof.
  unfold _delete_encryption_key, update_generated_encryption_keys.
  keeps_auto.
Qed.

Section AfterActivationMachine.
Variable run_command : string -> M unit.
Hypothesis run_command_keeps :
  forall command, keeps (fun w => Azure.vm (remote w)) (run_command command).

Lemma forget_disk_detaches (defn : Defn.t) (entry : string * Disk.t)
    (w w' : World) :
  forget_disk run_command defn entry w = (Ok tt, w') ->
  attached_disks (remote w')
  = if to_detach defn entry
    then filter (fun vm_disk =>
                   negb (String.eqb (Azure.dd_uri vm_disk)
                                    (Disk.media_link (snd entry))))
                (attached_disks (remote w))
    else attached_disks (remote w).
Proof.
  destruct entry as [k d]. unfold forget_disk, to_detach, at_slot.
  cbn [fst snd].
  destruct (Dict.mem k (Defn.block_device_mapping defn));
    [intros H; now inversion H|].
  cbn [negb andb]. intros H.
  apply bind_ok in H as (disk & w1 & H1 & H).
  assert (Disk.is_ephemeral disk = Disk.is_ephemeral d /\
          attached_disks (remote w1)
          = if (negb (Disk.get_needs_attach d)
                && negb (is_none (device_name_to_lun (Disk.device d))))%bool
            then filter (fun vm_disk =>
                           negb (String.eqb (Azure.dd_uri vm_disk)
                                            (Disk.media_link d)))
                        (attached_disks (remote w))
            else attached_disks (remote w)) as (_ & M1).
  { destruct (negb (Disk.get_needs_attach d) &&
              negb (is_none (device_name_to_lun (Disk.device d))))%bool;
      [|now inversion H1].
    apply bind_ok in H1 as ([] & wa & Ha & H1).
    keeping (fun w => Azure.vm (remote w)) Ha.
    { unfold log. destruct (Disk.encrypt d); keeps_auto;
        apply run_command_keeps. }
    apply bind_ok in H1 as ([] & wb & Hb & H1).
    inversion Hb; subst wb; clear Hb.
    apply bind_ok in H1 as (vm & wc & Hc & H1).
    rewrite get_vm_assert_exists_run in Hc. cbn [remote] in Hc.
    rewrite Ha in Hc. clear Ha.
    destruct (Azure.vm (remote w)) as [vm0|] eqn:V; [|discriminate].
    inversion Hc; subst wc vm0; clear Hc.
    apply bind_ok in H1 as ([] & wd & Hd & H1).
    inversion Hd; subst wd; clear Hd.
    apply bind_ok in H1 as ([] & we & He & H1).
    inversion He; subst we; clear He.
    inversion H1; subst; clear H1. cbn.
    split; [reflexivity|]. unfold attached_disks. now rewrite V. }
  clear H1.
  assert (keeps (fun w => Azure.vm (remote w))
            (when (Disk.is_ephemeral disk)
               (_delete_volume (Some (Disk.media_link disk))
                  (Some (Disk.name disk)) None);;
             run_command ("sg_scan " ++ Disk.device disk)%string;;
             update_block_device_mapping k None;;
             _delete_encryption_key k)) as K.
  { apply keeps_bind;
      [apply keeps_when; apply keeps_vm_delete_volume|intros _].
    apply keeps_bind; [apply run_command_keeps|intros _].
    apply keeps_bind; [|intros _; apply keeps_vm_delete_encryption_key].
    unfold update_block_device_mapping. keeps_auto. }
  apply K in H. unfold attached_disks in *. now rewrite H.
Qed.

Lemma forget_disks_detach (defn : Defn.t) (l : disk_map) : forall w w',
  for_m l (forget_disk run_command defn) w = (Ok tt, w') ->
  attached_disks (remote w')
  = filter (stays_attached defn l) (attached_disks (remote w)).
Proof.
  induction l as [|entry l IH]; cbn [for_m]; intros w w' H.
  - inversion H; subst. unfold stays_attached. cbn.
    induction (attached_disks (remote w')) as [|x xs IHx]; cbn;
      [reflexivity|now f_equal].
  - apply bind_ok in H as ([] & w1 & H1 & H).
    rewrite (IH _ _ H). rewrite (@forget_disk_detaches _ _ _ _ H1).
    unfold stays_attached. cbn [existsb].
    destruct (to_detach defn entry).
    + rewrite filter_filter. apply filter_ext. intros x. cbn.
      now rewrite negb_orb.
    + reflexivity.
Qed.

(** X22: when [after_activation] ends well, the data disks of the machine
    are those that it had, without the disks of the records that are no
    longer in the definition and were attached at a slot.  What is
    assumed of the commands that are run on the machine is that they
    leave the machine of the subscription alone. *)
Theorem after_activation_detaches (defn : Defn.t) (w w' : World) :
  after_activation run_command defn w = (Ok tt, w') ->
  attached_disks (remote w')
  = filter (stays_attached defn (State.block_device_mapping (st w)))
           (attached_disks (remote w)).
Proof.
  unfold after_activation. intros H.
  apply bind_ok in H as (mapping & w0 & Hr & H).
  inversion Hr; subst; clear Hr.
  exact (@forget_disks_detach _ _ _ _ H).
Qed.
End AfterActivationMachine.

Lemma after_activation_detaches_witness :
  attached_disks
    (remote (snd (after_activation SampleActivation.run_command
                    SampleActivation.without_data SampleCreate.in_order)))
  = filter (stays_attached SampleActivation.without_data
              (State.block_device_mapping (st SampleCreate.in_order)))
           (attached_disks (remote SampleCreate.in_order)).
Proof.
  apply (@after_activation_detaches SampleActivation.run_command).
  - intros command w r w' H. now inversion H.
  - vm_compute. reflexivity.
Defined.

(** ** What the machine is given *)

Lemma mem_set_same (V : Type) (k : string) (v : V) (m : Dict.t V) :
  Dict.mem k (Dict.set k v m) = true.
Proof. unfold Dict.mem. now rewrite get_set_same. Qed.

Lemma mem_set_keeps (V : Type) (k k' : string) (v : V) (m : Dict.t V) :
  Dict.mem k m = true -> Dict.mem k (Dict.set k' v m) = true.
Proof.
  unfold Dict.mem. intros H.
  destruct (string_dec k k') as [->|Hne].
  - now rewrite get_set_same.
  - now rewrite get_set_other.
Qed.

Lemma has_generated_key_get (keys : Dict.t string) (entry : string * Disk.t) :
  has_generated_key keys entry = true ->
  Disk.encrypt (snd entry) = true /\ Disk.passphrase (snd entry) = ""%string /\
  exists key, Dict.get (fst entry) keys = Some key.
Proof.
  unfold has_generated_key. intros H.
  apply andb_prop in H as [H H3]. apply andb_prop in H as [H1 H2].
  apply String.eqb_eq in H2.
  destruct (Dict.get (fst entry) keys) as [key|]; [eauto|discriminate].
Qed.

Lemma add_passphrases (keys : Dict.t string) (l : disk_map) :
  forall m0 : Dict.t string,
  exists m,
    fold_left (add_passphrase keys) l (Ok m0) = Ok m /\
    (forall device key,
       Dict.get device m = Some key ->
       Dict.get device m0 = Some key \/
       exists d_id disk,
         In (d_id, disk) l /\ Disk.device disk = device /\
         Disk.encrypt disk = true /\ Disk.passphrase disk = ""%string /\
         Dict.get d_id keys = Some key) /\
    (forall device, Dict.mem device m0 = true -> Dict.mem device m = true) /\
    (forall d_id disk,
       In (d_id, disk) l -> has_generated_key keys (d_id, disk) = true ->
       Dict.mem (Disk.device disk) m = true).
Proof.
  induction l as [|[k d] l IH]; intros m0; cbn [fold_left].
  - exists m0. split; [reflexivity|]. split; [auto|]. split; [auto|].
    intros ? ? [].
  - unfold add_passphrase at 2. cbn [bind_e].
    destruct (has_generated_key keys (k, d)) eqn:G.
    + destruct (has_generated_key_get _ _ G) as (He & Hp & key & Hk).
      cbn [fst snd] in *. rewrite Hk.
      destruct (IH (Dict.set (Disk.device d) key m0))
        as (m & Hm & A & B & C).
      exists m. split; [exact Hm|]. split; [|split].
      * intros device key' Hg. destruct (A _ _ Hg) as [Hs|Hs].
        -- destruct (string_dec device (Disk.device d)) as [->|Hne].
           ++ rewrite get_set_same in Hs. inversion Hs; subst key'.
              right. exists k, d. repeat split; auto. now left.
           ++ rewrite get_set_other in Hs by assumption. now left.
        -- destruct Hs as (d_id & disk & Hin & Hs). right.
           exists d_id, disk. split; [now right|exact Hs].
      * intros device Hmem. apply B. now apply mem_set_keeps.
      * intros d_id disk [Heq|Hin] Hg.
        -- inversion Heq; subst. apply B. apply mem_set_same.
        -- now apply (C d_id disk).
    + destruct (IH m0) as (m & Hm & A & B & C).
      exists m. split; [exact Hm|]. split; [|split; [exact B|]].
      * intros device key' Hg. destruct (A _ _ Hg) as [Hs|Hs]; [now left|].
        destruct Hs as (d_id & disk & Hin & Hs). right.
        exists d_id, disk. split; [now right|exact Hs].
      * intros d_id disk [Heq|Hin] Hg.
        -- inversion Heq; subst. congruence.
        -- now apply (C d_id disk).
Qed.

Lemma get_physical_spec_facts (self : State.t) :
  exists spec,
    get_physical_spec self = Ok spec /\
    (forall d_id disk,
       In (d_id, disk) (State.block_device_mapping self) ->
       has_generated_key (State.generated_encryption_keys self) (d_id, disk)
       = true ->
       Dict.mem (Disk.device disk) (blockDeviceMapping spec) = true).
Proof.
  unfold get_physical_spec.
  destruct (add_passphrases (State.generated_encryption_keys self)
              (State.block_device_mapping self) [])
    as (m & Hm & _ & _ & C).
  exists (mkPhysicalSpec
            ["<nixpkgs/nixos/modules/virtualisation/azure-common.nix>"%string]
            m).
  split; [|exact C].
  match goal with
  | |- bind_e ?c _ = _ => replace c with (Ok m) by (symmetry; exact Hm)
  end.
  reflexivity.
Qed.

(** X23: [get_physical_spec] never fails on the subscript of the
    generated keys.  A device has a passphrase in the block device
    mapping that it returns only if a recorded disk at that device is
    encrypted, has no passphrase of its own and has that generated key,
    and the device of every such disk has one. *)
Theorem get_physical_spec_ok (self : State.t) :
  exists spec,
    get_physical_spec self = Ok spec /\
    (forall device key,
       Dict.get device (blockDeviceMapping spec) = Some key ->
       exists d_id disk,
         In (d_id, disk) (State.block_device_mapping self) /\
         Disk.device disk = device /\
         Disk.encrypt disk = true /\ Disk.passphrase disk = ""%string /\
         Dict.get d_id (State.generated_encryption_keys self) = Some key) /\
    (forall d_id disk,
       In (d_id, disk) (State.block_device_mapping self) ->
       has_generated_key (State.generated_encryption_keys self) (d_id, disk)
       = true ->
       Dict.mem (Disk.device disk) (blockDeviceMapping spec) = true).
Proof.
  unfold get_physical_spec.
  destruct (add_passphrases (State.generated_encryption_keys self)
              (State.block_device_mapping self) [])
    as (m & Hm & A & _ & C).
  exists (mkPhysicalSpec
            ["<nixpkgs/nixos/modules/virtualisation/azure-common.nix>"%string]
            m).
  split.
  { match goal with
    | |- bind_e ?c _ = _ => replace c with (Ok m) by (symmetry; exact Hm)
    end.
    reflexivity. }
  cbn. split; [|exact C].
  intros device key Hg. destruct (A _ _ Hg) as [Hs|Hs]; [discriminate|].
  exact Hs.
Qed.

Lemma add_luks_keys (generated : Dict.t string) (l : disk_map) :
  forall keys0 : Dict.t KeyFile,
  exists keys,
    fold_left (add_luks_key generated) l (Ok keys0) = Ok keys /\
    (forall name key_file,
       Dict.get name keys0 = Some key_file -> luks_key_file key_file ->
       exists key_file',
         Dict.get name keys = Some key_file' /\ luks_key_file key_file') /\
    (forall d_id disk,
       In (d_id, disk) l -> has_generated_key generated (d_id, disk) = true ->
       exists key_file,
         Dict.get ("luks-" ++ Disk.name disk)%string keys = Some key_file /\
         luks_key_file key_file).
Proof.
  induction l as [|[k d] l IH]; intros keys0; cbn [fold_left].
  - exists keys0. split; [reflexivity|]. split; [eauto|]. intros ? ? [].
  - unfold add_luks_key at 2. cbn [bind_e].
    destruct (has_generated_key generated (k, d)) eqn:G.
    + destruct (has_generated_key_get _ _ G) as (He & Hp & key & Hk).
      cbn [fst snd] in *. rewrite Hk.
      destruct (IH (Dict.set ("luks-" ++ Disk.name d)%string
                      (mkKeyFile key "root" "0600" "root") keys0))
        as (keys & Hm & A & C).
      exists keys. split; [exact Hm|]. split.
      * intros name key_file Hg Hl.
        destruct (string_dec name ("luks-" ++ Disk.name d)%string)
          as [->|Hne].
        -- apply (A _ (mkKeyFile key "root" "0600" "root")).
           ++ apply get_set_same.
           ++ repeat split.
        -- apply (A _ key_file); [|assumption].
           now rewrite get_set_other.
      * intros d_id disk [Heq|Hin] Hg.
        -- inversion Heq; subst.
           apply (A _ (mkKeyFile key "root" "0600" "root")).
           ++ apply get_set_same.
           ++ repeat split.
        -- now apply (C d_id disk).
    + destruct (IH keys0) as (keys & Hm & A & C).
      exists keys. split; [exact Hm|]. split; [exact A|].
      intros d_id disk [Heq|Hin] Hg.
      * inversion Heq; subst. congruence.
      * now apply (C d_id disk).
Qed.

(** X24: once [_generate_default_encryption_keys] has run, every recorded
    disk that is to be encrypted and has no passphrase of its own is
    given its key: [get_physical_spec] and [get_keys] do not fail, the
    device of the disk has a passphrase in the block device mapping of
    the physical specification, and the keys have a key file of root,
    readable by root only, under the name of the disk after "luks-". *)
Theorem generated_keys_are_delivered (machine_keys : Dict.t KeyFile)
    (w : World) :
  exists w' spec keys,
    _generate_default_encryption_keys w = (Ok tt, w') /\
    get_physical_spec (st w') = Ok spec /\
    get_keys machine_keys (st w') = Ok keys /\
    forall d_id disk,
      In (d_id, disk) (State.block_device_mapping (st w)) ->
      Disk.encrypt disk = true -> Disk.passphrase disk = ""%string ->
      Dict.mem (Disk.device disk) (blockDeviceMapping spec) = true /\
      exists key_file,
        Dict.get ("luks-" ++ Disk.name disk)%string keys = Some key_file /\
        luks_key_file key_file.
Proof.
  unfold _generate_default_encryption_keys.
  unfold bind, read. rewrite for_m_generate_key.
  set (w' := fold_left (fun w e => after_generate_key e w)
                       (State.block_device_mapping (st w)) w).
  assert (State.block_device_mapping (st w')
          = State.block_device_mapping (st w)) as Hm
    by apply generate_keys_mapping.
  assert (forall d_id disk,
            In (d_id, disk) (State.block_device_mapping (st w)) ->
            Disk.encrypt disk = true -> Disk.passphrase disk = ""%string ->
            has_generated_key (State.generated_encryption_keys (st w'))
                              (d_id, disk) = true) as Hg.
  { intros d_id disk Hin He Hp.
    destruct (@generate_keys_stores (State.block_device_mapping (st w))
                (d_id, disk) w Hin He Hp) as (key & Hk).
    fold w' in Hk. cbn [fst snd] in Hk.
    unfold has_generated_key. cbn [fst snd].
    now rewrite He, Hp, Hk. }
  destruct (get_physical_spec_facts (st w')) as (spec & Hs & C).
  destruct (add_luks_keys (State.generated_encryption_keys (st w'))
              (State.block_device_mapping (st w')) machine_keys)
    as (keys & Hk & _ & D).
  exists w', spec, keys. split; [reflexivity|]. split; [exact Hs|].
  split; [exact Hk|].
  intros d_id disk Hin He Hp. rewrite Hm in *. split.
  - apply (C d_id disk Hin). now apply Hg.
  - apply (D d_id disk Hin). now apply Hg.
Qed.

(** ** Backups *)

Lemma report_disk_run (name : string) (snapshots : Dict.t string)
    (entry : string * Disk.t) (acc : string * list backup_note * list string)
    (w : World) :
  exists acc' w',
    report_disk name snapshots entry acc w = (Ok acc', w') /\
    st w' = st w /\ remote w' = remote w /\
    (fst (fst acc') = "complete"%string <->
     fst (fst acc) = "complete"%string /\
     backed_up (State.storage (st w)) (Azure.blobs (remote w)) snapshots
               (snd entry) = true).
Proof.
  destruct entry as [d_id disk]. destruct acc as [[backup_status info0] processed].
  unfold report_disk, backed_up, get_blob_properties. cbn [fst snd].
  destruct (Dict.get (Disk.media_link disk) snapshots) as [snapshot_id|].
  2:{ eexists. eexists. split; [reflexivity|]. cbn.
      repeat split; try discriminate. intros [_ H]; discriminate H. }
  destruct (parse_blob_url (Disk.media_link disk)) as [blob|].
  2:{ eexists. eexists. split; [reflexivity|]. cbn.
      repeat split; try discriminate. intros [_ H]; discriminate H. }
  mrun.
  destruct (opt_string_eqb (Some (blob_storage blob)) (State.storage (st w)));
    cbn [negb andb].
  2:{ eexists. eexists. split; [reflexivity|]. cbn.
      repeat split; try discriminate. intros [_ H]; discriminate H. }
  mrun.
  destruct (existsb _ (Azure.blobs (remote w))); mrun;
    (eexists; eexists; split; [reflexivity|]); cbn;
    (split; [reflexivity|]); (split; [reflexivity|]).
  - tauto.
  - split; [discriminate|]. intros [_ H]; discriminate H.
Qed.

Lemma report_disks_run (name : string) (snapshots : Dict.t string)
    (l : disk_map) : forall acc w,
  exists acc' w',
    fold_m l acc (report_disk name snapshots) w = (Ok acc', w') /\
    st w' = st w /\ remote w' = remote w /\
    (fst (fst acc') = "complete"%string <->
     fst (fst acc) = "complete"%string /\
     forall d_id disk,
       In (d_id, disk) l ->
       backed_up (State.storage (st w)) (Azure.blobs (remote w)) snapshots
                 disk = true).
Proof.
  induction l as [|[k d] l IH]; intros acc w; cbn [fold_m].
  - exists acc, w. split; [reflexivity|]. repeat split; try tauto.
    intros ? ? [].
  - destruct (report_disk_run name snapshots (k, d) acc w)
      as (acc1 & w1 & H1 & S1 & R1 & C1).
    destruct (IH acc1 w1) as (acc' & w' & H' & S' & R' & C').
    exists acc', w'. unfold bind. rewrite H1, H'.
    split; [reflexivity|]. split; [congruence|]. split; [congruence|].
    rewrite C', C1, S1, R1. cbn [snd]. split.
    + intros ((A & B) & C). split; [assumption|].
      intros d_id disk [Heq|Hin]; [inversion Heq; now subst|eauto].
    + intros (A & B). split; [split; [assumption|]|].
      * apply (B k d). now left.
      * intros d_id disk Hin. apply (B d_id disk). now right.
Qed.

(** What [get_backups] says about one backup. *)
Lemma report_backup_run (name : string) (snapshots : Dict.t string)
    (w : World) :
  exists report w',
    report_backup name snapshots w = (Ok report, w') /\
    st w' = st w /\ remote w' = remote w /\
    (status report = "complete"%string <->
     forall d_id disk,
       In (d_id, disk) (State.block_device_mapping (st w)) ->
       backed_up (State.storage (st w)) (Azure.blobs (remote w)) snapshots
                 disk = true).
Proof.
  unfold report_backup. unfold bind at 1. unfold read at 1.
  destruct (report_disks_run name snapshots
              (State.block_device_mapping (st w)) ("complete"%string, [], []) w)
    as ([[backup_status info0] processed] & w' & H & S & R & C).
  unfold bind. rewrite H. eexists. eexists. split; [reflexivity|].
  split; [assumption|]. split; [assumption|]. cbn in *.
  rewrite C. tauto.
Qed.

Lemma keys_set_fresh (V : Type) (m : Dict.t V) (k : string) (v : V) :
  ~ In k (Dict.keys m) -> Dict.keys (Dict.set k v m) = Dict.keys m ++ [k].
Proof.
  intros H. rewrite set_fresh by assumption.
  unfold Dict.keys. now rewrite map_app.
Qed.

Lemma get_backups_loop (name : string) (w : World)
    (l : Dict.t (Dict.t string)) :
  forall (acc : Dict.t BackupReport) (w0 : World),
  st w0 = st w -> remote w0 = remote w ->
  NoDup (Dict.keys acc ++ Dict.keys l) ->
  exists reports w',
    fold_m l acc
      (fun entry acc =>
         report <- report_backup name (snd entry) ;;
         ret (Dict.set (fst entry) report acc)) w0
    = (Ok reports, w') /\
    st w' = st w /\ remote w' = remote w /\
    Dict.keys reports = Dict.keys acc ++ Dict.keys l /\
    (forall b_id report,
       Dict.get b_id acc = Some report ->
       Dict.get b_id reports = Some report) /\
    (forall b_id snapshots,
       In (b_id, snapshots) l ->
       exists report,
         Dict.get b_id reports = Some report /\ reports_on w snapshots report).
Proof.
  induction l as [|[b_id snapshots] l IH]; intros acc w0 S0 R0 Hnd;
    cbn [fold_m].
  - exists acc, w0. split; [reflexivity|]. split; [assumption|].
    split; [assumption|]. split; [now rewrite app_nil_r|].
    split; [auto|]. intros ? ? [].
  - cbn [fst snd].
    destruct (report_backup_run name snapshots w0)
      as (report & w1 & H1 & S1 & R1 & C1).
    assert (~ In b_id (Dict.keys acc)) as Hfresh.
    { intros Hin. cbn in Hnd. apply NoDup_remove_2 in Hnd. apply Hnd.
      apply in_or_app. now left. }
    destruct (IH (Dict.set b_id report acc) w1) as
      (reports & w' & H' & S' & R' & K' & A' & B');
      [congruence|congruence| |].
    { rewrite keys_set_fresh by assumption. rewrite <- app_assoc. exact Hnd. }
    exists reports, w'. unfold bind at 1. unfold bind at 1. rewrite H1.
    unfold ret at 1. split; [exact H'|]. split; [assumption|].
    split; [assumption|]. split; [|split].
    + rewrite K', keys_set_fresh by assumption. now rewrite <- app_assoc.
    + intros k r Hg. apply A'. rewrite get_set_other; [assumption|].
      intros ->. apply Hfresh. apply get_in in Hg.
      change b_id with (fst (b_id, r)). now apply in_map.
    + intros k snaps [Heq|Hin].
      * inversion Heq; subst k snaps. exists report.
        split; [apply A'; apply get_set_same|].
        unfold reports_on. rewrite <- S0, <- R0. exact C1.
      * now apply B'.
Qed.

(** X25: [get_backups] does not fail and changes neither the record nor
    the subscription.  It reports on the backups that are recorded, in
    their order, and it calls a backup complete exactly if every recorded
    disk has a snapshot in it, at a BLOB address in the storage account
    of the record, that the subscription still has. *)
Theorem get_backups_reports (name : string) (backups : Dict.t (Dict.t string))
    (w : World) :
  NoDup (Dict.keys backups) ->
  exists reports w',
    get_backups name backups w = (Ok reports, w') /\
    st w' = st w /\ remote w' = remote w /\
    Dict.keys reports = Dict.keys backups /\
    forall b_id snapshots,
      In (b_id, snapshots) backups ->
      exists report,
        Dict.get b_id reports = Some report /\ reports_on w snapshots report.
Proof.
  intros Hnd. unfold get_backups.
  destruct (@get_backups_loop name w backups [] w eq_refl eq_refl Hnd)
    as (reports & w' & H & S & R & K & _ & B).
  exists reports, w'. auto.
Qed.

Lemma get_backups_reports_witness :
  exists reports w',
    get_backups "m" SampleBackup.backups SampleCreate.in_order
    = (Ok reports, w') /\
    st w' = st SampleCreate.in_order /\
    remote w' = remote SampleCreate.in_order /\
    Dict.keys reports = Dict.keys SampleBackup.backups /\
    forall b_id snapshots,
      In (b_id, snapshots) SampleBackup.backups ->
      exists report,
        Dict.get b_id reports = Some report /\
        reports_on SampleCreate.in_order snapshots report.
Proof.
  apply (@get_backups_reports "m" SampleBackup.backups SampleCreate.in_order).
  vm_compute. nodup_strings.
Defined.

(** ** The state of the machine *)

Lemma check_attached_step (vm : Azure.VirtualMachine) (d_id : string)
    (disk : Disk.t) (res res' : CheckResult) (w w' : World) :
  check_attached vm d_id disk res w = (Ok res', w') ->
  st w' = st w /\ remote w' = remote w /\
  res_exists res' = res_exists res /\ is_up res' = is_up res /\
  (disks_ok res' = Some true <->
   disks_ok res = Some true /\ not_among disk (Azure.data_disks vm) = false).
Proof.
  unfold check_attached, blob_exists, get_blob_properties.
  destruct (not_among disk (Azure.data_disks vm)).
  - run_cases; intros H; inversion H; subst; clear H; cbn;
      repeat split; try discriminate; intros [_ H]; discriminate H.
  - intros H. inversion H; subst. repeat split; tauto.
Qed.

Lemma check_disk_step (vm : Azure.VirtualMachine) (entry : string * Disk.t)
    (res res' : CheckResult) (w w' : World) :
  check_disk vm entry res w = (Ok res', w') ->
  st w' = st w /\ remote w' = remote w /\
  res_exists res' = res_exists res /\ is_up res' = is_up res /\
  (disks_ok res' = Some true <->
   disks_ok res = Some true /\ in_place vm (snd entry) = true).
Proof.
  destruct entry as [d_id disk]. unfold check_disk, in_place. cbn [snd].
  destruct (device_name_to_lun (Disk.device disk)) as [lun|].
  - intros H. apply check_attached_step in H as (S & R & E & U & D).
    split; [assumption|]. split; [assumption|]. split; [assumption|].
    split; [assumption|]. rewrite D. split.
    + intros [A B]. split; [assumption|]. now rewrite B.
    + intros [A B]. split; [assumption|]. now apply negb_true_iff.
  - destruct (String.eqb (Azure.os_uri (Azure.os_disk vm))
                         (Disk.media_link disk)); cbn [negb].
    + intros H. inversion H; subst. repeat split; tauto.
    + intros H. apply check_attached_step in H as (S & R & E & U & D).
      split; [assumption|]. split; [assumption|]. split; [assumption|].
      split; [assumption|]. rewrite D. cbn. split.
      * intros [A _]. discriminate A.
      * intros [_ A]. discriminate A.
Qed.

Lemma check_disks_loop (vm : Azure.VirtualMachine) (l : disk_map) :
  forall (res res' : CheckResult) (w w' : World),
  fold_m l res (check_disk vm) w = (Ok res', w') ->
  st w' = st w /\ remote w' = remote w /\
  res_exists res' = res_exists res /\ is_up res' = is_up res /\
  (disks_ok res' = Some true <->
   disks_ok res = Some true /\
   forall d_id disk, In (d_id, disk) l -> in_place vm disk = true).
Proof.
  induction l as [|[k d] l IH]; intros res res' w w' H; cbn [fold_m] in H.
  - inversion H; subst. repeat split; try tauto. intros ? ? [].
  - apply bind_ok in H as (res1 & w1 & H1 & H).
    apply check_disk_step in H1 as (S1 & R1 & E1 & U1 & D1).
    apply IH in H as (S & R & E & U & D). cbn [snd] in D1.
    split; [congruence|]. split; [congruence|]. split; [congruence|].
    split; [congruence|]. rewrite D, D1. split.
    + intros ((A & B) & C). split; [assumption|].
      intros d_id disk [Heq|Hin]; [inversion Heq; now subst|eauto].
    + intros (A & B). split; [split; [assumption|]|].
      * apply (B k d). now left.
      * intros d_id disk Hin. apply (B d_id disk). now right.
Qed.


(** X26: when the loop of [_check] over the recorded disks ends well, it
    has changed neither the record nor the subscription, and the disks
    are reported to be in order exactly if they were so before the loop
    and every recorded disk is in place: among the data disks of the
    machine if it is at a slot, and the OS disk of the machine if it is
    not. *)
Theorem check_disks_in_place (vm : Azure.VirtualMachine) (l : disk_map) :
  forall (res res' : CheckResult) (w w' : World),
  fold_m l res (check_disk vm) w = (Ok res', w') ->
  st w' = st w /\ remote w' = remote w /\
  res_exists res' = res_exists res /\ is_up res' = is_up res /\
  (disks_ok res' = Some true <->
   disks_ok res = Some true /\
   forall d_id disk, In (d_id, disk) l -> in_place vm disk = true).
Proof. apply check_disks_loop. Qed.

Lemma check_disks_in_place_witness :
  st (snd (fold_m (State.block_device_mapping SampleCreate.recorded)
             (set_disks_ok true SampleCheck.blank)
             (check_disk (SampleWorld.machine "root"
                            [SampleWorld.data_disk "data" Sample.data_link 0]))
             SampleCreate.in_order))
  = st SampleCreate.in_order /\
  remote (snd (fold_m (State.block_device_mapping SampleCreate.recorded)
                 (set_disks_ok true SampleCheck.blank)
                 (check_disk (SampleWorld.machine "root"
                                [SampleWorld.data_disk "data"
                                   Sample.data_link 0]))
                 SampleCreate.in_order))
  = remote SampleCreate.in_order /\
  res_exists
    {| res_exists := None; is_up := None; disks_ok := Some false;
       messages := [DiskIsDetached "more" Sample.more_link] |}
  = res_exists (set_disks_ok true SampleCheck.blank) /\
  is_up
    {| res_exists := None; is_up := None; disks_ok := Some false;
       messages := [DiskIsDetached "more" Sample.more_link] |}
  = is_up (set_disks_ok true SampleCheck.blank) /\
  (disks_ok
     {| res_exists := None; is_up := None; disks_ok := Some false;
        messages := [DiskIsDetached "more" Sample.more_link] |}
   = Some true <->
   disks_ok (set_disks_ok true SampleCheck.blank) = Some true /\
   forall d_id disk,
     In (d_id, disk) (State.block_device_mapping SampleCreate.recorded) ->
     in_place (SampleWorld.machine "root"
                 [SampleWorld.data_disk "data" Sample.data_link 0]) disk
     = true).
Proof.
  apply (@check_disks_in_place
           (SampleWorld.machine "root"
              [SampleWorld.data_disk "data" Sample.data_link 0])
           (State.block_device_mapping SampleCreate.recorded)
           (set_disks_ok true SampleCheck.blank)).
  vm_compute. reflexivity.
Defined.

Section CheckProperties.
Variable MachineState_check : CheckResult -> M CheckResult.

(** X27: a machine that cannot be examined, because the credentials are
    not all there or the subscription has no machine, is reported as not
    existing and recorded as missing; a machine whose provisioning has
    not succeeded is reported as existing and recorded as stopped.  In
    both cases the machine is reported as not up, and [_check] returns
    without having looked at the disks, changed the subscription or
    called the check of the base class. *)
Theorem check_not_up (subscription_id authority_url user password
    : option string) (res : CheckResult) (w : World) :
  out_of_reach subscription_id authority_url user password w = true \/
  (exists vm, Azure.vm (remote w) = Some vm /\
              is_succeeded (Azure.provisioning_state vm) = false) ->
  exists res' w',
    _check MachineState_check subscription_id authority_url user password
           res w = (Ok res', w') /\
    is_up res' = Some false /\
    res_exists res'
    = Some (negb (out_of_reach subscription_id authority_url user password w))
    /\
    State.state (st w')
    = (if out_of_reach subscription_id authority_url user password w
       then MISSING else STOPPED) /\
    disks_ok res' = disks_ok res /\
    remote w' = remote w /\
    State.block_device_mapping (st w') = State.block_device_mapping (st w).
Proof.
  unfold out_of_reach, _check, get_resource, virtual_machines_get.
  destruct (is_none subscription_id || is_none authority_url || is_none user
            || is_none password)%bool eqn:C; cbn [orb].
  - intros _. eexists. eexists. split; [reflexivity|]. cbn. auto 10.
  - mrun. destruct (Azure.vm (remote w)) as [vm|] eqn:V; cbn [is_none].
    + intros [H|(vm' & Hv & Hs)]; [discriminate|].
      inversion Hv; subst vm'. rewrite Hs. cbn [negb]. mrun.
      eexists. eexists. split; [reflexivity|]. cbn.
      destruct (is_failed (Azure.provisioning_state vm)); cbn; auto 10.
    + intros _. eexists. eexists. split; [reflexivity|]. cbn. auto 10.
Qed.

(** X28: for a machine whose provisioning has succeeded, [_check] either
    raises or ends with the check of the base class, which is given a
    result that says that the machine exists and is up, and that the
    disks are in order exactly if every recorded disk is in place; by
    then the subscription and the recorded disks are as they were. *)
Theorem check_up (subscription_id authority_url user password : string)
    (res : CheckResult) (vm : Azure.VirtualMachine) (w w' : World)
    (r : outcome CheckResult) :
  Azure.vm (remote w) = Some vm ->
  is_succeeded (Azure.provisioning_state vm) = true ->
  _check MachineState_check (Some subscription_id) (Some authority_url)
         (Some user) (Some password) res w = (r, w') ->
  (exists e, r = Raise e) \/
  exists res1 w1,
    MachineState_check res1 w1 = (r, w') /\
    res_exists res1 = Some true /\ is_up res1 = Some true /\
    (disks_ok res1 = Some true <->
     forall d_id disk,
       In (d_id, disk) (State.block_device_mapping (st w)) ->
       in_place vm disk = true) /\
    remote w1 = remote w /\
    State.block_device_mapping (st w1) = State.block_device_mapping (st w).
Proof.
  intros V Hs. unfold _check. cbn [is_none orb].
  unfold bind at 1. unfold get_resource, virtual_machines_get.
  mrun. rewrite V. mrun. rewrite Hs. cbn [negb].
  intros H.
  apply bind_inv in H as [(e & H & ->)|(res1 & w1 & H1 & H)]; [eauto|].
  apply check_disks_loop in H1 as (S1 & R1 & E1 & U1 & D1).
  apply bind_inv in H as [(e & H & ->)|(ip & w2 & H2 & H)]; [eauto|].
  apply keeps_fetch_public_ip in H2. inversion H2 as [[S2 R2]]. clear H2.
  apply bind_inv in H as [(e & H & ->)|([] & w3 & H3 & H)]; [eauto|].
  keeping (fun w => (State.block_device_mapping (st w), remote w)) H3.
  { unfold handle_changed_property, warn_if_changed, full_name, warn.
    keeps_auto. }
  inversion H3 as [[S3 R3]]. clear H3.
  apply bind_inv in H as [(e & H & ->)|([] & w4 & H4 & H)]; [eauto|].
  apply keeps_update_ssh_known_hosts in H4. inversion H4 as [[S4 R4]].
  clear H4.
  right. exists res1, w4. split; [exact H|].
  cbn in S1, R1, E1, U1, D1.
  split; [rewrite E1; now destruct (is_failed _)|].
  split; [rewrite U1; now destruct (is_failed _)|].
  split; [rewrite D1; tauto|].
  split; congruence.
Qed.
End CheckProperties.

Lemma check_not_up_witness :
  exists res' w',
    _check SampleCheck.base_check (Some "subscription"%string) None
           (Some "user"%string) (Some "password"%string) SampleCheck.blank
           SampleCreate.in_order = (Ok res', w') /\
    is_up res' = Some false /\
    res_exists res' = Some false /\
    State.state (st w') = MISSING /\
    disks_ok res' = disks_ok SampleCheck.blank /\
    remote w' = remote SampleCreate.in_order /\
    State.block_device_mapping (st w')
    = State.block_device_mapping (st SampleCreate.in_order).
Proof.
  apply (@check_not_up SampleCheck.base_check (Some "subscription"%string)
           None (Some "user"%string) (Some "password"%string)
           SampleCheck.blank SampleCreate.in_order).
  left. reflexivity.
Defined.

Lemma check_up_witness :
  (exists e,
     fst (_check SampleCheck.base_check (Some "subscription"%string)
            (Some "authority"%string) (Some "user"%string)
            (Some "password"%string) SampleCheck.blank SampleCreate.in_order)
     = Raise e) \/
  exists res1 w1,
    SampleCheck.base_check res1 w1
    = (fst (_check SampleCheck.base_check (Some "subscription"%string)
              (Some "authority"%string) (Some "user"%string)
              (Some "password"%string) SampleCheck.blank
              SampleCreate.in_order),
       snd (_check SampleCheck.base_check (Some "subscription"%string)
              (Some "authority"%string) (Some "user"%string)
              (Some "password"%string) SampleCheck.blank
              SampleCreate.in_order)) /\
    res_exists res1 = Some true /\ is_up res1 = Some true /\
    (disks_ok res1 = Some true <->
     forall d_id disk,
       In (d_id, disk) (State.block_device_mapping (st SampleCreate.in_order)) ->
       in_place (SampleWorld.machine "root"
                   [SampleWorld.data_disk "data" Sample.data_link 0;
                    SampleWorld.data_disk "more" Sample.more_link 1]) disk
       = true) /\
    remote w1 = remote SampleCreate.in_order /\
    State.block_device_mapping (st w1)
    = State.block_device_mapping (st SampleCreate.in_order).
Proof.
  apply (@check_up SampleCheck.base_check "subscription" "authority" "user"
           "password" SampleCheck.blank
           (SampleWorld.machine "root"
              [SampleWorld.data_disk "data" Sample.data_link 0;
               SampleWorld.data_disk "more" Sample.more_link 1])
           SampleCreate.in_order).
  - reflexivity.
  - reflexivity.
  - vm_compute. reflexivity.
Defined.

(** ** [_node_deleted], again *)

Lemma mark_mark (m : disk_map) : map mark (map mark m) = map mark m.
Proof. rewrite map_map. apply map_ext. now intros [k d]. Qed.

Lemma keys_marked (m : disk_map) : Dict.keys (map mark m) = Dict.keys m.
Proof. unfold Dict.keys. rewrite map_map. apply map_ext. now intros [k d]. Qed.

Lemma node_deleted_explicit (w : World) :
  NoDup (Dict.keys (State.block_device_mapping (st w))) ->
  _node_deleted w
  = (Ok tt,
     mkWorld
       (State.set_public_ipv4 None
          (State.set_block_device_mapping
             (map mark (State.block_device_mapping (st w)))
             (State.set_state STOPPED (State.set_vm_id None (st w)))))
       (remote w) (operator w) (random w) (draws w)
       (if (truthy (State.public_ipv4 (st w))
            && truthy (State.public_host_key (st w)))%bool
        then KnownHostsRemove
               match State.public_ipv4 (st w) with
               | Some h => h
               | None => ""%string
               end (State.public_host_key (st w)) :: trace w
        else trace w)).
Proof.
  intros Hnd. unfold _node_deleted.
  unfold bind at 1. unfold write at 1. cbn [fst snd].
  unfold bind at 1. unfold write at 1.
  unfold bind at 1. unfold read at 1.
  unfold bind at 1.
  rewrite (mark_all _ []) by (simpl; first [reflexivity|assumption]).
  simpl app.
  unfold bind, read, write, when, emit, ret. simpl.
  destruct (truthy (State.public_ipv4 (st w)) &&
            truthy (State.public_host_key (st w)))%bool; reflexivity.
Qed.

(** X29: [_node_deleted] is idempotent: run on the world that it has
    left, it changes nothing, neither in the record nor in the trace. *)
Theorem node_deleted_twice (w : World) :
  NoDup (Dict.keys (State.block_device_mapping (st w))) ->
  exists w',
    _node_deleted w = (Ok tt, w') /\ _node_deleted w' = (Ok tt, w').
Proof.
  intros Hnd.
  assert (NoDup (Dict.keys (map mark (State.block_device_mapping (st w)))))
    as Hnd' by (now rewrite keys_marked).
  eexists. split; [now apply node_deleted_explicit|].
  rewrite node_deleted_explicit by exact Hnd'.
  cbn. rewrite mark_mark. now destruct (st w).
Qed.

Lemma node_deleted_twice_witness :
  exists w',
    _node_deleted SampleCreate.in_order = (Ok tt, w') /\
    _node_deleted w' = (Ok tt, w').
Proof.
  apply (@node_deleted_twice SampleCreate.in_order).
  vm_compute. nodup_strings.
Defined.

(** ** The failures of the creation of the machine *)

Lemma init_accepts (x : Xml.Machine) (defn : Defn.t) :
  AzureDefinition_init x = Ok defn ->
  (forall d_id disk,
     In (d_id, disk) (Defn.block_device_mapping defn) ->
     exists b, parse_blob_url (Disk.media_link disk) = Some b /\
               blob_storage b = Defn.storage defn) /\
  defn_find_root_disk (Defn.block_device_mapping defn) <> None.
Proof.
  unfold AzureDefinition_init.
  destruct (map_e _ (Xml.blockDeviceMapping x)) as [devices|e] eqn:P;
    [|discriminate].
  destruct (has_duplicates (map Disk.media_link devices)) eqn:D;
    [discriminate|].
  destruct (for_each _ (check_device (Xml.machineName x))) as [[]|e];
    [|discriminate].
  destruct (is_none (defn_find_root_disk _)) eqn:R; [discriminate|].
  intros H; inversion H; subst defn; clear H. cbn.
  split;
    [|intros E; change (defn_find_root_disk (dict_of_devices devices) = None)
                  in E;
      rewrite E in R; discriminate R].
  apply has_duplicates_false in D. rewrite (dict_of_devices_nodup _ D).
  intros d_id disk Hin.
  apply in_map_iff in Hin as (d & Heq & Hin). inversion Heq; subst.
  destruct (map_e_ok _ _ P _ Hin) as (xml & _ & Hx).
  now apply parse_block_device_ok in Hx as (Hb & _).
Qed.

(** For a link into the storage account of the record, [blob_exists]
    answers. *)
Lemma blob_exists_answers (media_link : string) (b : Blob) (w : World) :
  parse_blob_url media_link = Some b ->
  State.storage (st w) = Some (blob_storage b) ->
  exists there w', blob_exists media_link w = (Ok there, w') /\ st w' = st w.
Proof.
  intros P S. unfold blob_exists, get_blob_properties. rewrite P.
  mrun. rewrite S. cbn [opt_string_eqb]. rewrite String.eqb_refl. cbn [negb].
  run_cases; eauto.
Qed.

Lemma new_data_disks_answers (l : disk_map) : forall w,
  (forall d_id disk,
     In (d_id, disk) l ->
     exists b, parse_blob_url (Disk.media_link disk) = Some b /\
               State.storage (st w) = Some (blob_storage b)) ->
  exists ds w', new_data_disks l w = (Ok ds, w') /\ st w' = st w.
Proof.
  induction l as [|[k d] l IH]; intros w Hl; cbn [new_data_disks].
  - now exists [], w.
  - assert (forall w1, st w1 = st w ->
              exists ds w', new_data_disks l w1 = (Ok ds, w') /\ st w' = st w)
      as IH'.
    { intros w1 E. destruct (IH w1) as (ds & w2 & Hr & S2).
      - intros k' d' Hin. rewrite E. apply (Hl k' d'). now right.
      - exists ds, w2. split; congruence. }
    destruct (device_name_to_lun (Disk.device d)) as [lun|]; [|now apply IH'].
    destruct (Hl k d (or_introl eq_refl)) as (b & P & S).
    destruct (blob_exists_answers _ w P S) as (there & w1 & Hb & S1).
    destruct (IH' w1 S1) as (ds & w2 & Hr & S2).
    unfold bind. rewrite Hb, Hr. unfold ret.
    eexists. eexists. split; [reflexivity|exact S2].
Qed.

(** X30: for a definition that [AzureDefinition.__init__] has accepted and
    a record in the storage account of that definition, [_create_vm] fails
    in four ways only: a resource is missing in the subscription, the
    subscription has the machine already, the request does not complete in
    time, or the machine fails to provision.  The failed assertion on the
    root disk, the key error, the type error of a link that is no BLOB
    address and the storage account mismatch cannot happen. *)
Theorem create_vm_failures (x : Xml.Machine) (defn : Defn.t) (w w' : World)
    (e : exn) :
  AzureDefinition_init x = Ok defn ->
  State.storage (st w) = Some (Defn.storage defn) ->
  _create_vm defn w = (Raise e, w') ->
  creation_failure e = true.
Proof.
  intros Hinit Hst H.
  destruct (init_accepts _ Hinit) as (Hdisks & Hroot).
  unfold _create_vm in H.
  unfold bind at 1 in H. unfold read at 1 in H.
  unfold bind at 1 in H. unfold read at 1 in H.
  apply bind_raise in H as [H|([] & w1 & H1 & H)].
  { exfalso. revert H. unfold public_ip_addresses_create_or_update, log.
    run_cases; discriminate. }
  keeping (fun w => State.storage (st w)) H1;
    [unfold public_ip_addresses_create_or_update, log, api; keeps_auto|].
  unfold bind at 1 in H. unfold read at 1 in H.
  apply bind_raise in H as [H|([] & w2 & H2 & H)].
  { revert H.
    unfold public_ip_addresses_get, network_interfaces_create_or_update,
      subnets_get, log.
    run_cases; intros H; inversion H; reflexivity. }
  keeping (fun w => State.storage (st w)) H2;
    [unfold public_ip_addresses_get, network_interfaces_create_or_update,
       subnets_get, log, api; keeps_auto|].
  unfold bind at 1 in H. unfold read at 1 in H.
  destruct (truthy (State.vm_id (st w2))); [discriminate|].
  unfold bind at 1 in H. rewrite get_settled_resource_run in H.
  destruct (Azure.vm (remote w2)) as [v|];
    [inversion H; reflexivity|].
  destruct (defn_find_root_disk (Defn.block_device_mapping defn))
    as [root_disk_id|] eqn:Froot; [|congruence].
  destruct (first_key_get _ _ Froot) as (root_disk_spec & Groot).
  rewrite Groot in H.
  apply bind_raise in H as [H|([] & w3 & H3 & H)]; [discriminate|].
  inversion H3; subst w3; clear H3.
  unfold bind at 1 in H. unfold read at 1 in H. cbn [st] in H.
  apply bind_raise in H as [H|(nic_id & w4 & H4 & H)].
  { revert H. unfold network_interfaces_get.
    run_cases; intros H; inversion H; reflexivity. }
  keeping (fun w => State.storage (st w)) H4;
    [unfold network_interfaces_get, api; keeps_auto|].
  cbn [st] in H4.
  unfold bind at 1 in H. unfold read at 1 in H.
  unfold bind at 1 in H. unfold read at 1 in H.
  unfold bind at 1 in H. unfold read at 1 in H.
  assert (forall d_id disk w0,
            st w0 = st w4 ->
            In (d_id, disk) (Defn.block_device_mapping defn) ->
            exists b, parse_blob_url (Disk.media_link disk) = Some b /\
                      State.storage (st w0) = Some (blob_storage b)) as Hin.
  { intros d_id disk w0 E Hd. destruct (Hdisks _ _ Hd) as (b & P & S).
    exists b. split; [exact P|]. rewrite E. congruence. }
  destruct (@new_data_disks_answers (Defn.block_device_mapping defn) w4)
    as (ds & w5 & H5 & S5).
  { intros d_id disk. now apply Hin. }
  apply bind_raise in H as [H|(ds' & w5' & H5' & H)]; [congruence|].
  rewrite H5 in H5'. inversion H5'; subst ds' w5'; clear H5'.
  destruct (Hin _ _ w5 S5 (get_in _ _ Groot)) as (b & P & S).
  destruct (blob_exists_answers _ w5 P S) as (there & w6 & H6 & S6).
  apply bind_raise in H as [H|(there' & w6' & H6' & H)]; [congruence|].
  rewrite H6 in H6'. inversion H6'; subst there' w6'; clear H6'.
  unfold bind at 1 in H. unfold read at 1 in H.
  apply bind_raise in H as [H|(os_profile & w7 & H7 & H)].
  { exfalso. revert H. unfold generate_random_string.
    run_cases; discriminate. }
  apply bind_raise in H as [H|([] & w8 & H8 & H)]; [discriminate|].
  apply bind_raise in H as [H|([] & w9 & H9 & H)].
  { revert H.
    unfold wait_for_request, fetch_public_ip, public_ip_addresses_get,
      get_long_running_operation_status.
    run_cases;
      try match goal with
          | |- context [Azure.operation_status ?r] =>
              destruct (Azure.operation_status r)
          end;
      intros H; inversion H; reflexivity. }
  apply bind_raise in H as [H|(req_status & w10 & H10 & H)];
    [discriminate|].
  assert (req_status = Azure.op_failed /\ e = FailedToProvision \/
          (write (State.set_vm_id (State.machine_name (st w)));;
           write (State.set_state STARTING);;
           write (State.set_ssh_pinged false);;
           copy_properties defn;;
           ip <- fetch_public_ip;;
           write (State.set_public_ipv4 ip);;
           log "got IP";;
           update_ssh_known_hosts;;
           for_m (Defn.block_device_mapping defn)
             (fun entry : string * Disk.t =>
              update_block_device_mapping (fst entry) (Some (snd entry))))
            w10 = (Raise e, w')) as [(_ & ->)|H'];
    [destruct req_status;
       [right; exact H|right; exact H|left; inversion H; auto]
    |reflexivity|].
  clear H.
  apply bind_raise in H' as [H|([] & w11 & _ & H)]; [discriminate|].
  apply bind_raise in H as [H|([] & w12 & _ & H)]; [discriminate|].
  apply bind_raise in H as [H|([] & w13 & _ & H)]; [discriminate|].
  apply bind_raise in H as [H|([] & w14 & _ & H)]; [discriminate|].
  apply bind_raise in H as [H|(ip & w15 & _ & H)].
  { revert H. unfold fetch_public_ip, public_ip_addresses_get.
    run_cases; intros H; inversion H; reflexivity. }
  apply bind_raise in H as [H|([] & w16 & _ & H)]; [discriminate|].
  apply bind_raise in H as [H|([] & w17 & _ & H)]; [discriminate|].
  apply bind_raise in H as [H|([] & w18 & _ & H)].
  { exfalso. revert H. unfold update_ssh_known_hosts.
    run_cases; discriminate. }
  rewrite record_disks_run in H. discriminate.
Qed.

Lemma create_vm_failures_witness :
  _create_vm SampleAttach.wanted SampleVm.unrecorded
  = (Raise VmAlreadyExists,
     snd (_create_vm SampleAttach.wanted SampleVm.unrecorded)) /\
  creation_failure VmAlreadyExists = true.
Proof.
  split; [vm_compute; reflexivity|].
  apply (@create_vm_failures Sample.xml_plain SampleAttach.wanted
           SampleVm.unrecorded
           (snd (_create_vm SampleAttach.wanted SampleVm.unrecorded))
           VmAlreadyExists).
  - vm_compute. reflexivity.
  - reflexivity.
  - vm_compute. reflexivity.
Defined.
